(** * Quiz application: schema migrations, repositories, scoring and the
      timed quiz session

    A shallow embedding of the data layer and quiz logic of [quiz_app]:

    - [Py]                the Python and SQLite primitives the code relies
                          on ([str.join], [str.split], [str.strip], stable
                          sorting, true division);
    - [Migrations]        [database/migrations.py]: the schema-level view of
                          the SQLite file and [MigrationManager];
    - [Question], [User], [QuizResult]
                          the dataclasses of [models/];
    - [DatabaseManager]   [database/connection.py]: the row-level view of
                          the three application tables and the sample data;
    - [QuestionRepository], [UserRepository], [QuizResultRepository]
                          [database/repository.py];
    - [QuizService]       [services/quiz_service.py];
    - [QuizWindow]        the state of [gui/quiz_window.py] without its
                          widgets;
    - [Notions]           what the statements need beside the code.

    Conventions.  A Python [str] (and an SQLite TEXT value) is a [string]
    holding its UTF-8 bytes.  A call that can raise returns an [option],
    [None] standing for the exception; a [try/except] is the [match] on it.
    Readings of the wall clock are inputs.  Python floats only occur as
    [score / total * 100]; such a value is carried as the exact rational
    the expression stands for, and compared as such; the float it
    evaluates to ([Py.percentage_float]) is taken where it is formatted. *)

From Stdlib Require Import String Ascii List ZArith QArith Qround Bool Lia.
From Stdlib Require Import Permutation Sorted OrdersEx DecimalString DecimalPos.
From Stdlib Require SpecFloat.
Import ListNotations.
Open Scope string_scope.
Open Scope list_scope.
Open Scope Z_scope.

Notation "x <- e ;; k" :=
  (match e with Some x => k | None => None end)
  (at level 61, e at next level, right associativity).

(* ================================================================== *)
(** * Python and SQLite primitives *)
(* ================================================================== *)

Module Py.

(** [sep.join(l)]. *)
Definition join (sep : string) (l : list string) : string :=
  String.concat sep l.

(** [s.split(sep)] for a one-character separator: every occurrence of
    [sep] ends a field, so the result is never empty. *)
Fixpoint split (sep : ascii) (s : string) : list string :=
  match s with
  | EmptyString => [""]
  | String c s' =>
      if Ascii.eqb c sep then "" :: split sep s'
      else match split sep s' with
           | [] => [String c ""]
           | w :: ws => String c w :: ws
           end
  end.

Definition bytes (l : list nat) : string :=
  string_of_list_ascii (map ascii_of_nat l).

Definition rev_string (s : string) : string :=
  string_of_list_ascii (rev (list_ascii_of_string s)).

(** The code points for which [str.isspace] holds, in UTF-8:
    U+0009..U+000D, U+001C..U+0020, U+0085, U+00A0, U+1680,
    U+2000..U+200A, U+2028, U+2029, U+202F, U+205F, U+3000. *)
Definition whitespace : list string :=
  map (fun n : nat => bytes [n]) [9; 10; 11; 12; 13; 28; 29; 30; 31; 32]%nat
  ++ [bytes [194; 133]; bytes [194; 160]; bytes [225; 154; 128]]%nat
  ++ map (fun n : nat => bytes [226%nat; 128%nat; n])
       [128; 129; 130; 131; 132; 133; 134; 135; 136; 137; 138;
        168; 169; 175]%nat
  ++ [bytes [226; 129; 159]; bytes [227; 128; 128]]%nat.

Fixpoint drop_prefix (p s : string) : option string :=
  match p, s with
  | EmptyString, _ => Some s
  | String _ _, EmptyString => None
  | String a p', String b s' =>
      if Ascii.eqb a b then drop_prefix p' s' else None
  end.

Fixpoint drop_any (ps : list string) (s : string) : option string :=
  match ps with
  | [] => None
  | p :: ps' =>
      match drop_prefix p s with
      | Some s' => Some s'
      | None => drop_any ps' s
      end
  end.

Fixpoint lstrip_from (ps : list string) (fuel : nat) (s : string) : string :=
  match fuel with
  | O => s
  | S fuel' =>
      match drop_any ps s with
      | Some s' => lstrip_from ps fuel' s'
      | None => s
      end
  end.

(** [s.lstrip()], [s.rstrip()] and [s.strip()].  The fuel is the length of
    the string: each round removes at least one byte. *)
Definition lstrip (s : string) : string :=
  lstrip_from whitespace (String.length s) s.

Definition rstrip (s : string) : string :=
  rev_string
    (lstrip_from (map rev_string whitespace) (String.length s) (rev_string s)).

Definition strip (s : string) : string := rstrip (lstrip s).

(** Truth value of a [str]: false exactly for the empty string. *)
Definition truthy (s : string) : bool :=
  match s with EmptyString => false | _ => true end.

(** Order of [str] values (code point order, which is the byte order of
    their UTF-8 form, also SQLite's BINARY collation). *)
Definition str_le (a b : string) : bool :=
  match String_as_OT.compare a b with Gt => false | _ => true end.

(** A stable sort by key, as [list.sort(key=...)] and SQLite's ORDER BY
    give: an element goes in front of the first one whose key is not
    smaller, taking the elements from the last to the first. *)
Section StableSort.
Context {A K : Type} (key : A -> K) (le : K -> K -> bool).

Fixpoint insert_by (x : A) (l : list A) : list A :=
  match l with
  | [] => [x]
  | y :: l' => if le (key x) (key y) then x :: l else y :: insert_by x l'
  end.

Fixpoint sort_by (l : list A) : list A :=
  match l with
  | [] => []
  | x :: l' => insert_by x (sort_by l')
  end.

End StableSort.

(** The least magnitude that rounds out of the range of a float: half-way
    between the largest float and [2^1024]. *)
Definition float_limit : Z := 2 ^ 1024 - 2 ^ 970.

Arguments float_limit : simpl never.

(** [a / b] on [int]s: true division, raising ZeroDivisionError on [b = 0]
    and OverflowError when the quotient is too large for a float. *)
Definition truediv (a b : Z) : option Q :=
  if b =? 0 then None
  else if float_limit * Z.abs b <=? Z.abs a then None
  else Some (inject_Z a / inject_Z b)%Q.

(** A [float] is an IEEE 754 double, as the standard library specifies
    it (53 bits of precision, exponents below 1024).  An [int] enters a
    division or a product as the number it is. *)
Definition exact (n : Z) : SpecFloat.spec_float :=
  match n with
  | 0 => SpecFloat.S754_zero false
  | Z.pos p => SpecFloat.S754_finite false p 0
  | Z.neg p => SpecFloat.S754_finite true p 0
  end.

(** The number a finite float stands for. *)
Definition value (x : SpecFloat.spec_float) : Q :=
  match x with
  | SpecFloat.S754_finite s m e =>
      (inject_Z (if s then Z.neg m else Z.pos m) * Qpower 2 e)%Q
  | _ => 0%Q
  end.

(** The float [a / b * 100] evaluates to, given the exact value
    [percentage] of that expression: the quotient is rounded to the
    nearest float, and so is its product with 100. *)
Definition percentage_float (percentage : Q) : SpecFloat.spec_float :=
  SpecFloat.SFmul 53 1024
    (SpecFloat.SFdiv 53 1024
       (exact (Qnum percentage)) (exact (Z.pos (Qden percentage) * 100)))
    (exact 100).

(** Bounds of an SQLite INTEGER (64-bit signed). *)
Definition int64_min : Z := - 2 ^ 63.
Definition int64_max : Z := 2 ^ 63 - 1.

End Py.

(* ================================================================== *)
(** * database/migrations.py *)
(* ================================================================== *)

Module Migrations.

(** ** The SQLite file as the migration code sees it

    What [sqlite_master] lists: the tables in creation order, each with its
    columns, and the indexes.  The rows of [schema_migrations] are kept
    beside the table list.  Of the rows of the application tables the
    module depends on one thing only, the foreign key of [quiz_results]
    ([FOREIGN KEY (user_id) REFERENCES users (id)]) that a DROP TABLE
    checks: the [id] of every row of [users] and the [user_id] of every
    row of [quiz_results] ([None] for NULL) are kept for it.  Names are
    compared as written (every name in the source is a lower-case
    identifier). *)

Record Table := { table_name : string; table_columns : list string }.

Record Index :=
  { index_name : string; index_table : string; index_column : string }.

Record MigrationRecord :=
  { rec_version : string;
    rec_description : string;
    rec_applied_at : string;
    rec_execution_time_ms : Z }.

Record Database :=
  { tables : list Table;
    indexes : list Index;
    migration_rows : list MigrationRecord;
    user_ids : list Z;
    result_user_ids : list (option Z) }.

Definition empty_database : Database :=
  {| tables := []; indexes := []; migration_rows := [];
     user_ids := []; result_user_ids := [] |}.

Definition find_table (name : string) (db : Database) : option Table :=
  find (fun t => String.eqb (table_name t) name) (tables db).

Definition has_table (name : string) (db : Database) : bool :=
  existsb (fun t => String.eqb (table_name t) name) (tables db).

Definition has_index (name : string) (db : Database) : bool :=
  existsb (fun i => String.eqb (index_name i) name) (indexes db).

Definition mem_string (s : string) (l : list string) : bool :=
  existsb (String.eqb s) l.

(** ** The SQL statements the module executes; [None] is a raised
       [sqlite3] error. *)

(** [CREATE TABLE IF NOT EXISTS name (...)].  The first table declared
    with AUTOINCREMENT makes SQLite create [sqlite_sequence].  A table
    that is created has no rows. *)
Definition create_table_if_not_exists
  (name : string) (columns : list string) (autoincrement : bool)
  (db : Database) : option Database :=
  if has_table name db then Some db
  else
    let created := tables db ++ [{| table_name := name;
                                    table_columns := columns |}] in
    let listed :=
      if autoincrement && negb (has_table "sqlite_sequence" db)
      then created ++ [{| table_name := "sqlite_sequence";
                          table_columns := ["name"; "seq"] |}]
      else created in
    Some {| tables := listed;
            indexes := indexes db;
            migration_rows := migration_rows db;
            user_ids := if String.eqb name "users" then [] else user_ids db;
            result_user_ids :=
              if String.eqb name "quiz_results" then []
              else result_user_ids db |}.

(** [CREATE INDEX IF NOT EXISTS name ON table(column)]: an error when the
    table or the column is missing. *)
Definition create_index_if_not_exists
  (name table column : string) (db : Database) : option Database :=
  if has_index name db then Some db
  else
    match find_table table db with
    | None => None
    | Some t =>
        if mem_string column (table_columns t)
        then Some {| tables := tables db;
                     indexes := indexes db ++ [{| index_name := name;
                                                  index_table := table;
                                                  index_column := column |}];
                     migration_rows := migration_rows db;
                     user_ids := user_ids db;
                     result_user_ids := result_user_ids db |}
        else None
    end.

(** [ALTER TABLE table ADD COLUMN column ...]: an error when the table is
    missing ("no such table") or already has the column ("duplicate column
    name"). *)
Definition alter_table_add_column
  (table column : string) (db : Database) : option Database :=
  match find_table table db with
  | None => None
  | Some t =>
      if mem_string column (table_columns t) then None
      else
        Some {| tables :=
                  map (fun u =>
                         if String.eqb (table_name u) table
                         then {| table_name := table_name u;
                                 table_columns := table_columns u ++ [column] |}
                         else u) (tables db);
                indexes := indexes db;
                migration_rows := migration_rows db;
                user_ids := user_ids db;
                result_user_ids := result_user_ids db |}
  end.

(** Some row of [quiz_results] has for [user_id] the [id] of a row of
    [users]. *)
Definition refers_to_a_user (db : Database) : bool :=
  existsb (fun user_id =>
             match user_id with
             | Some u => existsb (Z.eqb u) (user_ids db)
             | None => false
             end) (result_user_ids db).

(** [DROP TABLE IF EXISTS name] on a connection of [get_connection], which
    sets [PRAGMA foreign_keys = ON]: the table goes with its indexes and
    its rows.  SQLite refuses to drop [sqlite_sequence].  It also refuses
    ("FOREIGN KEY constraint failed") to drop [users] while [quiz_results]
    exists and one of its rows refers to a row of [users]: the rows of the
    table are deleted first, under the foreign key.  No other table of
    the program is referred to. *)
Definition drop_table_if_exists
  (name : string) (db : Database) : option Database :=
  if String.eqb name "sqlite_sequence" then
    if has_table name db then None else Some db
  else if String.eqb name "users" && has_table "users" db
          && has_table "quiz_results" db && refers_to_a_user db
  then None
  else
    Some {| tables := filter (fun t => negb (String.eqb (table_name t) name)) (tables db);
            indexes :=
              filter (fun i => negb (String.eqb (index_table i) name)) (indexes db);
            migration_rows :=
              if String.eqb name "schema_migrations" then [] else migration_rows db;
            user_ids := if String.eqb name "users" then [] else user_ids db;
            result_user_ids :=
              if String.eqb name "quiz_results" then []
              else result_user_ids db |}.

(** ** [Migration] and its five subclasses *)

Record Migration :=
  { version : string;
    description : string;
    up : Database -> option Database }.

Definition InitialSchemaMigration : Migration :=
  {| version := "001";
     description := "Create initial schema with questions and users tables";
     up := fun db =>
       db1 <- create_table_if_not_exists "questions"
                ["id"; "prompt"; "option_a"; "option_b"; "option_c";
                 "answer"; "category"; "created_at"; "updated_at"] true db ;;
       create_table_if_not_exists "users"
         ["id"; "username"; "password_hash"; "role"; "created_at";
          "last_login"; "is_active"] true db1 |}.

Definition AddIndexesMigration : Migration :=
  {| version := "002";
     description := "Add indexes for better query performance";
     up := fun db =>
       db1 <- create_index_if_not_exists
                "idx_questions_category" "questions" "category" db ;;
       db2 <- create_index_if_not_exists
                "idx_questions_created_at" "questions" "created_at" db1 ;;
       db3 <- create_index_if_not_exists
                "idx_users_username" "users" "username" db2 ;;
       create_index_if_not_exists "idx_users_role" "users" "role" db3 |}.

Definition AddTagsColumnMigration : Migration :=
  {| version := "003";
     description := "Add tags column to questions table";
     up := fun db => alter_table_add_column "questions" "tags" db |}.

Definition AddDifficultyLevelsMigration : Migration :=
  {| version := "004";
     description := "Add difficulty levels to questions";
     up := fun db =>
       db1 <- alter_table_add_column "questions" "difficulty" db ;;
       create_index_if_not_exists
         "idx_questions_difficulty" "questions" "difficulty" db1 |}.

Definition AddQuizResultsTrackingMigration : Migration :=
  {| version := "005";
     description := "Add quiz results tracking system";
     up := fun db =>
       db1 <- create_table_if_not_exists "quiz_results"
                ["id"; "user_id"; "score"; "total_questions"; "time_taken";
                 "completed_at"; "questions_attempted"] true db ;;
       db2 <- create_index_if_not_exists
                "idx_quiz_results_user" "quiz_results" "user_id" db1 ;;
       create_index_if_not_exists
         "idx_quiz_results_completed" "quiz_results" "completed_at" db2 |}.

(** ** [MigrationManager] *)

(** The migrations appended by [_register_migrations], before the sort. *)
Definition registered : list Migration :=
  [InitialSchemaMigration; AddIndexesMigration; AddTagsColumnMigration;
   AddDifficultyLevelsMigration; AddQuizResultsTrackingMigration].

(** [self.migrations.sort(key=lambda m: m.version)]. *)
Definition _register_migrations (appended : list Migration) : list Migration :=
  Py.sort_by version Py.str_le appended.

(** The clock readings a call consumes, by migration version:
    CURRENT_TIMESTAMP at the insert and the measured milliseconds. *)
Record Clock :=
  { current_timestamp : string -> string;
    execution_time : string -> Z }.

Definition create_migrations_table (db : Database) : Database :=
  if has_table "schema_migrations" db then db
  else {| tables := tables db
                    ++ [{| table_name := "schema_migrations";
                           table_columns := ["version"; "description";
                                             "applied_at";
                                             "execution_time_ms"] |}];
          indexes := indexes db;
          migration_rows := [];
          user_ids := user_ids db;
          result_user_ids := result_user_ids db |}.

(** [SELECT version FROM schema_migrations ORDER BY version]; without the
    table the query raises OperationalError and the result is []. *)
Definition get_applied_migrations (db : Database) : list string :=
  if has_table "schema_migrations" db
  then map rec_version (Py.sort_by rec_version Py.str_le (migration_rows db))
  else [].

Definition get_pending_migrations
  (migrations : list Migration) (db : Database) : list Migration :=
  let applied := get_applied_migrations db in
  filter (fun m => negb (mem_string (version m) applied)) migrations.

(** [INSERT INTO schema_migrations (version, description,
    execution_time_ms)]: an error without the table or when the version,
    the primary key, is already recorded. *)
Definition record_migration
  (m : Migration) (clk : Clock) (db : Database) : option Database :=
  if negb (has_table "schema_migrations" db) then None
  else if mem_string (version m) (map rec_version (migration_rows db))
  then None
  else
    Some {| tables := tables db;
            indexes := indexes db;
            migration_rows :=
              migration_rows db
              ++ [{| rec_version := version m;
                     rec_description := description m;
                     rec_applied_at := current_timestamp clk (version m);
                     rec_execution_time_ms := execution_time clk (version m) |}];
            user_ids := user_ids db;
            result_user_ids := result_user_ids db |}.

(** The statements between BEGIN and [conn.commit()]. *)
Definition transaction
  (m : Migration) (clk : Clock) (db : Database) : option Database :=
  db1 <- up m db ;; record_migration m clk db1.

(** [apply_migration]: commit, or roll back to the state at BEGIN and
    return False. *)
Definition apply_migration
  (m : Migration) (clk : Clock) (db : Database) : Database * bool :=
  match transaction m clk db with
  | Some db' => (db', true)
  | None => (db, false)
  end.

(** The result of [migrate]: the database it leaves, the versions handed
    to [apply_migration], and the returned boolean. *)
Record Outcome :=
  { final : Database; attempted : list string; ok : bool }.

(** [for migration in pending: if not self.apply_migration(migration):
    return False]. *)
Fixpoint apply_each
  (pending : list Migration) (clk : Clock) (db : Database) : Outcome :=
  match pending with
  | [] => {| final := db; attempted := []; ok := true |}
  | m :: rest =>
      let (db', success) := apply_migration m clk db in
      if success then
        let r := apply_each rest clk db' in
        {| final := final r;
           attempted := version m :: attempted r;
           ok := ok r |}
      else {| final := db'; attempted := [version m]; ok := false |}
  end.

Definition migrate
  (migrations : list Migration) (clk : Clock) (db : Database) : Outcome :=
  let db0 := create_migrations_table db in
  let pending := get_pending_migrations migrations db0 in
  match pending with
  | [] => {| final := db0; attempted := []; ok := true |}
  | _ :: _ => apply_each pending clk db0
  end.

(** [SELECT name FROM sqlite_master WHERE type='table']. *)
Definition table_names (db : Database) : list string :=
  map table_name (tables db).

(** The loop of [reset_database]: a DROP for every listed table but
    [sqlite_sequence], each committed as it runs (no transaction is open
    for a DROP), until one raises.  The name is written into the statement
    as it is, which SQLite reads back as that table for the names of this
    program. *)
Fixpoint drop_tables (names : list string) (db : Database) : Database * bool :=
  match names with
  | [] => (db, true)
  | table :: rest =>
      if negb (String.eqb table "sqlite_sequence") then
        match drop_table_if_exists table db with
        | Some db' => drop_tables rest db'
        | None => (db, false)
        end
      else drop_tables rest db
  end.

Definition reset_database
  (migrations : list Migration) (clk : Clock) (db : Database) : Outcome :=
  let (db', dropped) := drop_tables (table_names db) db in
  if dropped then migrate migrations clk db'
  else {| final := db'; attempted := []; ok := false |}.

(** The schema [DatabaseManager._create_tables] builds, which every
    [MigrationManager] starts from since its constructor creates the
    [DatabaseManager]. *)
Definition _create_tables (db : Database) : option Database :=
  db1 <- create_table_if_not_exists "questions"
           ["id"; "prompt"; "option_a"; "option_b"; "option_c"; "answer";
            "category"; "difficulty"; "created_at"; "updated_at"; "tags"]
           true db ;;
  db2 <- create_table_if_not_exists "users"
           ["id"; "username"; "password_hash"; "role"; "created_at";
            "last_login"; "is_active"] true db1 ;;
  db3 <- create_table_if_not_exists "quiz_results"
           ["id"; "user_id"; "score"; "total_questions"; "time_taken";
            "completed_at"; "questions_attempted"] true db2 ;;
  db4 <- create_index_if_not_exists
           "idx_questions_category" "questions" "category" db3 ;;
  db5 <- create_index_if_not_exists
           "idx_questions_difficulty" "questions" "difficulty" db4 ;;
  db6 <- create_index_if_not_exists
           "idx_quiz_results_user" "quiz_results" "user_id" db5 ;;
  create_index_if_not_exists
    "idx_quiz_results_completed" "quiz_results" "completed_at" db6.

End Migrations.

(* ================================================================== *)
(** * models/question.py and models/user.py *)
(* ================================================================== *)

(** A [datetime] is carried as its ISO text, the form in which it is stored
    and read back. *)

Module Question.

Record Question :=
  { id : option Z;
    prompt : string;
    option_a : string;
    option_b : string;
    option_c : string;
    answer : string;
    category : string;
    difficulty : string;
    created_at : string;
    updated_at : string;
    tags : list string }.

(** [bool(s and s.strip())]. *)
Definition non_blank (s : string) : bool :=
  Py.truthy s && Py.truthy (Py.strip s).

Definition is_valid (q : Question) : bool :=
  non_blank (prompt q) && non_blank (option_a q) && non_blank (option_b q)
  && non_blank (option_c q)
  && Migrations.mem_string (answer q) ["A"; "B"; "C"].

End Question.

Module User.

Record User :=
  { id : option Z;
    username : string;
    password_hash : string;
    role : string;
    created_at : string;
    last_login : option string;
    is_active : bool }.

Definition is_admin (u : User) : bool := String.eqb (role u) "admin".

End User.

Module QuizResult.

Record QuizResult :=
  { id : option Z;
    user_id : option Z;
    score : Z;
    total_questions : Z;
    time_taken : Z;
    completed_at : string;
    questions_attempted : list Z }.

(** The [percentage] property; [None] is an error raised by
    [score / total_questions]. *)
Definition percentage (r : QuizResult) : option Q :=
  if total_questions r =? 0 then Some 0%Q
  else q <- Py.truediv (score r) (total_questions r) ;; Some (q * 100)%Q.

(** The letter for a percentage, shared by the [grade] property and
    [generate_quiz_report]; the comparisons are made on the exact value. *)
Definition letter (percentage : Q) : string :=
  if Qle_bool 90 percentage then "A"
  else if Qle_bool 80 percentage then "B"
  else if Qle_bool 70 percentage then "C"
  else if Qle_bool 60 percentage then "D"
  else "F".

Definition grade (r : QuizResult) : option string :=
  p <- percentage r ;; Some (letter p).

End QuizResult.

(* ================================================================== *)
(** * database/connection.py *)
(* ================================================================== *)

Module DatabaseManager.

(** ** The rows of the three tables [_create_tables] declares

    Column for column; TEXT and TIMESTAMP columns are strings, [last_login]
    and [user_id] may be NULL, [is_active] is the stored integer. *)

Record QuestionRow :=
  { q_id : Z;
    q_prompt : string;
    q_option_a : string;
    q_option_b : string;
    q_option_c : string;
    q_answer : string;
    q_category : string;
    q_difficulty : string;
    q_created_at : string;
    q_updated_at : string;
    q_tags : string }.

Record UserRow :=
  { u_id : Z;
    u_username : string;
    u_password_hash : string;
    u_role : string;
    u_created_at : string;
    u_last_login : option string;
    u_is_active : Z }.

Record ResultRow :=
  { r_id : Z;
    r_user_id : option Z;
    r_score : Z;
    r_total_questions : Z;
    r_time_taken : Z;
    r_completed_at : string;
    r_questions_attempted : string }.

(** The tables and, for each, the largest rowid AUTOINCREMENT has handed
    out (its [sqlite_sequence] entry). *)
Record Store :=
  { questions : list QuestionRow;
    users : list UserRow;
    quiz_results : list ResultRow;
    questions_seq : Z;
    users_seq : Z;
    quiz_results_seq : Z }.

Definition empty_store : Store :=
  {| questions := []; users := []; quiz_results := [];
     questions_seq := 0; users_seq := 0; quiz_results_seq := 0 |}.

(** INTEGER PRIMARY KEY AUTOINCREMENT: one more than the largest rowid the
    table ever held; SQLITE_FULL once the largest INTEGER was used. *)
Definition next_rowid (seq : Z) (ids : list Z) : option Z :=
  let largest := fold_right Z.max seq ids in
  if largest >=? Py.int64_max then None else Some (largest + 1).

(** [INSERT INTO questions (prompt, option_a, option_b, option_c, answer,
    category, difficulty, tags)]: the two CHECK constraints are enforced,
    the timestamps default to CURRENT_TIMESTAMP.  Returns [lastrowid]. *)
Definition insert_question
  (prompt option_a option_b option_c answer category difficulty tags : string)
  (now : string) (st : Store) : option (Z * Store) :=
  if negb (Migrations.mem_string answer ["A"; "B"; "C"]) then None
  else if negb (Migrations.mem_string difficulty ["Easy"; "Medium"; "Hard"])
  then None
  else
    rowid <- next_rowid (questions_seq st) (map q_id (questions st)) ;;
    Some (rowid,
          {| questions :=
               questions st
               ++ [{| q_id := rowid; q_prompt := prompt;
                      q_option_a := option_a; q_option_b := option_b;
                      q_option_c := option_c; q_answer := answer;
                      q_category := category; q_difficulty := difficulty;
                      q_created_at := now; q_updated_at := now;
                      q_tags := tags |}];
             users := users st;
             quiz_results := quiz_results st;
             questions_seq := rowid;
             users_seq := users_seq st;
             quiz_results_seq := quiz_results_seq st |}).

(** [INSERT INTO users (username, password_hash, role, is_active)]:
    [username] is UNIQUE, [role] is checked. *)
Definition insert_user
  (username password_hash role : string) (is_active : Z)
  (now : string) (st : Store) : option (Z * Store) :=
  if Migrations.mem_string username (map u_username (users st)) then None
  else if negb (Migrations.mem_string role ["user"; "admin"]) then None
  else
    rowid <- next_rowid (users_seq st) (map u_id (users st)) ;;
    Some (rowid,
          {| questions := questions st;
             users :=
               users st
               ++ [{| u_id := rowid; u_username := username;
                      u_password_hash := password_hash; u_role := role;
                      u_created_at := now; u_last_login := None;
                      u_is_active := is_active |}];
             quiz_results := quiz_results st;
             questions_seq := questions_seq st;
             users_seq := rowid;
             quiz_results_seq := quiz_results_seq st |}).

(** [INSERT INTO quiz_results (user_id, score, total_questions, time_taken,
    questions_attempted)]: with foreign keys on, a [user_id] that is not
    NULL must be the id of a user. *)
Definition insert_result
  (user_id : option Z) (score total_questions time_taken : Z)
  (questions_attempted : string) (now : string) (st : Store)
  : option (Z * Store) :=
  let referenced :=
    match user_id with
    | None => true
    | Some u => existsb (Z.eqb u) (map u_id (users st))
    end in
  if negb referenced then None
  else
    rowid <- next_rowid (quiz_results_seq st) (map r_id (quiz_results st)) ;;
    Some (rowid,
          {| questions := questions st;
             users := users st;
             quiz_results :=
               quiz_results st
               ++ [{| r_id := rowid; r_user_id := user_id; r_score := score;
                      r_total_questions := total_questions;
                      r_time_taken := time_taken; r_completed_at := now;
                      r_questions_attempted := questions_attempted |}];
             questions_seq := questions_seq st;
             users_seq := users_seq st;
             quiz_results_seq := rowid |}).

Definition sample_questions
  : list (string * string * string * string * string * string * string * string) :=
  [("Python được phát hành lần đầu vào năm nào?",
    "A. 1989", "B. 1991", "C. 1995", "B", "Python", "Easy", "python,history");
   ("Ai là cha đẻ của ngôn ngữ Python?",
    "A. Guido van Rossum", "B. Bill Gates", "C. Linus Torvalds", "A",
    "Python", "Easy", "python,creator");
   ("Thư viện nào được sử dụng để làm việc với mảng trong Python?",
    "A. Pandas", "B. NumPy", "C. Matplotlib", "B", "Python", "Medium",
    "python,libraries");
   ("Phương thức nào được sử dụng để thêm phần tử vào cuối list?",
    "A. append()", "B. insert()", "C. extend()", "A", "Python", "Easy",
    "python,list");
   ("Trong Python, từ khóa nào được sử dụng để định nghĩa hàm?",
    "A. function", "B. def", "C. func", "B", "Python", "Easy",
    "python,syntax");
   ("Cấu trúc dữ liệu nào trong Python là có thứ tự và có thể thay đổi?",
    "A. tuple", "B. set", "C. list", "C", "Python", "Medium",
    "python,data-structures");
   ("Phương thức nào được sử dụng để chuyển đổi string thành chữ hoa?",
    "A. upper()", "B. capitalize()", "C. title()", "A", "Python", "Easy",
    "python,string");
   ("Từ khóa nào được sử dụng để xử lý ngoại lệ trong Python?",
    "A. catch", "B. except", "C. handle", "B", "Python", "Medium",
    "python,exception")].

(** [cursor.executemany] over the sample tuples. *)
Fixpoint insert_questions
  (rows : list (string * string * string * string * string * string
                * string * string))
  (now : string) (st : Store) : option Store :=
  match rows with
  | [] => Some st
  | (p, a, b, c, ans, cat, dif, tg) :: rest =>
      r <- insert_question p a b c ans cat dif tg now st ;;
      insert_questions rest now (snd r)
  end.

Definition _insert_sample_data (now : string) (st : Store) : option Store :=
  st1 <- (if Nat.eqb (length (questions st)) 0
          then insert_questions sample_questions now st
          else Some st) ;;
  if Nat.eqb
       (length (filter (fun u => String.eqb (u_username u) "admin") (users st1)))
       0
  then r <- insert_user "admin" "admin123" "admin" 1 now st1 ;; Some (snd r)
  else Some st1.

(** [_init_database] on a new file: the tables are created empty, then the
    sample data goes in. *)
Definition _init_database (now : string) : option Store :=
  _insert_sample_data now empty_store.

End DatabaseManager.

(* ================================================================== *)
(** * database/repository.py *)
(* ================================================================== *)

Module QuestionRepository.
Import DatabaseManager.

(** [','.join(question.tags) if question.tags else '']. *)
Definition tags_text (tags : list string) : string :=
  match tags with
  | [] => ""
  | _ :: _ => Py.join "," tags
  end.

(** [create]: a failed insert is logged and raised again. *)
Definition create (question : Question.Question) (now : string) (st : Store)
  : option (Z * Store) :=
  insert_question
    (Question.prompt question) (Question.option_a question)
    (Question.option_b question) (Question.option_c question)
    (Question.answer question) (Question.category question)
    (Question.difficulty question) (tags_text (Question.tags question))
    now st.

(** [[tag.strip() for tag in text.split(',') if tag.strip()]]. *)
Definition parse_tags (text : string) : list string :=
  map Py.strip
    (filter (fun tag => Py.truthy (Py.strip tag)) (Py.split "," text)).

(** [_row_to_question].  The constructor stamps both dates with [now];
    a non-empty stored date replaces the stamp. *)
Definition _row_to_question (now : string) (row : QuestionRow)
  : Question.Question :=
  {| Question.id := Some (q_id row);
     Question.prompt := q_prompt row;
     Question.option_a := q_option_a row;
     Question.option_b := q_option_b row;
     Question.option_c := q_option_c row;
     Question.answer := q_answer row;
     Question.category := q_category row;
     Question.difficulty := q_difficulty row;
     Question.created_at :=
       if Py.truthy (q_created_at row) then q_created_at row else now;
     Question.updated_at :=
       if Py.truthy (q_updated_at row) then q_updated_at row else now;
     Question.tags :=
       if Py.truthy (q_tags row) then parse_tags (q_tags row) else [] |}.

(** [SELECT * FROM questions WHERE id = ?], then [rows[0]] if any. *)
Definition get_by_id (question_id : Z) (now : string) (st : Store)
  : option Question.Question :=
  match filter (fun row => q_id row =? question_id) (questions st) with
  | [] => None
  | row :: _ => Some (_row_to_question now row)
  end.

(** [if category:] — a filter is used when given and not empty. *)
Definition condition (given : option string) (value : string) : bool :=
  match given with
  | None => true
  | Some wanted => if Py.truthy wanted then String.eqb value wanted else true
  end.

Definition matching
  (category difficulty : option string) (st : Store) : list QuestionRow :=
  filter (fun row => condition category (q_category row)
                     && condition difficulty (q_difficulty row))
    (questions st).

(** [ORDER BY RANDOM()]: [random i] is the value drawn for the [i]-th row
    of the scan; the rows come out by increasing value. *)
Definition order_by_random {A} (random : nat -> Z) (rows : list A) : list A :=
  map snd
    (Py.sort_by fst Z.leb
       (combine (map random (seq 0 (length rows))) rows)).

(** [LIMIT ?]: a negative bound means no bound in SQLite. *)
Definition limit {A} (count : Z) (rows : list A) : list A :=
  if count <? 0 then rows else firstn (Z.to_nat count) rows.

(** [get_random_questions].  A [count] outside the 64-bit range cannot be
    bound (OverflowError), which the method turns into []. *)
Definition get_random_questions
  (count : Z) (category difficulty : option string)
  (random : nat -> Z) (now : string) (st : Store) : list Question.Question :=
  if (count <? Py.int64_min) || (Py.int64_max <? count) then []
  else
    map (_row_to_question now)
      (limit count (order_by_random random (matching category difficulty st))).

End QuestionRepository.

Module UserRepository.
Import DatabaseManager.

Definition _row_to_user (row : UserRow) : User.User :=
  {| User.id := Some (u_id row);
     User.username := u_username row;
     User.password_hash := u_password_hash row;
     User.role := u_role row;
     User.created_at := u_created_at row;
     User.last_login :=
       match u_last_login row with
       | Some t => if Py.truthy t then Some t else None
       | None => None
       end;
     User.is_active := negb (u_is_active row =? 0) |}.

(** [SELECT * FROM users WHERE username = ?], then [rows[0]] if any. *)
Definition get_by_username (username : string) (st : Store)
  : option User.User :=
  match filter (fun row => String.eqb (u_username row) username) (users st) with
  | [] => None
  | row :: _ => Some (_row_to_user row)
  end.

(** [UPDATE users SET last_login = CURRENT_TIMESTAMP WHERE id = ?];
    returns [affected_rows > 0]. *)
Definition update_last_login (user_id : option Z) (now : string) (st : Store)
  : bool * Store :=
  let hit (row : UserRow) :=
    match user_id with Some i => u_id row =? i | None => false end in
  (existsb hit (users st),
   {| questions := questions st;
      users :=
        map (fun row =>
               if hit row
               then {| u_id := u_id row; u_username := u_username row;
                       u_password_hash := u_password_hash row;
                       u_role := u_role row;
                       u_created_at := u_created_at row;
                       u_last_login := Some now;
                       u_is_active := u_is_active row |}
               else row) (users st);
      quiz_results := quiz_results st;
      questions_seq := questions_seq st;
      users_seq := users_seq st;
      quiz_results_seq := quiz_results_seq st |}).

Definition authenticate
  (username password : string) (now : string) (st : Store)
  : option User.User * Store :=
  match get_by_username username st with
  | Some user =>
      if String.eqb (User.password_hash user) password && User.is_active user
      then (Some user, snd (update_last_login (User.id user) now st))
      else (None, st)
  | None => (None, st)
  end.

End UserRepository.

Module QuizResultRepository.
Import DatabaseManager.

(** [str(n)] for an [int]. *)
Definition str (n : Z) : string := NilZero.string_of_int (Z.to_int n).

(** [','.join(map(str, ids)) if ids else '']. *)
Definition attempted_text (ids : list Z) : string :=
  match ids with
  | [] => ""
  | _ :: _ => Py.join "," (map str ids)
  end.

Definition create (result : QuizResult.QuizResult) (now : string) (st : Store)
  : option (Z * Store) :=
  insert_result
    (QuizResult.user_id result) (QuizResult.score result)
    (QuizResult.total_questions result) (QuizResult.time_taken result)
    (attempted_text (QuizResult.questions_attempted result))
    now st.

End QuizResultRepository.

(* ================================================================== *)
(** * services/quiz_service.py *)
(* ================================================================== *)

Module QuizService.
Import DatabaseManager.

(** The loop of [calculate_score]: [i] is the index [enumerate] gives,
    [score] and [correct_results] are the two accumulators. *)
Fixpoint score_loop
  (i : nat) (questions : list Question.Question) (user_answers : list string)
  (score : Z) (correct_results : list bool) : Z * list bool :=
  match questions with
  | [] => (score, correct_results)
  | question :: rest =>
      match nth_error user_answers i with
      | Some user_answer =>
          let is_correct := String.eqb user_answer (Question.answer question) in
          score_loop (S i) rest user_answers
            (if is_correct then score + 1 else score)
            (correct_results ++ [is_correct])
      | None =>
          score_loop (S i) rest user_answers score (correct_results ++ [false])
      end
  end.

Definition calculate_score
  (questions : list Question.Question) (user_answers : list string)
  : Z * list bool :=
  score_loop 0 questions user_answers 0 [].

Record Report :=
  { score : Z;
    total_questions : Z;
    percentage : Q;
    grade : string;
    time_taken : Z;
    avg_time_per_question : Z;
    questions : list Question.Question;
    user_answers : list string;
    correct_results : list bool }.

(** [sum(correct_results)]: True counts 1. *)
Definition sum_bool (correct_results : list bool) : Z :=
  fold_right (fun (b : bool) acc => (if b then 1 else 0) + acc) 0
    correct_results.

(** [generate_quiz_report]; the [except] branch builds the all-wrong
    report. *)
Definition generate_quiz_report
  (questions : list Question.Question) (user_answers : list string)
  (correct_results : list bool) (time_taken : Z) : Report :=
  let total_questions := Z.of_nat (length questions) in
  let score := sum_bool correct_results in
  let computed :=
    if total_questions >? 0
    then q <- Py.truediv score total_questions ;; Some (q * 100)%Q
    else Some 0%Q in
  match computed with
  | Some percentage =>
      {| score := score;
         total_questions := total_questions;
         percentage := percentage;
         grade := QuizResult.letter percentage;
         time_taken := time_taken;
         avg_time_per_question :=
           if total_questions >? 0 then time_taken / total_questions else 0;
         questions := questions;
         user_answers := user_answers;
         correct_results := correct_results |}
  | None =>
      {| score := 0;
         total_questions := total_questions;
         percentage := 0%Q;
         grade := "F";
         time_taken := time_taken;
         avg_time_per_question := 0;
         questions := questions;
         user_answers := user_answers;
         correct_results := repeat false (length questions) |}
  end.

(** The tenths shown by the format [{percentage:.1f}] in the log line of
    [generate_quiz_report]: the multiple of 0.1 nearest to the float, a
    tie going to the even one.  What is formatted is the float the
    expression evaluated to, not its exact value: 23 of 80 is 28.75 and
    shows as 28.7.  (A float out of range, which shows as [inf], has no
    tenths; 0 stands for it.) *)
Definition tenths (percentage : Q) : Z :=
  let scaled := (Py.value (Py.percentage_float percentage) * 10)%Q in
  let low := Qfloor scaled in
  let rest := (scaled - inject_Z low)%Q in
  match (rest ?= 1 # 2)%Q with
  | Lt => low
  | Gt => low + 1
  | Eq => if Z.even low then low else low + 1
  end.

(** [save_quiz_result]: True when the row was inserted, False when the
    insert raised. *)
Definition save_quiz_result
  (user_id : option Z) (score total_questions time_taken : Z)
  (question_ids : list Z) (now : string) (st : Store) : bool * Store :=
  let result :=
    {| QuizResult.id := None;
       QuizResult.user_id := user_id;
       QuizResult.score := score;
       QuizResult.total_questions := total_questions;
       QuizResult.time_taken := time_taken;
       QuizResult.completed_at := now;
       QuizResult.questions_attempted := question_ids |} in
  match QuizResultRepository.create result now st with
  | Some (_, st') => (true, st')
  | None => (false, st)
  end.

End QuizService.

(* ================================================================== *)
(** * gui/quiz_window.py *)
(* ================================================================== *)

Module QuizWindow.
Import DatabaseManager.

(** The fields of [QuizWindow] that are not widgets.  [timer] tells whether
    a [threading.Timer] is waiting to fire, [window] whether the window
    still exists.  Message boxes are taken to return. *)
Record QuizWindow :=
  { questions : list Question.Question;
    show_timer : bool;
    auto_submit : bool;
    total_time_limit : Z;
    current_question_index : Z;
    user_answers : list string;
    time_remaining : Z;
    quiz_completed : bool;
    timer : bool;
    answer_var : string;
    window : bool }.

(** What the session reads from outside: the whole seconds since
    [start_time] and CURRENT_TIMESTAMP, at the moment the quiz finishes. *)
Record Clock := { seconds_since_start : Z; current_timestamp : string }.

Definition State : Type := QuizWindow * Store.

Definition set_timer (pending : bool) (w : QuizWindow) : QuizWindow :=
  {| questions := questions w; show_timer := show_timer w;
     auto_submit := auto_submit w; total_time_limit := total_time_limit w;
     current_question_index := current_question_index w;
     user_answers := user_answers w; time_remaining := time_remaining w;
     quiz_completed := quiz_completed w; timer := pending;
     answer_var := answer_var w; window := window w |}.

Definition set_time_remaining (t : Z) (w : QuizWindow) : QuizWindow :=
  {| questions := questions w; show_timer := show_timer w;
     auto_submit := auto_submit w; total_time_limit := total_time_limit w;
     current_question_index := current_question_index w;
     user_answers := user_answers w; time_remaining := t;
     quiz_completed := quiz_completed w; timer := timer w;
     answer_var := answer_var w; window := window w |}.

Definition set_quiz_completed (b : bool) (w : QuizWindow) : QuizWindow :=
  {| questions := questions w; show_timer := show_timer w;
     auto_submit := auto_submit w; total_time_limit := total_time_limit w;
     current_question_index := current_question_index w;
     user_answers := user_answers w; time_remaining := time_remaining w;
     quiz_completed := b; timer := timer w;
     answer_var := answer_var w; window := window w |}.

Definition set_user_answers (l : list string) (w : QuizWindow) : QuizWindow :=
  {| questions := questions w; show_timer := show_timer w;
     auto_submit := auto_submit w; total_time_limit := total_time_limit w;
     current_question_index := current_question_index w;
     user_answers := l; time_remaining := time_remaining w;
     quiz_completed := quiz_completed w; timer := timer w;
     answer_var := answer_var w; window := window w |}.

Definition set_answer_var (a : string) (w : QuizWindow) : QuizWindow :=
  {| questions := questions w; show_timer := show_timer w;
     auto_submit := auto_submit w; total_time_limit := total_time_limit w;
     current_question_index := current_question_index w;
     user_answers := user_answers w; time_remaining := time_remaining w;
     quiz_completed := quiz_completed w; timer := timer w;
     answer_var := a; window := window w |}.

Definition set_window (b : bool) (w : QuizWindow) : QuizWindow :=
  {| questions := questions w; show_timer := show_timer w;
     auto_submit := auto_submit w; total_time_limit := total_time_limit w;
     current_question_index := current_question_index w;
     user_answers := user_answers w; time_remaining := time_remaining w;
     quiz_completed := quiz_completed w; timer := timer w;
     answer_var := answer_var w; window := b |}.

(** [_update_timer_display]: the label texts are not kept, but
    [time_remaining / total_time_limit] raises ZeroDivisionError for a
    zero limit. *)
Definition _update_timer_display (w : QuizWindow) : option unit :=
  if negb (show_timer w) then Some tt
  else ratio <- Py.truediv (time_remaining w) (total_time_limit w) ;; Some tt.

(** [while len(self.user_answers) < len(self.questions): append("")]. *)
Definition pad_answers (w : QuizWindow) : list string :=
  user_answers w
  ++ repeat "" (length (questions w) - length (user_answers w))%nat.

(** [[q.id for q in self.questions if q.id]]. *)
Definition question_ids (w : QuizWindow) : list Z :=
  flat_map (fun q => match Question.id q with
                     | Some i => if i =? 0 then [] else [i]
                     | None => []
                     end) (questions w).

Definition _finish_quiz (clk : Clock) (s : State) : State :=
  let (w, st) := s in
  let w1 := set_timer false (set_quiz_completed true w) in
  let total_time := seconds_since_start clk in
  let w2 := set_user_answers (pad_answers w1) w1 in
  let (score, correct_results) :=
    QuizService.calculate_score (questions w2) (user_answers w2) in
  let report :=
    QuizService.generate_quiz_report
      (questions w2) (user_answers w2) correct_results total_time in
  let (_, st') :=
    QuizService.save_quiz_result None score
      (Z.of_nat (length (questions w2))) total_time (question_ids w2)
      (current_timestamp clk) st in
  (set_window false w2, st').

(** [_update_timer]: nothing once completed or without a shown timer;
    at zero the quiz is submitted or frozen; otherwise one second is
    taken off and the next call is scheduled. *)
Definition _update_timer (clk : Clock) (s : State) : option State :=
  let (w, st) := s in
  if quiz_completed w || negb (show_timer w) then Some s
  else
    shown <- _update_timer_display w ;;
    if time_remaining w <=? 0 then
      if auto_submit w then Some (_finish_quiz clk s)
      else Some (set_quiz_completed true w, st)
    else
      Some (set_timer true (set_time_remaining (time_remaining w - 1) w), st).

Definition _stop_timer (w : QuizWindow) : QuizWindow := set_timer false w.

Definition _start_timer (clk : Clock) (s : State) : option State :=
  let (w, st) := s in
  if negb (show_timer w) then Some s
  else _update_timer clk (_stop_timer w, st).

(** [_load_question]: past the last question the quiz finishes; otherwise
    the selection is cleared, then set to the answer already recorded for
    the index, if any. *)
Definition _load_question (clk : Clock) (s : State) : State :=
  let (w, st) := s in
  if current_question_index w >=? Z.of_nat (length (questions w))
  then _finish_quiz clk s
  else
    match nth_error (user_answers w) (Z.to_nat (current_question_index w)) with
    | Some recorded => (set_answer_var recorded w, st)
    | None => (set_answer_var "" w, st)
    end.

(** [QuizWindow.__init__] with the three settings read from [Config]. *)
Definition __init__
  (questions : list Question.Question)
  (SHOW_TIMER AUTO_SUBMIT : bool) (TOTAL_QUIZ_TIME : Z)
  (clk : Clock) (st : Store) : option State :=
  let w :=
    {| questions := questions; show_timer := SHOW_TIMER;
       auto_submit := AUTO_SUBMIT; total_time_limit := TOTAL_QUIZ_TIME;
       current_question_index := 0; user_answers := [];
       time_remaining := TOTAL_QUIZ_TIME; quiz_completed := false;
       timer := false; answer_var := ""; window := true |} in
  shown <- _update_timer_display w ;;
  let s := _load_question clk (w, st) in
  if SHOW_TIMER then _start_timer clk s else Some s.

(** One tick: the waiting [Timer], if there is one, fires after its second
    and calls [_update_timer]. *)
Definition tick (clk : Clock) (s : State) : option State :=
  let (w, st) := s in
  if timer w then _update_timer clk (set_timer false w, st) else Some s.

(** [n] ticks in a row, with nothing else happening. *)
Fixpoint ticks (n : nat) (clk : Clock) (s : State) : option State :=
  match n with
  | O => Some s
  | S n' => s' <- tick clk s ;; ticks n' clk s'
  end.

End QuizWindow.

(* ================================================================== *)
(** * Notions used in the statements *)
(* ================================================================== *)

Module Notions.
Import Migrations.

(** Migrations in the order of their versions. *)
Definition version_le (a b : Migration) : Prop :=
  Py.str_le (version a) (version b) = true.

(** The row a committed transaction of [m] adds to [schema_migrations]. *)
Definition record_of (m : Migration) (clk : Clock) : MigrationRecord :=
  {| rec_version := version m;
     rec_description := description m;
     rec_applied_at := current_timestamp clk (version m);
     rec_execution_time_ms := execution_time clk (version m) |}.

(** The database reached when the transaction of every unit of the list
    commits, one after the other; [None] if one of them does not. *)
Fixpoint commit_all
  (units : list Migration) (clk : Clock) (db : Database) : option Database :=
  match units with
  | [] => Some db
  | m :: rest => db' <- transaction m clk db ;; commit_all rest clk db'
  end.

(** A unit that leaves the bookkeeping of the engine alone: its [up]
    neither creates or drops [schema_migrations] nor touches its rows. *)
Definition keeps_bookkeeping (m : Migration) : Prop :=
  forall db db',
    up m db = Some db' ->
    has_table "schema_migrations" db' = has_table "schema_migrations" db
    /\ migration_rows db' = migration_rows db.

(** After a first call of [migrate] that returned True: nothing is
    pending, and a second call attempts nothing, leaves the database as
    it is and returns True. *)
Definition second_call_changes_nothing
  (appended : list Migration) (clk1 clk2 : Clock) (db : Database) : Prop :=
  let migrations := _register_migrations appended in
  let first := migrate migrations clk1 db in
  ok first = true ->
  get_pending_migrations migrations (final first) = []
  /\ migrate migrations clk2 (final first)
     = {| final := final first; attempted := []; ok := true |}.

(** Two databases with the same bookkeeping. *)
Definition same_bookkeeping (db db' : Database) : Prop :=
  has_table "schema_migrations" db' = has_table "schema_migrations" db
  /\ migration_rows db' = migration_rows db.

(** The names the loop of [reset_database] issues a DROP for. *)
Definition dropped (names : list string) (n : string) : bool :=
  mem_string n names && negb (String.eqb n "sqlite_sequence").








(** A clock for the examples. *)
Definition clock0 : Clock :=
  {| current_timestamp := fun _ => "2024-01-01 00:00:00";
     execution_time := fun _ => 3 |}.

(** The schema of a file on which only [DatabaseManager] has run. *)
Definition initialised_schema : Database :=
  match _create_tables empty_database with
  | Some db => db
  | None => empty_database
  end.

(** A file on which [migrate] has run from nothing. *)
Definition migrated_schema : Database :=
  final (migrate (_register_migrations registered) clock0 empty_database).


(** The marks [calculate_score] gives to the questions from index [i] on:
    a question is right when an answer is recorded at its index and equals
    its [answer]. *)
Fixpoint marks
  (i : nat) (questions : list Question.Question) (user_answers : list string)
  : list bool :=
  match questions with
  | [] => []
  | q :: rest =>
      match nth_error user_answers i with
      | Some a => String.eqb a (Question.answer q)
      | None => false
      end :: marks (S i) rest user_answers
  end.

(** [c in s]. *)
Fixpoint has_char (c : ascii) (s : string) : bool :=
  match s with
  | EmptyString => false
  | String a s' => Ascii.eqb a c || has_char c s'
  end.

(** A tag that the text column gives back as it is: not empty, without a
    comma, and equal to its own [strip()]. *)
Definition clean_tag (tag : string) : bool :=
  String.eqb (Py.strip tag) tag && Py.truthy tag && negb (has_char "," tag).

(** Equality on the fields a user sets. *)
Definition same_user_fields (q q' : Question.Question) : Prop :=
  Question.prompt q' = Question.prompt q
  /\ Question.option_a q' = Question.option_a q
  /\ Question.option_b q' = Question.option_b q
  /\ Question.option_c q' = Question.option_c q
  /\ Question.answer q' = Question.answer q
  /\ Question.category q' = Question.category q
  /\ Question.difficulty q' = Question.difficulty q
  /\ Question.tags q' = Question.tags q.

(** The reading of "[create] followed by [get_by_id] on the returned id
    yields a question equal in all user-set fields". *)
Definition create_then_get_gives_back
  (q : Question.Question) (now later : string) (st : DatabaseManager.Store)
  : Prop :=
  forall id st',
    QuestionRepository.create q now st = Some (id, st') ->
    exists q',
      QuestionRepository.get_by_id id later st' = Some q'
      /\ same_user_fields q q'.

(** A question for the examples, valid whatever its tags. *)
Definition example_question (answer : string) (tags : list string)
  : Question.Question :=
  {| Question.id := None;
     Question.prompt := "Which keyword defines a function?";
     Question.option_a := "A. function";
     Question.option_b := "B. def";
     Question.option_c := "C. func";
     Question.answer := answer;
     Question.category := "Python";
     Question.difficulty := "Easy";
     Question.created_at := "2024-01-01T00:00:00";
     Question.updated_at := "2024-01-01T00:00:00";
     Question.tags := tags |}.

(** The primary key of [questions]: distinct rowids, positive as
    AUTOINCREMENT hands them out, within the 64 bits of an INTEGER. *)
Definition primary_key (st : DatabaseManager.Store) : Prop :=
  NoDup (map DatabaseManager.q_id (DatabaseManager.questions st))
  /\ Forall (fun row => 1 <= DatabaseManager.q_id row <= Py.int64_max)
       (DatabaseManager.questions st).

(** A user row after [UPDATE users SET last_login = CURRENT_TIMESTAMP]. *)
Definition logged_in (now : string) (row : DatabaseManager.UserRow)
  : DatabaseManager.UserRow :=
  {| DatabaseManager.u_id := DatabaseManager.u_id row;
     DatabaseManager.u_username := DatabaseManager.u_username row;
     DatabaseManager.u_password_hash := DatabaseManager.u_password_hash row;
     DatabaseManager.u_role := DatabaseManager.u_role row;
     DatabaseManager.u_created_at := DatabaseManager.u_created_at row;
     DatabaseManager.u_last_login := Some now;
     DatabaseManager.u_is_active := DatabaseManager.u_is_active row |}.

(** The store [_init_database] leaves on a new file. *)
Definition fresh_store (now : string) : DatabaseManager.Store :=
  match DatabaseManager._init_database now with
  | Some st => st
  | None => DatabaseManager.empty_store
  end.

(** The window while the countdown runs and nothing was answered. *)
Definition counting
  (questions : list Question.Question) (auto_submit : bool)
  (limit remaining : Z) : QuizWindow.QuizWindow :=
  {| QuizWindow.questions := questions;
     QuizWindow.show_timer := true;
     QuizWindow.auto_submit := auto_submit;
     QuizWindow.total_time_limit := limit;
     QuizWindow.current_question_index := 0;
     QuizWindow.user_answers := [];
     QuizWindow.time_remaining := remaining;
     QuizWindow.quiz_completed := false;
     QuizWindow.timer := true;
     QuizWindow.answer_var := "";
     QuizWindow.window := true |}.

(** The window after the automatic submission of a quiz nobody touched. *)
Definition submitted_blank
  (questions : list Question.Question) (limit : Z) : QuizWindow.QuizWindow :=
  {| QuizWindow.questions := questions;
     QuizWindow.show_timer := true;
     QuizWindow.auto_submit := true;
     QuizWindow.total_time_limit := limit;
     QuizWindow.current_question_index := 0;
     QuizWindow.user_answers := repeat "" (length questions);
     QuizWindow.time_remaining := 0;
     QuizWindow.quiz_completed := true;
     QuizWindow.timer := false;
     QuizWindow.answer_var := "";
     QuizWindow.window := false |}.

(** The row the submission of an untouched quiz adds to [quiz_results]. *)
Definition blank_result
  (rowid : Z) (questions : list Question.Question) (clk : QuizWindow.Clock)
  : DatabaseManager.ResultRow :=
  {| DatabaseManager.r_id := rowid;
     DatabaseManager.r_user_id := None;
     DatabaseManager.r_score := 0;
     DatabaseManager.r_total_questions := Z.of_nat (length questions);
     DatabaseManager.r_time_taken := QuizWindow.seconds_since_start clk;
     DatabaseManager.r_completed_at := QuizWindow.current_timestamp clk;
     DatabaseManager.r_questions_attempted :=
       QuizResultRepository.attempted_text
         (QuizWindow.question_ids (counting questions true 0 0)) |}.

End Notions.

(* ================================================================== *)
(** * database/migrations.py: rollback and status *)
(* ================================================================== *)

Module MigrationManager.
Import Migrations.

(** [DROP INDEX IF EXISTS name]. *)
Definition drop_index_if_exists (name : string) (db : Database)
  : option Database :=
  Some {| tables := tables db;
          indexes :=
            filter (fun i => negb (String.eqb (index_name i) name)) (indexes db);
          migration_rows := migration_rows db;
          user_ids := user_ids db;
          result_user_ids := result_user_ids db |}.

(** [UPDATE table SET column = <text>]: an error when the table or the
    column is missing; the rows of the table are not part of this view,
    so a statement that runs leaves it as it is. *)
Definition update_set (table column : string) (db : Database)
  : option Database :=
  match find_table table db with
  | None => None
  | Some t => if mem_string column (table_columns t) then Some db else None
  end.

(** [DELETE FROM schema_migrations WHERE version = ?]. *)
Definition delete_record (v : string) (db : Database) : option Database :=
  if negb (has_table "schema_migrations" db) then None
  else
    Some {| tables := tables db;
            indexes := indexes db;
            migration_rows :=
              filter (fun r => negb (String.eqb (rec_version r) v))
                (migration_rows db);
            user_ids := user_ids db;
            result_user_ids := result_user_ids db |}.

(** A migration with its [down] method. *)
Record Reversible :=
  { unit : Migration;
    down : Database -> option Database }.

Definition InitialSchemaMigration : Reversible :=
  {| unit := Migrations.InitialSchemaMigration;
     down := fun db =>
       db1 <- drop_table_if_exists "questions" db ;;
       drop_table_if_exists "users" db1 |}.

Definition AddIndexesMigration : Reversible :=
  {| unit := Migrations.AddIndexesMigration;
     down := fun db =>
       db1 <- drop_index_if_exists "idx_questions_category" db ;;
       db2 <- drop_index_if_exists "idx_questions_created_at" db1 ;;
       db3 <- drop_index_if_exists "idx_users_username" db2 ;;
       drop_index_if_exists "idx_users_role" db3 |}.

Definition AddTagsColumnMigration : Reversible :=
  {| unit := Migrations.AddTagsColumnMigration;
     down := fun db => update_set "questions" "tags" db |}.

Definition AddDifficultyLevelsMigration : Reversible :=
  {| unit := Migrations.AddDifficultyLevelsMigration;
     down := fun db =>
       db1 <- drop_index_if_exists "idx_questions_difficulty" db ;;
       update_set "questions" "difficulty" db1 |}.

Definition AddQuizResultsTrackingMigration : Reversible :=
  {| unit := Migrations.AddQuizResultsTrackingMigration;
     down := fun db => drop_table_if_exists "quiz_results" db |}.

(** [rollback_migration]: [down] and the removal of the record in one
    transaction; on an error the state at BEGIN is kept and False is
    returned. *)
Definition rollback_migration (m : Reversible) (db : Database)
  : Database * bool :=
  match (db1 <- down m db ;; delete_record (version (unit m)) db1) with
  | Some db' => (db', true)
  | None => (db, false)
  end.

Record Status :=
  { total_migrations : nat;
    applied_count : nat;
    pending_count : nat;
    applied_versions : list string;
    pending_versions : list string;
    latest_version : option string;
    is_up_to_date : bool }.

(** [get_migration_status]; [applied[-1] if applied else None] is the last
    of the sorted versions. *)
Definition get_migration_status
  (migrations : list Migration) (db : Database) : Status :=
  let applied := get_applied_migrations db in
  let pending := get_pending_migrations migrations db in
  {| total_migrations := length migrations;
     applied_count := length applied;
     pending_count := length pending;
     applied_versions := applied;
     pending_versions := map version pending;
     latest_version := last (map Some applied) None;
     is_up_to_date := Nat.eqb (length pending) 0 |}.

End MigrationManager.

Module MoreNotions.
Import Migrations.

(** The columns of a table, if the table exists. *)
Definition columns_of (name : string) (db : Database) : option (list string) :=
  option_map table_columns (find_table name db).

(** The [questions] table has the column. *)
Definition questions_has_column (column : string) (db : Database) : Prop :=
  exists columns,
    columns_of "questions" db = Some columns
    /\ mem_string column columns = true.

(** The registered migrations whose version is among the applied ones. *)
Definition applied_among (migrations : list Migration) (db : Database)
  : list Migration :=
  filter (fun m => mem_string (version m) (get_applied_migrations db))
    migrations.

End MoreNotions.

Module SchemaNotions.
Import Migrations MoreNotions.

(** The three application tables (their columns, if they exist) and the
    versions recorded, in a database that has [schema_migrations]. *)
Definition shape
  (questions users quiz_results : option (list string))
  (versions : list string) (db : Database) : Prop :=
  columns_of "questions" db = questions
  /\ columns_of "users" db = users
  /\ columns_of "quiz_results" db = quiz_results
  /\ has_table "schema_migrations" db = true
  /\ map rec_version (migration_rows db) = versions.



Definition quiz_results_columns : list string :=
  ["id"; "user_id"; "score"; "total_questions"; "time_taken"; "completed_at";
   "questions_attempted"].

End SchemaNotions.

(* ================================================================== *)
(** * SQLite's LIKE and Python's [int] *)
(* ================================================================== *)

Module Like.

(** SQLite takes the pattern and the text of a LIKE as C strings: what
    follows a NUL byte is not read. *)
Fixpoint c_string (s : string) : string :=
  match s with
  | EmptyString => EmptyString
  | String a s' =>
      if Ascii.eqb a Ascii.zero then EmptyString else String a (c_string s')
  end.

(** A byte that continues a UTF-8 character, and one that opens a
    character of several bytes. *)
Definition is_continuation (a : ascii) : bool :=
  let n := nat_of_ascii a in (128 <=? n)%nat && (n <? 192)%nat.

Definition is_lead (a : ascii) : bool := (192 <=? nat_of_ascii a)%nat.

Definition emit (cur : string) : list string :=
  match cur with EmptyString => [] | _ => [cur] end.

(** The characters of a text, each with its bytes: [cur] is the character
    being read, [extends] tells whether it opened with a lead byte and
    still takes continuation bytes. *)
Fixpoint chars_from (cur : string) (extends : bool) (s : string) : list string :=
  match s with
  | EmptyString => emit cur
  | String a s' =>
      if extends && is_continuation a
      then chars_from (cur ++ String a "")%string true s'
      else emit cur ++ chars_from (String a "") (is_lead a) s'
  end.

Definition chars (s : string) : list string := chars_from "" false s.

(** LIKE folds the case of the ASCII letters only. *)
Definition lower (a : ascii) : ascii :=
  let n := nat_of_ascii a in
  if (65 <=? n)%nat && (n <=? 90)%nat then ascii_of_nat (n + 32) else a.

(** SQLite reads the two characters U+FFFE and U+FFFF as U+FFFD. *)
Definition read (c : string) : string :=
  if String.eqb c (Py.bytes [239; 191; 190]%nat)
     || String.eqb c (Py.bytes [239; 191; 191]%nat)
  then Py.bytes [239; 191; 189]%nat
  else c.

Definition same_char (p c : string) : bool :=
  match p, c with
  | String a EmptyString, String b EmptyString => Ascii.eqb (lower a) (lower b)
  | _, _ => String.eqb (read p) (read c)
  end.

(** The match of a pattern against a text, character by character: [%]
    stands for any run of characters, [_] for any one character. *)
Fixpoint like_chars (pattern text : list string) : bool :=
  match pattern with
  | [] => match text with [] => true | _ :: _ => false end
  | p :: pattern' =>
      if String.eqb p "%" then
        (fix any (t : list string) : bool :=
           like_chars pattern' t
           || match t with [] => false | _ :: t' => any t' end) text
      else
        match text with
        | [] => false
        | c :: text' =>
            (String.eqb p "_" || same_char p c) && like_chars pattern' text'
        end
  end.

(** [text LIKE pattern], for a pattern and a text that are of type [str]
    in Python and so reach SQLite as UTF-8. *)
Definition like (pattern text : string) : bool :=
  like_chars (chars (c_string pattern)) (chars (c_string text)).

(** SQLITE_MAX_LIKE_PATTERN_LENGTH. *)
Definition max_pattern_length : Z := 50000.

End Like.

Module PyInt.

(** The digits of [int(text)], once in ASCII: a single underscore is
    allowed between two digits. *)
Definition is_digit (a : ascii) : bool :=
  let n := nat_of_ascii a in (48 <=? n)%nat && (n <=? 57)%nat.

Fixpoint grouped (after_digit : bool) (s : string) : bool :=
  match s with
  | EmptyString => after_digit
  | String a s' =>
      if is_digit a then grouped true s'
      else if Ascii.eqb a "_" then after_digit && grouped false s'
      else false
  end.

Fixpoint without_underscores (s : string) : string :=
  match s with
  | EmptyString => EmptyString
  | String a s' =>
      if Ascii.eqb a "_" then without_underscores s'
      else String a (without_underscores s')
  end.

(** More digits than this and the conversion raises ValueError
    ([sys.int_max_str_digits]). *)
Definition max_str_digits : Z := 4300.

Definition natural (s : string) : option Z :=
  if grouped false s then
    let digits := without_underscores s in
    if Z.of_nat (String.length digits) >? max_str_digits then None
    else option_map (fun d => Z.of_uint d) (NilZero.uint_of_string digits)
  else None.

(** The code point of a character of two to four bytes. *)
Definition code_point (c : string) : Z :=
  match map (fun a => Z.of_nat (nat_of_ascii a)) (list_ascii_of_string c) with
  | [a; b] => (a - 192) * 64 + (b - 128)
  | [a; b; c] => (a - 224) * 4096 + (b - 128) * 64 + (c - 128)
  | [a; b; c; d] =>
      (a - 240) * 262144 + (b - 128) * 4096 + (c - 128) * 64 + (d - 128)
  | _ => 0
  end.

(** The digit zero of every script but ASCII: the nine code points after
    each are its digits 1 to 9 (Unicode 14.0, the tables of Python 3.11). *)
Definition zeros : list Z :=
  [1632; 1776; 1984; 2406; 2534; 2662; 2790; 2918; 3046; 3174; 3302;
   3430; 3558; 3664; 3792; 3872; 4160; 4240; 6112; 6160; 6470; 6608;
   6784; 6800; 6992; 7088; 7232; 7248; 42528; 43216; 43264; 43472; 43504;
   43600; 44016; 65296; 66720; 68912; 69734; 69872; 69942; 70096; 70384;
   70736; 70864; 71248; 71360; 71472; 71904; 72016; 72784; 73040; 73120;
   92768; 92864; 93008; 120782; 120792; 120802; 120812; 120822; 123200;
   123632; 125264; 130032].

(** The value of a decimal digit that is not ASCII. *)
Definition decimal (c : string) : option Z :=
  let cp := code_point c in
  option_map (fun zero => cp - zero)
    (find (fun zero => (zero <=? cp) && (cp <? zero + 10)) zeros).

(** What [int] takes a character for: an ASCII character for itself, any
    other whitespace for a space, any other decimal digit for the ASCII
    digit of its value; [None] for every other character. *)
Definition read (c : string) : option ascii :=
  match c with
  | String a EmptyString => if (nat_of_ascii a <? 128)%nat then Some a else None
  | _ =>
      if Migrations.mem_string c Py.whitespace then Some " "%char
      else option_map (fun d => ascii_of_nat (48 + Z.to_nat d)) (decimal c)
  end.

Fixpoint to_ascii (cs : list string) : option string :=
  match cs with
  | [] => Some EmptyString
  | c :: rest => a <- read c ;; s <- to_ascii rest ;; Some (String a s)
  end.

(** The whitespace that is dropped around the number: that of C, which
    leaves out U+001C..U+001F. *)
Definition c_whitespace : list string :=
  map (fun n : nat => Py.bytes [n]) [9; 10; 11; 12; 13; 32]%nat.

Definition strip (s : string) : string :=
  Py.rev_string
    (Py.lstrip_from c_whitespace (String.length s)
       (Py.rev_string (Py.lstrip_from c_whitespace (String.length s) s))).

(** [int(text)]: the characters are taken for ASCII ones, surrounding
    whitespace is dropped, then an optional sign and the digits are read;
    [None] is ValueError. *)
Definition int (text : string) : option Z :=
  s <- to_ascii (Like.chars text) ;;
  match strip s with
  | String "+" d => natural d
  | String "-" d => option_map Z.opp (natural d)
  | d => natural d
  end.

End PyInt.

(* ================================================================== *)
(** * database/repository.py: the other methods *)
(* ================================================================== *)

Module QuestionQueries.
Import DatabaseManager QuestionRepository.

(** A bound [int] must fit an SQLite INTEGER (OverflowError otherwise). *)
Definition bindable (n : Z) : bool :=
  (Py.int64_min <=? n) && (n <=? Py.int64_max).

Definition with_questions (rows : list QuestionRow) (st : Store) : Store :=
  {| questions := rows;
     users := users st;
     quiz_results := quiz_results st;
     questions_seq := questions_seq st;
     users_seq := users_seq st;
     quiz_results_seq := quiz_results_seq st |}.

(** The row [UPDATE questions SET ... WHERE id = ?] leaves in place of
    [row]. *)
Definition updated_row (question : Question.Question) (now : string)
  (row : QuestionRow) : QuestionRow :=
  {| q_id := q_id row;
     q_prompt := Question.prompt question;
     q_option_a := Question.option_a question;
     q_option_b := Question.option_b question;
     q_option_c := Question.option_c question;
     q_answer := Question.answer question;
     q_category := Question.category question;
     q_difficulty := Question.difficulty question;
     q_created_at := q_created_at row;
     q_updated_at := now;
     q_tags := tags_text (Question.tags question) |}.

(** [update]: False when no row has the id (also for an id of None), and
    when the statement raises, on a CHECK constraint or an id that cannot
    be bound. *)
Definition update (question : Question.Question) (now : string) (st : Store)
  : bool * Store :=
  match Question.id question with
  | None => (false, st)
  | Some i =>
      if negb (bindable i) then (false, st)
      else if negb (existsb (fun row => q_id row =? i) (questions st))
      then (false, st)
      else if negb (Migrations.mem_string (Question.answer question)
                      ["A"; "B"; "C"])
              || negb (Migrations.mem_string (Question.difficulty question)
                         ["Easy"; "Medium"; "Hard"])
      then (false, st)
      else
        (true,
         with_questions
           (map (fun row => if q_id row =? i
                            then updated_row question now row else row)
              (questions st)) st)
  end.

(** [delete]: [DELETE FROM questions WHERE id = ?], True when a row went. *)
Definition delete (question_id : Z) (st : Store) : bool * Store :=
  if negb (bindable question_id) then (false, st)
  else
    (existsb (fun row => q_id row =? question_id) (questions st),
     with_questions
       (filter (fun row => negb (q_id row =? question_id)) (questions st)) st).

(** [SELECT COUNT( * ) FROM questions]. *)
Definition get_count (st : Store) : Z := Z.of_nat (length (questions st)).

(** [SELECT DISTINCT category FROM questions ORDER BY category]. *)
Definition get_categories (st : Store) : list string :=
  Py.sort_by (fun c : string => c) Py.str_le
    (nodup string_dec (map q_category (questions st))).

(** [ORDER BY created_at DESC] on the file [DatabaseManager] creates, which
    has no index on [created_at]: the rows found are sorted, those of one
    timestamp staying in the order of the table.  (Only migration 002 of
    [migrations.py] adds such an index, and SQLite then reads the rows of
    one timestamp the other way round.) *)
Definition newest_first (rows : list QuestionRow) : list QuestionRow :=
  Py.sort_by q_created_at (fun a b => Py.str_le b a) rows.

(** [OFFSET n]: a negative offset counts as none. *)
Definition offset_rows {A} (offset : Z) (rows : list A) : list A :=
  skipn (Z.to_nat offset) rows.

(** [get_all]: the LIMIT clause is only written [if limit:], that is for a
    limit that is neither None nor 0; the two numbers are then written
    into the statement, where they must fit an INTEGER. *)
Definition get_all (limit_ : option Z) (offset : Z) (now : string) (st : Store)
  : list Question.Question :=
  let ordered := newest_first (questions st) in
  match limit_ with
  | None => map (_row_to_question now) ordered
  | Some n =>
      if n =? 0 then map (_row_to_question now) ordered
      else if negb (bindable n) || negb (bindable offset) then []
      else map (_row_to_question now) (limit n (offset_rows offset ordered))
  end.

(** The WHERE clause of [search] on one row. *)
Definition found (pattern : string) (category difficulty : option string)
  (row : QuestionRow) : bool :=
  (Like.like pattern (q_prompt row) || Like.like pattern (q_option_a row)
   || Like.like pattern (q_option_b row) || Like.like pattern (q_option_c row))
  && condition category (q_category row)
  && condition difficulty (q_difficulty row).

(** [search]: the term goes between two [%]; a pattern that is too long
    makes the statement fail, and the method return []. *)
Definition search (search_term : string) (category difficulty : option string)
  (now : string) (st : Store) : list Question.Question :=
  let pattern := ("%" ++ search_term ++ "%")%string in
  if Z.of_nat (String.length pattern) >? Like.max_pattern_length then []
  else
    map (_row_to_question now)
      (newest_first (filter (found pattern category difficulty) (questions st))).

End QuestionQueries.

Module UserQueries.
Import DatabaseManager.

(** [UserRepository.create]: [is_active] is bound as 1 or 0; a failed
    insert is raised again. *)
Definition create (user : User.User) (now : string) (st : Store)
  : option (Z * Store) :=
  insert_user (User.username user) (User.password_hash user) (User.role user)
    (if User.is_active user then 1 else 0) now st.

End UserQueries.

Module QuizResultQueries.
Import DatabaseManager.

(** [[int(qid) for qid in text.split(',') if qid.strip()]]; [None] when
    one of the conversions raises. *)
Fixpoint ints (pieces : list string) : option (list Z) :=
  match pieces with
  | [] => Some []
  | piece :: rest =>
      if Py.truthy (Py.strip piece) then
        n <- PyInt.int piece ;; ns <- ints rest ;; Some (n :: ns)
      else ints rest
  end.

Definition _row_to_result (now : string) (row : ResultRow)
  : QuizResult.QuizResult :=
  {| QuizResult.id := Some (r_id row);
     QuizResult.user_id := r_user_id row;
     QuizResult.score := r_score row;
     QuizResult.total_questions := r_total_questions row;
     QuizResult.time_taken := r_time_taken row;
     QuizResult.completed_at :=
       if Py.truthy (r_completed_at row) then r_completed_at row else now;
     QuizResult.questions_attempted :=
       if Py.truthy (r_questions_attempted row) then
         match ints (Py.split "," (r_questions_attempted row)) with
         | Some ids => ids
         | None => []
         end
       else [] |}.

(** [ORDER BY completed_at DESC] after a WHERE on [user_id]: the rows
    found are sorted, those of one timestamp staying in the order of the
    table. *)
Definition latest_first (rows : list ResultRow) : list ResultRow :=
  Py.sort_by r_completed_at (fun a b => Py.str_le b a) rows.

(** [ORDER BY completed_at DESC] on the whole table, which SQLite reads
    off the index [idx_quiz_results_completed] backwards: latest first,
    and of the rows of one timestamp the one inserted last first. *)
Definition by_index_backwards (rows : list ResultRow) : list ResultRow :=
  Py.sort_by r_completed_at (fun a b => Py.str_le b a) (rev rows).

Definition of_user (user_id : Z) (row : ResultRow) : bool :=
  match r_user_id row with
  | Some u => u =? user_id
  | None => false
  end.

(** [get_user_results]: the rows of the user, newest first, cut by LIMIT. *)
Definition get_user_results (user_id : Z) (limit_ : Z) (now : string)
  (st : Store) : list QuizResult.QuizResult :=
  if negb (QuestionQueries.bindable user_id)
     || negb (QuestionQueries.bindable limit_) then []
  else
    map (_row_to_result now)
      (QuestionRepository.limit limit_
         (latest_first (filter (of_user user_id) (quiz_results st)))).

(** [get_latest_result]: [if user_id:] — for None and for 0 the latest of
    all rows is taken. *)
Definition get_latest_result (user_id : option Z) (now : string) (st : Store)
  : option QuizResult.QuizResult :=
  let by_user (u : Z) :=
    if negb (QuestionQueries.bindable u) then []
    else latest_first (filter (of_user u) (quiz_results st)) in
  let rows :=
    match user_id with
    | None => by_index_backwards (quiz_results st)
    | Some u =>
        if u =? 0 then by_index_backwards (quiz_results st) else by_user u
    end in
  match rows with
  | [] => None
  | row :: _ => Some (_row_to_result now row)
  end.

End QuizResultQueries.

(* ================================================================== *)
(** * services/quiz_service.py: the settings of a quiz *)
(* ================================================================== *)

Module QuizSettings.
Import DatabaseManager.

Definition get_quiz_questions
  (num_questions : Z) (category difficulty : option string)
  (random : nat -> Z) (now : string) (st : Store) : list Question.Question :=
  QuestionRepository.get_random_questions
    num_questions category difficulty random now st.

(** [validate_quiz_settings]: the number asked for must be from 1 to 50 and
    not above the number of questions [search("")] finds for the filters. *)
Definition validate_quiz_settings
  (num_questions : Z) (category difficulty : option string)
  (now : string) (st : Store) : bool * option string :=
  if num_questions <? 1 then (false, Some "Số câu hỏi phải lớn hơn 0")
  else if num_questions >? 50
  then (false, Some "Số câu hỏi không được vượt quá 50")
  else
    let available_questions :=
      QuestionQueries.search "" category difficulty now st in
    if Z.of_nat (length available_questions) <? num_questions then
      (false,
       Some ("Chỉ có "
             ++ QuizResultRepository.str (Z.of_nat (length available_questions))
             ++ " câu hỏi phù hợp. Vui lòng giảm số câu hỏi hoặc thay đổi bộ lọc.")%string)
    else (true, None).

End QuizSettings.

(* ================================================================== *)
(** * The stores the repositories produce *)
(* ================================================================== *)

Module StoreNotions.
Import DatabaseManager.

(** The primary key of a table with AUTOINCREMENT: distinct rowids, from 1
    up to the largest one handed out so far. *)
Definition keys_ok (seq : Z) (ids : list Z) : Prop :=
  NoDup ids
  /\ Forall (fun i => 1 <= i <= seq) ids
  /\ 0 <= seq <= Py.int64_max.

(** The constraints [_create_tables] declares: the three primary keys,
    UNIQUE on [username], the CHECKs on [answer], [difficulty] and [role],
    and the foreign key of [quiz_results.user_id]. *)
Definition consistent (st : Store) : Prop :=
  keys_ok (questions_seq st) (map q_id (questions st))
  /\ keys_ok (users_seq st) (map u_id (users st))
  /\ keys_ok (quiz_results_seq st) (map r_id (quiz_results st))
  /\ NoDup (map u_username (users st))
  /\ Forall (fun row => In (q_answer row) ["A"; "B"; "C"]
                        /\ In (q_difficulty row) ["Easy"; "Medium"; "Hard"])
       (questions st)
  /\ Forall (fun row => In (u_role row) ["user"; "admin"]) (users st)
  /\ Forall (fun row => match r_user_id row with
                        | None => True
                        | Some u => In u (map u_id (users st))
                        end) (quiz_results st).

(** The calls that write to the store. *)
Inductive Call :=
| CreateQuestion (question : Question.Question)
| UpdateQuestion (question : Question.Question)
| DeleteQuestion (question_id : Z)
| CreateUser (user : User.User)
| Authenticate (username password : string)
| CreateResult (result : QuizResult.QuizResult)
| InsertSampleData.

(** The store a call leaves; a call that raises leaves it as it was. *)
Definition call (c : Call) (now : string) (st : Store) : Store :=
  match c with
  | CreateQuestion question =>
      match QuestionRepository.create question now st with
      | Some (_, st') => st'
      | None => st
      end
  | UpdateQuestion question => snd (QuestionQueries.update question now st)
  | DeleteQuestion question_id => snd (QuestionQueries.delete question_id st)
  | CreateUser user =>
      match UserQueries.create user now st with
      | Some (_, st') => st'
      | None => st
      end
  | Authenticate username password =>
      snd (UserRepository.authenticate username password now st)
  | CreateResult result =>
      match QuizResultRepository.create result now st with
      | Some (_, st') => st'
      | None => st
      end
  | InsertSampleData =>
      match _insert_sample_data now st with
      | Some st' => st'
      | None => st
      end
  end.

(** A run of calls, each at its own time. *)
Fixpoint calls (cs : list (Call * string)) (st : Store) : Store :=
  match cs with
  | [] => st
  | (c, now) :: rest => calls rest (call c now st)
  end.

End StoreNotions.

Module QuizCounts.
Import DatabaseManager.

(** The dict [get_question_counts_by_criteria] returns; the two inner
    dicts are kept as the lists of their items, in insertion order. *)
Record Counts :=
  { total : Z;
    by_category : list (string * Z);
    by_difficulty : list (string * Z) }.

Definition get_available_categories (st : Store) : list string :=
  QuestionQueries.get_categories st.

Definition get_question_counts_by_criteria (now : string) (st : Store)
  : Counts :=
  {| total := QuestionQueries.get_count st;
     by_category :=
       map (fun category =>
              (category,
               Z.of_nat (length (QuestionQueries.search "" (Some category)
                                   None now st))))
         (QuestionQueries.get_categories st);
     by_difficulty :=
       map (fun difficulty =>
              (difficulty,
               Z.of_nat (length (QuestionQueries.search "" None
                                   (Some difficulty) now st))))
         ["Easy"; "Medium"; "Hard"] |}.

(** The sum of the counts of one of the inner dicts. *)
Definition sum_counts (items : list (string * Z)) : Z :=
  fold_right (fun item acc => snd item + acc) 0 items.

End QuizCounts.

Module QueryNotions.
Import DatabaseManager.

(** Newest first: the order of [ORDER BY created_at DESC]. *)
Definition newer (a b : QuestionRow) : Prop :=
  Py.str_le (q_created_at b) (q_created_at a) = true.

End QueryNotions.

Module TextNotions.

(** A character of the decimal text of an [int]: a digit or the sign. *)
Definition plain (a : ascii) : bool := PyInt.is_digit a || Ascii.eqb a "-".

Definition all_plain (s : string) : bool :=
  forallb plain (list_ascii_of_string s).

(** No string of the list begins with the character. *)
Definition starts_none (a : ascii) (ps : list string) : bool :=
  forallb (fun p => match p with
                    | EmptyString => false
                    | String b _ => negb (Ascii.eqb b a)
                    end) ps.

(** No stored result was completed after [now]. *)
Definition none_newer (now : string) (st : DatabaseManager.Store) : Prop :=
  Forall (fun row => Py.str_le (DatabaseManager.r_completed_at row) now = true)
    (DatabaseManager.quiz_results st).

(** Ids whose decimal text [int] still converts. *)
Definition convertible (ids : list Z) : Prop :=
  Forall (fun id => Z.of_nat (String.length (QuizResultRepository.str id))
                    <= PyInt.max_str_digits) ids.

End TextNotions.

(* ================================================================== *)
(** * gui/quiz_window.py: answering and moving between questions *)
(* ================================================================== *)

Module QuizNavigation.
Import DatabaseManager QuizWindow.

Definition set_current_question_index (i : Z) (w : QuizWindow) : QuizWindow :=
  {| questions := questions w; show_timer := show_timer w;
     auto_submit := auto_submit w; total_time_limit := total_time_limit w;
     current_question_index := i;
     user_answers := user_answers w; time_remaining := time_remaining w;
     quiz_completed := quiz_completed w; timer := timer w;
     answer_var := answer_var w; window := window w |}.

(** A click on one of the radio buttons, which share [answer_var]. *)
Definition select (a : string) (s : State) : State :=
  (set_answer_var a (fst s), snd s).

(** [l[i] = v]: a negative index counts from the end, an index outside
    the list raises IndexError. *)
Definition setitem (l : list string) (i : Z) (v : string)
  : option (list string) :=
  let n := Z.of_nat (length l) in
  let j := if i <? 0 then i + n else i in
  if (j <? 0) || (n <=? j) then None
  else Some (firstn (Z.to_nat j) l ++ v :: skipn (S (Z.to_nat j)) l).

(** [_save_current_answer]: the list is extended with "" up to the index,
    then the selection is stored at the index. *)
Definition _save_current_answer (w : QuizWindow) : option QuizWindow :=
  let i := current_question_index w in
  let extended :=
    user_answers w
    ++ repeat "" (Z.to_nat (i + 1) - length (user_answers w))%nat in
  answers <- setitem extended i (answer_var w) ;;
  Some (set_user_answers answers w).

Definition _previous_question (clk : Clock) (s : State) : option State :=
  let (w, st) := s in
  if current_question_index w >? 0 then
    w1 <- _save_current_answer w ;;
    Some (_load_question clk
            (set_current_question_index (current_question_index w1 - 1) w1,
             st))
  else Some s.

Definition _next_question (clk : Clock) (s : State) : option State :=
  let (w, st) := s in
  w1 <- _save_current_answer w ;;
  if current_question_index w1 =? Z.of_nat (length (questions w1)) - 1
  then Some (_finish_quiz clk (w1, st))
  else
    Some (_load_question clk
            (set_current_question_index (current_question_index w1 + 1) w1,
             st)).

(** [_on_window_close]; [confirmed] is the answer to the question asked
    when the quiz is not completed. *)
Definition _on_window_close (confirmed : bool) (s : State) : State :=
  let (w, st) := s in
  if quiz_completed w then (set_window false w, st)
  else if confirmed then (set_window false (set_timer false w), st)
  else s.

End QuizNavigation.

Module NavigationNotions.
Import DatabaseManager QuizWindow QuizNavigation.

(** The user picks an answer and presses the next button, once for each
    of the choices. *)
Fixpoint play (choices : list string) (clk : Clock) (s : State)
  : option State :=
  match choices with
  | [] => Some s
  | a :: rest => s' <- _next_question clk (select a s) ;; play rest clk s'
  end.

(** The window shows question [i] of [qs], the answers to the questions
    before it are [answers]. *)
Definition playing (qs : list Question.Question) (i : nat)
  (answers : list string) (w : QuizWindow) : Prop :=
  questions w = qs
  /\ current_question_index w = Z.of_nat i
  /\ user_answers w = answers
  /\ length answers = i.

End NavigationNotions.

(* ================================================================== *)
(** * services/admin_service.py: the login of an administrator *)
(* ================================================================== *)

Module AdminService.
Import DatabaseManager.

(** [len(s)]: the number of characters, which is the number of bytes of
    the UTF-8 form that do not continue a character. *)
Definition len (s : string) : Z :=
  Z.of_nat
    (length (filter (fun a => negb (Like.is_continuation a))
               (list_ascii_of_string s))).

(** The class [[a-zA-Z0-9_-]]. *)
Definition word_char (a : ascii) : bool :=
  let n := nat_of_ascii a in
  ((97 <=? n) && (n <=? 122) || (65 <=? n) && (n <=? 90)
   || (48 <=? n) && (n <=? 57) || (n =? 95) || (n =? 45))%nat.

(** The rest of a match of [[a-zA-Z0-9_-]+$]: word characters up to the
    end, or up to a newline that ends the text. *)
Fixpoint word_then_end (s : string) : bool :=
  match s with
  | EmptyString => true
  | String a s' =>
      if word_char a then word_then_end s'
      else Ascii.eqb a "010"
           && match s' with EmptyString => true | String _ _ => false end
  end.

(** [re.match(r'^[a-zA-Z0-9_-]+$', username)]. *)
Definition matches_username (username : string) : bool :=
  match username with
  | EmptyString => false
  | String a s' => word_char a && word_then_end s'
  end.

(** [InputValidator.validate_credentials]. *)
Definition validate_credentials (username password : string)
  : bool * option string :=
  if negb (Py.truthy username) || (len (Py.strip username) <? 3)
  then (false, Some "Tên đăng nhập phải có ít nhất 3 ký tự")
  else if len (Py.strip username) >? 50
  then (false, Some "Tên đăng nhập không được quá 50 ký tự")
  else if negb (Py.truthy password) || (len password <? 4)
  then (false, Some "Mật khẩu phải có ít nhất 4 ký tự")
  else if len password >? 100
  then (false, Some "Mật khẩu không được quá 100 ký tự")
  else if negb (matches_username username)
  then (false, Some "Tên đăng nhập chỉ được chứa chữ cái, số, _ và -")
  else (true, None).

(** [AdminService.authenticate_admin]. *)
Definition authenticate_admin (username password : string) (now : string)
  (st : Store) : option User.User * Store :=
  let (is_valid, error_msg) := validate_credentials username password in
  if negb is_valid then (None, st)
  else
    let (user, st') := UserRepository.authenticate username password now st in
    match user with
    | Some u => if User.is_admin u then (Some u, st') else (None, st')
    | None => (None, st')
    end.

End AdminService.

Module QuizScore.
Import DatabaseManager.

(** The dict [get_latest_quiz_score] returns. *)
Record LatestScore :=
  { score : Z;
    total : Z;
    percentage : Q;
    grade : string;
    time_taken : Z;
    completed_at : option string;
    has_result : bool }.

Definition no_result : LatestScore :=
  {| score := 0; total := 0; percentage := 0%Q; grade := "N/A";
     time_taken := 0; completed_at := None; has_result := false |}.

(** [QuizService.get_latest_quiz_score]: the percentage is computed in
    place, the grade is the [grade] property of the result; the [except]
    branch gives the same dict as no result. *)
Definition get_latest_quiz_score (later : string) (st : Store) : LatestScore :=
  match QuizResultQueries.get_latest_result None later st with
  | Some latest_result =>
      let computed :=
        if QuizResult.total_questions latest_result >? 0
        then q <- Py.truediv (QuizResult.score latest_result)
                    (QuizResult.total_questions latest_result) ;;
             Some (q * 100)%Q
        else Some 0%Q in
      match computed, QuizResult.grade latest_result with
      | Some p, Some g =>
          {| score := QuizResult.score latest_result;
             total := QuizResult.total_questions latest_result;
             percentage := p;
             grade := g;
             time_taken := QuizResult.time_taken latest_result;
             completed_at := Some (QuizResult.completed_at latest_result);
             has_result := true |}
      | _, _ => no_result
      end
  | None => no_result
  end.

(** The letter for [score] right answers out of a positive [total], in
    whole numbers. *)
Definition letter_of (score total : Z) : string :=
  if 90 * total <=? 100 * score then "A"
  else if 80 * total <=? 100 * score then "B"
  else if 70 * total <=? 100 * score then "C"
  else if 60 * total <=? 100 * score then "D"
  else "F".

End QuizScore.

(* ================================================================== *)
(** * services/admin_service.py: pages, deletions and copies *)
(* ================================================================== *)

Module AdminQuestions.
Import DatabaseManager.

(** The dict [get_all_questions] returns. *)
Record Page :=
  { questions : list Question.Question;
    current_page : Z;
    total_pages : Z;
    total_count : Z;
    per_page : Z }.

(** [get_all_questions]: a page size of 0 makes [// per_page] raise
    ZeroDivisionError, and the [except] branch answers. *)
Definition get_all_questions (page per_page : Z) (now : string) (st : Store)
  : Page :=
  let offset := (page - 1) * per_page in
  let questions := QuestionQueries.get_all (Some per_page) offset now st in
  let total_count := QuestionQueries.get_count st in
  if per_page =? 0 then
    {| questions := []; current_page := 1; total_pages := 0;
       total_count := 0; per_page := per_page |}
  else
    {| questions := questions; current_page := page;
       total_pages := (total_count + per_page - 1) / per_page;
       total_count := total_count; per_page := per_page |}.

(** [delete_question]. *)
Definition delete_question (question_id : Z) (now : string) (st : Store)
  : (bool * string) * Store :=
  match QuestionRepository.get_by_id question_id now st with
  | None => ((false, "Không tìm thấy câu hỏi!"), st)
  | Some question =>
      let (success, st') := QuestionQueries.delete question_id st in
      if success then ((true, "Câu hỏi đã được xóa thành công!"), st')
      else ((false, "Không thể xóa câu hỏi!"), st')
  end.

(** The loop of [delete_multiple_questions]. *)
Fixpoint delete_each (question_ids : list Z) (st : Store)
  (deleted_count : Z) (failed_ids : list Z) : Z * list Z * Store :=
  match question_ids with
  | [] => (deleted_count, failed_ids, st)
  | question_id :: rest =>
      let (success, st') := QuestionQueries.delete question_id st in
      if success then delete_each rest st' (deleted_count + 1) failed_ids
      else delete_each rest st' deleted_count (failed_ids ++ [question_id])
  end.

(** [str(l)] for a list of [int]s. *)
Definition str_list (l : list Z) : string :=
  ("[" ++ Py.join ", " (map QuizResultRepository.str l) ++ "]")%string.

(** [delete_multiple_questions]. *)
Definition delete_multiple_questions (question_ids : list Z) (st : Store)
  : (bool * string * Z) * Store :=
  let '(deleted_count, failed_ids, st') := delete_each question_ids st 0 [] in
  let asked := Z.of_nat (length question_ids) in
  if deleted_count =? asked then
    ((true,
      ("Đã xóa thành công " ++ QuizResultRepository.str deleted_count
       ++ " câu hỏi!")%string,
      deleted_count), st')
  else if deleted_count >? 0 then
    ((false,
      ("Đã xóa " ++ QuizResultRepository.str deleted_count ++ "/"
       ++ QuizResultRepository.str asked ++ " câu hỏi. Không thể xóa: "
       ++ str_list failed_ids)%string,
      deleted_count), st')
  else ((false, "Không thể xóa bất kỳ câu hỏi nào!", 0), st').

(** [duplicate_question].  [raised] is the text of the exception, should
    the insert raise one. *)
Definition duplicate_question (question_id : Z) (now raised : string)
  (st : Store) : (bool * string * option Z) * Store :=
  match QuestionRepository.get_by_id question_id now st with
  | None => ((false, "Không tìm thấy câu hỏi gốc!", None), st)
  | Some original =>
      let duplicate :=
        {| Question.id := None;
           Question.prompt := ("[Copy] " ++ Question.prompt original)%string;
           Question.option_a := Question.option_a original;
           Question.option_b := Question.option_b original;
           Question.option_c := Question.option_c original;
           Question.answer := Question.answer original;
           Question.category := Question.category original;
           Question.difficulty := Question.difficulty original;
           Question.created_at := now;
           Question.updated_at := now;
           Question.tags := Question.tags original |} in
      match QuestionRepository.create duplicate now st with
      | Some (new_id, st') =>
          ((true, "Câu hỏi đã được sao chép thành công!", Some new_id), st')
      | None =>
          ((false, ("Lỗi khi sao chép câu hỏi: " ++ raised)%string, None), st)
      end
  end.

End AdminQuestions.

Module DeletionNotions.
Import DatabaseManager.

(** The ids of the stored questions are distinct and can each be bound. *)
Definition deletable (st : Store) : Prop :=
  NoDup (map q_id (questions st))
  /\ Forall (fun row => QuestionQueries.bindable (q_id row) = true)
       (questions st).

(** The row is not one of the listed questions. *)
Definition unlisted (question_ids : list Z) (row : QuestionRow) : bool :=
  negb (existsb (Z.eqb (q_id row)) question_ids).

End DeletionNotions.

Module TagNotions.

(** A list of patterns none of which is empty. *)
Definition all_non_empty (ps : list string) : bool := forallb Py.truthy ps.

(** The whitespace characters read from the right. *)
Definition whitespace_reversed : list string :=
  map Py.rev_string Py.whitespace.

End TagNotions.

Module SessionNotions.
Import DatabaseManager QuizWindow QuizNavigation.

(** What can happen to an open quiz window: the waiting timer fires, the
    user clicks an answer or one of the two buttons, or asks to close the
    window and confirms or not. *)
Inductive Event :=
| Fire
| Click (a : string)
| Next
| Previous
| Close (confirmed : bool).

(** The state after an event.  The buttons and the close request belong
    to the window and are gone with it; a handler that raises leaves the
    state as it was, the timer that fired not waiting any more. *)
Definition handle (e : Event) (clk : Clock) (s : State) : State :=
  match e with
  | Fire =>
      match tick clk s with
      | Some s' => s'
      | None => (set_timer false (fst s), snd s)
      end
  | Click a => if window (fst s) then select a s else s
  | Next =>
      if window (fst s) then
        match _next_question clk s with Some s' => s' | None => s end
      else s
  | Previous =>
      if window (fst s) then
        match _previous_question clk s with Some s' => s' | None => s end
      else s
  | Close confirmed =>
      if window (fst s) then _on_window_close confirmed s else s
  end.

(** A run of events, each with the clock readings of its moment. *)
Fixpoint session (events : list (Event * Clock)) (s : State) : State :=
  match events with
  | [] => s
  | (e, clk) :: rest => session rest (handle e clk s)
  end.

(** [st'] is [st] with at most one more quiz result, one without a user
    and for [n] questions. *)
Definition at_most_one_result (n : nat) (st st' : Store) : Prop :=
  DatabaseManager.questions st' = DatabaseManager.questions st
  /\ users st' = users st
  /\ (quiz_results st' = quiz_results st
      \/ exists row,
           quiz_results st' = quiz_results st ++ [row]
           /\ r_user_id row = None
           /\ r_total_questions row = Z.of_nat n).

(** What holds of a quiz window on [qs] that was opened on the store
    [st0]: nothing is saved while the window is there, no timer waits
    once the quiz is completed or the window gone. *)
Definition in_session (qs : list Question.Question) (st0 : Store) (s : State)
  : Prop :=
  QuizWindow.questions (fst s) = qs
  /\ (window (fst s) = true -> snd s = st0)
  /\ (window (fst s) = false -> timer (fst s) = false)
  /\ (quiz_completed (fst s) = true -> timer (fst s) = false)
  /\ at_most_one_result (length qs) st0 (snd s).

End SessionNotions.

(* ================================================================== *)
(** * utils/validators.py: the form of a question *)
(* ================================================================== *)

Module InputValidator.

(** [chr(65 + i)]. *)
Definition letter (i : nat) : string := String (ascii_of_nat (65 + i)) "".

(** The loop over the options of [validate_question]: the message of the
    first option that is refused. *)
Fixpoint check_options (i : nat) (options : list string) : option string :=
  match options with
  | [] => None
  | option :: rest =>
      if negb (Py.truthy option) || (AdminService.len (Py.strip option) <? 1)
      then Some ("Lựa chọn " ++ letter i ++ " không được để trống")%string
      else if AdminService.len (Py.strip option) >? 200
      then Some ("Lựa chọn " ++ letter i ++ " không được quá 200 ký tự")%string
      else check_options (S i) rest
  end.

(** [InputValidator.validate_question]. *)
Definition validate_question
  (prompt : string) (options : list string) (answer category : string)
  : bool * option string :=
  if negb (Py.truthy prompt) || (AdminService.len (Py.strip prompt) <? 5)
  then (false, Some "Câu hỏi phải có ít nhất 5 ký tự")
  else if AdminService.len (Py.strip prompt) >? 500
  then (false, Some "Câu hỏi không được quá 500 ký tự")
  else if negb (Nat.eqb (length options) 3)
  then (false, Some "Phải có đúng 3 lựa chọn")
  else
    match check_options 0 options with
    | Some message => (false, Some message)
    | None =>
        if negb (Migrations.mem_string answer ["A"; "B"; "C"])
        then (false, Some "Đáp án phải là A, B hoặc C")
        else if Py.truthy category
                && (AdminService.len (Py.strip category) >? 50)
        then (false, Some "Danh mục không được quá 50 ký tự")
        else (true, None)
    end.

End InputValidator.

(* ================================================================== *)
(** * Facts about the primitives *)
(* ================================================================== *)

Section StableSortFacts.
Context {A K : Type} (key : A -> K) (le : K -> K -> bool).

Lemma insert_by_perm (x : A) (l : list A) :
  Permutation (Py.insert_by key le x l) (x :: l).
Proof.
  induction l as [|y l IH]; simpl.
  - apply Permutation_refl.
  - destruct (le (key x) (key y)).
    + apply Permutation_refl.
    + eapply perm_trans; [apply perm_skip, IH | apply perm_swap].
Qed.

Lemma sort_by_perm (l : list A) : Permutation (Py.sort_by key le l) l.
Proof.
  induction l as [|x l IH]; simpl.
  - constructor.
  - eapply perm_trans; [apply insert_by_perm | apply perm_skip, IH].
Qed.

Hypothesis le_total : forall a b, le a b = true \/ le b a = true.
Hypothesis le_trans :
  forall a b c, le a b = true -> le b c = true -> le a c = true.

Let ordered (a b : A) : Prop := le (key a) (key b) = true.

Lemma insert_by_sorted (x : A) (l : list A) :
  StronglySorted ordered l -> StronglySorted ordered (Py.insert_by key le x l).
Proof.
  induction 1 as [|y l Hs IH Hy]; simpl.
  - repeat constructor.
  - destruct (le (key x) (key y)) eqn:E.
    + constructor; [constructor; assumption|].
      constructor; [exact E|].
      eapply Forall_impl; [|exact Hy].
      intros z Hz. exact (le_trans _ _ _ E Hz).
    + constructor; [exact IH|].
      apply Forall_forall. intros z Hz.
      apply (Permutation_in _ (insert_by_perm x l)) in Hz.
      destruct Hz as [<-|Hz].
      * destruct (le_total (key x) (key y)) as [H|H]; [congruence|exact H].
      * rewrite Forall_forall in Hy. exact (Hy z Hz).
Qed.

Lemma sort_by_sorted (l : list A) :
  StronglySorted ordered (Py.sort_by key le l).
Proof.
  induction l as [|x l IH]; simpl.
  - constructor.
  - apply insert_by_sorted, IH.
Qed.

End StableSortFacts.

Section TrueDivisionFacts.

Lemma float_limit_large : 1 < Py.float_limit.
Proof. reflexivity. Qed.

Lemma truediv_within (a b : Z) :
  b <> 0 ->
  Z.abs a < Py.float_limit * Z.abs b ->
  Py.truediv a b = Some (inject_Z a / inject_Z b)%Q.
Proof.
  intros B L. unfold Py.truediv.
  assert (E : (b =? 0) = false) by now apply Z.eqb_neq.
  assert (F : (Py.float_limit * Z.abs b <=? Z.abs a) = false)
    by now apply Z.leb_gt.
  now rewrite E, F.
Qed.

(** A part of a positive whole divides without an error. *)
Lemma truediv_part (a b : Z) :
  0 <= a <= b ->
  0 < b ->
  Py.truediv a b = Some (inject_Z a / inject_Z b)%Q.
Proof.
  intros A B. apply truediv_within; [lia|].
  pose proof float_limit_large. nia.
Qed.

End TrueDivisionFacts.

Lemma filter_strongly_sorted {A} (R : A -> A -> Prop) (f : A -> bool) l :
  StronglySorted R l -> StronglySorted R (filter f l).
Proof.
  induction 1 as [|x l Hs IH Hx]; simpl.
  - constructor.
  - destruct (f x); [constructor|]; try exact IH.
    apply Forall_forall. intros y Hy. apply filter_In in Hy.
    rewrite Forall_forall in Hx. apply Hx, Hy.
Qed.

Lemma str_le_total (a b : string) :
  Py.str_le a b = true \/ Py.str_le b a = true.
Proof.
  unfold Py.str_le.
  destruct (String_as_OT.compare_spec a b) as [E|L|G]; auto.
  destruct (String_as_OT.compare_spec b a) as [E'|L'|G']; auto.
  exfalso. eapply (StrictOrder_Irreflexive a).
  eapply (StrictOrder_Transitive a b a); eassumption.
Qed.

Lemma str_le_trans (a b c : string) :
  Py.str_le a b = true -> Py.str_le b c = true -> Py.str_le a c = true.
Proof.
  unfold Py.str_le.
  destruct (String_as_OT.compare_spec a b) as [E|L|G]; try discriminate;
  destruct (String_as_OT.compare_spec b c) as [E'|L'|G']; try discriminate;
  destruct (String_as_OT.compare_spec a c) as [E''|L''|G'']; trivial;
  intros _ _; exfalso; unfold String_as_OT.eq in *; subst.
  - eapply (StrictOrder_Irreflexive c); eassumption.
  - eapply (StrictOrder_Irreflexive c).
    eapply (StrictOrder_Transitive c b c); eassumption.
  - eapply (StrictOrder_Irreflexive c).
    eapply (StrictOrder_Transitive c a c); eassumption.
  - eapply (StrictOrder_Irreflexive a).
    eapply (StrictOrder_Transitive a b a); [eassumption|].
    eapply (StrictOrder_Transitive b c a); eassumption.
Qed.

Lemma mem_string_In (s : string) (l : list string) :
  Migrations.mem_string s l = true <-> In s l.
Proof.
  unfold Migrations.mem_string. rewrite existsb_exists. split.
  - intros (x & Hx & E). apply String.eqb_eq in E. now subst.
  - intros H. exists s. split; [exact H|apply String.eqb_refl].
Qed.

Lemma mem_string_perm (s : string) (l l' : list string) :
  Permutation l l' -> Migrations.mem_string s l = Migrations.mem_string s l'.
Proof.
  intros P. apply eq_true_iff_eq. rewrite !mem_string_In.
  split; apply Permutation_in; [exact P|apply Permutation_sym, P].
Qed.

(* ================================================================== *)
(** * MigrationManager *)
(* ================================================================== *)

Section MigrationFacts.
Import Migrations Notions.

Lemma registered_sorted (appended : list Migration) :
  StronglySorted version_le (_register_migrations appended).
Proof.
  exact (sort_by_sorted version Py.str_le str_le_total str_le_trans appended).
Qed.

Lemma pending_sorted (appended : list Migration) (db : Database) :
  StronglySorted version_le
    (get_pending_migrations (_register_migrations appended) db).
Proof.
  apply filter_strongly_sorted, registered_sorted.
Qed.

Lemma transaction_commits (m : Migration) (clk : Clock) (db db2 : Database) :
  transaction m clk db = Some db2 ->
  exists db1,
    up m db = Some db1
    /\ tables db2 = tables db1
    /\ indexes db2 = indexes db1
    /\ migration_rows db2 = migration_rows db1 ++ [record_of m clk].
Proof.
  unfold transaction, record_migration.
  destruct (up m db) as [db1|]; [|discriminate].
  destruct (negb (has_table "schema_migrations" db1)); [discriminate|].
  destruct (mem_string (version m) (map rec_version (migration_rows db1)));
    [discriminate|].
  intros [= <-]. exists db1. repeat split.
Qed.

Lemma apply_each_all (pending : list Migration) (clk : Clock) :
  forall db db',
    commit_all pending clk db = Some db' ->
    apply_each pending clk db
    = {| final := db'; attempted := map version pending; ok := true |}.
Proof.
  induction pending as [|m rest IH]; simpl; intros db db' H.
  - now inversion H.
  - unfold apply_migration.
    destruct (transaction m clk db) as [db1|]; [|discriminate].
    now rewrite (IH _ _ H).
Qed.

Lemma apply_each_stops (pre : list Migration) (m : Migration)
  (post : list Migration) (clk : Clock) :
  forall db db1,
    commit_all pre clk db = Some db1 ->
    transaction m clk db1 = None ->
    apply_each (pre ++ m :: post) clk db
    = {| final := db1; attempted := map version (pre ++ [m]); ok := false |}.
Proof.
  induction pre as [|p pre IH]; simpl; intros db db1 H F.
  - inversion H; subst. unfold apply_migration. now rewrite F.
  - unfold apply_migration.
    destruct (transaction p clk db) as [db2|]; [|discriminate].
    now rewrite (IH _ _ H F).
Qed.

Lemma apply_each_true (pending : list Migration) (clk : Clock) :
  forall db,
    ok (apply_each pending clk db) = true ->
    commit_all pending clk db = Some (final (apply_each pending clk db)).
Proof.
  induction pending as [|m rest IH]; simpl; intros db H.
  - reflexivity.
  - unfold apply_migration in *.
    destruct (transaction m clk db) as [db1|]; simpl in *; [|discriminate].
    now apply IH.
Qed.

Lemma migrate_unfold (migrations : list Migration) (clk : Clock) (db : Database) :
  migrate migrations clk db
  = apply_each
      (get_pending_migrations migrations (create_migrations_table db))
      clk (create_migrations_table db).
Proof.
  unfold migrate.
  now destruct (get_pending_migrations migrations (create_migrations_table db)).
Qed.

(** C1.  [migrate] takes the pending migrations in the order of their
    versions.  A committed transaction holds the effect of [up] and the
    new row (version, description, duration); a failed one leaves the
    database as it was at BEGIN.  When every pending unit commits,
    [migrate] returns True on the database so reached; when the units of a
    prefix commit and the next one fails, [migrate] stops there: the
    database is the one the prefix left, nothing after the failed unit is
    attempted and the result is False.  True is returned only when all
    pending units were committed. *)
Theorem migrate_applies_in_order_and_stops_at_failure
  (appended : list Migration) (clk : Clock) (db : Database) :
  let migrations := _register_migrations appended in
  let db0 := create_migrations_table db in
  let pending := get_pending_migrations migrations db0 in
  let r := migrate migrations clk db in
  StronglySorted version_le pending
  /\ (forall m d d2,
        transaction m clk d = Some d2 ->
        apply_migration m clk d = (d2, true)
        /\ exists d1,
             up m d = Some d1
             /\ tables d2 = tables d1
             /\ indexes d2 = indexes d1
             /\ migration_rows d2 = migration_rows d1 ++ [record_of m clk])
  /\ (forall m d,
        transaction m clk d = None -> apply_migration m clk d = (d, false))
  /\ (forall db',
        commit_all pending clk db0 = Some db' ->
        r = {| final := db'; attempted := map version pending; ok := true |})
  /\ (forall pre m post db1,
        pending = pre ++ m :: post ->
        commit_all pre clk db0 = Some db1 ->
        transaction m clk db1 = None ->
        r = {| final := db1;
               attempted := map version (pre ++ [m]);
               ok := false |})
  /\ (ok r = true -> commit_all pending clk db0 = Some (final r)).
Proof.
  intros migrations db0 pending r.
  split; [apply pending_sorted|].
  split.
  { intros m d d2 H. split.
    - unfold apply_migration. now rewrite H.
    - now apply transaction_commits. }
  split.
  { intros m d H. unfold apply_migration. now rewrite H. }
  subst r. rewrite migrate_unfold. fold db0. fold pending.
  split; [intros db' H; now apply apply_each_all|].
  split.
  - intros pre m post db1 -> H F. now apply apply_each_stops.
  - apply apply_each_true.
Qed.

(** On a file that [DatabaseManager] initialised, whose [questions] table
    already has the [tags] column: 001 and 002 commit, 003 fails, 004 and
    005 are not tried. *)
Lemma migrate_applies_in_order_and_stops_at_failure_witness :
  let r := migrate (_register_migrations registered) clock0 initialised_schema in
  ok r = false
  /\ attempted r = ["001"; "002"; "003"]
  /\ map rec_version (migration_rows (final r)) = ["001"; "002"]
  /\ find_table "questions" (final r)
     = find_table "questions" initialised_schema.
Proof.
  pose proof (migrate_applies_in_order_and_stops_at_failure
                registered clock0 initialised_schema) as H.
  cbv zeta in H. destruct H as (_ & _ & _ & _ & H & _).
  cbv zeta.
  rewrite (H [InitialSchemaMigration; AddIndexesMigration]
             AddTagsColumnMigration
             [AddDifficultyLevelsMigration; AddQuizResultsTrackingMigration]
             (match commit_all [InitialSchemaMigration; AddIndexesMigration]
                      clock0 (create_migrations_table initialised_schema) with
              | Some d => d
              | None => empty_database
              end));
    [repeat split | reflexivity | reflexivity | reflexivity].
Defined.

(** C8.  Without the [schema_migrations] table the query of
    [get_applied_migrations] fails and [] is returned, so
    [get_pending_migrations] returns every registered migration, in the
    order of the versions. *)
Theorem pending_is_all_without_tracking_table
  (appended : list Migration) (db : Database) :
  has_table "schema_migrations" db = false ->
  get_applied_migrations db = []
  /\ get_pending_migrations (_register_migrations appended) db
     = _register_migrations appended
  /\ StronglySorted version_le (_register_migrations appended)
  /\ Permutation (_register_migrations appended) appended.
Proof.
  intros H.
  assert (E : get_applied_migrations db = [])
    by (unfold get_applied_migrations; now rewrite H).
  split; [exact E|].
  split.
  - unfold get_pending_migrations. rewrite E. simpl.
    induction (_register_migrations appended) as [|m l IH]; simpl; congruence.
  - split; [apply registered_sorted|apply sort_by_perm].
Qed.

Lemma pending_is_all_without_tracking_table_witness :
  get_applied_migrations empty_database = []
  /\ map version
       (get_pending_migrations (_register_migrations registered) empty_database)
     = ["001"; "002"; "003"; "004"; "005"].
Proof.
  destruct (pending_is_all_without_tracking_table registered empty_database)
    as (E & P & _); [reflexivity|].
  split; [exact E|]. rewrite P. reflexivity.
Defined.

(** ** Units that leave the bookkeeping alone *)

Lemma same_bookkeeping_trans (a b c : Database) :
  same_bookkeeping a b -> same_bookkeeping b c -> same_bookkeeping a c.
Proof. intros [H1 H2] [H3 H4]. split; congruence. Qed.

Lemma create_table_same_bookkeeping name columns autoincrement db db' :
  String.eqb name "schema_migrations" = false ->
  create_table_if_not_exists name columns autoincrement db = Some db' ->
  same_bookkeeping db db'.
Proof.
  unfold create_table_if_not_exists, same_bookkeeping. intros N.
  destruct (has_table name db); [intros [= <-]; now split|].
  intros [= <-]. simpl. split; [|reflexivity].
  unfold has_table at 1. simpl.
  destruct (autoincrement && negb (has_table "sqlite_sequence" db));
    rewrite !existsb_app; simpl; rewrite N; simpl;
    now rewrite ?orb_false_r.
Qed.

Lemma create_index_same_bookkeeping name table column db db' :
  create_index_if_not_exists name table column db = Some db' ->
  same_bookkeeping db db'.
Proof.
  unfold create_index_if_not_exists, same_bookkeeping.
  destruct (has_index name db); [intros [= <-]; now split|].
  destruct (find_table table db) as [t|]; [|discriminate].
  destruct (mem_string column (table_columns t)); [|discriminate].
  intros [= <-]. now split.
Qed.

Lemma alter_table_same_bookkeeping table column db db' :
  alter_table_add_column table column db = Some db' ->
  same_bookkeeping db db'.
Proof.
  unfold alter_table_add_column, same_bookkeeping.
  destruct (find_table table db) as [t|]; [|discriminate].
  destruct (mem_string column (table_columns t)); [discriminate|].
  intros [= <-]. split; [|reflexivity].
  unfold has_table. simpl.
  induction (tables db) as [|u l IH]; simpl; [reflexivity|].
  rewrite IH. now destruct (String.eqb (table_name u) table).
Qed.

Ltac bookkeeping :=
  repeat match goal with
  | H : match ?e with Some _ => _ | None => None end = Some _ |- _ =>
      let E := fresh "E" in destruct e eqn:E; [|discriminate H]
  | H : create_table_if_not_exists _ _ _ _ = Some _ |- _ =>
      apply create_table_same_bookkeeping in H; [|reflexivity]
  | H : create_index_if_not_exists _ _ _ _ = Some _ |- _ =>
      apply create_index_same_bookkeeping in H
  | H : alter_table_add_column _ _ _ = Some _ |- _ =>
      apply alter_table_same_bookkeeping in H
  end;
  repeat match goal with
  | H : same_bookkeeping ?a ?b, H' : same_bookkeeping ?b ?c |- _ =>
      pose proof (same_bookkeeping_trans _ _ _ H H'); clear H H'
  end;
  assumption.

Lemma registered_keep_bookkeeping (m : Migration) :
  In m registered -> keeps_bookkeeping m.
Proof.
  unfold registered. simpl.
  intros [<-|[<-|[<-|[<-|[<-|[]]]]]]; intros db db' H; simpl in H;
    change (same_bookkeeping db db'); bookkeeping.
Qed.

Lemma commit_all_rows (units : list Migration) (clk : Clock) :
  (forall m, In m units -> keeps_bookkeeping m) ->
  forall db db',
    has_table "schema_migrations" db = true ->
    commit_all units clk db = Some db' ->
    has_table "schema_migrations" db' = true
    /\ migration_rows db'
       = migration_rows db ++ map (fun m => record_of m clk) units.
Proof.
  induction units as [|m rest IH]; simpl; intros K db db' T H.
  - inversion H; subst. now rewrite app_nil_r.
  - destruct (transaction m clk db) as [d2|] eqn:E; [|discriminate].
    apply transaction_commits in E. destruct E as (d1 & U & Et & _ & Er).
    destruct (K m (or_introl eq_refl) _ _ U) as [Kt Kr].
    assert (T2 : has_table "schema_migrations" d2 = true)
      by (unfold has_table in *; rewrite Et; congruence).
    destruct (IH (fun x Hx => K x (or_intror Hx)) d2 db' T2 H) as [T' R'].
    split; [exact T'|].
    rewrite R', Er, Kr, <- app_assoc. reflexivity.
Qed.

Lemma create_migrations_table_has (db : Database) :
  has_table "schema_migrations" (create_migrations_table db) = true.
Proof.
  unfold create_migrations_table.
  destruct (has_table "schema_migrations" db) eqn:E; [exact E|].
  unfold has_table. simpl. rewrite existsb_app. simpl. apply orb_true_r.
Qed.

Lemma create_migrations_table_id (db : Database) :
  has_table "schema_migrations" db = true -> create_migrations_table db = db.
Proof. unfold create_migrations_table. now intros ->. Qed.

Lemma applied_mem (v : string) (db : Database) :
  has_table "schema_migrations" db = true ->
  mem_string v (get_applied_migrations db)
  = mem_string v (map rec_version (migration_rows db)).
Proof.
  intros T. unfold get_applied_migrations. rewrite T.
  apply mem_string_perm, Permutation_map, sort_by_perm.
Qed.

Lemma filter_nil {A} (f : A -> bool) (l : list A) :
  (forall x, In x l -> f x = false) -> filter f l = [].
Proof.
  induction l as [|x l IH]; simpl; intros H; [reflexivity|].
  rewrite (H x (or_introl eq_refl)). apply IH. intros y Hy. apply H. now right.
Qed.

Lemma second_call_after_success
  (appended : list Migration) (clk1 clk2 : Clock) (db : Database) :
  (forall m, In m appended -> keeps_bookkeeping m) ->
  second_call_changes_nothing appended clk1 clk2 db.
Proof.
  intros K. unfold second_call_changes_nothing. cbv zeta.
  set (migrations := _register_migrations appended).
  set (first := migrate migrations clk1 db). intros Hok.
  assert (Kp : forall m,
             In m (get_pending_migrations migrations
                     (create_migrations_table db)) -> keeps_bookkeeping m).
  { intros m Hm. apply filter_In in Hm. destruct Hm as [Hm _].
    apply K. exact (Permutation_in _ (sort_by_perm _ _ _) Hm). }
  pose proof (create_migrations_table_has db) as T0.
  assert (C : commit_all
                (get_pending_migrations migrations (create_migrations_table db))
                clk1 (create_migrations_table db) = Some (final first)).
  { subst first. revert Hok. rewrite migrate_unfold. apply apply_each_true. }
  destruct (commit_all_rows _ clk1 Kp _ _ T0 C) as [T R].
  assert (P : get_pending_migrations migrations (final first) = []).
  { unfold get_pending_migrations at 1. apply filter_nil. intros m Hm.
    apply negb_false_iff. rewrite (applied_mem _ _ T), R, map_app.
    apply mem_string_In, in_or_app.
    destruct (mem_string (version m)
                (get_applied_migrations (create_migrations_table db))) eqn:A.
    - left. rewrite (applied_mem _ _ T0) in A. now apply mem_string_In.
    - right. rewrite map_map. simpl.
      apply (in_map version). apply filter_In. split; [exact Hm|].
      now rewrite A. }
  split; [exact P|].
  unfold migrate. rewrite (create_migrations_table_id _ T), P. reflexivity.
Qed.

(** C2.  [migrate] twice in a row: after a first call that returned True,
    nothing is pending, and the second call attempts nothing, leaves the
    database as it is and returns True.  This holds for the five
    migrations the manager registers, from any database, and for every
    list of migrations whose [up] leaves the [schema_migrations] table to
    the manager. *)
Theorem migrate_twice_is_idempotent
  (appended : list Migration) (clk1 clk2 : Clock) (db : Database) :
  second_call_changes_nothing registered clk1 clk2 db
  /\ ((forall m, In m appended -> keeps_bookkeeping m) ->
      second_call_changes_nothing appended clk1 clk2 db).
Proof.
  split.
  - apply second_call_after_success, registered_keep_bookkeeping.
  - apply second_call_after_success.
Qed.

Lemma migrate_twice_is_idempotent_witness :
  let migrations := _register_migrations registered in
  let first := migrate migrations clock0 empty_database in
  ok first = true
  /\ get_pending_migrations migrations (final first) = []
  /\ migrate migrations clock0 (final first)
     = {| final := final first; attempted := []; ok := true |}.
Proof.
  cbv zeta. split; [reflexivity|].
  destruct (migrate_twice_is_idempotent registered clock0 clock0 empty_database)
    as [_ H].
  apply (H registered_keep_bookkeeping). reflexivity.
Defined.

(** ** [reset_database] *)

Lemma filter_filter {A} (f g : A -> bool) (l : list A) :
  filter f (filter g l) = filter (fun x => g x && f x) l.
Proof.
  induction l as [|x l IH]; simpl; [reflexivity|].
  destruct (g x); simpl; [destruct (f x)|]; now rewrite IH.
Qed.















(** The whole of [reset_database] on a migrated file: the five migrations
    run again and the tracking rows are new ones. *)
Lemma reset_database_on_migrated_schema :
  let later := {| current_timestamp := fun _ => "2024-02-01 00:00:00";
                  execution_time := fun _ => 7 |} in
  let r := reset_database (_register_migrations registered) later
             migrated_schema in
  ok r = true
  /\ attempted r = ["001"; "002"; "003"; "004"; "005"]
  /\ map rec_execution_time_ms (migration_rows migrated_schema)
     = [3; 3; 3; 3; 3]
  /\ map rec_execution_time_ms (migration_rows (final r)) = [7; 7; 7; 7; 7].
Proof. cbv zeta. repeat split; vm_compute; reflexivity. Qed.

End MigrationFacts.

(* ================================================================== *)
(** * QuizResult and QuizService *)
(* ================================================================== *)

Section ScoringFacts.
Import Notions.

(** C10.  With [total_questions = 0] the division [score /
    total_questions] would raise, and it is not reached: the [percentage]
    property returns 0.0 and the [grade] property "F", whatever the other
    fields.  The two properties raise in one case only, which has a total
    other than zero: a score so large that the quotient does not fit a
    float. *)
Theorem percentage_and_grade_guard_zero_total (r : QuizResult.QuizResult) :
  (QuizResult.total_questions r = 0 ->
   Py.truediv (QuizResult.score r) (QuizResult.total_questions r) = None
   /\ QuizResult.percentage r = Some 0%Q
   /\ QuizResult.grade r = Some "F")
  /\ (QuizResult.percentage r = None
      <-> QuizResult.total_questions r <> 0
          /\ Py.float_limit * Z.abs (QuizResult.total_questions r)
             <= Z.abs (QuizResult.score r))
  /\ (QuizResult.grade r = None <-> QuizResult.percentage r = None).
Proof.
  unfold QuizResult.grade, QuizResult.percentage, Py.truediv.
  destruct (QuizResult.total_questions r =? 0) eqn:E.
  - apply Z.eqb_eq in E. split; [|split].
    + intros _. repeat split; reflexivity.
    + split; [discriminate|]. intros [N _]. contradiction.
    + split; discriminate.
  - apply Z.eqb_neq in E. split; [|split].
    + intros Z0. contradiction.
    + destruct (Py.float_limit * Z.abs (QuizResult.total_questions r)
                <=? Z.abs (QuizResult.score r)) eqn:O.
      * apply Z.leb_le in O. split; [intros _; now split|reflexivity].
      * apply Z.leb_gt in O. split; [discriminate|]. intros [_ H]. lia.
    + destruct (Py.float_limit * Z.abs (QuizResult.total_questions r)
                <=? Z.abs (QuizResult.score r));
        split; (reflexivity || discriminate).
Qed.

Lemma percentage_and_grade_guard_zero_total_witness :
  let r := {| QuizResult.id := None; QuizResult.user_id := None;
              QuizResult.score := 0; QuizResult.total_questions := 0;
              QuizResult.time_taken := 5;
              QuizResult.completed_at := "2024-01-01 00:00:05";
              QuizResult.questions_attempted := [] |} in
  QuizResult.percentage r = Some 0%Q /\ QuizResult.grade r = Some "F".
Proof.
  cbv zeta.
  apply (proj1 (percentage_and_grade_guard_zero_total
                  {| QuizResult.id := None; QuizResult.user_id := None;
                     QuizResult.score := 0; QuizResult.total_questions := 0;
                     QuizResult.time_taken := 5;
                     QuizResult.completed_at := "2024-01-01 00:00:05";
                     QuizResult.questions_attempted := [] |})).
  reflexivity.
Defined.

(** The log line shows the float: 23 of 80 comes out as 28.7, although
    the exact value 28.75 lies half-way; an eighth is 12.5 exactly. *)
Lemma tenths_follows_the_float :
  QuizService.tenths (inject_Z 23 / inject_Z 80 * 100) = 287
  /\ QuizService.tenths (inject_Z 1 / inject_Z 8 * 100) = 125
  /\ QuizService.tenths 0 = 0.
Proof. repeat split; vm_compute; reflexivity. Qed.

Lemma sum_bool_app (l l' : list bool) :
  QuizService.sum_bool (l ++ l')
  = QuizService.sum_bool l + QuizService.sum_bool l'.
Proof.
  unfold QuizService.sum_bool.
  induction l as [|b l IH]; simpl; [reflexivity|].
  rewrite IH. apply Z.add_assoc.
Qed.

Lemma sum_bool_count (l : list bool) :
  QuizService.sum_bool l = Z.of_nat (count_occ bool_dec l true).
Proof.
  unfold QuizService.sum_bool.
  induction l as [|b l IH]; [reflexivity|].
  cbn [fold_right count_occ]. rewrite IH.
  destruct b; destruct (bool_dec _ _); try congruence; lia.
Qed.

Lemma score_loop_marks (user_answers : list string) :
  forall questions i score correct_results,
    QuizService.score_loop i questions user_answers score correct_results
    = (score + QuizService.sum_bool (marks i questions user_answers),
       correct_results ++ marks i questions user_answers).
Proof.
  induction questions as [|q rest IH]; intros i score acc; simpl.
  - now rewrite Z.add_0_r, app_nil_r.
  - destruct (nth_error user_answers i) as [a|]; rewrite IH;
      rewrite <- app_assoc; simpl; f_equal;
      try destruct (String.eqb a (Question.answer q)); lia.
Qed.

Lemma marks_length (user_answers : list string) :
  forall questions i, length (marks i questions user_answers) = length questions.
Proof. induction questions; intros; simpl; congruence. Qed.

Lemma marks_nth (user_answers : list string) :
  forall questions i k q,
    nth_error questions k = Some q ->
    nth_error (marks i questions user_answers) k
    = Some match nth_error user_answers (i + k) with
           | Some a => String.eqb a (Question.answer q)
           | None => false
           end.
Proof.
  induction questions as [|q0 rest IH]; intros i k q H.
  - destruct k; discriminate.
  - destruct k as [|k]; simpl in *.
    + inversion H; subst. now rewrite Nat.add_0_r.
    + rewrite (IH (S i) k q H). now rewrite Nat.add_succ_r.
Qed.

(** C5.  [calculate_score] returns one mark per question; the mark at an
    index is True exactly when an answer is recorded there and equals the
    [answer] of the question, and False when no answer is recorded; the
    score is the number of True marks.  For three questions whose answers
    are A, C, B and the recorded answers A, B, B, the score is 2, the marks
    are [True, False, True], and the report has percentage 200/3, shown as
    66.7, and grade D. *)
Theorem calculate_score_counts_matching_answers
  (questions : list Question.Question) (user_answers : list string)
  (q1 q2 q3 : Question.Question) (time_taken : Z) :
  let r := QuizService.calculate_score questions user_answers in
  (length (snd r) = length questions
   /\ (forall i q,
         nth_error questions i = Some q ->
         nth_error (snd r) i
         = Some match nth_error user_answers i with
                | Some a => String.eqb a (Question.answer q)
                | None => false
                end)
   /\ fst r = Z.of_nat (count_occ bool_dec (snd r) true))
  /\ (Question.answer q1 = "A" ->
      Question.answer q2 = "C" ->
      Question.answer q3 = "B" ->
      QuizService.calculate_score [q1; q2; q3] ["A"; "B"; "B"]
      = (2, [true; false; true])
      /\ let report :=
           QuizService.generate_quiz_report
             [q1; q2; q3] ["A"; "B"; "B"] [true; false; true] time_taken in
         QuizService.score report = 2
         /\ (QuizService.percentage report == 200 # 3)%Q
         /\ QuizService.tenths (QuizService.percentage report) = 667
         /\ QuizService.grade report = "D").
Proof.
  cbv zeta. unfold QuizService.calculate_score.
  rewrite score_loop_marks. simpl fst. simpl snd. split.
  - split; [apply marks_length|]. split.
    + intros i q H. now rewrite (marks_nth user_answers questions 0 i q H).
    + rewrite sum_bool_count. reflexivity.
  - intros A1 A2 A3. split.
    + rewrite score_loop_marks. simpl. now rewrite A1, A2, A3.
    + repeat split.
Qed.

Lemma calculate_score_counts_matching_answers_witness :
  let questions :=
    [example_question "A" []; example_question "C" [];
     example_question "B" []] in
  let answers := ["A"; "B"; "B"] in
  QuizService.calculate_score questions answers = (2, [true; false; true])
  /\ QuizService.tenths
       (QuizService.percentage
          (QuizService.generate_quiz_report
             questions answers [true; false; true] 30)) = 667
  /\ QuizService.grade
       (QuizService.generate_quiz_report
          questions answers [true; false; true] 30) = "D".
Proof.
  cbv zeta.
  destruct (calculate_score_counts_matching_answers
              [] [] (example_question "A" []) (example_question "C" [])
              (example_question "B" []) 30)
    as (_ & H).
  destruct H as (S & _ & _ & T & G); [reflexivity | reflexivity | reflexivity|].
  exact (conj S (conj T G)).
Defined.

End ScoringFacts.

(* ================================================================== *)
(** * QuestionRepository *)
(* ================================================================== *)

Section QuestionRepositoryFacts.
Import DatabaseManager QuestionRepository Notions.

(** ** Tags through the text column *)

Lemma split_not_nil (sep : ascii) (s : string) : Py.split sep s <> [].
Proof.
  destruct s as [|c s]; simpl; [discriminate|].
  destruct (Ascii.eqb c sep); [discriminate|].
  destruct (Py.split sep s); discriminate.
Qed.

Lemma append_empty_r (s : string) : (s ++ "")%string = s.
Proof. induction s; simpl; congruence. Qed.

Lemma split_append (sep : ascii) (t s : string) :
  has_char sep t = false ->
  Py.split sep (t ++ s)%string
  = match Py.split sep s with
    | [] => [t]
    | w :: ws => (t ++ w)%string :: ws
    end.
Proof.
  induction t as [|c t IH]; simpl; intros H.
  - now destruct (Py.split sep s) eqn:E; [destruct (split_not_nil _ _ E)|].
  - apply orb_false_iff in H. destruct H as [Hc Ht].
    rewrite Hc, (IH Ht). destruct (Py.split sep s) eqn:E;
      [destruct (split_not_nil _ _ E)|reflexivity].
Qed.

Lemma split_join (tag : string) (tags : list string) :
  forallb (fun t => negb (has_char "," t)) (tag :: tags) = true ->
  Py.split "," (Py.join "," (tag :: tags)) = tag :: tags.
Proof.
  revert tag. induction tags as [|t' ts IH]; intros tag H;
    simpl in H; apply andb_true_iff in H; destruct H as [Ht H];
    apply negb_true_iff in Ht.
  - unfold Py.join. simpl. rewrite <- (append_empty_r tag) at 1.
    rewrite (split_append _ _ _ Ht). simpl. now rewrite append_empty_r.
  - unfold Py.join in *. change (String.concat "," (tag :: t' :: ts))
      with (tag ++ String "," (String.concat "," (t' :: ts)))%string.
    rewrite (split_append _ _ _ Ht).
    change (Py.split "," (String "," (String.concat "," (t' :: ts))))
      with ("" :: Py.split "," (String.concat "," (t' :: ts))).
    rewrite (IH t' H). now rewrite append_empty_r.
Qed.

Lemma tags_round_trip (tags : list string) :
  forallb clean_tag tags = true ->
  (if Py.truthy (tags_text tags) then parse_tags (tags_text tags) else [])
  = tags.
Proof.
  intros H. destruct tags as [|tag tags]; [reflexivity|].
  assert (C : forall t, In t (tag :: tags) ->
                Py.strip t = t /\ Py.truthy t = true /\ has_char "," t = false).
  { intros t Ht. rewrite forallb_forall in H. specialize (H t Ht).
    unfold clean_tag in H. apply andb_true_iff in H. destruct H as [H H3].
    apply andb_true_iff in H. destruct H as [H1 H2].
    apply String.eqb_eq in H1. apply negb_true_iff in H3. auto. }
  assert (T : Py.truthy (tags_text (tag :: tags)) = true).
  { destruct (C tag (or_introl eq_refl)) as (_ & Tt & _).
    destruct tag as [|c tag]; [discriminate|].
    unfold tags_text, Py.join. simpl. now destruct tags. }
  rewrite T. unfold parse_tags, tags_text. rewrite split_join.
  - rewrite forallb_filter_id.
    + rewrite <- (map_id (tag :: tags)) at 2. apply map_ext_in.
      intros t Ht. apply (C t Ht).
    + apply forallb_forall. intros t Ht.
      destruct (C t Ht) as (S & Tt & _). now rewrite S.
  - apply forallb_forall. intros t Ht.
    destruct (C t Ht) as (_ & _ & N). now rewrite N.
Qed.

(** ** The row [create] inserts is the one [get_by_id] finds *)

Lemma largest_rowid_ge (seq : Z) (ids : list Z) (x : Z) :
  In x ids -> x <= fold_right Z.max seq ids.
Proof.
  induction ids as [|y ids IH]; simpl; [tauto|].
  intros [->|H]; [lia|]. specialize (IH H). lia.
Qed.

Lemma next_rowid_fresh (seq : Z) (ids : list Z) (rowid : Z) :
  next_rowid seq ids = Some rowid -> forall x, In x ids -> x < rowid.
Proof.
  unfold next_rowid. destruct (_ >=? _); [discriminate|].
  intros [= <-] x Hx. pose proof (largest_rowid_ge seq ids x Hx). lia.
Qed.

Lemma get_by_id_after_insert
  (p a b c ans cat dif tg now later : string) (st st' : Store) (rowid : Z) :
  insert_question p a b c ans cat dif tg now st = Some (rowid, st') ->
  get_by_id rowid later st'
  = Some (_row_to_question later
            {| q_id := rowid; q_prompt := p; q_option_a := a;
               q_option_b := b; q_option_c := c; q_answer := ans;
               q_category := cat; q_difficulty := dif;
               q_created_at := now; q_updated_at := now; q_tags := tg |}).
Proof.
  unfold insert_question.
  destruct (negb (Migrations.mem_string ans _)); [discriminate|].
  destruct (negb (Migrations.mem_string dif _)); [discriminate|].
  destruct (next_rowid _ _) as [r|] eqn:N; [|discriminate].
  intros [= <- <-]. unfold get_by_id. simpl.
  rewrite filter_app. simpl. rewrite Z.eqb_refl.
  rewrite filter_nil; [reflexivity|].
  intros row Hrow. apply Z.eqb_neq.
  pose proof (next_rowid_fresh _ _ _ N (q_id row) (in_map q_id _ _ Hrow)). lia.
Qed.

(** C4, as the code has it.  For a question whose tags are each non-empty,
    free of commas and without surrounding whitespace: whenever [create]
    returns an id, [get_by_id] on that id returns a question with this id
    and the same prompt, options, answer, category, difficulty and tags.
    [create] does return an id when the question is valid, its difficulty
    is one of Easy, Medium, Hard and the rowids are not used up. *)
Theorem create_then_get_by_id_gives_back_clean_questions
  (q : Question.Question) (now later : string) (st : Store) :
  forallb clean_tag (Question.tags q) = true ->
  (forall id st',
     create q now st = Some (id, st') ->
     exists q',
       get_by_id id later st' = Some q'
       /\ Question.id q' = Some id
       /\ same_user_fields q q')
  /\ (Question.is_valid q = true ->
      Migrations.mem_string (Question.difficulty q) ["Easy"; "Medium"; "Hard"]
      = true ->
      next_rowid (questions_seq st) (map q_id (questions st)) <> None ->
      exists id st', create q now st = Some (id, st')).
Proof.
  intros C. split.
  - intros id st' H. unfold create in H.
    rewrite (get_by_id_after_insert _ _ _ _ _ _ _ _ _ later _ _ _ H).
    eexists. split; [reflexivity|]. split; [reflexivity|].
    unfold same_user_fields. simpl. repeat split.
    apply tags_round_trip, C.
  - intros V D N. unfold create, insert_question.
    unfold Question.is_valid in V. apply andb_true_iff in V.
    destruct V as [_ A]. rewrite A, D. simpl.
    destruct (next_rowid _ _) as [r|]; [|congruence].
    eexists. eexists. reflexivity.
Qed.

Lemma create_then_get_by_id_gives_back_clean_questions_witness :
  let q := example_question "B" ["python"; "syntax"] in
  exists id st' q',
    create q "2024-01-01 00:00:00" (fresh_store "2023-12-31 00:00:00")
    = Some (id, st')
    /\ get_by_id id "2024-01-02 00:00:00" st' = Some q'
    /\ Question.id q' = Some id
    /\ same_user_fields q q'.
Proof.
  cbv zeta.
  destruct (create_then_get_by_id_gives_back_clean_questions
              (example_question "B" ["python"; "syntax"])
              "2024-01-01 00:00:00" "2024-01-02 00:00:00"
              (fresh_store "2023-12-31 00:00:00"))
    as [R T]; [reflexivity|].
  destruct T as (id & st' & E);
    [reflexivity | reflexivity | vm_compute; discriminate|].
  destruct (R id st' E) as (q' & G & I & S).
  exists id, st', q'. exact (conj E (conj G (conj I S))).
Defined.

(** C4, as claimed, fails for a valid question with a tag that holds a
    comma: the tag comes back as two. *)
Lemma create_then_get_by_id_splits_tag_with_comma :
  let q := example_question "B" ["lists,tuples"] in
  Question.is_valid q = true
  /\ (exists st',
        create q "2024-01-01 00:00:00" empty_store = Some (1, st')
        /\ option_map Question.tags
             (get_by_id 1 "2024-01-02 00:00:00" st')
           = Some ["lists"; "tuples"])
  /\ ~ create_then_get_gives_back q
         "2024-01-01 00:00:00" "2024-01-02 00:00:00" empty_store.
Proof.
  cbv zeta. split; [reflexivity|]. split.
  - eexists. split; reflexivity.
  - intros H.
    destruct (H 1 _ eq_refl) as (q' & G & S).
    vm_compute in G. inversion G; subst.
    destruct S as (_ & _ & _ & _ & _ & _ & _ & T). discriminate T.
Qed.

End QuestionRepositoryFacts.

Section RandomQuestionsFacts.
Import DatabaseManager QuestionRepository Notions.

Lemma map_snd_combine {A B} (l : list A) (l' : list B) :
  length l = length l' -> map snd (combine l l') = l'.
Proof.
  revert l'. induction l as [|x l IH]; destruct l' as [|y l']; simpl;
    intros H; try discriminate; [reflexivity|].
  f_equal. apply IH. now inversion H.
Qed.

Lemma order_by_random_perm {A} (random : nat -> Z) (rows : list A) :
  Permutation (order_by_random random rows) rows.
Proof.
  unfold order_by_random.
  eapply perm_trans; [apply Permutation_map, sort_by_perm|].
  rewrite map_snd_combine; [apply Permutation_refl|].
  now rewrite length_map, length_seq.
Qed.

Lemma firstn_NoDup {A} (n : nat) (l : list A) : NoDup l -> NoDup (firstn n l).
Proof.
  intros H. rewrite <- (firstn_skipn n l) in H.
  exact (NoDup_app_remove_r _ _ H).
Qed.

Lemma firstn_In {A} (n : nat) (l : list A) (x : A) :
  In x (firstn n l) -> In x l.
Proof.
  intros H. rewrite <- (firstn_skipn n l). apply in_or_app. now left.
Qed.

Lemma filter_keeps_distinct_keys {Row Key}
  (keep : Row -> bool) (key : Row -> Key) (rows : list Row) :
  NoDup (map key rows) -> NoDup (map key (filter keep rows)).
Proof.
  intros D. induction rows as [|row rows IH]; simpl; [constructor|].
  simpl in D. inversion D as [|? ? Hrow Hrows]; subst.
  destruct (keep row); simpl; [|now apply IH].
  constructor; [|now apply IH].
  intros Hin. apply Hrow. apply in_map_iff in Hin.
  destruct Hin as (other & E & Ho). apply filter_In in Ho.
  apply in_map_iff. exists other. tauto.
Qed.

Lemma map_Some_NoDup {A} (l : list A) : NoDup l -> NoDup (map Some l).
Proof.
  induction 1 as [|x l Hx Hl IH]; simpl; constructor; [|exact IH].
  intros H. apply in_map_iff in H. destruct H as (y & E & Hy).
  inversion E; subst. contradiction.
Qed.

(** Distinct integers between 1 and [bound] are at most [bound]. *)
Lemma distinct_in_range (bound : Z) (ids : list Z) :
  0 <= bound ->
  NoDup ids ->
  Forall (fun x => 1 <= x <= bound) ids ->
  Z.of_nat (length ids) <= bound.
Proof.
  intros B N F.
  assert (L : (length ids <= length (map Z.of_nat (seq 1 (Z.to_nat bound))))%nat).
  { apply NoDup_incl_length; [exact N|].
    intros x Hx. rewrite Forall_forall in F. specialize (F x Hx).
    apply in_map_iff. exists (Z.to_nat x). split; [lia|].
    apply in_seq. lia. }
  rewrite length_map, length_seq in L. lia.
Qed.

Lemma matching_length (category difficulty : option string) (st : Store) :
  primary_key st ->
  Z.of_nat (length (matching category difficulty st)) <= Py.int64_max.
Proof.
  intros [N F].
  assert (B : 0 <= Py.int64_max) by (vm_compute; discriminate).
  pose proof (distinct_in_range Py.int64_max (map q_id (questions st)) B N) as D.
  rewrite length_map in D.
  assert (Z.of_nat (length (questions st)) <= Py.int64_max).
  { apply D. apply Forall_forall. intros x Hx. apply in_map_iff in Hx.
    destruct Hx as (row & <- & Hr). rewrite Forall_forall in F. now apply F. }
  pose proof (filter_length_le
                (fun row => condition category (q_category row)
                            && condition difficulty (q_difficulty row))
                (questions st)).
  unfold matching. lia.
Qed.

(** C7.  With [count] a number of questions (not negative) and the rows of
    [questions] under their primary key: [get_random_questions] never
    returns more than [count] questions; it returns exactly [count] when
    at least that many stored questions pass the filters; every question
    returned is a stored one that passes the filters; and no question is
    returned twice. *)
Theorem get_random_questions_returns_count_distinct_stored
  (count : Z) (category difficulty : option string)
  (random : nat -> Z) (now : string) (st : Store) :
  primary_key st ->
  0 <= count ->
  let result := get_random_questions count category difficulty random now st in
  let candidates := matching category difficulty st in
  (length result <= Z.to_nat count)%nat
  /\ (count <= Z.of_nat (length candidates) ->
      length result = Z.to_nat count)
  /\ (forall q, In q result ->
        exists row,
          In row (questions st)
          /\ In row candidates
          /\ q = _row_to_question now row)
  /\ NoDup (map Question.id result)
  /\ NoDup result.
Proof.
  intros PK C result candidates. subst candidates.
  pose proof (matching_length category difficulty st PK) as ML.
  pose proof (order_by_random_perm random (matching category difficulty st))
    as P.
  assert (Lo : (count <? Py.int64_min) = false).
  { apply Z.ltb_ge. assert (Py.int64_min <= 0) by (vm_compute; discriminate).
    lia. }
  assert (Ids : NoDup (map Question.id result)).
  { subst result. unfold get_random_questions. rewrite Lo. simpl.
    destruct (Py.int64_max <? count); [constructor|].
    rewrite map_map. simpl.
    rewrite <- (map_map q_id Some).
    apply map_Some_NoDup.
    unfold limit. destruct (count <? 0) eqn:E; [apply Z.ltb_lt in E; lia|].
    rewrite <- firstn_map. apply firstn_NoDup.
    apply (Permutation_NoDup (l := map q_id (matching category difficulty st)));
      [apply Permutation_map, Permutation_sym, P|].
    apply filter_keeps_distinct_keys, PK. }
  split; [|split; [|split; [|split]]].
  - subst result. unfold get_random_questions. rewrite Lo. simpl.
    destruct (Py.int64_max <? count); [simpl; lia|].
    rewrite length_map. unfold limit.
    destruct (count <? 0) eqn:E; [apply Z.ltb_lt in E; lia|].
    apply firstn_le_length.
  - intros Hc. subst result. unfold get_random_questions. rewrite Lo. simpl.
    assert (Hi : (Py.int64_max <? count) = false) by (apply Z.ltb_ge; lia).
    rewrite Hi, length_map. unfold limit.
    destruct (count <? 0) eqn:E; [apply Z.ltb_lt in E; lia|].
    apply firstn_length_le.
    rewrite (Permutation_length P). lia.
  - intros q Hq. subst result. unfold get_random_questions in Hq.
    rewrite Lo in Hq. simpl in Hq.
    destruct (Py.int64_max <? count); [destruct Hq|].
    apply in_map_iff in Hq. destruct Hq as (row & <- & Hr).
    assert (In row (matching category difficulty st)) as Hm.
    { apply (Permutation_in _ P). unfold limit in Hr.
      destruct (count <? 0); [exact Hr|exact (firstn_In _ _ _ Hr)]. }
    exists row. split; [|split; [assumption|reflexivity]].
    unfold matching in Hm. now apply filter_In in Hm.
  - exact Ids.
  - exact (NoDup_map_inv _ _ Ids).
Qed.

Lemma fresh_store_primary_key (now : string) : primary_key (fresh_store now).
Proof.
  assert (E : map q_id (questions (fresh_store now)) = [1; 2; 3; 4; 5; 6; 7; 8])
    by (vm_compute; reflexivity).
  split.
  - rewrite E.
    repeat (constructor;
            [simpl; intros H;
             repeat (destruct H as [H|H]; [discriminate H|]); exact H|]).
    constructor.
  - apply Forall_forall. intros row Hrow.
    apply (in_map q_id) in Hrow. rewrite E in Hrow.
    assert (B : 8 <= Py.int64_max) by (vm_compute; discriminate).
    simpl in Hrow. lia.
Qed.

(** Three questions out of the eight samples. *)
Lemma get_random_questions_returns_count_distinct_stored_witness :
  let result :=
    get_random_questions 3 None None (fun i => Z.of_nat ((i * 5) mod 7))
      "2024-01-02 00:00:00" (fresh_store "2024-01-01 00:00:00") in
  length result = 3%nat
  /\ NoDup result
  /\ map Question.id result = [Some 1; Some 8; Some 4].
Proof.
  cbv zeta.
  destruct (get_random_questions_returns_count_distinct_stored
              3 None None (fun i => Z.of_nat ((i * 5) mod 7))
              "2024-01-02 00:00:00" (fresh_store "2024-01-01 00:00:00")
              (fresh_store_primary_key "2024-01-01 00:00:00"))
    as (_ & L & _ & _ & N); [lia|].
  split; [apply L; vm_compute; discriminate|].
  split; [exact N|reflexivity].
Defined.

(** A negative [count] lifts the bound: all eight samples come back. *)
Lemma get_random_questions_negative_count :
  length
    (get_random_questions (-1) None None (fun i => Z.of_nat ((i * 5) mod 7))
       "2024-01-02 00:00:00" (fresh_store "2024-01-01 00:00:00"))
  = 8%nat.
Proof. reflexivity. Qed.

End RandomQuestionsFacts.

(* ================================================================== *)
(** * UserRepository *)
(* ================================================================== *)

Section UserRepositoryFacts.
Import DatabaseManager UserRepository Notions.

Lemma first_of_filter {A} (f : A -> bool) (l : list A) :
  match filter f l with [] => None | x :: _ => Some x end = find f l.
Proof.
  induction l as [|x l IH]; simpl; [reflexivity|]. now destruct (f x).
Qed.

Lemma get_by_username_find (username : string) (st : Store) :
  get_by_username username st
  = option_map _row_to_user
      (find (fun row => String.eqb (u_username row) username) (users st)).
Proof.
  unfold get_by_username. rewrite <- first_of_filter.
  now destruct (filter _ _).
Qed.

Lemma authenticate_cases (username password now : string) (st : Store) :
  let stored :=
    find (fun row => String.eqb (u_username row) username) (users st) in
  let r := authenticate username password now st in
  (forall user,
     fst r = Some user <->
     exists row,
       stored = Some row
       /\ user = _row_to_user row
       /\ u_password_hash row = password
       /\ u_is_active row <> 0)
  /\ (forall row,
        stored = Some row ->
        u_password_hash row = password ->
        u_is_active row <> 0 ->
        users (snd r)
        = map (fun other => if u_id other =? u_id row
                            then logged_in now other else other) (users st)
        /\ questions (snd r) = questions st
        /\ quiz_results (snd r) = quiz_results st)
  /\ (fst r = None -> snd r = st).
Proof.
  cbv zeta. unfold authenticate. rewrite get_by_username_find.
  destruct (find _ (users st)) as [row|] eqn:F; simpl.
  - destruct (String.eqb_spec (u_password_hash row) password) as [P|P]; simpl.
    + destruct (u_is_active row =? 0) eqn:A; simpl.
      * apply Z.eqb_eq in A. split; [|split; [|reflexivity]].
        -- intros user. split; [discriminate|].
           intros (row' & [= <-] & _ & _ & N). contradiction.
        -- intros row' [= <-] _ N. contradiction.
      * apply Z.eqb_neq in A. split; [|split; [|discriminate]].
        -- intros user. split.
           ++ intros [= <-]. exists row. auto.
           ++ intros (row' & [= <-] & -> & _). reflexivity.
        -- intros row' [= <-] _ _. repeat split.
    + split; [|split; [|reflexivity]].
      * intros user. split; [discriminate|].
        intros (row' & [= <-] & _ & E & _). contradiction.
      * intros row' [= <-] E. contradiction.
  - split; [|split; [|reflexivity]].
    + intros user. split; [discriminate|]. intros (row' & E & _). discriminate.
    + intros row' E. discriminate.
Qed.

Lemma authenticate_on_fresh_store (now created : string) :
  (exists admin,
     fst (authenticate "admin" "admin123" now (fresh_store created))
     = Some admin
     /\ User.username admin = "admin"
     /\ User.role admin = "admin"
     /\ _init_database created = Some (fresh_store created))
  /\ fst (authenticate "admin" "wrong" now (fresh_store created)) = None.
Proof.
  split.
  - eexists. split; [vm_compute; reflexivity|].
    split; [reflexivity|]. split; [reflexivity|]. vm_compute. reflexivity.
  - vm_compute. reflexivity.
Qed.

(** C6.  [authenticate] returns a user exactly when the row stored under
    the username exists, its [password_hash] equals the password and its
    [is_active] is not 0, and the user returned is that row.  In that case
    the store differs only in [last_login] of the rows with that id, set
    to the current time; when nothing is returned the store is untouched.
    On the store of a new file, ("admin", "admin123") gives the user
    admin, whose role is admin, and ("admin", "wrong") gives nothing. *)
Theorem authenticate_checks_password_and_active
  (username password now : string) (st : Store) (created : string) :
  let stored :=
    find (fun row => String.eqb (u_username row) username) (users st) in
  let r := authenticate username password now st in
  (forall user,
     fst r = Some user <->
     exists row,
       stored = Some row
       /\ user = _row_to_user row
       /\ u_password_hash row = password
       /\ u_is_active row <> 0)
  /\ (forall row,
        stored = Some row ->
        u_password_hash row = password ->
        u_is_active row <> 0 ->
        users (snd r)
        = map (fun other => if u_id other =? u_id row
                            then logged_in now other else other) (users st)
        /\ questions (snd r) = questions st
        /\ quiz_results (snd r) = quiz_results st)
  /\ (fst r = None -> snd r = st)
  /\ (exists admin,
        fst (authenticate "admin" "admin123" now (fresh_store created))
        = Some admin
        /\ User.username admin = "admin"
        /\ User.role admin = "admin"
        /\ _init_database created = Some (fresh_store created))
  /\ fst (authenticate "admin" "wrong" now (fresh_store created)) = None.
Proof.
  intros stored r.
  destruct (authenticate_cases username password now st) as (H1 & H2 & H3).
  destruct (authenticate_on_fresh_store now created) as (H4 & H5).
  exact (conj H1 (conj H2 (conj H3 (conj H4 H5)))).
Qed.

Lemma authenticate_checks_password_and_active_witness :
  let st := fresh_store "2024-01-01 00:00:00" in
  let r := authenticate "admin" "admin123" "2024-01-02 00:00:00" st in
  option_map User.role (fst r) = Some "admin"
  /\ map u_last_login (users (snd r)) = [Some "2024-01-02 00:00:00"].
Proof.
  cbv zeta.
  destruct (authenticate_checks_password_and_active
              "admin" "admin123" "2024-01-02 00:00:00"
              (fresh_store "2024-01-01 00:00:00") "2024-01-01 00:00:00")
    as (_ & U & _ & (admin & A & _ & R & _) & _).
  split.
  - rewrite A. simpl. now rewrite R.
  - destruct (U {| u_id := 1; u_username := "admin";
                   u_password_hash := "admin123"; u_role := "admin";
                   u_created_at := "2024-01-01 00:00:00";
                   u_last_login := None; u_is_active := 1 |})
      as (Us & _);
      [vm_compute; reflexivity | reflexivity | discriminate|].
    rewrite Us. vm_compute. reflexivity.
Defined.

End UserRepositoryFacts.

(* ================================================================== *)
(** * QuizWindow: the countdown *)
(* ================================================================== *)

Section CountdownFacts.
Import DatabaseManager QuizWindow Notions.

Lemma init_counting
  (questions : list Question.Question) (auto : bool) (T : Z)
  (clk : Clock) (st : Store) :
  questions <> [] ->
  0 < T ->
  __init__ questions true auto T clk st
  = Some (counting questions auto T (T - 1), st).
Proof.
  intros Q HT. unfold __init__, _update_timer_display. simpl.
  rewrite (truediv_part T T) by lia.
  unfold _load_question. simpl.
  assert (E1 : (0 >=? Z.of_nat (length questions)) = false).
  { destruct questions; [congruence|]. simpl length. rewrite Z.geb_leb.
    apply Z.leb_gt. lia. }
  rewrite E1. simpl. unfold _start_timer, _update_timer. simpl.
  unfold _update_timer_display. simpl. rewrite (truediv_part T T) by lia.
  assert (E2 : (T <=? 0) = false) by (apply Z.leb_gt; lia).
  rewrite E2. reflexivity.
Qed.

Lemma tick_counting
  (questions : list Question.Question) (auto : bool) (limit t : Z)
  (clk : Clock) (st : Store) :
  0 < t <= limit ->
  tick clk (counting questions auto limit t, st)
  = Some (counting questions auto limit (t - 1), st).
Proof.
  intros Ht. unfold tick, _update_timer. simpl.
  unfold _update_timer_display. simpl. rewrite (truediv_part t limit) by lia.
  assert (E2 : (t <=? 0) = false) by (apply Z.leb_gt; lia).
  now rewrite E2.
Qed.

Lemma ticks_counting
  (questions : list Question.Question) (auto : bool) (limit : Z)
  (clk : Clock) (st : Store) (n : nat) :
  forall t,
    Z.of_nat n <= t <= limit ->
    ticks n clk (counting questions auto limit t, st)
    = Some (counting questions auto limit (t - Z.of_nat n), st).
Proof.
  induction n as [|n IH]; intros t Ht.
  - simpl. now rewrite Z.sub_0_r.
  - cbn [ticks]. rewrite tick_counting by lia.
    rewrite IH by lia. do 3 f_equal. lia.
Qed.

Lemma ticks_last (n : nat) (clk : Clock) (s : State) :
  ticks (S n) clk s = (s' <- ticks n clk s ;; tick clk s').
Proof.
  revert s. induction n as [|n IH]; intros s.
  - simpl. now destruct (tick clk s).
  - cbn [ticks] in *. destruct (tick clk s) as [s1|]; [|reflexivity].
    apply IH.
Qed.

Lemma marks_blank (questions : list Question.Question) (m : nat) :
  Forall (fun q => Question.answer q <> "") questions ->
  forall i, marks i questions (repeat "" m) = repeat false (length questions).
Proof.
  induction 1 as [|q rest Hq Hrest IH]; intros i; simpl; [reflexivity|].
  rewrite IH. f_equal.
  destruct (nth_error (repeat "" m) i) as [a|] eqn:E; [|reflexivity].
  apply nth_error_In, repeat_spec in E. subst a.
  apply String.eqb_neq. congruence.
Qed.

Lemma sum_bool_all_false (n : nat) :
  QuizService.sum_bool (repeat false n) = 0.
Proof.
  unfold QuizService.sum_bool. induction n; simpl; [reflexivity|assumption].
Qed.

Lemma finish_blank
  (questions : list Question.Question) (limit : Z)
  (clk : Clock) (st : Store) (rowid : Z) :
  Forall (fun q => Question.answer q <> "") questions ->
  next_rowid (quiz_results_seq st) (map r_id (quiz_results st)) = Some rowid ->
  exists st',
    _finish_quiz clk (set_timer false (counting questions true limit 0), st)
    = (submitted_blank questions limit, st')
    /\ quiz_results st'
       = quiz_results st ++ [blank_result rowid questions clk]
    /\ DatabaseManager.questions st' = DatabaseManager.questions st
    /\ users st' = users st.
Proof.
  intros A N. unfold _finish_quiz, pad_answers. simpl.
  rewrite Nat.sub_0_r. unfold QuizService.calculate_score.
  rewrite score_loop_marks, (marks_blank _ _ A), sum_bool_all_false. simpl.
  unfold QuizService.save_quiz_result, QuizResultRepository.create,
    insert_result. simpl. rewrite N.
  eexists. split; [reflexivity|]. repeat split.
Qed.

Lemma update_timer_before_zero (clk : Clock) (s s' : State) :
  0 < time_remaining (fst s) ->
  _update_timer clk s = Some s' ->
  quiz_completed (fst s') = quiz_completed (fst s) /\ snd s' = snd s.
Proof.
  destruct s as [w st]. unfold _update_timer. simpl. intros Ht.
  destruct (quiz_completed w || negb (show_timer w)) eqn:E.
  - intros [= <-]. now split.
  - destruct (_update_timer_display w); [|discriminate].
    assert (E2 : (time_remaining w <=? 0) = false) by (apply Z.leb_gt; lia).
    rewrite E2. intros [= <-]. now split.
Qed.

(** C9.  A session over a non-empty list of questions (each with an
    answer, as the table requires), with the timer shown, auto-submit on
    and a limit of [T] seconds, 5 for one: while fewer than [T] ticks
    have passed and the user did nothing, the session is not completed and
    no result is stored; the tick number [T] finds the countdown at zero
    and submits: the session is completed, every answer is blank, and one
    row with score 0 is added to [quiz_results].  Whatever the state,
    [_update_timer] completes nothing and stores nothing while time
    remains. *)
Theorem countdown_submits_blank_quiz_at_zero
  (questions : list Question.Question) (T : Z)
  (clk : Clock) (st : Store) (rowid : Z) :
  questions <> [] ->
  Forall (fun q => Question.answer q <> "") questions ->
  0 < T ->
  next_rowid (quiz_results_seq st) (map r_id (quiz_results st)) = Some rowid ->
  exists s0,
    __init__ questions true true T clk st = Some s0
    /\ (forall n,
          Z.of_nat n < T ->
          exists w,
            ticks n clk s0 = Some (w, st)
            /\ quiz_completed w = false
            /\ time_remaining w = T - 1 - Z.of_nat n)
    /\ (exists w st',
          ticks (Z.to_nat T) clk s0 = Some (w, st')
          /\ quiz_completed w = true
          /\ user_answers w = repeat "" (length questions)
          /\ quiz_results st'
             = quiz_results st ++ [blank_result rowid questions clk]
          /\ r_score (blank_result rowid questions clk) = 0
          /\ DatabaseManager.questions st' = DatabaseManager.questions st
          /\ users st' = users st)
    /\ (forall s s',
          0 < time_remaining (fst s) ->
          _update_timer clk s = Some s' ->
          quiz_completed (fst s') = quiz_completed (fst s) /\ snd s' = snd s).
Proof.
  intros Q A HT N.
  exists (counting questions true T (T - 1), st).
  assert (L : T <> 0) by lia.
  split; [now apply init_counting|]. split; [|split].
  - intros n Hn. eexists. split; [apply ticks_counting; lia|].
    split; reflexivity.
  - replace (Z.to_nat T) with (S (Z.to_nat (T - 1))) by lia.
    rewrite ticks_last, ticks_counting by lia.
    replace (T - 1 - Z.of_nat (Z.to_nat (T - 1))) with 0 by lia.
    destruct (finish_blank questions T clk st rowid A N)
      as (st' & F & R & Sq & Su).
    exists (submitted_blank questions T), st'.
    split; [|repeat split; assumption].
    unfold tick, _update_timer. simpl.
    unfold _update_timer_display. simpl. rewrite (truediv_part 0 T) by lia.
    f_equal. exact F.
  - apply update_timer_before_zero.
Qed.

Lemma countdown_submits_blank_quiz_at_zero_witness :
  let questions :=
    [example_question "A" []; example_question "C" [];
     example_question "B" []] in
  let clk := {| seconds_since_start := 5;
                current_timestamp := "2024-01-01 00:00:05" |} in
  exists s0 w st',
    __init__ questions true true 5 clk empty_store = Some s0
    /\ ticks 5 clk s0 = Some (w, st')
    /\ quiz_completed w = true
    /\ user_answers w = [""; ""; ""]
    /\ map r_score (quiz_results st') = [0].
Proof.
  cbv zeta.
  destruct (countdown_submits_blank_quiz_at_zero
              [example_question "A" []; example_question "C" [];
               example_question "B" []]
              5 {| seconds_since_start := 5;
                   current_timestamp := "2024-01-01 00:00:05" |}
              empty_store 1)
    as (s0 & I & _ & (w & st' & K & C & U & R & _) & _);
    [discriminate
    | repeat constructor; discriminate
    | lia
    | reflexivity |].
  exists s0, w, st'.
  split; [exact I|]. split; [exact K|]. split; [exact C|].
  split; [exact U|]. rewrite R. reflexivity.
Defined.

End CountdownFacts.

(* ================================================================== *)
(** * MigrationManager: rollback, status, reset *)
(* ================================================================== *)

Section RollbackFacts.
Import Migrations MigrationManager Notions.

Lemma has_table_find (n : string) (db : Database) :
  has_table n db = match find_table n db with Some _ => true | None => false end.
Proof.
  unfold has_table, find_table.
  induction (tables db) as [|t l IH]; simpl; [reflexivity|].
  destruct (String.eqb (table_name t) n); [reflexivity|exact IH].
Qed.

Lemma find_table_name (n : string) (db : Database) (t : Table) :
  find_table n db = Some t -> table_name t = n.
Proof.
  unfold find_table. intros H. apply find_some in H.
  now apply String.eqb_eq.
Qed.

Lemma find_app_none {A} (f : A -> bool) (l l' : list A) :
  find f l = None -> find f (l ++ l') = find f l'.
Proof.
  induction l as [|x l IH]; simpl; [reflexivity|].
  destruct (f x); [discriminate|exact IH].
Qed.

Lemma find_app_some {A} (f : A -> bool) (l l' : list A) (x : A) :
  find f l = Some x -> find f (l ++ l') = Some x.
Proof.
  induction l as [|y l IH]; simpl; [discriminate|].
  destruct (f y); [trivial|exact IH].
Qed.

Lemma find_app_other {A} (f : A -> bool) (l l' : list A) :
  (forall x, In x l' -> f x = false) -> find f (l ++ l') = find f l.
Proof.
  intros H. induction l as [|y l IH]; simpl.
  - destruct (find f l') as [x|] eqn:E; [|reflexivity].
    apply find_some in E. destruct E as [Hin Hx].
    rewrite (H x Hin) in Hx. discriminate.
  - destruct (f y); [reflexivity|exact IH].
Qed.

(** What the statements do to the tables, seen through [find_table]. *)

Lemma create_table_find (name : string) (columns : list string)
  (autoincrement : bool) (db : Database) :
  exists db',
    create_table_if_not_exists name columns autoincrement db = Some db'
    /\ indexes db' = indexes db
    /\ migration_rows db' = migration_rows db
    /\ find_table name db'
       = match find_table name db with
         | Some t => Some t
         | None => Some {| table_name := name; table_columns := columns |}
         end
    /\ (forall n,
          n <> name -> n <> "sqlite_sequence" ->
          find_table n db' = find_table n db).
Proof.
  unfold create_table_if_not_exists. rewrite has_table_find.
  destruct (find_table name db) as [t|] eqn:F.
  - exists db. repeat split; auto.
  - eexists. split; [reflexivity|]. simpl. repeat split.
    + unfold find_table in *. simpl.
      destruct (autoincrement && negb _); rewrite <- ?app_assoc;
        rewrite (find_app_none _ _ _ F); simpl;
        now rewrite String.eqb_refl.
    + intros n N1 N2. unfold find_table. simpl.
      assert (E1 : String.eqb name n = false)
        by (apply String.eqb_neq; congruence).
      assert (E2 : String.eqb "sqlite_sequence" n = false)
        by (apply String.eqb_neq; congruence).
      destruct (autoincrement && negb _); rewrite <- ?app_assoc;
        apply find_app_other; simpl; intros x Hx;
        intuition (subst; simpl; assumption).
Qed.

Lemma create_index_find (name table column : string) (db : Database) (t : Table) :
  find_table table db = Some t ->
  mem_string column (table_columns t) = true ->
  exists db',
    create_index_if_not_exists name table column db = Some db'
    /\ tables db' = tables db
    /\ migration_rows db' = migration_rows db.
Proof.
  intros F M. unfold create_index_if_not_exists.
  destruct (has_index name db); [exists db; auto|].
  rewrite F, M. eexists. split; [reflexivity|]. split; reflexivity.
Qed.

Lemma alter_table_find (table column : string) (db : Database) (t : Table) :
  find_table table db = Some t ->
  mem_string column (table_columns t) = false ->
  exists db',
    alter_table_add_column table column db = Some db'
    /\ indexes db' = indexes db
    /\ migration_rows db' = migration_rows db
    /\ find_table table db'
       = Some {| table_name := table_name t;
                 table_columns := table_columns t ++ [column] |}
    /\ (forall n, n <> table -> find_table n db' = find_table n db).
Proof.
  intros F M. unfold alter_table_add_column. rewrite F, M.
  eexists. split; [reflexivity|]. simpl. repeat split.
  - unfold find_table in *. simpl.
    induction (tables db) as [|u l IH]; simpl in *; [discriminate|].
    destruct (String.eqb (table_name u) table) eqn:E; simpl.
    + rewrite E. now inversion F.
    + rewrite E. apply IH, F.
  - intros n N. unfold find_table. simpl.
    induction (tables db) as [|u l IH]; simpl; [reflexivity|].
    destruct (String.eqb (table_name u) table) eqn:E; simpl.
    + apply String.eqb_eq in E.
      assert (En : String.eqb (table_name u) n = false)
        by (apply String.eqb_neq; congruence).
      now rewrite En.
    + destruct (String.eqb (table_name u) n); [reflexivity|exact IH].
Qed.

Lemma alter_table_fails_on_column (table column : string) (db : Database)
  (t : Table) :
  find_table table db = Some t ->
  mem_string column (table_columns t) = true ->
  alter_table_add_column table column db = None.
Proof. intros F M. unfold alter_table_add_column. now rewrite F, M. Qed.

Lemma record_migration_find (m : Migration) (clk : Clock) (db : Database) :
  has_table "schema_migrations" db = true ->
  mem_string (version m) (map rec_version (migration_rows db)) = false ->
  exists db',
    record_migration m clk db = Some db'
    /\ tables db' = tables db
    /\ indexes db' = indexes db
    /\ migration_rows db' = migration_rows db ++ [record_of m clk].
Proof.
  intros T M. unfold record_migration. rewrite T, M. simpl.
  eexists. split; [reflexivity|]. repeat split.
Qed.

Lemma find_table_tables (n : string) (db db' : Database) :
  tables db' = tables db -> find_table n db' = find_table n db.
Proof. unfold find_table. now intros ->. Qed.

End RollbackFacts.

Section RollbackEffect.
Import Migrations MigrationManager Notions MoreNotions.

Lemma applied_In (v : string) (db : Database) :
  has_table "schema_migrations" db = true ->
  In v (get_applied_migrations db)
  <-> In v (map rec_version (migration_rows db)).
Proof.
  intros T. rewrite <- !mem_string_In. now rewrite (applied_mem v db T).
Qed.

Lemma applied_needs_table (v : string) (db : Database) :
  In v (get_applied_migrations db) -> has_table "schema_migrations" db = true.
Proof.
  unfold get_applied_migrations.
  destruct (has_table "schema_migrations" db); [trivial|intros []].
Qed.

Lemma has_table_tables (n : string) (db db' : Database) :
  tables db' = tables db -> has_table n db' = has_table n db.
Proof. unfold has_table. now intros ->. Qed.

(** X1.  [rollback_migration], for a migration whose [down] leaves the
    [schema_migrations] table alone: when it returns False the database
    is the one it started from; when it returns True the version is not
    among the applied ones any more, every other applied version still
    is, and the migration, if registered, is pending again. *)
Theorem rollback_makes_the_migration_pending
  (m : Reversible) (migrations : list Migration) (db : Database) :
  (forall d d', down m d = Some d' -> same_bookkeeping d d') ->
  let r := rollback_migration m db in
  (snd r = false -> fst r = db)
  /\ (snd r = true ->
      ~ In (version (unit m)) (get_applied_migrations (fst r))
      /\ (forall v,
            v <> version (unit m) ->
            In v (get_applied_migrations (fst r))
            <-> In v (get_applied_migrations db))
      /\ (In (unit m) migrations ->
          In (unit m) (get_pending_migrations migrations (fst r)))).
Proof.
  intros K. cbv zeta. unfold rollback_migration.
  destruct (down m db) as [d1|] eqn:D; [|split; [reflexivity|discriminate]].
  destruct (K _ _ D) as [Kt Kr].
  unfold delete_record.
  destruct (has_table "schema_migrations" d1) eqn:T; simpl;
    [|split; [reflexivity|discriminate]].
  split; [discriminate|]. intros _.
  set (d2 := {| tables := tables d1; indexes := indexes d1;
                migration_rows := filter _ (migration_rows d1) |}).
  assert (T2 : has_table "schema_migrations" d2 = true) by exact T.
  assert (T0 : has_table "schema_migrations" db = true) by congruence.
  assert (A : forall v,
             In v (get_applied_migrations d2)
             <-> v <> version (unit m) /\ In v (get_applied_migrations db)).
  { intros v. rewrite (applied_In v d2 T2), (applied_In v db T0).
    subst d2. simpl. rewrite Kr, !in_map_iff. split.
    - intros (r & <- & Hr). apply filter_In in Hr. destruct Hr as [Hr N].
      apply negb_true_iff, String.eqb_neq in N. split; [exact N|].
      exists r. auto.
    - intros (N & r & <- & Hr). exists r. split; [reflexivity|].
      apply filter_In. split; [exact Hr|].
      now apply negb_true_iff, String.eqb_neq. }
  split; [|split].
  - intros H. apply A in H. now destruct H.
  - intros v N. rewrite A. tauto.
  - intros Hm. unfold get_pending_migrations. apply filter_In.
    split; [exact Hm|]. apply negb_true_iff, not_true_is_false.
    intros H. apply mem_string_In, A in H. now destruct H.
Qed.

Lemma drop_table_same_bookkeeping (name : string) (db db' : Database) :
  String.eqb name "schema_migrations" = false ->
  drop_table_if_exists name db = Some db' ->
  same_bookkeeping db db'.
Proof.
  unfold drop_table_if_exists, same_bookkeeping. intros N.
  destruct (String.eqb name "sqlite_sequence").
  - destruct (has_table name db); [discriminate|]. intros [= <-]. now split.
  - destruct (String.eqb name "users" && has_table "users" db
              && has_table "quiz_results" db && refers_to_a_user db);
      [discriminate|].
    intros [= <-]. simpl. rewrite N. split; [|reflexivity].
    unfold has_table. simpl.
    induction (tables db) as [|t l IH]; simpl; [reflexivity|].
    destruct (String.eqb_spec (table_name t) name) as [E|E]; simpl.
    + rewrite IH, E, N. reflexivity.
    + now rewrite IH.
Qed.

Lemma drop_index_same_bookkeeping (name : string) (db db' : Database) :
  drop_index_if_exists name db = Some db' -> same_bookkeeping db db'.
Proof. intros [= <-]. now split. Qed.

Lemma update_set_same (table column : string) (db db' : Database) :
  update_set table column db = Some db' -> db' = db.
Proof.
  unfold update_set. destruct (find_table table db) as [t|]; [|discriminate].
  destruct (mem_string column (table_columns t)); [|discriminate].
  now intros [= <-].
Qed.

Lemma registered_down_keep_bookkeeping (m : Reversible) :
  In m [InitialSchemaMigration; AddIndexesMigration; AddTagsColumnMigration;
        AddDifficultyLevelsMigration; AddQuizResultsTrackingMigration] ->
  forall d d', down m d = Some d' -> same_bookkeeping d d'.
Proof.
  simpl. intros [<-|[<-|[<-|[<-|[<-|[]]]]]] d d' H;
    cbv [down InitialSchemaMigration AddIndexesMigration
         AddTagsColumnMigration AddDifficultyLevelsMigration
         AddQuizResultsTrackingMigration] in H;
    repeat match goal with
    | H : match ?e with Some _ => _ | None => None end = Some _ |- _ =>
        let E := fresh "E" in destruct e eqn:E; [|discriminate H]
    | H : drop_table_if_exists _ _ = Some _ |- _ =>
        apply drop_table_same_bookkeeping in H; [|reflexivity]
    | H : drop_index_if_exists _ _ = Some _ |- _ =>
        apply drop_index_same_bookkeeping in H
    | H : update_set _ _ _ = Some _ |- _ =>
        apply update_set_same in H; subst
    end;
    repeat match goal with
    | H : same_bookkeeping ?a ?b, H' : same_bookkeeping ?b ?c |- _ =>
        pose proof (same_bookkeeping_trans _ _ _ H H'); clear H H'
    end;
    try assumption; now split.
Qed.

(** The tracking of quiz results is rolled back on a migrated file. *)
Lemma rollback_makes_the_migration_pending_witness :
  let r := rollback_migration AddQuizResultsTrackingMigration migrated_schema in
  snd r = true
  /\ get_applied_migrations (fst r) = ["001"; "002"; "003"; "004"]
  /\ In Migrations.AddQuizResultsTrackingMigration
       (get_pending_migrations registered (fst r)).
Proof.
  cbv zeta.
  destruct (rollback_makes_the_migration_pending
              AddQuizResultsTrackingMigration registered migrated_schema)
    as [_ H].
  - apply registered_down_keep_bookkeeping. simpl. tauto.
  - split; [reflexivity|]. split; [reflexivity|].
    apply H; [reflexivity|]. simpl. tauto.
Defined.

End RollbackEffect.

Section MigrateOutcomeFacts.
Import Migrations MigrationManager Notions MoreNotions.

Lemma apply_each_commits_prefix (pending : list Migration) (clk : Clock) :
  forall db,
    exists pre post,
      pending = pre ++ post
      /\ commit_all pre clk db = Some (final (apply_each pending clk db))
      /\ (ok (apply_each pending clk db) = true -> post = [])
      /\ (ok (apply_each pending clk db) = false ->
          exists m rest,
            post = m :: rest
            /\ transaction m clk (final (apply_each pending clk db)) = None).
Proof.
  induction pending as [|m rest IH]; intros db.
  - exists [], []. simpl. repeat split; [discriminate].
  - simpl. unfold apply_migration.
    destruct (transaction m clk db) as [d1|] eqn:E.
    + destruct (IH d1) as (pre & post & P & C & T & F).
      exists (m :: pre), post. simpl. rewrite E.
      split; [now rewrite P|]. split; [exact C|]. split; assumption.
    + exists [], (m :: rest). simpl. split; [reflexivity|].
      split; [reflexivity|]. split; [discriminate|]. intros _.
      exists m, rest. split; [reflexivity|exact E].
Qed.

Lemma pending_distinct_versions (appended : list Migration) (db : Database) :
  NoDup (map version appended) ->
  NoDup (map version
           (get_pending_migrations (_register_migrations appended) db)).
Proof.
  intros N. unfold get_pending_migrations.
  apply filter_keeps_distinct_keys.
  apply (Permutation_NoDup (l := map version appended)); [|exact N].
  apply Permutation_map, Permutation_sym, sort_by_perm.
Qed.

(** X2.  For migrations with distinct versions whose [up] leaves the
    [schema_migrations] table alone: [migrate] returns True exactly when
    nothing is pending afterwards (after a False the unit that failed is
    still pending), and whatever it returns, every version that was
    applied before is applied after. *)
Theorem migrate_true_iff_nothing_left_pending
  (appended : list Migration) (clk : Clock) (db : Database) :
  (forall m, In m appended -> keeps_bookkeeping m) ->
  NoDup (map version appended) ->
  let migrations := _register_migrations appended in
  let r := migrate migrations clk db in
  (ok r = true <-> get_pending_migrations migrations (final r) = [])
  /\ (forall v,
        In v (get_applied_migrations db) ->
        In v (get_applied_migrations (final r))).
Proof.
  intros K N migrations r.
  pose proof (create_migrations_table_has db) as T0.
  set (db0 := create_migrations_table db) in *.
  set (pending := get_pending_migrations migrations db0).
  assert (Kp : forall m, In m pending -> keeps_bookkeeping m).
  { intros m Hm. apply filter_In in Hm. destruct Hm as [Hm _].
    apply K. exact (Permutation_in _ (sort_by_perm _ _ _) Hm). }
  assert (R : r = apply_each pending clk db0)
    by (subst r; apply migrate_unfold).
  destruct (apply_each_commits_prefix pending clk db0)
    as (pre & post & P & C & St & Sf).
  rewrite <- R in C, St, Sf.
  assert (Kpre : forall m, In m pre -> keeps_bookkeeping m).
  { intros m Hm. apply Kp. rewrite P. apply in_or_app. now left. }
  destruct (commit_all_rows pre clk Kpre _ _ T0 C) as [T Rows].
  split; [split|].
  - intros Hok.
    exact (proj1 (second_call_after_success appended clk clk db K Hok)).
  - intros Hp. destruct (ok r) eqn:Hok; [reflexivity|exfalso].
    destruct (Sf eq_refl) as (m & rest & -> & _).
    assert (Hm : In m pending) by (rewrite P; apply in_or_app; right; now left).
    pose proof (pending_distinct_versions appended db0 N) as D.
    fold migrations in D. fold pending in D.
    rewrite P, map_app in D. simpl in D. apply NoDup_remove_2 in D.
    apply filter_In in Hm. destruct Hm as [Hin Hf].
    assert (In m (get_pending_migrations migrations (final r))).
    { apply filter_In. split; [exact Hin|].
      apply negb_true_iff, not_true_is_false. intros H.
      rewrite (applied_mem _ _ T), Rows, map_app in H.
      apply mem_string_In, in_app_or in H. destruct H as [H|H].
      - apply negb_true_iff in Hf. rewrite (applied_mem _ _ T0) in Hf.
        apply mem_string_In in H. congruence.
      - rewrite map_map in H. simpl in H. apply D, in_or_app. now left. }
    rewrite Hp in H. destruct H.
  - intros v Hv.
    pose proof (applied_needs_table v db Hv) as Tdb.
    apply (applied_In v _ T). rewrite Rows, map_app. apply in_or_app. left.
    subst db0. rewrite (create_migrations_table_id _ Tdb).
    now apply (applied_In v db Tdb).
Qed.

Lemma registered_versions_distinct : NoDup (map version registered).
Proof.
  simpl.
  repeat (constructor;
          [simpl; intros H;
           repeat (destruct H as [H|H]; [discriminate H|]); exact H|]).
  constructor.
Qed.

(** On a file [DatabaseManager] initialised, [migrate] returns False and
    003, 004, 005 stay pending. *)
Lemma migrate_true_iff_nothing_left_pending_witness :
  let migrations := _register_migrations registered in
  let r := migrate migrations clock0 initialised_schema in
  ok r = false
  /\ get_pending_migrations migrations (final r) <> []
  /\ map version (get_pending_migrations migrations (final r))
     = ["003"; "004"; "005"].
Proof.
  cbv zeta.
  destruct (migrate_true_iff_nothing_left_pending
              registered clock0 initialised_schema
              registered_keep_bookkeeping registered_versions_distinct)
    as [[_ H] _].
  split; [reflexivity|]. split; [|reflexivity].
  intros E. specialize (H E). vm_compute in H. discriminate H.
Defined.

End MigrateOutcomeFacts.

Section ColumnMigrationFacts.
Import Migrations MigrationManager Notions MoreNotions.

Lemma registered_already_sorted : _register_migrations registered = registered.
Proof. reflexivity. Qed.

Lemma mem_string_app (s : string) (l l' : list string) :
  mem_string s (l ++ l') = mem_string s l || mem_string s l'.
Proof. unfold mem_string. apply existsb_app. Qed.

(** How [up] and the insert of the record act on the [questions] table. *)

Lemma create_table_keeps_column (c name : string) (columns : list string)
  (ai : bool) (db db' : Database) :
  create_table_if_not_exists name columns ai db = Some db' ->
  name <> "sqlite_sequence" ->
  questions_has_column c db -> questions_has_column c db'.
Proof.
  intros H Ns (cols & F & M).
  destruct (create_table_find name columns ai db) as (d & E & _ & _ & Fn & Fo).
  rewrite E in H. inversion H; subst d. clear H E.
  exists cols. split; [|exact M]. unfold columns_of in *.
  destruct (String.eqb_spec "questions" name) as [<-|N].
  - rewrite Fn. destruct (find_table "questions" db); [exact F|discriminate].
  - rewrite Fo; [exact F|exact N|discriminate].
Qed.

Lemma create_index_keeps_column (c name table column : string)
  (db db' : Database) :
  create_index_if_not_exists name table column db = Some db' ->
  questions_has_column c db -> questions_has_column c db'.
Proof.
  unfold create_index_if_not_exists.
  destruct (has_index name db); [now intros [= <-]|].
  destruct (find_table table db) as [t|]; [|discriminate].
  destruct (mem_string column (table_columns t)); [|discriminate].
  intros [= <-]. exact (fun H => H).
Qed.

Lemma alter_table_keeps_column (c table column : string) (db db' : Database) :
  alter_table_add_column table column db = Some db' ->
  questions_has_column c db -> questions_has_column c db'.
Proof.
  intros H (cols & F & M). unfold alter_table_add_column in H.
  destruct (find_table table db) as [t|] eqn:Ft; [|discriminate].
  destruct (mem_string column (table_columns t)) eqn:Mc; [discriminate|].
  destruct (alter_table_find table column db t Ft Mc)
    as (d & E & _ & _ & Fn & Fo).
  unfold alter_table_add_column in E. rewrite Ft, Mc in E. rewrite E in H.
  inversion H; subst d. clear H E.
  unfold questions_has_column, columns_of in *.
  destruct (String.eqb_spec "questions" table) as [<-|N].
  - rewrite Fn. simpl. rewrite Ft in F. simpl in F. inversion F; subst cols.
    exists (table_columns t ++ [column]). split; [reflexivity|].
    now rewrite mem_string_app, M.
  - rewrite (Fo _ N). exists cols. auto.
Qed.

Lemma record_keeps_column (c : string) (m : Migration) (clk : Clock)
  (db db' : Database) :
  record_migration m clk db = Some db' ->
  questions_has_column c db -> questions_has_column c db'.
Proof.
  unfold record_migration.
  destruct (negb _); [discriminate|]. destruct (mem_string _ _); [discriminate|].
  intros [= <-]. exact (fun H => H).
Qed.

Lemma create_migrations_table_keeps_column (c : string) (db : Database) :
  questions_has_column c db ->
  questions_has_column c (create_migrations_table db).
Proof.
  intros (cols & F & M). unfold create_migrations_table.
  destruct (has_table "schema_migrations" db); [exists cols; auto|].
  exists cols. split; [|exact M]. unfold columns_of, find_table in *. simpl.
  destruct (find _ (tables db)) as [t|] eqn:E; [|discriminate].
  now rewrite (find_app_some _ _ _ _ E).
Qed.

Ltac keep_column :=
  repeat match goal with
  | H : match ?e with Some _ => _ | None => None end = Some _ |- _ =>
      let E := fresh "E" in destruct e eqn:E; [|discriminate H]
  end;
  repeat match goal with
  | H : create_table_if_not_exists _ _ _ ?d = Some _,
    P : questions_has_column _ ?d |- _ =>
      apply (create_table_keeps_column _ _ _ _ _ _ H) in P; [|discriminate]
  | H : create_index_if_not_exists _ _ _ ?d = Some _,
    P : questions_has_column _ ?d |- _ =>
      apply (create_index_keeps_column _ _ _ _ _ _ H) in P
  | H : alter_table_add_column _ _ ?d = Some _,
    P : questions_has_column _ ?d |- _ =>
      apply (alter_table_keeps_column _ _ _ _ _ H) in P
  | H : record_migration _ _ ?d = Some _,
    P : questions_has_column _ ?d |- _ =>
      apply (record_keeps_column _ _ _ _ _ H) in P
  end;
  assumption.

Lemma early_migrations_keep_column (c : string) (m : Migration) (clk : Clock)
  (db db' : Database) :
  In m [Migrations.InitialSchemaMigration; Migrations.AddIndexesMigration;
        Migrations.AddTagsColumnMigration] ->
  transaction m clk db = Some db' ->
  questions_has_column c db -> questions_has_column c db'.
Proof.
  simpl. intros [<-|[<-|[<-|[]]]] H P; unfold transaction in H;
    cbv [up Migrations.InitialSchemaMigration Migrations.AddIndexesMigration
         Migrations.AddTagsColumnMigration] in H;
    keep_column.
Qed.

Lemma apply_each_blocked (P : Database -> Prop) (clk : Clock) (m : Migration)
  (post : list Migration) :
  (forall d, P d -> transaction m clk d = None) ->
  forall pre db,
    (forall u d d', In u pre -> transaction u clk d = Some d' -> P d -> P d') ->
    P db ->
    ok (apply_each (pre ++ m :: post) clk db) = false.
Proof.
  intros B. induction pre as [|u pre IH]; intros db K Hp; simpl;
    unfold apply_migration.
  - now rewrite (B db Hp).
  - destruct (transaction u clk db) as [d1|] eqn:E; [|reflexivity].
    simpl. apply IH.
    + intros u' d d' Hu. apply K. now right.
    + exact (K u db d1 (or_introl eq_refl) E Hp).
Qed.

Lemma rollback_success (m : Reversible) (db db' : Database) :
  rollback_migration m db = (db', true) ->
  exists d1,
    down m db = Some d1
    /\ has_table "schema_migrations" d1 = true
    /\ tables db' = tables d1
    /\ migration_rows db'
       = filter (fun r => negb (String.eqb (rec_version r) (version (unit m))))
           (migration_rows d1).
Proof.
  unfold rollback_migration, delete_record.
  destruct (down m db) as [d1|]; [|discriminate].
  destruct (has_table "schema_migrations" d1) eqn:T; simpl; [|discriminate].
  intros [= <-]. exists d1. auto.
Qed.

Lemma rolled_back_not_applied (m : Reversible) (db db' : Database) :
  rollback_migration m db = (db', true) ->
  has_table "schema_migrations" db' = true
  /\ mem_string (version (unit m)) (get_applied_migrations db') = false.
Proof.
  intros H. destruct (rollback_success m db db' H) as (d1 & _ & T & Et & Er).
  assert (T' : has_table "schema_migrations" db' = true)
    by (rewrite (has_table_tables _ _ _ Et); exact T).
  split; [exact T'|]. apply not_true_is_false. intros M.
  rewrite (applied_mem _ _ T'), Er in M. apply mem_string_In, in_map_iff in M.
  destruct M as (r & E & Hr). apply filter_In in Hr. destruct Hr as [_ N].
  apply negb_true_iff, String.eqb_neq in N. congruence.
Qed.

(** X3.  After a successful rollback of the tags migration (003) or of the
    difficulty migration (004) the column is still in [questions], since
    [down] only resets its values.  So the migration cannot be applied
    again, ALTER TABLE failing on the duplicate column, and every later
    [migrate] returns False. *)
Theorem rolled_back_column_migration_blocks_migrate
  (m : Reversible) (clk : Clock) (db db' : Database) :
  m = AddTagsColumnMigration \/ m = AddDifficultyLevelsMigration ->
  rollback_migration m db = (db', true) ->
  apply_migration (unit m) clk db' = (db', false)
  /\ ok (migrate (_register_migrations registered) clk db') = false.
Proof.
  intros Hm R.
  destruct (rolled_back_not_applied m db db' R) as [T A].
  destruct (rollback_success m db db' R) as (d1 & D & _ & Et & _).
  destruct Hm as [-> | ->].
  - assert (B : forall d, questions_has_column "tags" d ->
                  transaction Migrations.AddTagsColumnMigration clk d = None).
    { intros d (cols & F & M). unfold transaction, columns_of in *. simpl.
      destruct (find_table "questions" d) as [t|] eqn:Ft; [|discriminate].
      inversion F; subst cols.
      now rewrite (alter_table_fails_on_column _ _ _ _ Ft M). }
    assert (P : questions_has_column "tags" db').
    { unfold questions_has_column, columns_of.
      rewrite (find_table_tables _ _ _ Et). simpl in D.
      pose proof (update_set_same _ _ _ _ D); subst d1.
      unfold update_set in D.
      destruct (find_table "questions" db) as [t|]; [|discriminate].
      destruct (mem_string "tags" (table_columns t)) eqn:M; [|discriminate].
      exists (table_columns t). auto. }
    split; [unfold apply_migration; simpl unit; now rewrite (B db' P)|].
    rewrite migrate_unfold, registered_already_sorted.
    rewrite (create_migrations_table_id _ T).
    unfold get_pending_migrations.
    set (f := fun u : Migration =>
                negb (mem_string (version u) (get_applied_migrations db'))).
    change registered
      with ([Migrations.InitialSchemaMigration; Migrations.AddIndexesMigration]
            ++ Migrations.AddTagsColumnMigration
               :: [Migrations.AddDifficultyLevelsMigration;
                   Migrations.AddQuizResultsTrackingMigration]).
    rewrite filter_app.
    assert (Fm : forall post,
               filter f (Migrations.AddTagsColumnMigration :: post)
               = Migrations.AddTagsColumnMigration :: filter f post).
    { intros post. cbn [filter]. unfold f at 1. simpl in A.
      simpl version. now rewrite A. }
    rewrite Fm.
    apply (apply_each_blocked (questions_has_column "tags")); [exact B| |exact P].
    intros u d d' Hu. apply filter_In in Hu. destruct Hu as [Hu _].
    apply early_migrations_keep_column. simpl in *. tauto.
  - assert (B : forall d, questions_has_column "difficulty" d ->
                  transaction Migrations.AddDifficultyLevelsMigration clk d
                  = None).
    { intros d (cols & F & M). unfold transaction, columns_of in *. simpl.
      destruct (find_table "questions" d) as [t|] eqn:Ft; [|discriminate].
      inversion F; subst cols.
      now rewrite (alter_table_fails_on_column _ _ _ _ Ft M). }
    assert (P : questions_has_column "difficulty" db').
    { unfold questions_has_column, columns_of.
      rewrite (find_table_tables _ _ _ Et). simpl in D.
      pose proof (update_set_same _ _ _ _ D) as S. unfold update_set in D.
      rewrite <- S in D.
      destruct (find_table "questions" d1) as [t|]; [|discriminate].
      destruct (mem_string "difficulty" (table_columns t)) eqn:M; [|discriminate].
      exists (table_columns t). auto. }
    split; [unfold apply_migration; simpl unit; now rewrite (B db' P)|].
    rewrite migrate_unfold, registered_already_sorted.
    rewrite (create_migrations_table_id _ T).
    unfold get_pending_migrations.
    set (f := fun u : Migration =>
                negb (mem_string (version u) (get_applied_migrations db'))).
    change registered
      with ([Migrations.InitialSchemaMigration; Migrations.AddIndexesMigration;
             Migrations.AddTagsColumnMigration]
            ++ Migrations.AddDifficultyLevelsMigration
               :: [Migrations.AddQuizResultsTrackingMigration]).
    rewrite filter_app.
    assert (Fm : forall post,
               filter f (Migrations.AddDifficultyLevelsMigration :: post)
               = Migrations.AddDifficultyLevelsMigration :: filter f post).
    { intros post. cbn [filter]. unfold f at 1. simpl in A.
      simpl version. now rewrite A. }
    rewrite Fm.
    apply (apply_each_blocked (questions_has_column "difficulty"));
      [exact B| |exact P].
    intros u d d' Hu. apply filter_In in Hu. destruct Hu as [Hu _].
    now apply early_migrations_keep_column.
Qed.

Lemma rolled_back_column_migration_blocks_migrate_witness :
  let r := rollback_migration AddTagsColumnMigration migrated_schema in
  snd r = true
  /\ ok (migrate (_register_migrations registered) clock0 (fst r)) = false.
Proof.
  cbv zeta. split; [reflexivity|].
  apply (rolled_back_column_migration_blocks_migrate
           AddTagsColumnMigration clock0 migrated_schema).
  - now left.
  - reflexivity.
Defined.

End ColumnMigrationFacts.

Section ResetFacts.
Import Migrations MigrationManager Notions MoreNotions SchemaNotions.

Lemma columns_of_tables (n : string) (db db' : Database) :
  tables db' = tables db -> columns_of n db' = columns_of n db.
Proof. unfold columns_of. intros H. now rewrite (find_table_tables _ _ _ H). Qed.

Lemma create_table_shape (name : string) (columns : list string)
  (db : Database) :
  name <> "sqlite_sequence" ->
  name <> "schema_migrations" ->
  exists db',
    create_table_if_not_exists name columns true db = Some db'
    /\ migration_rows db' = migration_rows db
    /\ has_table "schema_migrations" db' = has_table "schema_migrations" db
    /\ columns_of name db'
       = match columns_of name db with
         | Some c => Some c
         | None => Some columns
         end
    /\ (forall n,
          n <> name -> n <> "sqlite_sequence" ->
          columns_of n db' = columns_of n db).
Proof.
  intros N1 N2.
  destruct (create_table_find name columns true db) as (d & E & _ & R & F & O).
  exists d. split; [exact E|]. split; [exact R|]. split; [|split].
  - rewrite !has_table_find. rewrite O; [reflexivity| |discriminate].
    congruence.
  - unfold columns_of. rewrite F. now destruct (find_table name db).
  - intros n H1 H2. unfold columns_of. now rewrite O.
Qed.

Lemma create_index_shape (name table column : string) (columns : list string)
  (db : Database) :
  columns_of table db = Some columns ->
  mem_string column columns = true ->
  exists db',
    create_index_if_not_exists name table column db = Some db'
    /\ tables db' = tables db
    /\ migration_rows db' = migration_rows db.
Proof.
  unfold columns_of. intros F M.
  destruct (find_table table db) as [t|] eqn:Ft; [|discriminate].
  inversion F; subst columns.
  exact (create_index_find name table column db t Ft M).
Qed.


Lemma record_shape (m : Migration) (clk : Clock) (q u r : option (list string))
  (vs : list string) (db : Database) :
  shape q u r vs db ->
  mem_string (version m) vs = false ->
  exists db',
    record_migration m clk db = Some db'
    /\ shape q u r (vs ++ [version m]) db'.
Proof.
  intros (Q & U & R & T & V) M. rewrite <- V in M.
  destruct (record_migration_find m clk db T M) as (d & E & Et & _ & Er).
  exists d. split; [exact E|]. unfold shape.
  rewrite !(columns_of_tables _ _ _ Et), (has_table_tables _ _ _ Et), Er.
  rewrite map_app, V. simpl. auto.
Qed.






Lemma run_add_quiz_results (clk : Clock) (q u : option (list string))
  (vs : list string) (db : Database) :
  shape q u None vs db ->
  mem_string "005" vs = false ->
  exists db',
    transaction Migrations.AddQuizResultsTrackingMigration clk db = Some db'
    /\ shape q u (Some quiz_results_columns) (vs ++ ["005"]) db'.
Proof.
  intros (Q & U & R & T & V) M. unfold transaction. simpl up.
  destruct (create_table_shape "quiz_results" quiz_results_columns db)
    as (d1 & E1 & R1 & T1 & F1 & O1); [discriminate|discriminate|].
  unfold quiz_results_columns in E1 at 1. rewrite E1. rewrite R in F1.
  destruct (create_index_shape "idx_quiz_results_user" "quiz_results"
              "user_id" _ d1 F1 eq_refl) as (d2 & E2 & T2 & R2).
  rewrite E2. rewrite <- (columns_of_tables _ _ _ T2) in F1.
  destruct (create_index_shape "idx_quiz_results_completed" "quiz_results"
              "completed_at" _ d2 F1 eq_refl) as (d3 & E3 & T3 & R3).
  rewrite E3.
  apply (record_shape Migrations.AddQuizResultsTrackingMigration clk);
    [|exact M].
  unfold shape. rewrite !(columns_of_tables _ _ _ T3),
    (has_table_tables _ _ _ T3), R3.
  rewrite F1. rewrite !(columns_of_tables _ _ _ T2),
    (has_table_tables _ _ _ T2), R2.
  rewrite !O1, T1, R1 by discriminate. auto.
Qed.

End ResetFacts.

Section ResetAndRestore.
Import Migrations MigrationManager Notions MoreNotions SchemaNotions.

Lemma find_filter_other (n x : string) (l : list Table) :
  n <> x ->
  find (fun t => String.eqb (table_name t) n)
    (filter (fun t => negb (String.eqb (table_name t) x)) l)
  = find (fun t => String.eqb (table_name t) n) l.
Proof.
  intros N. induction l as [|t l IH]; simpl; [reflexivity|].
  destruct (String.eqb_spec (table_name t) x) as [E|E]; simpl.
  - assert (En : String.eqb (table_name t) n = false)
      by (apply String.eqb_neq; congruence).
    now rewrite En.
  - destruct (String.eqb (table_name t) n); [reflexivity|exact IH].
Qed.

Lemma find_filter_same (x : string) (l : list Table) :
  find (fun t => String.eqb (table_name t) x)
    (filter (fun t => negb (String.eqb (table_name t) x)) l)
  = None.
Proof.
  induction l as [|t l IH]; simpl; [reflexivity|].
  destruct (String.eqb (table_name t) x) eqn:E; simpl; [exact IH|].
  now rewrite E.
Qed.






Lemma rollback_makes_migration_bookkeeping (db db' : Database) :
  rollback_migration AddQuizResultsTrackingMigration db = (db', true) ->
  columns_of "questions" db' = columns_of "questions" db
  /\ columns_of "users" db' = columns_of "users" db
  /\ columns_of "quiz_results" db' = None
  /\ (forall v, v <> "005" ->
                In v (get_applied_migrations db) ->
                In v (get_applied_migrations db')).
Proof.
  intros R. destruct (rolled_back_not_applied _ _ _ R) as [T _].
  destruct (rollback_success _ _ _ R) as (d1 & D & T1 & Et & Er).
  simpl in D, Er. unfold drop_table_if_exists in D. simpl in D.
  inversion D; subst d1. clear D. simpl in Et, Er.
  unfold columns_of, find_table. rewrite Et.
  rewrite !find_filter_other by discriminate. rewrite find_filter_same.
  split; [reflexivity|]. split; [reflexivity|]. split; [reflexivity|].
  intros v N Hv. pose proof (applied_needs_table _ _ Hv) as T0.
  apply (applied_In _ _ T). apply (applied_In _ _ T0) in Hv.
  rewrite Er. apply in_map_iff in Hv. destruct Hv as (r & <- & Hr).
  apply in_map, filter_In. split; [exact Hr|].
  now apply negb_true_iff, String.eqb_neq.
Qed.

(** X5.  When the four earlier migrations are applied and the rollback of
    the quiz-results migration (005) succeeds, the next [migrate] applies
    005 alone and returns True: the [quiz_results] table is there again,
    005 is recorded again, nothing is pending, and the other two tables
    are as before the rollback. *)
Theorem migrate_restores_rolled_back_quiz_results
  (clk : Clock) (db db' : Database) :
  (forall v, In v ["001"; "002"; "003"; "004"] ->
             In v (get_applied_migrations db)) ->
  rollback_migration AddQuizResultsTrackingMigration db = (db', true) ->
  let r := migrate (_register_migrations registered) clk db' in
  columns_of "quiz_results" db' = None
  /\ ok r = true
  /\ attempted r = ["005"]
  /\ columns_of "quiz_results" (final r) = Some quiz_results_columns
  /\ columns_of "questions" (final r) = columns_of "questions" db
  /\ columns_of "users" (final r) = columns_of "users" db
  /\ In "005" (get_applied_migrations (final r))
  /\ get_pending_migrations (_register_migrations registered) (final r) = [].
Proof.
  intros Ha R. cbv zeta.
  destruct (rolled_back_not_applied _ _ _ R) as [T A]. simpl in A.
  destruct (rollback_makes_migration_bookkeeping db db' R) as (Hq & Hu & Hr & Hv).
  rewrite migrate_unfold, registered_already_sorted.
  rewrite (create_migrations_table_id _ T).
  assert (P : get_pending_migrations registered db'
              = [Migrations.AddQuizResultsTrackingMigration]).
  { unfold get_pending_migrations, registered. cbn [filter].
    simpl version. rewrite A.
    rewrite !(proj2 (mem_string_In _ _))
      by (apply Hv; [discriminate | apply Ha; simpl; tauto]).
    reflexivity. }
  rewrite P.
  assert (S : shape (columns_of "questions" db) (columns_of "users" db) None
                (map rec_version (migration_rows db')) db').
  { unfold shape. auto. }
  assert (M : mem_string "005" (map rec_version (migration_rows db')) = false)
    by (rewrite <- (applied_mem _ _ T); exact A).
  destruct (run_add_quiz_results clk _ _ _ db' S M) as (d & E & Sd).
  split; [exact Hr|].
  assert (Out : apply_each [Migrations.AddQuizResultsTrackingMigration] clk db'
                = {| final := d; attempted := ["005"]; ok := true |}).
  { cbn [apply_each]. unfold apply_migration. now rewrite E. }
  rewrite Out. cbn [final ok attempted].
  destruct Sd as (Q & U & Rr & Td & V).
  split; [reflexivity|]. split; [reflexivity|]. split; [exact Rr|].
  split; [exact Q|]. split; [exact U|].
  assert (I5 : In "005" (get_applied_migrations d)).
  { apply (applied_In _ _ Td). rewrite V. apply in_or_app. right. now left. }
  split; [exact I5|].
  unfold get_pending_migrations. apply filter_nil. intros m Hm.
  apply negb_false_iff, mem_string_In.
  unfold registered in Hm. simpl in Hm.
  destruct Hm as [<-|[<-|[<-|[<-|[<-|[]]]]]]; simpl version; try exact I5;
    apply (applied_In _ _ Td); rewrite V; apply in_or_app; left;
    apply (applied_In _ _ T);
    (apply Hv; [discriminate | apply Ha; simpl; tauto]).
Qed.

Lemma migrate_restores_rolled_back_quiz_results_witness :
  let db' := fst (rollback_migration AddQuizResultsTrackingMigration
                    migrated_schema) in
  let r := migrate (_register_migrations registered) clock0 db' in
  columns_of "quiz_results" db' = None
  /\ ok r = true
  /\ attempted r = ["005"].
Proof.
  cbv zeta.
  destruct (migrate_restores_rolled_back_quiz_results clock0 migrated_schema
              (fst (rollback_migration AddQuizResultsTrackingMigration
                      migrated_schema)))
    as (H1 & H2 & H3 & _).
  - intros v Hv. simpl in Hv.
    repeat (destruct Hv as [<-|Hv]; [vm_compute; tauto|]). destruct Hv.
  - reflexivity.
  - exact (conj H1 (conj H2 H3)).
Defined.

End ResetAndRestore.

Section StatusFacts.
Import Migrations MigrationManager Notions MoreNotions.

Lemma strongly_sorted_map {A B} (f : A -> B) (R : B -> B -> Prop) (l : list A) :
  StronglySorted (fun a b => R (f a) (f b)) l -> StronglySorted R (map f l).
Proof.
  induction 1 as [|x l Hs IH Hx]; simpl; constructor; [exact IH|].
  apply Forall_forall. intros y Hy. apply in_map_iff in Hy.
  destruct Hy as (z & <- & Hz). rewrite Forall_forall in Hx. now apply Hx.
Qed.

Lemma str_le_refl (a : string) : Py.str_le a a = true.
Proof. destruct (str_le_total a a); assumption. Qed.

Lemma last_is_greatest (l : list string) :
  StronglySorted (fun a b => Py.str_le a b = true) l ->
  forall v, In v l ->
    exists g, last (map Some l) None = Some g /\ Py.str_le v g = true.
Proof.
  induction 1 as [|x l Hs IH Hx]; intros v Hv; [destruct Hv|].
  destruct l as [|y l].
  - destruct Hv as [<-|[]]. exists x. split; [reflexivity|apply str_le_refl].
  - change (last (map Some (x :: y :: l)) None)
      with (last (map Some (y :: l)) None).
    destruct Hv as [<-|Hv]; [|now apply IH].
    destruct (IH y (or_introl eq_refl)) as (g & Eg & Hg).
    exists g. split; [exact Eg|].
    rewrite Forall_forall in Hx.
    exact (str_le_trans _ _ _ (Hx y (or_introl eq_refl)) Hg).
Qed.

Lemma filter_split_length {A} (f : A -> bool) (l : list A) :
  length l = (length (filter (fun x => negb (f x)) l) + length (filter f l))%nat.
Proof.
  induction l as [|x l IH]; simpl; [reflexivity|].
  destruct (f x); simpl; lia.
Qed.

(** X6.  The status report is consistent: the registered migrations are
    the pending ones plus those whose version is applied; no pending
    version is among the applied ones; [is_up_to_date] holds exactly when
    every registered version is applied; the applied versions are in
    increasing order and [latest_version] is the greatest of them. *)
Theorem migration_status_is_consistent
  (migrations : list Migration) (db : Database) :
  let s := get_migration_status migrations db in
  total_migrations s
  = (pending_count s + length (applied_among migrations db))%nat
  /\ (forall v, In v (pending_versions s) -> ~ In v (applied_versions s))
  /\ (is_up_to_date s = true <->
      forall m, In m migrations -> In (version m) (applied_versions s))
  /\ StronglySorted (fun a b => Py.str_le a b = true) (applied_versions s)
  /\ (forall v, In v (applied_versions s) ->
        exists g, latest_version s = Some g /\ Py.str_le v g = true).
Proof.
  cbv zeta. unfold get_migration_status. simpl.
  assert (Srt : StronglySorted (fun a b => Py.str_le a b = true)
                  (get_applied_migrations db)).
  { unfold get_applied_migrations.
    destruct (has_table "schema_migrations" db); [|constructor].
    apply strongly_sorted_map.
    exact (sort_by_sorted rec_version Py.str_le str_le_total str_le_trans _). }
  split; [|split; [|split; [|split]]].
  - unfold get_pending_migrations, applied_among. apply filter_split_length.
  - intros v Hv Ha. apply in_map_iff in Hv. destruct Hv as (m & <- & Hm).
    apply filter_In in Hm. destruct Hm as [_ Hm].
    apply negb_true_iff in Hm. apply mem_string_In in Ha. congruence.
  - rewrite Nat.eqb_eq, length_zero_iff_nil. unfold get_pending_migrations.
    split.
    + intros E m Hm. apply mem_string_In.
      destruct (mem_string (version m) (get_applied_migrations db)) eqn:M;
        [reflexivity|].
      assert (In m (filter (fun m0 => negb (mem_string (version m0)
                                              (get_applied_migrations db)))
                      migrations))
        by (apply filter_In; split; [exact Hm|now rewrite M]).
      rewrite E in H. destruct H.
    + intros H. apply filter_nil. intros m Hm.
      apply negb_false_iff, mem_string_In, H, Hm.
  - exact Srt.
  - apply last_is_greatest, Srt.
Qed.

End StatusFacts.


(* ================================================================== *)
(** * The constraints of the tables *)
(* ================================================================== *)

Section StoreFacts.
Import DatabaseManager Notions StoreNotions.

Lemma largest_rowid_above (seq : Z) (ids : list Z) :
  seq <= fold_right Z.max seq ids.
Proof.
  induction ids as [|x ids IH]; simpl; lia.
Qed.

Lemma next_rowid_above (seq : Z) (ids : list Z) (rowid : Z) :
  next_rowid seq ids = Some rowid -> seq < rowid <= Py.int64_max.
Proof.
  unfold next_rowid. intros H.
  destruct (fold_right Z.max seq ids >=? Py.int64_max) eqn:E; [discriminate|].
  injection H as <-. pose proof (largest_rowid_above seq ids).
  rewrite Z.geb_leb in E. apply Z.leb_gt in E. lia.
Qed.

Lemma NoDup_snoc {A} (l : list A) (x : A) :
  ~ In x l -> NoDup l -> NoDup (l ++ [x]).
Proof.
  intros N D. apply (Permutation_NoDup (l := x :: l)).
  - apply Permutation_cons_append.
  - constructor; assumption.
Qed.

Lemma keys_ok_insert (seq : Z) (ids : list Z) (rowid : Z) :
  keys_ok seq ids ->
  next_rowid seq ids = Some rowid ->
  keys_ok rowid (ids ++ [rowid]).
Proof.
  intros (D & F & B) H. pose proof (next_rowid_above _ _ _ H) as A.
  repeat split.
  - apply NoDup_snoc; [|exact D].
    intros I. rewrite Forall_forall in F. specialize (F _ I). lia.
  - apply Forall_app. split.
    + eapply Forall_impl; [|exact F]. simpl. intros; lia.
    + constructor; [lia | constructor].
  - lia.
  - lia.
Qed.

Lemma keys_ok_filter {Row} (key : Row -> Z) (keep : Row -> bool)
  (seq : Z) (rows : list Row) :
  keys_ok seq (map key rows) -> keys_ok seq (map key (filter keep rows)).
Proof.
  intros (D & F & B). repeat split; try lia.
  - apply filter_keeps_distinct_keys, D.
  - rewrite Forall_forall in *. intros i I. apply F.
    rewrite in_map_iff in *. destruct I as (row & <- & I).
    exists row. split; [reflexivity|]. apply filter_In in I. tauto.
Qed.

Lemma map_key_rewritten {Row Key} (key : Row -> Key) (f : Row -> Row)
  (rows : list Row) :
  (forall row, key (f row) = key row) -> map key (map f rows) = map key rows.
Proof.
  intros H. rewrite map_map. apply map_ext. exact H.
Qed.

Lemma insert_question_consistent
  (p a b c ans cat dif tg now : string) (st st' : Store) (rowid : Z) :
  consistent st ->
  insert_question p a b c ans cat dif tg now st = Some (rowid, st') ->
  consistent st'.
Proof.
  intros (Q & U & R & N & CQ & CU & FK) H. unfold insert_question in H.
  destruct (Migrations.mem_string ans ["A"; "B"; "C"]) eqn:A;
    [|discriminate].
  destruct (Migrations.mem_string dif ["Easy"; "Medium"; "Hard"]) eqn:D;
    [|discriminate].
  simpl in H.
  destruct (next_rowid (questions_seq st) (map q_id (questions st))) eqn:E;
    [|discriminate].
  simpl in H. injection H as <- <-.
  pose proof (keys_ok_insert _ _ _ Q E) as K.
  unfold consistent. simpl. rewrite map_app. simpl.
  split; [exact K|]. split; [exact U|]. split; [exact R|].
  split; [exact N|]. split; [|split; [exact CU | exact FK]].
  apply Forall_app. split; [exact CQ|].
  constructor; [|constructor].
  exact (conj (proj1 (mem_string_In _ _) A) (proj1 (mem_string_In _ _) D)).
Qed.

Lemma insert_user_consistent
  (username password_hash role now : string) (is_active : Z)
  (st st' : Store) (rowid : Z) :
  consistent st ->
  insert_user username password_hash role is_active now st = Some (rowid, st') ->
  consistent st'.
Proof.
  intros (Q & U & R & N & CQ & CU & FK) H. unfold insert_user in H.
  destruct (Migrations.mem_string username (map u_username (users st))) eqn:T;
    [discriminate|].
  destruct (Migrations.mem_string role ["user"; "admin"]) eqn:A;
    [|discriminate].
  simpl in H.
  destruct (next_rowid (users_seq st) (map u_id (users st))) eqn:E;
    [|discriminate].
  simpl in H. injection H as <- <-.
  pose proof (keys_ok_insert _ _ _ U E) as K.
  unfold consistent. simpl. rewrite !map_app. simpl.
  split; [exact Q|]. split; [exact K|]. split; [exact R|].
  split; [|split; [exact CQ|split]].
  - apply NoDup_snoc; [|exact N].
    intros I. apply mem_string_In in I. congruence.
  - apply Forall_app. split; [exact CU|].
    constructor; [|constructor]. exact (proj1 (mem_string_In _ _) A).
  - eapply Forall_impl; [|exact FK]. simpl. intros row.
    destruct (r_user_id row); [|trivial].
    intros I. apply in_or_app. left. exact I.
Qed.

Lemma insert_result_consistent
  (user_id : option Z) (score total time_taken : Z) (text now : string)
  (st st' : Store) (rowid : Z) :
  consistent st ->
  insert_result user_id score total time_taken text now st = Some (rowid, st') ->
  consistent st'.
Proof.
  intros (Q & U & R & N & CQ & CU & FK) H. unfold insert_result in H.
  cbv zeta in H.
  match type of H with
  | (if negb ?b then _ else _) = _ => destruct b eqn:F
  end; [|discriminate].
  simpl in H.
  destruct (next_rowid (quiz_results_seq st) (map r_id (quiz_results st)))
    eqn:E; [|discriminate].
  simpl in H. injection H as <- <-.
  pose proof (keys_ok_insert _ _ _ R E) as K.
  unfold consistent. simpl. rewrite map_app. simpl.
  split; [exact Q|]. split; [exact U|]. split; [exact K|].
  split; [exact N|]. split; [exact CQ|]. split; [exact CU|].
  apply Forall_app. split; [exact FK|].
  constructor; [|constructor]. simpl.
  destruct user_id as [u|]; [|trivial].
  apply existsb_exists in F. destruct F as (x & I & F).
  apply Z.eqb_eq in F. subst x. exact I.
Qed.

Lemma update_consistent (question : Question.Question) (now : string)
  (st : Store) :
  consistent st -> consistent (snd (QuestionQueries.update question now st)).
Proof.
  intros C. unfold QuestionQueries.update.
  destruct (Question.id question) as [i|]; [|exact C].
  destruct (negb (QuestionQueries.bindable i)); [exact C|].
  destruct (negb (existsb _ _)); [exact C|].
  destruct (Migrations.mem_string (Question.answer question) _) eqn:A;
    [|exact C].
  destruct (Migrations.mem_string (Question.difficulty question) _) eqn:D;
    [|exact C].
  simpl. destruct C as (Q & U & R & N & CQ & CU & FK).
  unfold consistent. simpl.
  rewrite map_key_rewritten
    by (intros row; destruct (q_id row =? i); reflexivity).
  split; [exact Q|]. split; [exact U|]. split; [exact R|].
  split; [exact N|]. split; [|split; [exact CU | exact FK]].
  rewrite Forall_forall in *. intros row I.
  apply in_map_iff in I. destruct I as (old & <- & I).
  destruct (q_id old =? i); [|apply CQ, I].
  exact (conj (proj1 (mem_string_In _ _) A) (proj1 (mem_string_In _ _) D)).
Qed.

Lemma delete_consistent (question_id : Z) (st : Store) :
  consistent st -> consistent (snd (QuestionQueries.delete question_id st)).
Proof.
  intros C. unfold QuestionQueries.delete.
  destruct (negb (QuestionQueries.bindable question_id)); [exact C|].
  simpl. destruct C as (Q & U & R & N & CQ & CU & FK).
  unfold consistent. simpl.
  split; [apply (keys_ok_filter q_id _ _ _ Q)|].
  split; [exact U|]. split; [exact R|].
  split; [exact N|]. split; [|split; [exact CU | exact FK]].
  rewrite Forall_forall in *. intros row I. apply filter_In in I.
  apply CQ, I.
Qed.

Lemma update_last_login_consistent (user_id : option Z) (now : string)
  (st : Store) :
  consistent st ->
  consistent (snd (UserRepository.update_last_login user_id now st)).
Proof.
  intros (Q & U & R & N & CQ & CU & FK).
  unfold UserRepository.update_last_login, consistent. simpl.
  set (f := fun row : UserRow => _).
  assert (I : map u_id (map f (users st)) = map u_id (users st)).
  { apply map_key_rewritten. intros row. unfold f.
    match goal with |- context [if ?b then _ else _] => destruct b end;
      reflexivity. }
  assert (M : map u_username (map f (users st)) = map u_username (users st)).
  { apply map_key_rewritten. intros row. unfold f.
    match goal with |- context [if ?b then _ else _] => destruct b end;
      reflexivity. }
  rewrite I, M.
  split; [exact Q|]. split; [exact U|]. split; [exact R|].
  split; [exact N|]. split; [exact CQ|]. split; [|exact FK].
  rewrite Forall_forall in *. intros row In'.
  apply in_map_iff in In'. destruct In' as (old & <- & In').
  unfold f.
  match goal with |- context [if ?b then _ else _] => destruct b end;
    exact (CU old In').
Qed.

Lemma authenticate_consistent (username password now : string) (st : Store) :
  consistent st ->
  consistent (snd (UserRepository.authenticate username password now st)).
Proof.
  intros C. unfold UserRepository.authenticate.
  destruct (UserRepository.get_by_username username st) as [user|]; [|exact C].
  destruct (_ && _); [|exact C].
  simpl. apply update_last_login_consistent, C.
Qed.

Lemma insert_questions_consistent rows (now : string) (st st' : Store) :
  consistent st -> insert_questions rows now st = Some st' -> consistent st'.
Proof.
  revert st. induction rows as [|row rows IH]; intros st C H; simpl in H.
  - injection H as <-. exact C.
  - destruct row as [[[[[[[p a] b] c] ans] cat] dif] tg].
    destruct (insert_question p a b c ans cat dif tg now st) as [[i st1]|]
      eqn:E; [|discriminate].
    simpl in H. apply (IH st1); [|exact H].
    eapply insert_question_consistent; eassumption.
Qed.

Lemma insert_sample_data_consistent (now : string) (st st' : Store) :
  consistent st -> _insert_sample_data now st = Some st' -> consistent st'.
Proof.
  intros C H. unfold _insert_sample_data in H.
  destruct (if Nat.eqb (length (questions st)) 0
            then insert_questions sample_questions now st else Some st)
    as [st1|] eqn:E; [|discriminate].
  assert (C1 : consistent st1).
  { destruct (Nat.eqb (length (questions st)) 0).
    - eapply insert_questions_consistent; eassumption.
    - injection E as <-. exact C. }
  simpl in H.
  destruct (Nat.eqb _ 0) in H.
  - destruct (insert_user "admin" "admin123" "admin" 1 now st1)
      as [[i st2]|] eqn:E2; [|discriminate].
    simpl in H. injection H as <-.
    eapply insert_user_consistent; eassumption.
  - injection H as <-. exact C1.
Qed.

Lemma call_consistent (c : Call) (now : string) (st : Store) :
  consistent st -> consistent (call c now st).
Proof.
  intros C. destruct c; simpl.
  - destruct (QuestionRepository.create question now st) as [[i st']|] eqn:E;
      [|exact C].
    eapply insert_question_consistent; eassumption.
  - apply update_consistent, C.
  - apply delete_consistent, C.
  - destruct (UserQueries.create user now st) as [[i st']|] eqn:E; [|exact C].
    eapply insert_user_consistent; eassumption.
  - apply authenticate_consistent, C.
  - destruct (QuizResultRepository.create result now st) as [[i st']|] eqn:E;
      [|exact C].
    eapply insert_result_consistent; eassumption.
  - destruct (_insert_sample_data now st) as [st'|] eqn:E; [|exact C].
    eapply insert_sample_data_consistent; eassumption.
Qed.

Lemma calls_consistent cs (st : Store) :
  consistent st -> consistent (calls cs st).
Proof.
  revert st. induction cs as [|[c now] cs IH]; intros st C; simpl.
  - exact C.
  - apply IH, call_consistent, C.
Qed.

Lemma empty_store_consistent : consistent empty_store.
Proof.
  unfold consistent, keys_ok, empty_store, Py.int64_max. simpl.
  repeat split; try constructor; lia.
Qed.

(** X7.  Whatever the repositories are called with, and in whatever
    order, the store they build from an empty database meets the
    constraints the tables declare: in each table the ids are distinct,
    at least 1 and at most the largest id handed out; user names are
    distinct; answers, difficulties and roles are among the allowed
    values; a result that names a user names a stored one. *)
Theorem repositories_keep_the_table_constraints (cs : list (Call * string)) :
  consistent (calls cs empty_store).
Proof.
  apply calls_consistent, empty_store_consistent.
Qed.

Lemma insert_question_seq
  (p a b c ans cat dif tg now : string) (st st' : Store) (rowid : Z) :
  insert_question p a b c ans cat dif tg now st = Some (rowid, st') ->
  questions_seq st < rowid /\ questions_seq st' = rowid.
Proof.
  intros H. unfold insert_question in H.
  destruct (negb _); [discriminate|].
  destruct (negb _); [discriminate|].
  destruct (next_rowid (questions_seq st) (map q_id (questions st))) eqn:E;
    [|discriminate].
  simpl in H. injection H as <- <-. simpl.
  split; [apply (next_rowid_above _ _ _ E) | reflexivity].
Qed.

Lemma insert_questions_seq rows (now : string) (st st' : Store) :
  insert_questions rows now st = Some st' ->
  questions_seq st <= questions_seq st'.
Proof.
  revert st. induction rows as [|row rows IH]; intros st H; simpl in H.
  - injection H as <-. lia.
  - destruct row as [[[[[[[p a] b] c] ans] cat] dif] tg].
    destruct (insert_question p a b c ans cat dif tg now st) as [[i st1]|]
      eqn:E; [|discriminate].
    simpl in H. apply IH in H. apply insert_question_seq in E. lia.
Qed.

Lemma insert_user_questions
  (username password_hash role now : string) (is_active : Z)
  (st st' : Store) (rowid : Z) :
  insert_user username password_hash role is_active now st = Some (rowid, st') ->
  questions st' = questions st /\ questions_seq st' = questions_seq st
  /\ quiz_results st' = quiz_results st.
Proof.
  intros H. unfold insert_user in H.
  destruct (Migrations.mem_string username _); [discriminate|].
  destruct (negb _); [discriminate|].
  destruct (next_rowid _ _); [|discriminate].
  simpl in H. injection H as <- <-. simpl. auto.
Qed.

Lemma insert_result_questions
  (user_id : option Z) (score total time_taken : Z) (text now : string)
  (st st' : Store) (rowid : Z) :
  insert_result user_id score total time_taken text now st = Some (rowid, st') ->
  questions st' = questions st /\ questions_seq st' = questions_seq st
  /\ users st' = users st.
Proof.
  intros H. unfold insert_result in H. cbv zeta in H.
  destruct (negb _); [discriminate|].
  destruct (next_rowid _ _); [|discriminate].
  simpl in H. injection H as <- <-. simpl. auto.
Qed.

Lemma call_seq (c : Call) (now : string) (st : Store) :
  questions_seq st <= questions_seq (call c now st).
Proof.
  destruct c; simpl.
  - destruct (QuestionRepository.create question now st) as [[i st']|] eqn:E;
      [|lia].
    apply insert_question_seq in E. lia.
  - unfold QuestionQueries.update.
    destruct (Question.id question); [|simpl; lia].
    repeat (match goal with |- context [if ?b then _ else _] => destruct b end;
            simpl; try lia).
  - unfold QuestionQueries.delete.
    destruct (negb _); simpl; lia.
  - destruct (UserQueries.create user now st) as [[i st']|] eqn:E; [|lia].
    apply insert_user_questions in E. lia.
  - unfold UserRepository.authenticate.
    destruct (UserRepository.get_by_username username st); [|simpl; lia].
    destruct (_ && _); simpl; lia.
  - destruct (QuizResultRepository.create result now st) as [[i st']|] eqn:E;
      [|lia].
    apply insert_result_questions in E. lia.
  - destruct (_insert_sample_data now st) as [st'|] eqn:E; [|lia].
    unfold _insert_sample_data in E.
    destruct (if Nat.eqb (length (questions st)) 0
              then insert_questions sample_questions now st else Some st)
      as [st1|] eqn:E1; [|discriminate].
    assert (questions_seq st <= questions_seq st1).
    { destruct (Nat.eqb (length (questions st)) 0).
      - apply insert_questions_seq in E1. exact E1.
      - injection E1 as <-. lia. }
    simpl in E. destruct (Nat.eqb _ 0) in E.
    + destruct (insert_user "admin" "admin123" "admin" 1 now st1)
        as [[i st2]|] eqn:E2; [|discriminate].
      simpl in E. injection E as <-.
      apply insert_user_questions in E2. lia.
    + injection E as <-. lia.
Qed.

Lemma calls_seq cs (st : Store) :
  questions_seq st <= questions_seq (calls cs st).
Proof.
  revert st. induction cs as [|[c now] cs IH]; intros st; simpl.
  - lia.
  - pose proof (call_seq c now st). pose proof (IH (call c now st)). lia.
Qed.

(** X8.  The id of a question is never handed out again: an id the
    table has held at some point is smaller than the id of every question
    created later, whatever was called in between, deletions of that very
    question included. *)
Theorem question_ids_are_never_reused
  (before between : list (Call * string)) (question : Question.Question)
  (now : string) (used created : Z) (st' : Store) :
  In used (map q_id (questions (calls before empty_store))) ->
  QuestionRepository.create question now
    (calls between (calls before empty_store)) = Some (created, st') ->
  used < created.
Proof.
  intros I H.
  pose proof (calls_consistent before _ empty_store_consistent) as C.
  destruct C as ((_ & F & _) & _).
  rewrite Forall_forall in F. specialize (F _ I).
  pose proof (calls_seq between (calls before empty_store)).
  apply insert_question_seq in H. lia.
Qed.

Lemma question_ids_are_never_reused_witness :
  let q := example_question "B" [] in
  let before := [(CreateQuestion q, "2024-01-01 00:00:00")] in
  let between := [(DeleteQuestion 1, "2024-01-02 00:00:00")] in
  In 1 (map q_id (questions (calls before empty_store)))
  /\ (exists st',
        QuestionRepository.create q "2024-01-03 00:00:00"
          (calls between (calls before empty_store)) = Some (2, st'))
  /\ 1 < 2.
Proof.
  cbv zeta. split; [left; reflexivity|]. split.
  - eexists. vm_compute. reflexivity.
  - eapply (question_ids_are_never_reused
              [(CreateQuestion (example_question "B" []), "2024-01-01 00:00:00")]
              [(DeleteQuestion 1, "2024-01-02 00:00:00")]
              (example_question "B" []) "2024-01-03 00:00:00" 1 2).
    + left. reflexivity.
    + vm_compute. reflexivity.
Defined.

End StoreFacts.


(* ================================================================== *)
(** * Updating, deleting and listing questions *)
(* ================================================================== *)

Section QuestionQueriesFacts.
Import DatabaseManager QuestionRepository QuestionQueries Notions.

Lemma existsb_id (i : Z) (rows : list QuestionRow) :
  existsb (fun row => q_id row =? i) rows = true <-> In i (map q_id rows).
Proof.
  rewrite existsb_exists, in_map_iff.
  split; intros (row & H1 & H2).
  - exists row. apply Z.eqb_eq in H2. tauto.
  - exists row. rewrite H1, Z.eqb_refl. tauto.
Qed.

Lemma kept_rows_unchanged {Row} (wanted : Row -> bool) (change : Row -> Row)
  (rows : list Row) :
  (forall row, wanted (change row) = wanted row) ->
  (forall row, wanted row = true -> change row = row) ->
  filter wanted (map change rows) = filter wanted rows.
Proof.
  intros Same Fix. induction rows as [|row rows IH]; simpl; [reflexivity|].
  rewrite Same, IH. destruct (wanted row) eqn:E; [|reflexivity].
  rewrite (Fix row E). reflexivity.
Qed.

Lemma changed_rows_filtered {Row} (wanted : Row -> bool) (change : Row -> Row)
  (rows : list Row) :
  (forall row, wanted (change row) = wanted row) ->
  filter wanted (map change rows) = map change (filter wanted rows).
Proof.
  intros Same. induction rows as [|row rows IH]; simpl; [reflexivity|].
  rewrite Same, IH. destruct (wanted row); reflexivity.
Qed.

Lemma filter_everything {Row} (keep : Row -> bool) (rows : list Row) :
  (forall row, In row rows -> keep row = true) -> filter keep rows = rows.
Proof.
  induction rows as [|row rows IH]; simpl; intros H; [reflexivity|].
  rewrite (H row) by tauto. rewrite IH by (intros; apply H; tauto).
  reflexivity.
Qed.

Lemma filter_nothing {Row} (keep : Row -> bool) (rows : list Row) :
  (forall row, In row rows -> keep row = false) -> filter keep rows = [].
Proof.
  induction rows as [|row rows IH]; simpl; intros H; [reflexivity|].
  rewrite (H row) by tauto. apply IH. intros; apply H; tauto.
Qed.

(** What a successful [update] has done. *)
Lemma update_true (question : Question.Question) (now later : string)
  (st st' : Store) :
  update question now st = (true, st') ->
  exists i,
    Question.id question = Some i
    /\ bindable i = true
    /\ In i (map q_id (questions st))
    /\ In (Question.answer question) ["A"; "B"; "C"]
    /\ In (Question.difficulty question) ["Easy"; "Medium"; "Hard"]
    /\ st' = with_questions
               (map (fun row => if q_id row =? i
                                then updated_row question now row else row)
                  (questions st)) st.
Proof.
  unfold update. intros H.
  destruct (Question.id question) as [i|]; [|discriminate].
  destruct (bindable i) eqn:B; cbn [negb] in H; [|discriminate].
  destruct (existsb _ _) eqn:E in H; cbn [negb] in H; [|discriminate].
  destruct (Migrations.mem_string (Question.answer question) ["A"; "B"; "C"])
    eqn:A; cbn [negb orb] in H; [|discriminate].
  destruct (Migrations.mem_string (Question.difficulty question)
              ["Easy"; "Medium"; "Hard"]) eqn:D; cbn [negb] in H;
    [|discriminate].
  injection H as <-.
  exists i. split; [reflexivity|]. split; [exact B|].
  split; [apply existsb_id, E|].
  split; [exact (proj1 (mem_string_In _ _) A)|].
  split; [exact (proj1 (mem_string_In _ _) D)|reflexivity].
Qed.

Lemma update_false (question : Question.Question) (now : string) (st : Store) :
  fst (update question now st) = false -> snd (update question now st) = st.
Proof.
  unfold update.
  destruct (Question.id question) as [i|]; [|reflexivity].
  destruct (negb (bindable i)); [reflexivity|].
  destruct (negb (existsb _ _)); [reflexivity|].
  destruct (_ || _); [reflexivity|]. simpl. discriminate.
Qed.

Lemma update_succeeds (question : Question.Question) (now : string)
  (st : Store) (i : Z) :
  Question.id question = Some i ->
  bindable i = true ->
  In i (map q_id (questions st)) ->
  In (Question.answer question) ["A"; "B"; "C"] ->
  In (Question.difficulty question) ["Easy"; "Medium"; "Hard"] ->
  fst (update question now st) = true.
Proof.
  intros I B S A D. unfold update. rewrite I, B.
  apply existsb_id in S. rewrite S.
  apply mem_string_In in A. apply mem_string_In in D. rewrite A, D.
  reflexivity.
Qed.

(** X9.  [update] returns True exactly when the question carries the id
    of a stored row and an allowed answer and difficulty; on False the
    store is as before.  On True the number of questions is the same,
    every other id reads as before, and the id reads back the new prompt,
    options, answer, category and difficulty, the creation date of the
    old row, the time of the update, and the tags when they are clean. *)
Theorem update_rewrites_exactly_that_question
  (question : Question.Question) (now later : string) (st : Store) :
  let r := update question now st in
  (fst r = true <->
   exists i,
     Question.id question = Some i
     /\ bindable i = true
     /\ In i (map q_id (questions st))
     /\ In (Question.answer question) ["A"; "B"; "C"]
     /\ In (Question.difficulty question) ["Easy"; "Medium"; "Hard"])
  /\ (fst r = false -> snd r = st)
  /\ (fst r = true ->
      get_count (snd r) = get_count st
      /\ questions_seq (snd r) = questions_seq st
      /\ (forall j, Question.id question <> Some j ->
            get_by_id j later (snd r) = get_by_id j later st)
      /\ exists i old stored,
           Question.id question = Some i
           /\ get_by_id i later st = Some old
           /\ get_by_id i later (snd r) = Some stored
           /\ Question.id stored = Some i
           /\ Question.prompt stored = Question.prompt question
           /\ Question.option_a stored = Question.option_a question
           /\ Question.option_b stored = Question.option_b question
           /\ Question.option_c stored = Question.option_c question
           /\ Question.answer stored = Question.answer question
           /\ Question.category stored = Question.category question
           /\ Question.difficulty stored = Question.difficulty question
           /\ Question.created_at stored = Question.created_at old
           /\ (Py.truthy now = true -> Question.updated_at stored = now)
           /\ (forallb clean_tag (Question.tags question) = true ->
               Question.tags stored = Question.tags question)).
Proof.
  cbv zeta. split; [|split].
  - split.
    + intros H. destruct (update question now st) as [b st'] eqn:E.
      simpl in H. subst b.
      destruct (update_true _ _ later _ _ E) as (i & H). exists i. tauto.
    + intros (i & I & B & S & A & D). eapply update_succeeds; eassumption.
  - apply update_false.
  - intros H. destruct (update question now st) as [b st'] eqn:E.
    simpl in H. subst b. simpl.
    destruct (update_true _ _ later _ _ E) as (i & I & B & S & A & D & ->).
    set (change := fun row : QuestionRow =>
                     if q_id row =? i then updated_row question now row
                     else row).
    assert (Same : forall j row,
               (q_id (change row) =? j) = (q_id row =? j)).
    { intros j row. unfold change. destruct (q_id row =? i); reflexivity. }
    split; [|split; [|split]].
    + unfold get_count, with_questions. simpl. rewrite length_map.
      reflexivity.
    + reflexivity.
    + intros j N. unfold get_by_id, with_questions. simpl.
      rewrite kept_rows_unchanged; [reflexivity | apply Same |].
      intros row T. unfold change.
      destruct (q_id row =? i) eqn:Ei; [|reflexivity].
      apply Z.eqb_eq in T. apply Z.eqb_eq in Ei.
      exfalso. apply N. rewrite I. congruence.
    + apply in_map_iff in S. destruct S as (hit & Hi & Hin).
      destruct (filter (fun row => q_id row =? i) (questions st))
        as [|old olds] eqn:F.
      { exfalso. assert (In hit []) as [].
        rewrite <- F. apply filter_In. split; [exact Hin|].
        apply Z.eqb_eq, Hi. }
      assert (O : (q_id old =? i) = true).
      { assert (In old (old :: olds)) as Io by (left; reflexivity).
        rewrite <- F in Io. apply filter_In in Io. tauto. }
      exists i, (_row_to_question later old),
        (_row_to_question later (updated_row question now old)).
      split; [exact I|].
      split; [unfold get_by_id; rewrite F; reflexivity|].
      split.
      { unfold get_by_id, with_questions. cbn [questions].
        rewrite changed_rows_filtered by apply Same.
        rewrite F. cbn [map]. unfold change. rewrite O. reflexivity. }
      apply Z.eqb_eq in O.
      split; [simpl; congruence|].
      repeat (split; [reflexivity|]).
      split.
      * intros T. simpl. destruct now; [discriminate|reflexivity].
      * intros T. simpl. apply tags_round_trip, T.
Qed.

Lemma length_without_id (i : Z) (rows : list QuestionRow) :
  NoDup (map q_id rows) ->
  In i (map q_id rows) ->
  Z.of_nat (length (filter (fun row => negb (q_id row =? i)) rows))
  = Z.of_nat (length rows) - 1.
Proof.
  induction rows as [|row rows IH]; cbn [map filter length]; intros D H;
    [destruct H|].
  inversion D as [|? ? Nin D']; subst.
  destruct (q_id row =? i) eqn:E; cbn [negb length].
  - apply Z.eqb_eq in E.
    rewrite filter_everything; [lia|].
    intros other I.
    destruct (q_id other =? i) eqn:E'; [|reflexivity].
    apply Z.eqb_eq in E'. exfalso. apply Nin. rewrite E, <- E'.
    apply in_map, I.
  - destruct H as [H|H]; [apply Z.eqb_neq in E; congruence|].
    specialize (IH D' H). lia.
Qed.

(** X10.  [delete] returns True exactly when a row has the id; afterwards
    the id reads as absent, every other id reads as before, the largest
    id handed out is kept, and one question less is counted when ids are
    distinct; on False the store is as before, and a second [delete] of
    the same id always returns False and changes nothing. *)
Theorem delete_removes_exactly_that_question
  (question_id : Z) (later : string) (st : Store) :
  let r := delete question_id st in
  (fst r = true <->
   bindable question_id = true /\ In question_id (map q_id (questions st)))
  /\ (fst r = false -> snd r = st)
  /\ (bindable question_id = true -> get_by_id question_id later (snd r) = None)
  /\ (forall j, j <> question_id ->
        get_by_id j later (snd r) = get_by_id j later st)
  /\ questions_seq (snd r) = questions_seq st
  /\ (NoDup (map q_id (questions st)) -> fst r = true ->
      get_count (snd r) = get_count st - 1)
  /\ delete question_id (snd r) = (false, snd r).
Proof.
  cbv zeta. unfold delete.
  destruct (bindable question_id) eqn:B; simpl.
  2:{ repeat split; try discriminate; tauto. }
  set (keep := fun row : QuestionRow => negb (q_id row =? question_id)).
  split; [|split; [|split; [|split; [|split; [|split]]]]].
  - rewrite existsb_id. tauto.
  - intros H. destruct st as [qs us rs s1 s2 s3]. unfold with_questions. simpl in *.
    f_equal. apply filter_everything. intros row I. unfold keep.
    destruct (q_id row =? question_id) eqn:E; [|reflexivity].
    exfalso. assert (existsb (fun row => q_id row =? question_id) qs = true).
    { apply existsb_exists. exists row. tauto. }
    congruence.
  - intros _. unfold get_by_id, with_questions. simpl.
    rewrite filter_nothing; [reflexivity|].
    intros row I. apply filter_In in I. destruct I as (_ & I).
    unfold keep in I. destruct (q_id row =? question_id); [discriminate|reflexivity].
  - intros j N. unfold get_by_id, with_questions. simpl.
    rewrite filter_filter.
    assert (F : filter (fun row => keep row && (q_id row =? j)) (questions st)
                = filter (fun row => q_id row =? j) (questions st)).
    { apply filter_ext. intros row. unfold keep.
      destruct (q_id row =? j) eqn:E;
        [|destruct (q_id row =? question_id); reflexivity].
      apply Z.eqb_eq in E.
      destruct (q_id row =? question_id) eqn:E'; [|reflexivity].
      apply Z.eqb_eq in E'. congruence. }
    rewrite F. reflexivity.
  - reflexivity.
  - intros D H. apply existsb_id in H.
    unfold get_count, with_questions. cbn [questions].
    apply length_without_id; assumption.
  - f_equal.
    + apply not_true_is_false. intros H. apply existsb_exists in H.
      destruct H as (row & I & E). apply filter_In in I. destruct I as (_ & I).
      unfold keep in I. rewrite E in I. discriminate.
    + unfold with_questions. simpl. f_equal. rewrite filter_filter.
      apply filter_ext. intros row. destruct (keep row); reflexivity.
Qed.

End QuestionQueriesFacts.


(* ================================================================== *)
(** * LIKE and the search *)
(* ================================================================== *)

Section LikeFacts.
Import Like.

Lemma chars_from_flush (cur s : string) :
  chars_from cur false s = emit cur ++ chars s.
Proof.
  destruct s as [|a s]; unfold chars; cbn [chars_from andb emit].
  - rewrite app_nil_r. reflexivity.
  - reflexivity.
Qed.

Lemma chars_percent_first (s : string) :
  chars (String "%" s) = "%" :: chars s.
Proof.
  unfold chars at 1. cbn [chars_from andb emit app].
  change (is_lead "%") with false. apply chars_from_flush.
Qed.

Lemma chars_from_snoc (cur : string) (extends : bool) (s : string) (a : ascii) :
  is_continuation a = false ->
  chars_from cur extends (s ++ String a "")
  = chars_from cur extends s ++ [String a ""].
Proof.
  intros N. revert cur extends.
  induction s as [|b s IH]; intros cur extends; cbn [append chars_from].
  - rewrite N, andb_false_r. reflexivity.
  - destruct (extends && is_continuation b).
    + apply IH.
    + rewrite IH, app_assoc. reflexivity.
Qed.

Lemma chars_of_pattern (term : string) :
  chars ("%" ++ term ++ "%") = "%" :: chars term ++ ["%"].
Proof.
  change ("%" ++ term ++ "%")%string with (String "%" (term ++ "%")).
  rewrite chars_percent_first. f_equal.
  apply chars_from_snoc. reflexivity.
Qed.

Lemma like_any_step (pattern text : list string) :
  like_chars ("%" :: pattern) text
  = like_chars pattern text
    || match text with
       | [] => false
       | _ :: text' => like_chars ("%" :: pattern) text'
       end.
Proof.
  destruct text; reflexivity.
Qed.

Lemma like_one_step (p : string) (pattern text : list string) :
  String.eqb p "%" = false ->
  like_chars (p :: pattern) text
  = match text with
    | [] => false
    | c :: text' =>
        (String.eqb p "_" || same_char p c) && like_chars pattern text'
    end.
Proof.
  intros E. cbn [like_chars]. rewrite E. reflexivity.
Qed.

Lemma like_skip (pattern before text : list string) :
  like_chars pattern text = true ->
  like_chars ("%" :: pattern) (before ++ text) = true.
Proof.
  intros H. induction before as [|c before IH]; rewrite like_any_step.
  - simpl app. rewrite H. reflexivity.
  - cbn [app]. rewrite IH. apply orb_true_r.
Qed.

Lemma like_rest_any (text : list string) : like_chars ["%"] text = true.
Proof.
  induction text as [|c text IH]; rewrite like_any_step.
  - reflexivity.
  - rewrite IH. apply orb_true_r.
Qed.

Lemma same_char_refl (c : string) : same_char c c = true.
Proof.
  destruct c as [|a [|b c]]; cbn [same_char].
  - reflexivity.
  - apply Ascii.eqb_refl.
  - apply String.eqb_refl.
Qed.

Lemma like_literal (literal pattern text : list string) :
  like_chars pattern text = true ->
  like_chars (literal ++ pattern) (literal ++ text) = true.
Proof.
  intros H. induction literal as [|c literal IH]; [exact H|].
  cbn [app]. destruct (String.eqb c "%") eqn:E.
  - apply String.eqb_eq in E. subst c.
    exact (like_skip _ ["%"] _ IH).
  - rewrite (like_one_step _ _ _ E), same_char_refl, orb_true_r, IH.
    reflexivity.
Qed.

Lemma c_string_app (s t : string) :
  c_string s = s -> c_string (s ++ t) = (s ++ c_string t)%string.
Proof.
  induction s as [|a s IH]; cbn [c_string append]; [reflexivity|].
  destruct (Ascii.eqb a Ascii.zero); [discriminate|].
  intros [= E]. now rewrite (IH E).
Qed.

Lemma c_string_pattern (term : string) :
  c_string term = term ->
  c_string ("%" ++ term ++ "%") = ("%" ++ term ++ "%")%string.
Proof.
  intros E.
  change ("%" ++ term ++ "%")%string with (String "%" (term ++ "%")).
  cbn [c_string]. change (Ascii.eqb "%" Ascii.zero) with false. cbv iota.
  now rewrite (c_string_app _ _ E).
Qed.

(** A text in which the characters of the term occur one after the other,
    before any NUL, matches the pattern [%term%], whatever the term is as
    long as it holds no NUL itself. *)
Lemma like_occurrence (term text : string) (before after : list string) :
  c_string term = term ->
  chars (c_string text) = before ++ chars term ++ after ->
  like ("%" ++ term ++ "%") text = true.
Proof.
  intros E H. unfold like. rewrite (c_string_pattern _ E), chars_of_pattern, H.
  apply like_skip, like_literal, like_rest_any.
Qed.

Lemma like_everything (text : string) :
  like "%%" text = true /\ like "%%%" text = true.
Proof.
  unfold like.
  change (chars (c_string "%%")) with ["%"; "%"].
  change (chars (c_string "%%%")) with ["%"; "%"; "%"].
  assert (H : like_chars ["%"; "%"] (chars (c_string text)) = true)
    by exact (like_skip _ [] _ (like_rest_any _)).
  split; [exact H|]. exact (like_skip _ [] _ H).
Qed.

End LikeFacts.

Section SearchFacts.
Import DatabaseManager QuestionRepository QuestionQueries Notions QueryNotions.

Lemma string_length_app (s t : string) :
  String.length (s ++ t) = (String.length s + String.length t)%nat.
Proof.
  induction s as [|a s IH]; simpl; [reflexivity|]. rewrite IH. reflexivity.
Qed.

Lemma newest_first_perm (rows : list QuestionRow) :
  Permutation (newest_first rows) rows.
Proof.
  apply sort_by_perm.
Qed.

Lemma newest_first_sorted (rows : list QuestionRow) :
  StronglySorted newer (newest_first rows).
Proof.
  unfold newest_first, newer.
  apply (sort_by_sorted q_created_at (fun a b => Py.str_le b a)).
  - intros a b. destruct (str_le_total a b); tauto.
  - intros a b c H1 H2. exact (str_le_trans _ _ _ H2 H1).
Qed.

Lemma found_without_term (category difficulty : option string)
  (row : QuestionRow) :
  found "%%" category difficulty row
  = condition category (q_category row)
    && condition difficulty (q_difficulty row)
  /\ found "%%%" category difficulty row
     = condition category (q_category row)
       && condition difficulty (q_difficulty row).
Proof.
  unfold found.
  rewrite (proj1 (like_everything (q_prompt row))).
  rewrite (proj2 (like_everything (q_prompt row))).
  split; rewrite <- andb_assoc; reflexivity.
Qed.

Lemma search_without_term (category difficulty : option string)
  (now : string) (st : Store) :
  search "" category difficulty now st
  = map (_row_to_question now) (newest_first (matching category difficulty st))
  /\ search "%" category difficulty now st
     = map (_row_to_question now)
         (newest_first (matching category difficulty st)).
Proof.
  unfold search. cbv zeta.
  change ("%" ++ "" ++ "%")%string with "%%".
  change ("%" ++ "%" ++ "%")%string with "%%%".
  change (Z.of_nat (String.length "%%") >? Like.max_pattern_length) with false.
  change (Z.of_nat (String.length "%%%") >? Like.max_pattern_length) with false.
  cbv iota. unfold matching.
  split; do 2 f_equal; apply filter_ext; intros row;
    apply found_without_term.
Qed.

Lemma search_within_matching (term : string)
  (category difficulty : option string) (now : string) (st : Store)
  (q : Question.Question) :
  In q (search term category difficulty now st) ->
  exists row,
    In row (matching category difficulty st) /\ q = _row_to_question now row.
Proof.
  unfold search. cbv zeta.
  destruct (_ >? _); [intros []|].
  intros H. apply in_map_iff in H. destruct H as (row & <- & H).
  apply (Permutation_in _ (newest_first_perm _)) in H.
  apply filter_In in H. destruct H as (I & F).
  exists row. split; [|reflexivity].
  unfold matching. apply filter_In. split; [exact I|].
  unfold found in F. rewrite <- andb_assoc in F.
  apply andb_true_iff in F. tauto.
Qed.

(** X11.  A search without a term lists every stored question that
    passes the category and difficulty filters, each once, the newest
    first; the term [%] gives the same list, since the term is used as a
    LIKE pattern; and whatever the term, a search only returns questions
    of that list. *)
Theorem search_without_a_term_lists_every_match
  (term : string) (category difficulty : option string)
  (now : string) (st : Store) :
  let everything := search "" category difficulty now st in
  (exists rows,
     everything = map (_row_to_question now) rows
     /\ Permutation rows (matching category difficulty st)
     /\ StronglySorted newer rows)
  /\ search "%" category difficulty now st = everything
  /\ (forall q, In q (search term category difficulty now st) ->
        In q everything).
Proof.
  cbv zeta.
  destruct (search_without_term category difficulty now st) as (E1 & E2).
  rewrite E1, E2. split; [|split; [reflexivity|]].
  - exists (newest_first (matching category difficulty st)).
    split; [reflexivity|].
    split; [apply newest_first_perm | apply newest_first_sorted].
  - intros q H. apply search_within_matching in H.
    destruct H as (row & I & ->). apply in_map.
    apply (Permutation_in _ (Permutation_sym (newest_first_perm _))), I.
Qed.

(** X12.  A stored question that passes the filters is found whenever the
    characters of the term occur, one after the other, in its prompt or in
    one of its three options, before any NUL of that text: SQLite reads a
    text up to its first NUL.  This is for a term without a NUL and of at
    most 49998 bytes, the longest LIKE pattern SQLite takes being 50000
    bytes. *)
Theorem search_finds_every_occurrence
  (term : string) (category difficulty : option string)
  (now : string) (st : Store)
  (row : QuestionRow) (field : string) (before after : list string) :
  In row (questions st) ->
  condition category (q_category row) = true ->
  condition difficulty (q_difficulty row) = true ->
  In field [q_prompt row; q_option_a row; q_option_b row; q_option_c row] ->
  Like.c_string term = term ->
  Like.chars (Like.c_string field) = before ++ Like.chars term ++ after ->
  Z.of_nat (String.length term) + 2 <= Like.max_pattern_length ->
  In (_row_to_question now row) (search term category difficulty now st).
Proof.
  intros I C D F N O L. unfold search. cbv zeta.
  assert (Len : (Z.of_nat (String.length ("%" ++ term ++ "%"))
                 >? Like.max_pattern_length) = false).
  { change ("%" ++ term ++ "%")%string with (String "%" (term ++ "%")).
    cbn [String.length]. rewrite string_length_app. cbn [String.length].
    rewrite Z.gtb_ltb. apply Z.ltb_ge. lia. }
  rewrite Len. apply in_map.
  apply (Permutation_in _ (Permutation_sym (newest_first_perm _))).
  apply filter_In. split; [exact I|].
  unfold found. rewrite C, D, !andb_true_r.
  apply (like_occurrence _ _ _ _ N) in O.
  destruct F as [<-|[<-|[<-|[<-|[]]]]]; rewrite O;
    rewrite ?orb_true_r; reflexivity.
Qed.

(** The second sample question is found by [Guido]; a text that has the
    word behind a NUL does not match. *)
Lemma search_finds_every_occurrence_witness :
  let st := fresh_store "2024-01-01 00:00:00" in
  (exists row,
     nth_error (questions st) 1 = Some row
     /\ Like.chars (q_option_a row)
        = Like.chars "A. " ++ Like.chars "Guido" ++ Like.chars " van Rossum"
     /\ In (_row_to_question "2024-01-02 00:00:00" row)
          (search "Guido" (Some "Python") None "2024-01-02 00:00:00" st))
  /\ Like.like "%Guido%" (String "x" (String Ascii.zero "Guido")) = false
  /\ Like.like "%Guido%" ("Guido" ++ String Ascii.zero "x") = true.
Proof.
  cbv zeta. split; [|split; vm_compute; reflexivity].
  destruct (nth_error (questions (fresh_store "2024-01-01 00:00:00")) 1)
    as [row|] eqn:E; [|vm_compute in E; discriminate].
  exists row. split; [reflexivity|].
  assert (I : In row (questions (fresh_store "2024-01-01 00:00:00")))
    by exact (nth_error_In _ _ E).
  vm_compute in E. injection E as E.
  assert (O : Like.chars (q_option_a row)
              = Like.chars "A. " ++ Like.chars "Guido"
                ++ Like.chars " van Rossum")
    by (rewrite <- E; vm_compute; reflexivity).
  split; [exact O|].
  apply (search_finds_every_occurrence "Guido" (Some "Python") None
           "2024-01-02 00:00:00" _ row (q_option_a row)
           (Like.chars "A. ") (Like.chars " van Rossum")).
  - exact I.
  - rewrite <- E. reflexivity.
  - reflexivity.
  - right. left. reflexivity.
  - reflexivity.
  - rewrite <- E. vm_compute. reflexivity.
  - vm_compute. discriminate.
Defined.

End SearchFacts.


(* ================================================================== *)
(** * Listing, counting and drawing questions *)
(* ================================================================== *)

Section ListingFacts.
Import DatabaseManager QuestionRepository QuestionQueries Notions.
Import QueryNotions StoreNotions QuizCounts QuizSettings.

(** X13.  [get_all] without a limit lists every stored question once,
    the newest first, whatever the offset; a limit of 0 does the same,
    since the LIMIT clause is only written for a limit that is true; a
    positive limit gives that many questions of the list from the offset
    on, and a negative one all of them from the offset on. *)
Theorem get_all_pages_through_the_newest_first
  (offset : Z) (now : string) (st : Store) :
  let everything := get_all None 0 now st in
  (exists rows,
     everything = map (_row_to_question now) rows
     /\ Permutation rows (questions st)
     /\ StronglySorted newer rows)
  /\ get_all None offset now st = everything
  /\ get_all (Some 0) offset now st = everything
  /\ (forall n,
        0 < n <= Py.int64_max -> 0 <= offset <= Py.int64_max ->
        get_all (Some n) offset now st
        = firstn (Z.to_nat n) (skipn (Z.to_nat offset) everything))
  /\ (forall n,
        Py.int64_min <= n < 0 -> 0 <= offset <= Py.int64_max ->
        get_all (Some n) offset now st
        = skipn (Z.to_nat offset) everything).
Proof.
  cbv zeta. unfold get_all. cbv zeta.
  assert (Lo : Py.int64_min <= 0) by (vm_compute; discriminate).
  split; [|split; [reflexivity|split; [reflexivity|split]]].
  - exists (newest_first (questions st)).
    split; [reflexivity|].
    split; [apply newest_first_perm | apply newest_first_sorted].
  - intros n Hn Ho.
    destruct (n =? 0) eqn:E; [apply Z.eqb_eq in E; lia|].
    unfold bindable.
    replace (Py.int64_min <=? n) with true by (symmetry; apply Z.leb_le; lia).
    replace (n <=? Py.int64_max) with true by (symmetry; apply Z.leb_le; lia).
    replace (Py.int64_min <=? offset) with true
      by (symmetry; apply Z.leb_le; lia).
    replace (offset <=? Py.int64_max) with true
      by (symmetry; apply Z.leb_le; lia).
    cbn [andb negb orb]. unfold limit, offset_rows.
    replace (n <? 0) with false by (symmetry; apply Z.ltb_ge; lia).
    rewrite skipn_map, firstn_map. reflexivity.
  - intros n Hn Ho.
    destruct (n =? 0) eqn:E; [apply Z.eqb_eq in E; lia|].
    assert (Hi : 0 <= Py.int64_max) by (vm_compute; discriminate).
    unfold bindable.
    replace (Py.int64_min <=? n) with true by (symmetry; apply Z.leb_le; lia).
    replace (n <=? Py.int64_max) with true by (symmetry; apply Z.leb_le; lia).
    replace (Py.int64_min <=? offset) with true
      by (symmetry; apply Z.leb_le; lia).
    replace (offset <=? Py.int64_max) with true
      by (symmetry; apply Z.leb_le; lia).
    cbn [andb negb orb]. unfold limit, offset_rows.
    replace (n <? 0) with true by (symmetry; apply Z.ltb_lt; lia).
    rewrite skipn_map. reflexivity.
Qed.

Lemma categories_listed (st : Store) (c : string) :
  In c (get_categories st)
  <-> exists row, In row (questions st) /\ q_category row = c.
Proof.
  unfold get_categories. split.
  - intros H. apply (Permutation_in _ (sort_by_perm _ _ _)) in H.
    apply nodup_In, in_map_iff in H. destruct H as (row & E & I).
    exists row. tauto.
  - intros (row & I & E).
    apply (Permutation_in _ (Permutation_sym (sort_by_perm _ _ _))).
    apply nodup_In, in_map_iff. exists row. tauto.
Qed.

Lemma categories_distinct (st : Store) : NoDup (get_categories st).
Proof.
  unfold get_categories.
  apply (Permutation_NoDup (Permutation_sym (sort_by_perm _ _ _))).
  apply NoDup_nodup.
Qed.

Lemma categories_sorted (st : Store) :
  StronglySorted (fun a b => Py.str_le a b = true) (get_categories st).
Proof.
  unfold get_categories.
  exact (sort_by_sorted (fun c : string => c) Py.str_le
           str_le_total str_le_trans _).
Qed.

Lemma sum_counts_same (f g : string -> Z) (keys : list string) :
  (forall k, In k keys -> f k = g k) ->
  sum_counts (map (fun k => (k, f k)) keys)
  = sum_counts (map (fun k => (k, g k)) keys).
Proof.
  intros H. f_equal. apply map_ext_in. intros k I. rewrite (H k I).
  reflexivity.
Qed.

Lemma sum_counts_zero (keys : list string) :
  sum_counts (map (fun k => (k, 0)) keys) = 0.
Proof.
  induction keys as [|k keys IH]; [reflexivity|].
  cbn [map sum_counts fold_right snd]. exact IH.
Qed.

Lemma sum_counts_split (f g : string -> Z) (keys : list string) :
  sum_counts (map (fun k => (k, f k + g k)) keys)
  = sum_counts (map (fun k => (k, f k)) keys)
    + sum_counts (map (fun k => (k, g k)) keys).
Proof.
  induction keys as [|k keys IH]; [reflexivity|].
  unfold sum_counts in *. cbn [map fold_right snd]. rewrite IH. lia.
Qed.

Lemma sum_counts_absent (x : string) (keys : list string) :
  ~ In x keys ->
  sum_counts (map (fun k => (k, if String.eqb x k then 1 else 0)) keys) = 0.
Proof.
  intros N.
  transitivity (sum_counts (map (fun k => (k, 0)) keys));
    [|apply sum_counts_zero].
  apply (sum_counts_same (fun k => if String.eqb x k then 1 else 0)
           (fun _ => 0)).
  intros k I. destruct (String.eqb x k) eqn:E; [|reflexivity].
  apply String.eqb_eq in E. subst k. contradiction.
Qed.

Lemma sum_counts_once (x : string) (keys : list string) :
  NoDup keys ->
  In x keys ->
  sum_counts (map (fun k => (k, if String.eqb x k then 1 else 0)) keys) = 1.
Proof.
  induction 1 as [|k keys N D IH]; intros I; [destruct I|].
  change (sum_counts (map (fun k0 => (k0, if String.eqb x k0 then 1 else 0))
                        (k :: keys)))
    with ((if String.eqb x k then 1 else 0)
          + sum_counts (map (fun k0 => (k0, if String.eqb x k0 then 1 else 0))
                          keys)).
  destruct (String.eqb x k) eqn:E.
  - apply String.eqb_eq in E. subst k. rewrite sum_counts_absent by exact N.
    reflexivity.
  - destruct I as [->|I]; [rewrite String.eqb_refl in E; discriminate|].
    rewrite (IH I). reflexivity.
Qed.

Lemma count_by_key (key : QuestionRow -> string) (keys : list string)
  (rows : list QuestionRow) :
  NoDup keys ->
  (forall row, In row rows -> In (key row) keys) ->
  sum_counts
    (map (fun k =>
            (k, Z.of_nat
                  (length (filter (fun row => String.eqb (key row) k) rows))))
       keys)
  = Z.of_nat (length rows).
Proof.
  intros D. induction rows as [|row rows IH]; intros H.
  - apply sum_counts_zero.
  - rewrite (sum_counts_same _
               (fun k => (if String.eqb (key row) k then 1 else 0)
                         + Z.of_nat
                             (length (filter (fun r => String.eqb (key r) k)
                                        rows)))).
    + rewrite sum_counts_split, sum_counts_once, IH.
      * cbn [length]. lia.
      * intros r I. apply H. right. exact I.
      * exact D.
      * apply H. left. reflexivity.
    + intros k _. cbn [filter].
      destruct (String.eqb (key row) k); cbn [length]; lia.
Qed.

Lemma search_count (category difficulty : option string)
  (now : string) (st : Store) :
  length (search "" category difficulty now st)
  = length (matching category difficulty st).
Proof.
  rewrite (proj1 (search_without_term category difficulty now st)).
  rewrite length_map. apply Permutation_length, newest_first_perm.
Qed.

(** X14.  In a store that meets the table constraints the counts
    [get_question_counts_by_criteria] gives by difficulty add up to the
    total; the categories it counts are distinct and sorted; the counts by
    category add up to the total when no stored category is empty — and
    when one is, the entry of the empty category holds the total, the
    empty filter being no filter. *)
Theorem question_counts_add_up (now : string) (st : Store) :
  consistent st ->
  let c := get_question_counts_by_criteria now st in
  sum_counts (by_difficulty c) = total c
  /\ map fst (by_category c) = get_available_categories st
  /\ NoDup (map fst (by_category c))
  /\ StronglySorted (fun a b => Py.str_le a b = true) (map fst (by_category c))
  /\ ((forall row, In row (questions st) -> q_category row <> "") ->
      sum_counts (by_category c) = total c)
  /\ (forall row, In row (questions st) -> q_category row = "" ->
      In ("", total c) (by_category c)).
Proof.
  intros (_ & _ & _ & _ & CQ & _). cbv zeta.
  unfold get_question_counts_by_criteria, get_available_categories.
  cbn [total by_category by_difficulty].
  assert (Keys : map fst
                   (map (fun category =>
                           (category,
                            Z.of_nat (length (search "" (Some category) None
                                                now st))))
                      (get_categories st))
                 = get_categories st).
  { rewrite map_map. cbn [fst]. apply map_id. }
  rewrite Keys.
  split; [|split; [reflexivity|split; [apply categories_distinct|split;
    [apply categories_sorted|split]]]].
  - rewrite (sum_counts_same _
               (fun k => Z.of_nat
                           (length (filter
                                      (fun row => String.eqb (q_difficulty row) k)
                                      (questions st))))).
    + apply (count_by_key q_difficulty).
      * repeat (constructor;
                [simpl; intros H;
                 repeat (destruct H as [H|H]; [discriminate H|]); exact H|]).
        constructor.
      * intros row I. rewrite Forall_forall in CQ.
        destruct (CQ row I) as (_ & Dif).
        simpl in Dif. simpl.
        destruct Dif as [<-|[<-|[<-|[]]]]; tauto.
    + intros k I. rewrite search_count. unfold matching. do 2 f_equal.
      apply filter_ext. intros row.
      simpl in I. destruct I as [<-|[<-|[<-|[]]]]; reflexivity.
  - intros NE.
    rewrite (sum_counts_same _
               (fun k => Z.of_nat
                           (length (filter
                                      (fun row => String.eqb (q_category row) k)
                                      (questions st))))).
    + apply (count_by_key q_category).
      * apply categories_distinct.
      * intros row I. apply categories_listed. exists row. tauto.
    + intros k I. rewrite search_count. unfold matching. do 2 f_equal.
      apply filter_ext. intros row.
      apply categories_listed in I. destruct I as (r & I & <-).
      specialize (NE r I). unfold condition.
      destruct (q_category r); [contradiction|].
      cbn [Py.truthy]. apply andb_true_r.
  - intros row I E.
    apply in_map_iff. exists "". split.
    + f_equal. rewrite search_count. unfold matching, get_count.
      rewrite filter_everything; reflexivity.
    + apply categories_listed. exists row. tauto.
Qed.

Lemma fresh_store_consistent (now : string) : consistent (fresh_store now).
Proof.
  exact (calls_consistent [(InsertSampleData, now)] empty_store
           empty_store_consistent).
Qed.

Lemma question_counts_add_up_witness :
  let st := fresh_store "2024-01-01 00:00:00" in
  let c := get_question_counts_by_criteria "2024-01-02 00:00:00" st in
  consistent st
  /\ sum_counts (by_difficulty c) = total c
  /\ by_difficulty c = [("Easy", 5); ("Medium", 3); ("Hard", 0)]
  /\ by_category c = [("Python", 8)].
Proof.
  cbv zeta. split; [apply fresh_store_consistent|].
  split; [|split; vm_compute; reflexivity].
  pose proof (question_counts_add_up "2024-01-02 00:00:00"
                (fresh_store "2024-01-01 00:00:00")
                (fresh_store_consistent "2024-01-01 00:00:00")) as H.
  cbv zeta in H. exact (proj1 H).
Defined.

Lemma validate_cases (n : Z) (category difficulty : option string)
  (now : string) (st : Store) :
  fst (validate_quiz_settings n category difficulty now st) = true
  <-> 1 <= n <= 50
      /\ n <= Z.of_nat (length (matching category difficulty st)).
Proof.
  unfold validate_quiz_settings. cbv zeta. rewrite search_count.
  destruct (n <? 1) eqn:E1.
  { apply Z.ltb_lt in E1. cbn [fst]. split; [discriminate|lia]. }
  apply Z.ltb_ge in E1.
  destruct (n >? 50) eqn:E2.
  { rewrite Z.gtb_ltb in E2. apply Z.ltb_lt in E2. cbn [fst].
    split; [discriminate|lia]. }
  rewrite Z.gtb_ltb in E2. apply Z.ltb_ge in E2.
  destruct (_ <? n) eqn:E3; cbn [fst].
  - apply Z.ltb_lt in E3. split; [discriminate|lia].
  - apply Z.ltb_ge in E3. split; [lia|reflexivity].
Qed.

(** X15.  Settings that [validate_quiz_settings] accepts give a full
    quiz: the number asked for is from 1 to 50, and [get_quiz_questions]
    then returns exactly that many questions, all stored ones that pass
    the filters, no two with the same id — whatever RANDOM() draws.
    Settings are accepted exactly when the number is from 1 to 50 and at
    most the number of stored questions that pass the filters, and are
    refused with a message otherwise. *)
Theorem validated_settings_give_a_full_quiz
  (n : Z) (category difficulty : option string) (random : nat -> Z)
  (now later : string) (st : Store) :
  NoDup (map q_id (questions st)) ->
  let checked := validate_quiz_settings n category difficulty now st in
  let quiz := get_quiz_questions n category difficulty random later st in
  (fst checked = true
   <-> 1 <= n <= 50 /\ n <= Z.of_nat (length (matching category difficulty st)))
  /\ (fst checked = true <-> snd checked = None)
  /\ (fst checked = true ->
      Z.of_nat (length quiz) = n
      /\ NoDup (map Question.id quiz)
      /\ forall q, In q quiz ->
           exists row,
             In row (matching category difficulty st)
             /\ q = _row_to_question later row).
Proof.
  intros D. cbv zeta.
  split; [apply validate_cases|]. split.
  - unfold validate_quiz_settings. cbv zeta.
    destruct (n <? 1); [cbn; split; discriminate|].
    destruct (n >? 50); [cbn; split; discriminate|].
    destruct (_ <? n); cbn; split; try discriminate; reflexivity.
  - intros V. apply validate_cases in V. destruct V as (B & L).
    unfold get_quiz_questions, get_random_questions.
    assert (Lo : Py.int64_min <= 0) by (vm_compute; discriminate).
    assert (Hi : 50 <= Py.int64_max) by (vm_compute; discriminate).
    replace (n <? Py.int64_min) with false by (symmetry; apply Z.ltb_ge; lia).
    replace (Py.int64_max <? n) with false by (symmetry; apply Z.ltb_ge; lia).
    cbn [orb]. unfold limit.
    replace (n <? 0) with false by (symmetry; apply Z.ltb_ge; lia).
    pose proof (order_by_random_perm random
                  (matching category difficulty st)) as P.
    split; [|split].
    + rewrite length_map, firstn_length_le; [lia|].
      rewrite (Permutation_length P). lia.
    + rewrite map_map. cbn [_row_to_question Question.id].
      rewrite <- (map_map q_id Some). apply map_Some_NoDup.
      rewrite <- firstn_map. apply firstn_NoDup.
      apply (Permutation_NoDup (l := map q_id (matching category difficulty st)));
        [apply Permutation_map, Permutation_sym, P|].
      apply filter_keeps_distinct_keys, D.
    + intros q H. apply in_map_iff in H. destruct H as (row & <- & H).
      exists row. split; [|reflexivity].
      apply (Permutation_in _ P), (firstn_In _ _ _ H).
Qed.

Lemma validated_settings_give_a_full_quiz_witness :
  let st := fresh_store "2024-01-01 00:00:00" in
  let random := fun i : nat => Z.of_nat ((i * 5) mod 7) in
  NoDup (map q_id (questions st))
  /\ validate_quiz_settings 3 (Some "Python") (Some "Medium")
       "2024-01-02 00:00:00" st = (true, None)
  /\ fst (validate_quiz_settings 4 (Some "Python") (Some "Medium")
            "2024-01-02 00:00:00" st) = false
  /\ Z.of_nat (length (get_quiz_questions 3 (Some "Python") (Some "Medium")
                         random "2024-01-02 00:00:00" st)) = 3.
Proof.
  cbv zeta.
  pose proof (proj1 (fresh_store_primary_key "2024-01-01 00:00:00")) as D.
  split; [exact D|].
  split; [vm_compute; reflexivity|].
  split; [vm_compute; reflexivity|].
  pose proof (validated_settings_give_a_full_quiz 3
                (Some "Python") (Some "Medium")
                (fun i : nat => Z.of_nat ((i * 5) mod 7))
                "2024-01-02 00:00:00" "2024-01-02 00:00:00"
                (fresh_store "2024-01-01 00:00:00") D) as H.
  cbv zeta in H. destruct H as (_ & _ & H).
  refine (proj1 (H _)). vm_compute. reflexivity.
Defined.

End ListingFacts.


(* ================================================================== *)
(** * Users and the sample data *)
(* ================================================================== *)

Section UserFacts.
Import DatabaseManager UserRepository Notions StoreNotions.

Lemma find_snoc {Row} (wanted : Row -> bool) (rows : list Row) (row : Row) :
  find wanted (rows ++ [row])
  = match find wanted rows with
    | Some hit => Some hit
    | None => if wanted row then Some row else None
    end.
Proof.
  induction rows as [|r rows IH]; cbn [app find]; [reflexivity|].
  destruct (wanted r); [reflexivity|exact IH].
Qed.

Lemma find_absent {Row} (wanted : Row -> bool) (rows : list Row) :
  (forall row, In row rows -> wanted row = false) -> find wanted rows = None.
Proof.
  induction rows as [|r rows IH]; cbn [find]; intros H; [reflexivity|].
  rewrite (H r) by (left; reflexivity). apply IH. intros; apply H; right;
    assumption.
Qed.

Lemma insert_user_rows
  (username password_hash role now : string) (is_active : Z)
  (st st' : Store) (rowid : Z) :
  insert_user username password_hash role is_active now st = Some (rowid, st') ->
  ~ In username (map u_username (users st))
  /\ users st'
     = users st
       ++ [{| u_id := rowid; u_username := username;
              u_password_hash := password_hash; u_role := role;
              u_created_at := now; u_last_login := None;
              u_is_active := is_active |}].
Proof.
  intros H. unfold insert_user in H.
  destruct (Migrations.mem_string username (map u_username (users st))) eqn:T;
    [discriminate|].
  destruct (negb _); [discriminate|].
  destruct (next_rowid _ _); [|discriminate].
  simpl in H. injection H as <- <-. split; [|reflexivity].
  intros I. apply mem_string_In in I. congruence.
Qed.

(** X16.  [UserRepository.create] raises exactly when the user name is
    taken, the role is neither user nor admin, or the ids are used up.
    Otherwise the new user reads back under its name with the id
    returned, the password, role and activity given and no last login;
    every other name reads as before; and the new user authenticates with
    its password exactly when it is active, and with no other password. *)
Theorem created_user_reads_back_and_logs_in
  (user : User.User) (now later : string) (st : Store) :
  let r := UserQueries.create user now st in
  (r = None <->
   In (User.username user) (map u_username (users st))
   \/ ~ In (User.role user) ["user"; "admin"]
   \/ next_rowid (users_seq st) (map u_id (users st)) = None)
  /\ (forall i st',
        r = Some (i, st') ->
        (exists stored,
           get_by_username (User.username user) st' = Some stored
           /\ User.id stored = Some i
           /\ User.username stored = User.username user
           /\ User.password_hash stored = User.password_hash user
           /\ User.role stored = User.role user
           /\ User.is_active stored = User.is_active user
           /\ User.last_login stored = None
           /\ User.created_at stored = now)
        /\ (forall name, name <> User.username user ->
              get_by_username name st' = get_by_username name st)
        /\ (fst (authenticate (User.username user) (User.password_hash user)
                   later st') <> None
            <-> User.is_active user = true)
        /\ (forall password, password <> User.password_hash user ->
              fst (authenticate (User.username user) password later st')
              = None)).
Proof.
  cbv zeta. split.
  - unfold UserQueries.create, insert_user.
    destruct (Migrations.mem_string (User.username user) _) eqn:T.
    { split; [|reflexivity]. intros _. left. apply mem_string_In, T. }
    destruct (Migrations.mem_string (User.role user) ["user"; "admin"]) eqn:A;
      cbn [negb].
    2:{ split; [|reflexivity]. intros _. right. left.
        intros I. apply mem_string_In in I. congruence. }
    destruct (next_rowid _ _) eqn:E; cbn.
    + split; [discriminate|].
      intros [I|[I|I]]; [| |discriminate].
      * apply mem_string_In in I. congruence.
      * exfalso. apply I. exact (proj1 (mem_string_In _ _) A).
    + split; [|reflexivity]. intros _. right. right. reflexivity.
  - intros i st' H. unfold UserQueries.create in H.
    apply insert_user_rows in H. destruct H as (N & U).
    set (row := {| u_id := i; u_username := User.username user;
                   u_password_hash := User.password_hash user;
                   u_role := User.role user; u_created_at := now;
                   u_last_login := None;
                   u_is_active := if User.is_active user then 1 else 0 |})
      in U.
    assert (G : get_by_username (User.username user) st'
                = Some (_row_to_user row)).
    { rewrite get_by_username_find, U, find_snoc, find_absent.
      - cbn [u_username row]. rewrite String.eqb_refl. reflexivity.
      - intros r I. apply String.eqb_neq. intros E. apply N.
        rewrite <- E. apply in_map, I. }
    assert (Act : User.is_active (_row_to_user row) = User.is_active user).
    { cbn. destruct (User.is_active user); reflexivity. }
    split; [|split; [|split]].
    + exists (_row_to_user row). split; [exact G|].
      repeat (split; [reflexivity|]).
      split; [exact Act|]. split; reflexivity.
    + intros name Ne. rewrite !get_by_username_find, U, find_snoc.
      destruct (find _ (users st)); [reflexivity|].
      cbn [u_username row].
      destruct (String.eqb (User.username user) name) eqn:E; [|reflexivity].
      apply String.eqb_eq in E. congruence.
    + unfold authenticate. rewrite G.
      change (User.password_hash (_row_to_user row))
        with (User.password_hash user).
      rewrite String.eqb_refl, Act. cbn [andb].
      destruct (User.is_active user); cbn [fst].
      * split; [reflexivity|discriminate].
      * split; [intros F; exfalso; apply F; reflexivity|discriminate].
    + intros password Ne. unfold authenticate. rewrite G.
      change (User.password_hash (_row_to_user row))
        with (User.password_hash user).
      destruct (String.eqb (User.password_hash user) password) eqn:E.
      * apply String.eqb_eq in E. congruence.
      * reflexivity.
Qed.

Lemma insert_questions_rows rows (now : string) (st st' : Store) :
  insert_questions rows now st = Some st' ->
  length (questions st') = (length (questions st) + length rows)%nat
  /\ users st' = users st
  /\ users_seq st' = users_seq st
  /\ quiz_results st' = quiz_results st
  /\ quiz_results_seq st' = quiz_results_seq st.
Proof.
  revert st. induction rows as [|row rows IH]; intros st H; cbn in H.
  - injection H as <-. cbn. rewrite Nat.add_0_r. tauto.
  - destruct row as [[[[[[[p a] b] c] ans] cat] dif] tg].
    destruct (insert_question p a b c ans cat dif tg now st) as [[i st1]|]
      eqn:E; [|discriminate].
    cbn in H. apply IH in H. destruct H as (L & U & US & R & RS).
    unfold insert_question in E.
    destruct (negb _); [discriminate|].
    destruct (negb _); [discriminate|].
    destruct (next_rowid _ _); [|discriminate].
    cbn in E. injection E as <- <-. cbn in *.
    rewrite L, length_app. cbn. split; [lia|tauto].
Qed.

Lemma largest_is_seq (seq : Z) (ids : list Z) :
  Forall (fun i => 1 <= i <= seq) ids -> fold_right Z.max seq ids = seq.
Proof.
  induction 1 as [|i ids Hi F IH]; cbn; [reflexivity|]. rewrite IH. lia.
Qed.

Lemma next_rowid_room (seq : Z) (ids : list Z) :
  keys_ok seq ids -> seq < Py.int64_max ->
  next_rowid seq ids = Some (seq + 1).
Proof.
  intros (_ & F & _) Lt. unfold next_rowid. cbv zeta.
  rewrite (largest_is_seq _ _ F).
  replace (seq >=? Py.int64_max) with false; [reflexivity|].
  symmetry. rewrite Z.geb_leb. apply Z.leb_gt. exact Lt.
Qed.

Lemma insert_questions_room rows (now : string) (st : Store) :
  keys_ok (questions_seq st) (map q_id (questions st)) ->
  Forall (fun row =>
            match row with
            | (_, _, _, _, ans, _, dif, _) =>
                In ans ["A"; "B"; "C"] /\ In dif ["Easy"; "Medium"; "Hard"]
            end) rows ->
  questions_seq st + Z.of_nat (length rows) <= Py.int64_max ->
  exists st', insert_questions rows now st = Some st'.
Proof.
  revert st. induction rows as [|row rows IH]; intros st K V Room.
  - exists st. reflexivity.
  - destruct row as [[[[[[[p a] b] c] ans] cat] dif] tg].
    inversion V as [|? ? AD V']; subst. destruct AD as (A & D).
    cbn [length] in Room.
    assert (E : next_rowid (questions_seq st) (map q_id (questions st))
                = Some (questions_seq st + 1))
      by (apply next_rowid_room; [exact K|lia]).
    cbn [insert_questions]. unfold insert_question.
    rewrite (proj2 (mem_string_In _ _) A), (proj2 (mem_string_In _ _) D), E.
    cbn [negb]. cbn.
    apply IH.
    + cbn. rewrite map_app. cbn. apply (keys_ok_insert _ _ _ K E).
    + exact V'.
    + cbn [questions_seq]. lia.
Qed.

Lemma sample_questions_valid :
  Forall (fun row =>
            match row with
            | (_, _, _, _, ans, _, dif, _) =>
                In ans ["A"; "B"; "C"] /\ In dif ["Easy"; "Medium"; "Hard"]
            end) sample_questions.
Proof.
  assert (B : forallb
                (fun row : string * string * string * string * string * string
                           * string * string =>
                   match row with
                   | (_, _, _, _, ans, _, dif, _) =>
                       Migrations.mem_string ans ["A"; "B"; "C"]
                       && Migrations.mem_string dif ["Easy"; "Medium"; "Hard"]
                   end) sample_questions = true)
    by (vm_compute; reflexivity).
  rewrite forallb_forall in B. apply Forall_forall. intros row I.
  specialize (B row I).
  destruct row as [[[[[[[p a] b] c] ans] cat] dif] tg].
  apply andb_true_iff in B. destruct B as (A & D).
  split; apply mem_string_In; assumption.
Qed.

(** X17.  [_insert_sample_data] can be run again and again: when it has
    succeeded once, a further run succeeds and changes nothing.  After a
    run there are questions and a user named admin; questions that were
    there are left as they were (samples go into an empty table only),
    users too, and quiz results are untouched.  In a store that meets the
    table constraints, with room for eight more question ids and one more
    user id, the run succeeds. *)
Theorem insert_sample_data_only_fills_what_is_missing
  (now later : string) (st : Store) :
  (consistent st ->
   questions_seq st + 8 <= Py.int64_max ->
   users_seq st + 1 <= Py.int64_max ->
   exists st', _insert_sample_data now st = Some st')
  /\ (forall st',
        _insert_sample_data now st = Some st' ->
        _insert_sample_data later st' = Some st'
        /\ questions st' <> []
        /\ (exists row, In row (users st') /\ u_username row = "admin")
        /\ (questions st <> [] -> questions st' = questions st)
        /\ (exists added, users st' = users st ++ added)
        /\ ((exists row, In row (users st) /\ u_username row = "admin") ->
            users st' = users st)
        /\ quiz_results st' = quiz_results st).
Proof.
  assert (Count : forall rows : list UserRow,
             Nat.eqb (length (filter (fun u => String.eqb (u_username u) "admin")
                                rows)) 0 = false
             <-> exists row, In row rows /\ u_username row = "admin").
  { intros rows. split.
    - intros H.
      destruct (filter (fun u => String.eqb (u_username u) "admin") rows)
        as [|row rest] eqn:F; [discriminate|].
      assert (I : In row (row :: rest)) by (left; reflexivity).
      rewrite <- F in I. apply filter_In in I. exists row.
      rewrite String.eqb_eq in I. exact I.
    - intros (row & I & E).
      assert (In row (filter (fun u => String.eqb (u_username u) "admin") rows))
        as Hin by (apply filter_In; rewrite E; tauto).
      destruct (filter _ rows); [destruct Hin|reflexivity]. }
  split.
  - intros C Q U. unfold _insert_sample_data.
    assert (exists st1,
               (if Nat.eqb (length (questions st)) 0
                then insert_questions sample_questions now st else Some st)
               = Some st1
               /\ users st1 = users st /\ users_seq st1 = users_seq st)
      as (st1 & E1 & U1 & S1).
    { destruct (Nat.eqb (length (questions st)) 0).
      - destruct (insert_questions_room sample_questions now st) as (st1 & E).
        + apply C.
        + exact sample_questions_valid.
        + exact Q.
        + exists st1. split; [exact E|].
          apply insert_questions_rows in E. tauto.
      - exists st. tauto. }
    rewrite E1. cbv beta iota.
    match goal with
    | |- exists _, (if ?b then _ else _) = _ => destruct b eqn:F
    end; [|eexists; reflexivity].
    unfold insert_user.
    assert (T : Migrations.mem_string "admin" (map u_username (users st1))
                = false).
    { apply not_true_is_false. intros I. apply mem_string_In in I.
      apply in_map_iff in I. destruct I as (row & E & I).
      assert (Nat.eqb (length (filter (fun u => String.eqb (u_username u) "admin")
                                 (users st1))) 0 = false)
        by (apply Count; exists row; tauto).
      congruence. }
    rewrite T. cbn [Migrations.mem_string negb].
    change (negb (Migrations.mem_string "admin" ["user"; "admin"])) with false.
    cbv iota.
    rewrite U1, S1, (next_rowid_room _ _ (proj1 (proj2 C))) by lia.
    eexists. reflexivity.
  - intros st' H. unfold _insert_sample_data in H.
    destruct (if Nat.eqb (length (questions st)) 0
              then insert_questions sample_questions now st else Some st)
      as [st1|] eqn:E1; [|discriminate].
    cbv beta iota in H.
    assert (Q1 : questions st1 <> []
                 /\ (questions st <> [] -> questions st1 = questions st)
                 /\ users st1 = users st
                 /\ quiz_results st1 = quiz_results st).
    { destruct (Nat.eqb (length (questions st)) 0) eqn:L.
      - apply insert_questions_rows in E1.
        destruct E1 as (Len & U & _ & R & _).
        split; [|split; [|tauto]].
        + intros Z. rewrite Z in Len. cbn in Len. lia.
        + intros NE. destruct (questions st); [contradiction|discriminate].
      - injection E1 as <-. split; [|tauto].
        intros Z. rewrite Z in L. discriminate. }
    destruct Q1 as (NE1 & Same1 & U1 & R1).
    assert (Again : forall s : Store,
               questions s <> [] ->
               (exists row, In row (users s) /\ u_username row = "admin") ->
               _insert_sample_data later s = Some s).
    { intros s NE Adm. unfold _insert_sample_data.
      destruct (questions s) eqn:Qs; [contradiction|].
      cbn [length Nat.eqb]. cbv beta iota.
      apply Count in Adm. rewrite Adm. reflexivity. }
    destruct (Nat.eqb _ 0) eqn:F in H.
    + destruct (insert_user "admin" "admin123" "admin" 1 now st1)
        as [[i st2]|] eqn:E2; [|discriminate].
      cbn in H. injection H as <-.
      pose proof (insert_user_questions _ _ _ _ _ _ _ _ E2) as (Q2 & _ & R2).
      apply insert_user_rows in E2. destruct E2 as (N2 & U2).
      assert (Adm : exists row, In row (users st2) /\ u_username row = "admin").
      { eexists. split; [rewrite U2; apply in_or_app; right; left; reflexivity|].
        reflexivity. }
      split; [apply Again; [rewrite Q2; exact NE1 | exact Adm]|].
      split; [rewrite Q2; exact NE1|].
      split; [exact Adm|].
      split; [rewrite Q2; exact Same1|].
      split; [eexists; rewrite U2, U1; reflexivity|].
      split; [|congruence].
      intros (row & I & E). exfalso. apply N2. rewrite U1, <- E.
      apply in_map, I.
    + injection H as <-.
      assert (Adm : exists row, In row (users st1) /\ u_username row = "admin")
        by (apply Count, F).
      split; [apply Again; assumption|].
      split; [exact NE1|]. split; [exact Adm|]. split; [exact Same1|].
      split; [exists []; rewrite app_nil_r; exact U1|].
      split; [intros _; exact U1 | exact R1].
Qed.

End UserFacts.


(* ================================================================== *)
(** * Quiz results and the text of their question ids *)
(* ================================================================== *)

Section ResultFacts.
Import DatabaseManager QuizResultRepository QuizResultQueries QuizService.
Import Notions TextNotions.

Lemma plain_is_safe (a : ascii) :
  plain a = true ->
  starts_none a Py.whitespace = true
  /\ starts_none a (map Py.rev_string Py.whitespace) = true
  /\ Ascii.eqb a "," = false.
Proof.
  destruct a as [b0 b1 b2 b3 b4 b5 b6 b7].
  destruct b0, b1, b2, b3, b4, b5, b6, b7; intros H;
    try (vm_compute in H; discriminate H);
    vm_compute; repeat split.
Qed.

Lemma digit_is_plain (a : ascii) :
  PyInt.is_digit a = true ->
  plain a = true /\ Ascii.eqb a "_" = false /\ Ascii.eqb a "+" = false
  /\ Ascii.eqb a "-" = false.
Proof.
  destruct a as [b0 b1 b2 b3 b4 b5 b6 b7].
  destruct b0, b1, b2, b3, b4, b5, b6, b7; intros H;
    try (vm_compute in H; discriminate H);
    vm_compute; repeat split.
Qed.

Lemma drop_any_none (a : ascii) (ps : list string) (s : string) :
  starts_none a ps = true -> Py.drop_any ps (String a s) = None.
Proof.
  induction ps as [|p ps IH]; cbn [starts_none forallb Py.drop_any];
    [reflexivity|].
  intros H. apply andb_true_iff in H. destruct H as (H1 & H2).
  destruct p as [|b p]; [discriminate|].
  cbn [Py.drop_prefix]. apply negb_true_iff in H1. rewrite H1.
  apply IH, H2.
Qed.

Lemma lstrip_from_none (a : ascii) (ps : list string) (s : string) (fuel : nat) :
  starts_none a ps = true -> Py.lstrip_from ps fuel (String a s) = String a s.
Proof.
  intros H. destruct fuel; cbn [Py.lstrip_from]; [reflexivity|].
  rewrite (drop_any_none _ _ _ H). reflexivity.
Qed.

Lemma rev_string_twice (s : string) : Py.rev_string (Py.rev_string s) = s.
Proof.
  unfold Py.rev_string.
  rewrite list_ascii_of_string_of_list_ascii, rev_involutive.
  apply string_of_list_ascii_of_string.
Qed.

Lemma strip_plain (s : string) :
  all_plain s = true -> Py.strip s = s.
Proof.
  intros H. destruct s as [|a s]; [reflexivity|].
  unfold Py.strip, Py.lstrip.
  assert (Pa : plain a = true).
  { unfold all_plain in H. cbn [list_ascii_of_string forallb] in H.
    apply andb_true_iff in H. tauto. }
  rewrite lstrip_from_none by apply (plain_is_safe a Pa).
  unfold Py.rstrip.
  destruct (Py.rev_string (String a s)) as [|b t] eqn:R.
  - rewrite <- (rev_string_twice (String a s)), R. reflexivity.
  - assert (Pb : plain b = true).
    { unfold all_plain in H. rewrite forallb_forall in H. apply H.
      apply in_rev.
      assert (E : rev (list_ascii_of_string (String a s))
                  = list_ascii_of_string (String b t)).
      { rewrite <- R. unfold Py.rev_string.
        rewrite list_ascii_of_string_of_list_ascii. reflexivity. }
      rewrite E. left. reflexivity. }
    rewrite lstrip_from_none by apply (plain_is_safe b Pb).
    rewrite <- R. apply rev_string_twice.
Qed.

Lemma plain_no_comma (s : string) :
  all_plain s = true -> has_char "," s = false.
Proof.
  unfold all_plain. induction s as [|a s IH];
    cbn [list_ascii_of_string forallb has_char]; [reflexivity|].
  intros H. apply andb_true_iff in H. destruct H as (Pa & H).
  rewrite (proj2 (proj2 (plain_is_safe a Pa))), (IH H). reflexivity.
Qed.

Lemma digits_of_uint (d : Decimal.uint) :
  forallb PyInt.is_digit (list_ascii_of_string (NilEmpty.string_of_uint d))
  = true.
Proof.
  induction d; cbn [NilEmpty.string_of_uint list_ascii_of_string forallb];
    try reflexivity; rewrite IHd; reflexivity.
Qed.

Lemma grouped_digits (s : string) (after_digit : bool) :
  forallb PyInt.is_digit (list_ascii_of_string s) = true ->
  PyInt.grouped after_digit s
  = match s with EmptyString => after_digit | String _ _ => true end.
Proof.
  revert after_digit.
  induction s as [|a s IH]; intros after_digit H;
    cbn [PyInt.grouped]; [reflexivity|].
  cbn [list_ascii_of_string forallb] in H.
  apply andb_true_iff in H. destruct H as (Da & H).
  rewrite Da, (IH true H). destruct s; reflexivity.
Qed.

Lemma digits_without_underscores (s : string) :
  forallb PyInt.is_digit (list_ascii_of_string s) = true ->
  PyInt.without_underscores s = s.
Proof.
  induction s as [|a s IH]; cbn [PyInt.without_underscores]; [reflexivity|].
  cbn [list_ascii_of_string forallb]. intros H.
  apply andb_true_iff in H. destruct H as (Da & H).
  rewrite (proj1 (proj2 (digit_is_plain a Da))), (IH H). reflexivity.
Qed.

Lemma digits_are_plain (s : string) :
  forallb PyInt.is_digit (list_ascii_of_string s) = true -> all_plain s = true.
Proof.
  unfold all_plain. intros H. rewrite forallb_forall in *.
  intros a I. apply digit_is_plain, H, I.
Qed.

Lemma natural_of_positive (p : positive) :
  Z.of_nat (String.length (NilEmpty.string_of_uint (Pos.to_uint p)))
  <= PyInt.max_str_digits ->
  PyInt.natural (NilEmpty.string_of_uint (Pos.to_uint p)) = Some (Z.pos p).
Proof.
  intros L. unfold PyInt.natural.
  pose proof (digits_of_uint (Pos.to_uint p)) as D.
  pose proof (DecimalPos.Unsigned.to_uint_nonnil p) as NN.
  rewrite (grouped_digits _ false D).
  destruct (NilEmpty.string_of_uint (Pos.to_uint p)) as [|a s] eqn:S.
  { destruct (Pos.to_uint p); try discriminate S. contradiction. }
  cbv zeta. rewrite (digits_without_underscores _ D).
  replace (Z.of_nat (String.length (String a s)) >? PyInt.max_str_digits)
    with false by (symmetry; rewrite Z.gtb_ltb; apply Z.ltb_ge; exact L).
  rewrite <- S.
  assert (E : NilEmpty.string_of_uint (Pos.to_uint p)
              = NilZero.string_of_uint (Pos.to_uint p)).
  { unfold NilZero.string_of_uint. destruct (Pos.to_uint p);
      [contradiction|reflexivity..]. }
  rewrite E, (NilZero.usu _ NN). cbn [option_map]. unfold Z.of_uint.
  rewrite DecimalPos.Unsigned.of_to. reflexivity.
Qed.

Lemma str_is_plain (n : Z) : all_plain (str n) = true /\ str n <> "".
Proof.
  unfold str. destruct n as [|p|p]; cbn [Z.to_int NilZero.string_of_int].
  - split; [reflexivity|discriminate].
  - pose proof (DecimalPos.Unsigned.to_uint_nonnil p) as NN.
    unfold NilZero.string_of_uint.
    destruct (Pos.to_uint p) eqn:E; try contradiction;
      (split; [rewrite <- E; apply digits_are_plain, digits_of_uint
              | discriminate]).
  - split; [|discriminate].
    unfold all_plain. cbn [list_ascii_of_string forallb].
    change (plain "-") with true. cbn [andb].
    pose proof (DecimalPos.Unsigned.to_uint_nonnil p) as NN.
    unfold NilZero.string_of_uint.
    destruct (Pos.to_uint p) eqn:E; try contradiction;
      rewrite <- E; apply (digits_are_plain _ (digits_of_uint _)).
Qed.

Lemma plain_is_ascii (a : ascii) :
  plain a = true ->
  (nat_of_ascii a <? 128)%nat = true
  /\ Like.is_lead a = false
  /\ starts_none a PyInt.c_whitespace = true.
Proof.
  destruct a as [b0 b1 b2 b3 b4 b5 b6 b7].
  destruct b0, b1, b2, b3, b4, b5, b6, b7; intros H;
    try (vm_compute in H; discriminate H);
    vm_compute; repeat split.
Qed.

(** A text of digits and signs is read character by character, each for
    itself. *)
Lemma chars_of_plain (s cur : string) :
  all_plain s = true ->
  Like.chars_from cur false s
  = Like.emit cur ++ map (fun a => String a "") (list_ascii_of_string s).
Proof.
  unfold all_plain. revert cur.
  induction s as [|a s IH]; intros cur H;
    cbn [Like.chars_from list_ascii_of_string map andb].
  - now rewrite app_nil_r.
  - cbn [list_ascii_of_string forallb] in H.
    apply andb_true_iff in H. destruct H as (Pa & H).
    rewrite (proj1 (proj2 (plain_is_ascii a Pa))), (IH _ H). reflexivity.
Qed.

Lemma to_ascii_plain (s : string) :
  all_plain s = true -> PyInt.to_ascii (Like.chars s) = Some s.
Proof.
  intros H. unfold Like.chars. rewrite (chars_of_plain _ _ H).
  cbn [Like.emit app]. unfold all_plain in H.
  induction s as [|a s IH]; cbn [list_ascii_of_string map PyInt.to_ascii];
    [reflexivity|].
  cbn [list_ascii_of_string forallb] in H.
  apply andb_true_iff in H. destruct H as (Pa & H).
  cbn [PyInt.read]. rewrite (proj1 (plain_is_ascii a Pa)), (IH H).
  reflexivity.
Qed.

Lemma int_strip_plain (s : string) :
  all_plain s = true -> PyInt.strip s = s.
Proof.
  intros H. destruct s as [|a s]; [reflexivity|].
  unfold PyInt.strip.
  assert (Pa : plain a = true).
  { unfold all_plain in H. cbn [list_ascii_of_string forallb] in H.
    apply andb_true_iff in H. tauto. }
  rewrite lstrip_from_none by apply (plain_is_ascii a Pa).
  destruct (Py.rev_string (String a s)) as [|b t] eqn:R.
  - rewrite <- (rev_string_twice (String a s)), R. reflexivity.
  - assert (Pb : plain b = true).
    { unfold all_plain in H. rewrite forallb_forall in H. apply H.
      apply in_rev.
      assert (E : rev (list_ascii_of_string (String a s))
                  = list_ascii_of_string (String b t)).
      { rewrite <- R. unfold Py.rev_string.
        rewrite list_ascii_of_string_of_list_ascii. reflexivity. }
      rewrite E. left. reflexivity. }
    rewrite lstrip_from_none by apply (plain_is_ascii b Pb).
    rewrite <- R. apply rev_string_twice.
Qed.

(** [int(str(n))] is [n], as long as [n] has few enough digits. *)
Lemma int_of_str (n : Z) :
  Z.of_nat (String.length (str n)) <= PyInt.max_str_digits ->
  PyInt.int (str n) = Some n.
Proof.
  intros L. unfold PyInt.int.
  rewrite (to_ascii_plain _ (proj1 (str_is_plain n))).
  rewrite (int_strip_plain _ (proj1 (str_is_plain n))).
  unfold str in *. destruct n as [|p|p]; cbn [Z.to_int NilZero.string_of_int] in *.
  - reflexivity.
  - pose proof (DecimalPos.Unsigned.to_uint_nonnil p) as NN.
    assert (E : NilZero.string_of_uint (Pos.to_uint p)
                = NilEmpty.string_of_uint (Pos.to_uint p)).
    { unfold NilZero.string_of_uint. destruct (Pos.to_uint p);
        [contradiction|reflexivity..]. }
    rewrite E in *. pose proof (natural_of_positive p L) as N.
    pose proof (digits_of_uint (Pos.to_uint p)) as D.
    destruct (NilEmpty.string_of_uint (Pos.to_uint p)) as [|a s];
      [exact N|].
    cbn [list_ascii_of_string forallb] in D.
    apply andb_true_iff in D. destruct D as (Da & _).
    destruct (digit_is_plain a Da) as (_ & _ & Plus & Minus).
    destruct a as [b0 b1 b2 b3 b4 b5 b6 b7].
    destruct b0, b1, b2, b3, b4, b5, b6, b7;
      try (vm_compute in Da; discriminate Da); exact N.
  - pose proof (DecimalPos.Unsigned.to_uint_nonnil p) as NN.
    assert (E : NilZero.string_of_uint (Pos.to_uint p)
                = NilEmpty.string_of_uint (Pos.to_uint p)).
    { unfold NilZero.string_of_uint. destruct (Pos.to_uint p);
        [contradiction|reflexivity..]. }
    rewrite E in *. cbn [String.length] in L.
    rewrite natural_of_positive by lia. reflexivity.
Qed.

Lemma ints_of_strs (ids : list Z) :
  convertible ids -> ints (map str ids) = Some ids.
Proof.
  induction 1 as [|n ids L F IH]; cbn [map ints]; [reflexivity|].
  rewrite (strip_plain _ (proj1 (str_is_plain n))).
  pose proof (int_of_str n L) as I.
  pose proof (proj2 (str_is_plain n)) as NE.
  destruct (str n); [contradiction|].
  cbn [Py.truthy]. rewrite I, IH. reflexivity.
Qed.

Lemma attempted_round_trip (ids : list Z) :
  convertible ids ->
  (if Py.truthy (attempted_text ids)
   then match ints (Py.split "," (attempted_text ids)) with
        | Some found => found
        | None => []
        end
   else []) = ids.
Proof.
  intros C. destruct ids as [|n ids]; [reflexivity|].
  unfold attempted_text. cbn [map].
  assert (T : Py.truthy (Py.join "," (str n :: map str ids)) = true).
  { unfold Py.join. cbn [String.concat].
    destruct (str n) eqn:S; [destruct (proj2 (str_is_plain n) S)|].
    destruct (map str ids); reflexivity. }
  change (map str (n :: ids)) with (str n :: map str ids).
  rewrite T, split_join.
  - change (str n :: map str ids) with (map str (n :: ids)).
    rewrite (ints_of_strs _ C). reflexivity.
  - change (str n :: map str ids) with (map str (n :: ids)).
    apply forallb_forall. intros s I. apply in_map_iff in I.
    destruct I as (m & <- & _).
    rewrite (plain_no_comma _ (proj1 (str_is_plain m))). reflexivity.
Qed.

Lemma newest_comes_first {Row} (key : Row -> string) (rows : list Row)
  (row : Row) :
  Forall (fun old => Py.str_le (key old) (key row) = true) rows ->
  exists rest,
    Py.sort_by key (fun a b => Py.str_le b a) (rev (rows ++ [row]))
    = row :: rest.
Proof.
  intros F. rewrite rev_app_distr. cbn [rev app Py.sort_by].
  set (order := fun a b : string => Py.str_le b a).
  destruct (Py.sort_by key order (rev rows)) as [|old sorted] eqn:S;
    cbn [Py.insert_by]; [exists []; reflexivity|].
  assert (I : In old rows).
  { apply in_rev.
    apply (Permutation_in _ (sort_by_perm key order (rev rows))).
    rewrite S. left. reflexivity. }
  rewrite Forall_forall in F. unfold order at 1. rewrite (F old I).
  eexists. reflexivity.
Qed.

Lemma insert_result_rows
  (user_id : option Z) (score total time_taken : Z) (text now : string)
  (st st' : Store) (rowid : Z) :
  insert_result user_id score total time_taken text now st = Some (rowid, st') ->
  quiz_results st'
  = quiz_results st
    ++ [{| r_id := rowid; r_user_id := user_id; r_score := score;
           r_total_questions := total; r_time_taken := time_taken;
           r_completed_at := now; r_questions_attempted := text |}].
Proof.
  intros H. unfold insert_result in H. cbv zeta in H.
  destruct (negb _); [discriminate|].
  destruct (next_rowid _ _); [|discriminate].
  cbn in H. injection H as <- <-. reflexivity.
Qed.

(** X18.  A quiz result that [save_quiz_result] stored at a time that is
    not before that of a stored result is what [get_latest_result()]
    returns next:
    with the user, score, number of questions and time taken that were
    saved, and with the same list of question ids, which went through a
    comma-separated text.  Saved without a user, as the quiz window does,
    it changes nothing in what [get_user_results] returns for any user. *)
Theorem saved_result_reads_back_as_the_latest
  (user_id : option Z) (score total time_taken : Z) (question_ids : list Z)
  (now later : string) (st : Store) :
  let saved :=
    save_quiz_result user_id score total time_taken question_ids now st in
  fst saved = true ->
  none_newer now st ->
  convertible question_ids ->
  (exists stored,
     get_latest_result None later (snd saved) = Some stored
     /\ QuizResult.user_id stored = user_id
     /\ QuizResult.score stored = score
     /\ QuizResult.total_questions stored = total
     /\ QuizResult.time_taken stored = time_taken
     /\ QuizResult.questions_attempted stored = question_ids
     /\ (Py.truthy now = true -> QuizResult.completed_at stored = now))
  /\ (user_id = None ->
      forall u limit_,
        get_user_results u limit_ later (snd saved)
        = get_user_results u limit_ later st).
Proof.
  cbv zeta. unfold save_quiz_result, create.
  cbn [QuizResult.user_id QuizResult.score QuizResult.total_questions
       QuizResult.time_taken QuizResult.questions_attempted].
  destruct (insert_result user_id score total time_taken
              (attempted_text question_ids) now st) as [[i st']|] eqn:E;
    cbn [fst snd]; [|discriminate].
  intros _ Old Conv. apply insert_result_rows in E.
  split.
  - unfold get_latest_result, by_index_backwards. rewrite E.
    destruct (newest_comes_first r_completed_at _
                {| r_id := i; r_user_id := user_id; r_score := score;
                   r_total_questions := total; r_time_taken := time_taken;
                   r_completed_at := now;
                   r_questions_attempted := attempted_text question_ids |}
                Old) as (rest & ->).
    eexists. split; [reflexivity|].
    unfold _row_to_result.
    cbn [QuizResult.user_id QuizResult.score QuizResult.total_questions
         QuizResult.time_taken QuizResult.questions_attempted
         QuizResult.completed_at r_user_id r_score r_total_questions
         r_time_taken r_completed_at r_questions_attempted].
    repeat (split; [reflexivity|]).
    split; [apply attempted_round_trip, Conv|].
    intros T. rewrite T. reflexivity.
  - intros -> u limit_. unfold get_user_results. rewrite E, filter_app.
    cbn [filter of_user r_user_id]. rewrite app_nil_r. reflexivity.
Qed.

Lemma saved_result_reads_back_as_the_latest_witness :
  let st := fresh_store "2024-01-01 00:00:00" in
  let saved :=
    save_quiz_result None 2 3 40 [4; 12; 7] "2024-01-02 10:00:00" st in
  fst saved = true
  /\ none_newer "2024-01-02 10:00:00" st
  /\ convertible [4; 12; 7]
  /\ exists stored,
       get_latest_result None "2024-01-03 00:00:00" (snd saved) = Some stored
       /\ QuizResult.questions_attempted stored = [4; 12; 7].
Proof.
  cbv zeta.
  assert (S : fst (save_quiz_result None 2 3 40 [4; 12; 7]
                     "2024-01-02 10:00:00" (fresh_store "2024-01-01 00:00:00"))
              = true) by (vm_compute; reflexivity).
  assert (O : none_newer "2024-01-02 10:00:00"
                (fresh_store "2024-01-01 00:00:00")).
  { unfold none_newer.
    replace (quiz_results (fresh_store "2024-01-01 00:00:00")) with
      (@nil ResultRow) by (vm_compute; reflexivity).
    constructor. }
  assert (C : convertible [4; 12; 7]).
  { repeat constructor; vm_compute; discriminate. }
  split; [exact S|]. split; [exact O|]. split; [exact C|].
  pose proof (saved_result_reads_back_as_the_latest None 2 3 40 [4; 12; 7]
                "2024-01-02 10:00:00" "2024-01-03 00:00:00"
                (fresh_store "2024-01-01 00:00:00")) as H.
  cbv zeta in H. destruct (H S O C) as ((stored & G & _ & _ & _ & _ & A & _) & _).
  exists stored. split; [exact G | exact A].
Defined.

End ResultFacts.


(* ================================================================== *)
(** * Taking a quiz *)
(* ================================================================== *)

Section NavigationFacts.
Import DatabaseManager QuizWindow QuizNavigation NavigationNotions Notions.

Lemma setitem_end (answers : list string) (v : string) :
  setitem (answers ++ [""]) (Z.of_nat (length answers)) v
  = Some (answers ++ [v]).
Proof.
  unfold setitem. cbv zeta. rewrite length_app. cbn [length].
  replace (Z.of_nat (length answers) <? 0) with false
    by (symmetry; apply Z.ltb_ge; lia).
  replace (Z.of_nat (length answers) <? 0) with false
    by (symmetry; apply Z.ltb_ge; lia).
  replace (Z.of_nat (length answers + 1) <=? Z.of_nat (length answers))
    with false by (symmetry; apply Z.leb_gt; lia).
  cbn [orb]. rewrite Nat2Z.id.
  rewrite firstn_app, Nat.sub_diag, firstn_all. cbn [firstn].
  rewrite app_nil_r.
  rewrite skipn_all2 by (rewrite length_app; cbn [length]; lia).
  reflexivity.
Qed.

Lemma save_at_end (qs : list Question.Question) (i : nat)
  (answers : list string) (w : QuizWindow) (a : string) :
  playing qs i answers w ->
  _save_current_answer (set_answer_var a w)
  = Some (set_user_answers (answers ++ [a]) (set_answer_var a w)).
Proof.
  intros (Q & I & A & L). unfold _save_current_answer. cbv zeta.
  cbn [current_question_index user_answers answer_var set_answer_var].
  subst i. rewrite I, A.
  replace (Z.to_nat (Z.of_nat (length answers) + 1) - length answers)%nat
    with 1%nat by lia.
  cbn [repeat]. rewrite setitem_end. reflexivity.
Qed.

Lemma next_moves_on (qs : list Question.Question) (i : nat)
  (answers : list string) (w : QuizWindow) (a : string)
  (clk : Clock) (st : Store) :
  playing qs i answers w ->
  (S i < length qs)%nat ->
  exists w',
    _next_question clk (select a (w, st)) = Some (w', st)
    /\ playing qs (S i) (answers ++ [a]) w'
    /\ quiz_completed w' = quiz_completed w
    /\ window w' = window w.
Proof.
  intros P Lt. pose proof P as (Q & I & A & L).
  unfold _next_question, select. cbn [fst snd].
  rewrite (save_at_end _ _ _ _ a P). cbv beta iota.
  cbn [current_question_index questions set_user_answers set_answer_var].
  rewrite I, Q.
  replace (Z.of_nat i =? Z.of_nat (length qs) - 1) with false
    by (symmetry; apply Z.eqb_neq; lia).
  unfold _load_question.
  cbn [current_question_index questions user_answers
       set_current_question_index set_user_answers set_answer_var].
  rewrite Q.
  replace (Z.of_nat i + 1 >=? Z.of_nat (length qs)) with false
    by (symmetry; rewrite Z.geb_leb; apply Z.leb_gt; lia).
  assert (N : nth_error (answers ++ [a]) (Z.to_nat (Z.of_nat i + 1)) = None).
  { apply nth_error_None. rewrite length_app. cbn [length]. lia. }
  rewrite N. eexists. split; [reflexivity|].
  split; [|split; reflexivity].
  unfold playing.
  cbn [current_question_index questions user_answers
       set_current_question_index set_user_answers set_answer_var].
  rewrite length_app. cbn [length].
  repeat split; try assumption; lia.
Qed.

Lemma finish_records (clk : Clock) (w : QuizWindow) (st : Store) :
  length (user_answers w) = length (questions w) ->
  let done := _finish_quiz clk (w, st) in
  snd done
  = snd (QuizService.save_quiz_result None
           (QuizService.sum_bool (marks 0 (questions w) (user_answers w)))
           (Z.of_nat (length (questions w))) (seconds_since_start clk)
           (question_ids w) (current_timestamp clk) st)
  /\ quiz_completed (fst done) = true
  /\ window (fst done) = false
  /\ timer (fst done) = false
  /\ user_answers (fst done) = user_answers w
  /\ questions (fst done) = questions w.
Proof.
  intros L. cbv zeta. unfold _finish_quiz, pad_answers.
  cbn [questions user_answers set_timer set_quiz_completed set_user_answers].
  rewrite L, Nat.sub_diag. cbn [repeat]. rewrite app_nil_r.
  unfold QuizService.calculate_score. rewrite score_loop_marks.
  cbn [app]. rewrite Z.add_0_l.
  unfold question_ids.
  cbn [questions user_answers set_timer set_quiz_completed set_user_answers].
  destruct (QuizService.save_quiz_result _ _ _ _ _ _ _) as [saved st'].
  cbn [fst snd]. repeat split.
Qed.

Lemma next_finishes (qs : list Question.Question) (i : nat)
  (answers : list string) (w : QuizWindow) (a : string)
  (clk : Clock) (st : Store) :
  playing qs i answers w ->
  S i = length qs ->
  exists w',
    _next_question clk (select a (w, st))
    = Some (w',
            snd (QuizService.save_quiz_result None
                   (QuizService.sum_bool (marks 0 qs (answers ++ [a])))
                   (Z.of_nat (length qs)) (seconds_since_start clk)
                   (question_ids w) (current_timestamp clk) st))
    /\ quiz_completed w' = true
    /\ window w' = false
    /\ timer w' = false
    /\ user_answers w' = answers ++ [a]
    /\ questions w' = qs.
Proof.
  intros P Last. pose proof P as (Q & I & A & L).
  unfold _next_question, select, question_ids. cbn [fst snd].
  rewrite (save_at_end _ _ _ _ a P). cbv beta iota.
  cbn [current_question_index questions set_user_answers set_answer_var].
  rewrite I, Q.
  replace (Z.of_nat i =? Z.of_nat (length qs) - 1) with true
    by (symmetry; apply Z.eqb_eq; lia).
  pose proof (finish_records clk
                (set_user_answers (answers ++ [a]) (set_answer_var a w)) st)
    as F.
  cbv zeta in F. unfold question_ids in F.
  cbn [questions user_answers set_user_answers set_answer_var] in F.
  rewrite Q in F.
  destruct F as (S1 & S2 & S3 & S4 & S5 & S6).
  { rewrite length_app. cbn [length]. lia. }
  exists (fst (_finish_quiz clk
                 (set_user_answers (answers ++ [a]) (set_answer_var a w), st))).
  split; [|tauto].
  rewrite <- S1. f_equal. apply surjective_pairing.
Qed.

Lemma play_to_the_end (qs : list Question.Question) (clk : Clock) (st : Store) :
  forall (rest : list string) (i : nat) (answers : list string)
         (w : QuizWindow),
    playing qs i answers w ->
    rest <> [] ->
    (i + length rest = length qs)%nat ->
    exists w',
      play rest clk (w, st)
      = Some (w',
              snd (QuizService.save_quiz_result None
                     (QuizService.sum_bool (marks 0 qs (answers ++ rest)))
                     (Z.of_nat (length qs)) (seconds_since_start clk)
                     (question_ids w) (current_timestamp clk) st))
      /\ quiz_completed w' = true
      /\ window w' = false
      /\ timer w' = false
      /\ user_answers w' = answers ++ rest
      /\ questions w' = qs.
Proof.
  induction rest as [|a rest IH]; intros i answers w P NE Len;
    [contradiction|].
  cbn [play length] in *. destruct rest as [|b rest].
  - destruct (next_finishes qs i answers w a clk st P) as (w' & E & H);
      [cbn [length] in Len; lia|].
    rewrite E. exists w'. split; [reflexivity|exact H].
  - destruct (next_moves_on qs i answers w a clk st P) as (w1 & E & P1 & _);
      [cbn [length] in Len; lia|].
    rewrite E.
    destruct (IH (S i) (answers ++ [a]) w1 P1) as (w' & E' & H);
      [discriminate | cbn [length] in *; lia|].
    rewrite <- app_assoc in E', H. cbn [app] in E', H.
    assert (Ids : question_ids w1 = question_ids w).
    { unfold question_ids. destruct P as (Q & _), P1 as (Q1 & _).
      rewrite Q, Q1. reflexivity. }
    rewrite Ids in E'. exists w'. split; [exact E'|exact H].
Qed.

Lemma init_playing
  (qs : list Question.Question) (SHOW_TIMER AUTO_SUBMIT : bool) (T : Z)
  (clk : Clock) (st : Store) :
  qs <> [] ->
  (SHOW_TIMER = true -> 0 < T) ->
  exists w,
    __init__ qs SHOW_TIMER AUTO_SUBMIT T clk st = Some (w, st)
    /\ playing qs 0 [] w
    /\ quiz_completed w = false
    /\ window w = true.
Proof.
  intros NE Pos. destruct SHOW_TIMER.
  - rewrite init_counting by auto.
    eexists. split; [reflexivity|]. unfold playing, counting.
    cbn. repeat split.
  - unfold __init__, _update_timer_display, _load_question. cbn.
    destruct qs; [contradiction|]. cbn.
    eexists. split; [reflexivity|]. unfold playing. cbn. repeat split.
Qed.

(** X19.  A user who, from the first question on, picks an answer and
    presses next once for every question ends the quiz with the last
    press, the countdown not having run out: the window is closed, the
    quiz completed, the answers are the choices, in order, and what is
    saved is one result without a user whose score is the number of
    questions whose choice equals the answer, whose total is the number
    of questions, with the ids of the questions. *)
Theorem answering_every_question_saves_the_score
  (qs : list Question.Question) (choices : list string)
  (SHOW_TIMER AUTO_SUBMIT : bool) (T : Z) (clk : Clock) (st : Store) :
  qs <> [] ->
  length choices = length qs ->
  (SHOW_TIMER = true -> 0 < T) ->
  exists s0 w',
    __init__ qs SHOW_TIMER AUTO_SUBMIT T clk st = Some s0
    /\ play choices clk s0
       = Some (w',
               snd (QuizService.save_quiz_result None
                      (Z.of_nat (count_occ bool_dec (marks 0 qs choices) true))
                      (Z.of_nat (length qs)) (seconds_since_start clk)
                      (question_ids w') (current_timestamp clk) st))
    /\ quiz_completed w' = true
    /\ window w' = false
    /\ timer w' = false
    /\ user_answers w' = choices
    /\ (forall k q,
          nth_error qs k = Some q ->
          nth_error (marks 0 qs choices) k
          = option_map (fun a => String.eqb a (Question.answer q))
              (nth_error choices k)).
Proof.
  intros NE Len Pos.
  destruct (init_playing qs SHOW_TIMER AUTO_SUBMIT T clk st NE Pos)
    as (w0 & E0 & P0 & _).
  assert (NC : choices <> []).
  { intros ->. destruct qs; [contradiction|discriminate]. }
  destruct (play_to_the_end qs clk st choices 0 [] w0 P0 NC Len)
    as (w' & E & C & W & Tm & A & Q).
  cbn [app] in E, A.
  exists (w0, st), w'. split; [exact E0|].
  split.
  - rewrite E. rewrite sum_bool_count.
    assert (Ids : question_ids w0 = question_ids w').
    { unfold question_ids. destruct P0 as (Q0 & _). rewrite Q0, Q.
      reflexivity. }
    rewrite Ids. reflexivity.
  - split; [exact C|]. split; [exact W|]. split; [exact Tm|].
    split; [exact A|].
    intros k q Hq. rewrite (marks_nth choices qs 0 k q Hq). cbn [Nat.add].
    destruct (nth_error choices k) eqn:Ek; [reflexivity|].
    exfalso. apply nth_error_None in Ek.
    assert (k < length qs)%nat by (apply nth_error_Some; congruence). lia.
Qed.

Lemma answering_every_question_saves_the_score_witness :
  let q1 := example_question "B" [] in
  let q2 := example_question "A" [] in
  let clk := {| seconds_since_start := 25;
                current_timestamp := "2024-01-02 10:00:00" |} in
  exists s0 w',
    __init__ [q1; q2] true true 60 clk empty_store = Some s0
    /\ play ["B"; "C"] clk s0
       = Some (w',
               snd (QuizService.save_quiz_result None 1 2 25 []
                      "2024-01-02 10:00:00" empty_store))
    /\ user_answers w' = ["B"; "C"].
Proof.
  cbv zeta.
  destruct (answering_every_question_saves_the_score
              [example_question "B" []; example_question "A" []] ["B"; "C"]
              true true 60
              {| seconds_since_start := 25;
                 current_timestamp := "2024-01-02 10:00:00" |}
              empty_store)
    as (s0 & w' & E0 & E & _ & _ & _ & A & _).
  - discriminate.
  - reflexivity.
  - intros _. reflexivity.
  - exists s0, w'. split; [exact E0|]. split; [|exact A].
    rewrite E. f_equal. f_equal.
    assert (Ids : question_ids w' = []).
    { vm_compute in E0. injection E0 as <-. vm_compute in E.
      injection E as <-. reflexivity. }
    rewrite Ids. reflexivity.
Defined.

End NavigationFacts.


Section BackAndForthFacts.
Import DatabaseManager QuizWindow QuizNavigation NavigationNotions Notions.

Lemma save_spec (w : QuizWindow) (i : nat) :
  current_question_index w = Z.of_nat i ->
  exists answers,
    _save_current_answer w = Some (set_user_answers answers w)
    /\ length answers = Nat.max (length (user_answers w)) (S i)
    /\ forall k,
         nth_error answers k
         = if Nat.eqb k i then Some (answer_var w)
           else nth_error
                  (user_answers w
                   ++ repeat "" (S i - length (user_answers w))%nat) k.
Proof.
  intros I. unfold _save_current_answer. cbv zeta. rewrite I.
  replace (Z.to_nat (Z.of_nat i + 1)) with (S i) by lia.
  set (ext := user_answers w ++ repeat "" (S i - length (user_answers w))%nat).
  assert (Len : length ext = Nat.max (length (user_answers w)) (S i)).
  { unfold ext. rewrite length_app, repeat_length. lia. }
  unfold setitem. cbv zeta.
  replace (Z.of_nat i <? 0) with false by (symmetry; apply Z.ltb_ge; lia).
  replace (Z.of_nat i <? 0) with false by (symmetry; apply Z.ltb_ge; lia).
  replace (Z.of_nat (length ext) <=? Z.of_nat i) with false
    by (symmetry; apply Z.leb_gt; lia).
  cbn [orb]. rewrite Nat2Z.id.
  eexists. split; [reflexivity|]. split.
  - rewrite length_app, length_firstn. cbn [length]. rewrite length_skipn. lia.
  - intros k. rewrite nth_error_app, length_firstn.
    replace (Nat.min i (length ext)) with i by lia.
    destruct (Nat.ltb k i) eqn:Lt.
    + apply Nat.ltb_lt in Lt. rewrite nth_error_firstn.
      replace (Nat.ltb k i) with true by (symmetry; apply Nat.ltb_lt; lia).
      replace (Nat.eqb k i) with false by (symmetry; apply Nat.eqb_neq; lia).
      reflexivity.
    + apply Nat.ltb_ge in Lt. destruct (Nat.eqb k i) eqn:Eq.
      * apply Nat.eqb_eq in Eq. subst k. rewrite Nat.sub_diag. reflexivity.
      * apply Nat.eqb_neq in Eq.
        replace (k - i)%nat with (S (k - S i)) by lia.
        cbn [nth_error]. rewrite nth_error_skipn. f_equal. lia.
Qed.

(** X20.  Pressing next and then previous comes back to the question
    with the answer that was selected there shown again: both presses
    save the selection of the question they leave under its index, leave
    the answers of the other questions as they were, and save no result;
    the question arrived at shows the answer recorded for it, or none. *)
Theorem going_back_shows_the_saved_answer
  (w : QuizWindow) (st : Store) (clk : Clock) (i : nat) (a b : string) :
  current_question_index w = Z.of_nat i ->
  (S i < length (questions w))%nat ->
  exists w1 w2,
    _next_question clk (select a (w, st)) = Some (w1, st)
    /\ current_question_index w1 = Z.of_nat (S i)
    /\ answer_var w1
       = match nth_error (user_answers w) (S i) with
         | Some recorded => recorded
         | None => ""
         end
    /\ _previous_question clk (select b (w1, st)) = Some (w2, st)
    /\ current_question_index w2 = Z.of_nat i
    /\ answer_var w2 = a
    /\ nth_error (user_answers w2) i = Some a
    /\ nth_error (user_answers w2) (S i) = Some b
    /\ (forall k, k <> i -> k <> S i ->
          (k < length (user_answers w))%nat ->
          nth_error (user_answers w2) k = nth_error (user_answers w) k)
    /\ quiz_completed w2 = quiz_completed w
    /\ questions w2 = questions w.
Proof.
  intros I Lt.
  destruct (save_spec (set_answer_var a w) i I) as (answers1 & S1 & L1 & N1).
  cbn [user_answers answer_var set_answer_var] in L1, N1.
  unfold _next_question, select. cbn [fst snd]. rewrite S1. cbv beta iota.
  cbn [current_question_index questions set_user_answers set_answer_var].
  rewrite I.
  replace (Z.of_nat i =? Z.of_nat (length (questions w)) - 1) with false
    by (symmetry; apply Z.eqb_neq; lia).
  unfold _load_question at 1.
  cbn [current_question_index questions user_answers
       set_current_question_index set_user_answers set_answer_var].
  replace (Z.of_nat i + 1 >=? Z.of_nat (length (questions w))) with false
    by (symmetry; rewrite Z.geb_leb; apply Z.leb_gt; lia).
  replace (Z.to_nat (Z.of_nat i + 1)) with (S i) by lia.
  assert (Shown : nth_error answers1 (S i) = nth_error (user_answers w) (S i)).
  { rewrite N1.
    replace (Nat.eqb (S i) i) with false by (symmetry; apply Nat.eqb_neq; lia).
    rewrite nth_error_app. destruct (Nat.ltb (S i) (length (user_answers w)))
      eqn:E; [reflexivity|].
    apply Nat.ltb_ge in E.
    rewrite (proj2 (nth_error_None (user_answers w) (S i))) by lia.
    apply nth_error_None. rewrite repeat_length. lia. }
  set (w0 := set_current_question_index (Z.of_nat i + 1)
               (set_user_answers answers1 (set_answer_var a w))).
  set (w1 := match nth_error answers1 (S i) with
             | Some recorded => set_answer_var recorded w0
             | None => set_answer_var "" w0
             end).
  assert (F1 : current_question_index w1 = Z.of_nat (S i)
               /\ user_answers w1 = answers1
               /\ questions w1 = questions w
               /\ quiz_completed w1 = quiz_completed w
               /\ answer_var w1
                  = match nth_error (user_answers w) (S i) with
                    | Some recorded => recorded
                    | None => ""
                    end).
  { rewrite <- Shown. unfold w1, w0.
    destruct (nth_error answers1 (S i)); cbn; repeat split; lia. }
  destruct F1 as (I1 & A1 & Q1 & C1 & V1).
  assert (E1 : (match nth_error answers1 (S i) with
                | Some recorded => (set_answer_var recorded w0, st)
                | None => (set_answer_var "" w0, st)
                end) = (w1, st)).
  { unfold w1. destruct (nth_error answers1 (S i)); reflexivity. }
  exists w1.
  destruct (save_spec (set_answer_var b w1) (S i) I1)
    as (answers2 & S2 & L2 & N2).
  cbn [user_answers answer_var set_answer_var] in L2, N2.
  rewrite A1 in L2, N2.
  assert (At : forall k, (k < length answers1)%nat -> k <> S i ->
                 nth_error answers2 k = nth_error answers1 k).
  { intros k Hk Ne. rewrite N2.
    replace (Nat.eqb k (S i)) with false by (symmetry; apply Nat.eqb_neq; lia).
    apply nth_error_app1, Hk. }
  assert (Ai : nth_error answers2 i = Some a).
  { rewrite At by lia. rewrite N1, Nat.eqb_refl. reflexivity. }
  assert (Back : _previous_question clk (set_answer_var b w1, st)
                 = Some (set_answer_var a
                           (set_current_question_index (Z.of_nat (S i) - 1)
                              (set_user_answers answers2
                                 (set_answer_var b w1))), st)).
  { unfold _previous_question.
    change (current_question_index (set_answer_var b w1))
      with (current_question_index w1).
    rewrite I1.
    replace (Z.of_nat (S i) >? 0) with true
      by (symmetry; rewrite Z.gtb_ltb; apply Z.ltb_lt; lia).
    rewrite S2. cbv beta iota.
    change (current_question_index
              (set_user_answers answers2 (set_answer_var b w1)))
      with (current_question_index w1).
    rewrite I1. unfold _load_question.
    cbn [current_question_index questions user_answers
         set_current_question_index set_user_answers set_answer_var].
    rewrite Q1.
    replace (Z.of_nat (S i) - 1 >=? Z.of_nat (length (questions w)))
      with false
      by (symmetry; rewrite Z.geb_leb; apply Z.leb_gt; lia).
    replace (Z.to_nat (Z.of_nat (S i) - 1)) with i by lia.
    rewrite Ai. reflexivity. }
  eexists. split; [f_equal; exact E1|].
  split; [exact I1|]. split; [exact V1|]. split; [exact Back|].
  cbn [current_question_index answer_var user_answers quiz_completed questions
       set_current_question_index set_user_answers set_answer_var].
  split; [lia|]. split; [reflexivity|]. split; [exact Ai|].
  split; [rewrite N2, Nat.eqb_refl; reflexivity|].
  split; [|split; assumption].
  intros k Ki Ks Hk. rewrite At by lia. rewrite N1.
  replace (Nat.eqb k i) with false by (symmetry; apply Nat.eqb_neq; lia).
  apply nth_error_app1, Hk.
Qed.

Lemma going_back_shows_the_saved_answer_witness :
  let q := example_question "B" [] in
  let clk := {| seconds_since_start := 25;
                current_timestamp := "2024-01-02 10:00:00" |} in
  exists w w1 w2,
    __init__ [q; q; q] false true 60 clk empty_store = Some (w, empty_store)
    /\ _next_question clk (select "C" (w, empty_store))
       = Some (w1, empty_store)
    /\ _previous_question clk (select "A" (w1, empty_store))
       = Some (w2, empty_store)
    /\ answer_var w2 = "C"
    /\ user_answers w2 = ["C"; "A"].
Proof.
  cbv zeta.
  destruct (__init__ [example_question "B" []; example_question "B" [];
                      example_question "B" []] false true 60
              {| seconds_since_start := 25;
                 current_timestamp := "2024-01-02 10:00:00" |} empty_store)
    as [[w st]|] eqn:E0; [|vm_compute in E0; discriminate].
  vm_compute in E0. injection E0 as <- <-.
  match goal with
  | |- exists w w1 w2, Some (?w0, _) = _ /\ _ =>
      destruct (going_back_shows_the_saved_answer w0 empty_store
                  {| seconds_since_start := 25;
                     current_timestamp := "2024-01-02 10:00:00" |}
                  0 "C" "A" eq_refl)
        as (w1 & w2 & E1 & _ & _ & E2 & _ & V & _);
        [cbn; lia|];
      exists w0, w1, w2
  end.
  split; [reflexivity|]. split; [exact E1|]. split; [exact E2|].
  split; [exact V|].
  vm_compute in E1. injection E1 as <-.
  vm_compute in E2. injection E2 as <-. reflexivity.
Defined.

End BackAndForthFacts.


(* ================================================================== *)
(** * The login of an administrator *)
(* ================================================================== *)

Section AdminFacts.
Import DatabaseManager UserRepository AdminService Notions.

Lemma validate_credentials_cases (username password : string) :
  (fst (validate_credentials username password) = true
   <-> username <> ""
       /\ 3 <= len (Py.strip username) <= 50
       /\ 4 <= len password <= 100
       /\ matches_username username = true)
  /\ (fst (validate_credentials username password) = true
      <-> snd (validate_credentials username password) = None).
Proof.
  unfold validate_credentials.
  destruct (Py.truthy username) eqn:T; cbn [negb orb].
  2:{ split; (split; [discriminate|]).
      - intros (NE & _). destruct username; [contradiction|discriminate].
      - discriminate. }
  destruct (len (Py.strip username) <? 3) eqn:A.
  { apply Z.ltb_lt in A. split; (split; [discriminate|]);
      [intros (_ & L & _); lia | discriminate]. }
  apply Z.ltb_ge in A.
  destruct (len (Py.strip username) >? 50) eqn:B.
  { rewrite Z.gtb_ltb in B. apply Z.ltb_lt in B.
    split; (split; [discriminate|]);
      [intros (_ & L & _); lia | discriminate]. }
  rewrite Z.gtb_ltb in B. apply Z.ltb_ge in B.
  assert (P0 : len "" = 0) by reflexivity.
  destruct (negb (Py.truthy password) || (len password <? 4)) eqn:C.
  { split; (split; [discriminate|]); [|discriminate].
    intros (_ & _ & L & _). apply orb_true_iff in C. destruct C as [C|C].
    - destruct password; [rewrite P0 in L; lia|discriminate].
    - apply Z.ltb_lt in C. lia. }
  apply orb_false_iff in C. destruct C as (_ & C). apply Z.ltb_ge in C.
  destruct (len password >? 100) eqn:D.
  { rewrite Z.gtb_ltb in D. apply Z.ltb_lt in D.
    split; (split; [discriminate|]);
      [intros (_ & _ & L & _); lia | discriminate]. }
  rewrite Z.gtb_ltb in D. apply Z.ltb_ge in D.
  destruct (matches_username username) eqn:M; cbn [negb fst snd].
  - split; (split; [intros _|reflexivity]); [|reflexivity].
    split; [intros ->; discriminate|]. repeat split; assumption.
  - split; (split; [discriminate|]); [intros (_ & _ & _ & F)|];
      discriminate.
Qed.

(** X21.  [authenticate_admin] returns a user exactly when the
    credentials have the accepted form, [UserRepository.authenticate]
    accepts them, and the role of the user is admin.  Credentials of
    another form are refused before the store is read.  Otherwise the
    store is left as [authenticate] leaves it: an active user who is not
    an administrator and gives the right password is refused, and the
    time of the last login is written all the same. *)
Theorem authenticate_admin_lets_only_admins_in
  (username password now : string) (st : Store) :
  let valid := fst (validate_credentials username password) in
  let login := authenticate username password now st in
  let r := authenticate_admin username password now st in
  (valid = true
   <-> username <> ""
       /\ 3 <= len (Py.strip username) <= 50
       /\ 4 <= len password <= 100
       /\ matches_username username = true)
  /\ (forall user,
        fst r = Some user
        <-> valid = true /\ fst login = Some user /\ User.role user = "admin")
  /\ (valid = false -> r = (None, st))
  /\ (valid = true -> snd r = snd login)
  /\ (forall row,
        valid = true ->
        find (fun other => String.eqb (u_username other) username) (users st)
        = Some row ->
        u_password_hash row = password ->
        u_is_active row <> 0 ->
        u_role row <> "admin" ->
        fst r = None
        /\ users (snd r)
           = map (fun other => if u_id other =? u_id row
                               then logged_in now other else other)
               (users st)).
Proof.
  cbv zeta.
  split; [apply validate_credentials_cases|].
  unfold authenticate_admin.
  destruct (validate_credentials username password) as [valid msg].
  cbn [fst]. destruct valid; cbn [negb].
  2:{ split; [|split; [reflexivity|split; discriminate]].
      intros user. cbn [fst]. split; [discriminate|].
      intros (F & _). discriminate. }
  pose proof (authenticate_cases username password now st) as Cases.
  cbv zeta in Cases. destruct Cases as (Who & Effect & _).
  destruct (authenticate username password now st) as [user st'].
  cbn [fst snd] in *.
  assert (Adm : forall u, User.is_admin u = true <-> User.role u = "admin").
  { intros u. unfold User.is_admin. apply String.eqb_eq. }
  split; [|split; [discriminate|split]].
  - intros u. destruct user as [found|]; cbn [fst].
    + destruct (User.is_admin found) eqn:A; cbn [fst].
      * split.
        -- intros E. injection E as <-. repeat split. apply Adm, A.
        -- intros (_ & E & _). exact E.
      * split; [discriminate|].
        intros (_ & E & R). injection E as <-.
        apply Adm in R. congruence.
    + split; [discriminate|]. intros (_ & E & _). discriminate.
  - intros _. destruct user as [found|]; [|reflexivity].
    destruct (User.is_admin found); reflexivity.
  - intros row _ F P Act Role.
    destruct (Effect row F P Act) as (U & _).
    assert (W : user = Some (_row_to_user row)).
    { apply Who. exists row. repeat split; assumption. }
    subst user.
    assert (NA : User.is_admin (_row_to_user row) = false).
    { apply not_true_is_false. intros A. apply Adm in A. apply Role, A. }
    rewrite NA. split; [reflexivity|exact U].
Qed.

End AdminFacts.


(* ================================================================== *)
(** * The report and the latest score *)
(* ================================================================== *)

Section ReportFacts.
Import DatabaseManager QuizService QuizScore Notions.

Lemma sum_bool_bounds (l : list bool) :
  0 <= sum_bool l <= Z.of_nat (length l).
Proof.
  induction l as [|b l IH]; [cbn; lia|].
  change (sum_bool (b :: l)) with ((if b then 1 else 0) + sum_bool l).
  cbn [length]. destruct b; lia.
Qed.

Lemma threshold (k s : Z) (p : positive) :
  Qle_bool (inject_Z k) (inject_Z s / inject_Z (Z.pos p) * 100)
  = (k * Z.pos p <=? 100 * s).
Proof.
  apply eq_iff_eq_true. rewrite Qle_bool_iff, Z.leb_le.
  unfold Qle, Qdiv, Qmult, Qinv, inject_Z. cbn [Qnum Qden].
  rewrite ?Pos.mul_1_r, ?Z.mul_1_r. lia.
Qed.

Lemma letter_of_ratio (s : Z) (p : positive) :
  QuizResult.letter (inject_Z s / inject_Z (Z.pos p) * 100)
  = letter_of s (Z.pos p).
Proof.
  unfold QuizResult.letter, letter_of.
  change 90%Q with (inject_Z 90). change 80%Q with (inject_Z 80).
  change 70%Q with (inject_Z 70). change 60%Q with (inject_Z 60).
  rewrite !threshold. reflexivity.
Qed.

Lemma ratio_bounds (s : Z) (p : positive) :
  0 <= s <= Z.pos p ->
  (0 <= inject_Z s / inject_Z (Z.pos p) * 100 <= 100)%Q.
Proof.
  intros B. unfold Qle, Qdiv, Qmult, Qinv, inject_Z. cbn [Qnum Qden].
  rewrite ?Pos.mul_1_r, ?Z.mul_1_r. lia.
Qed.

(** X22.  The report made from the marks of [calculate_score] is
    consistent: its score is the score returned with the marks, between 0
    and the number of questions; the percentage is between 0 and 100; for
    a quiz with questions the grade is A from 90 percent, B from 80, C
    from 70, D from 60 and F below, which in whole numbers reads
    100 * score against 90, 80, 70 and 60 times the number of questions,
    and the average time per question is the floor of the time over the
    number of questions; a quiz without questions gets 0 percent, F and
    0 seconds; and the [grade] property of
    a stored result with that score and total is the same letter.  Floats
    are taken as exact rationals. *)
Theorem report_of_a_scored_quiz_is_consistent
  (qs : list Question.Question) (answers : list string) (seconds : Z) :
  let scored := calculate_score qs answers in
  let report := generate_quiz_report qs answers (snd scored) seconds in
  let n := Z.of_nat (length qs) in
  QuizService.score report = fst scored
  /\ QuizService.total_questions report = n
  /\ QuizService.correct_results report = snd scored
  /\ 0 <= QuizService.score report <= n
  /\ (0 <= QuizService.percentage report <= 100)%Q
  /\ (QuizService.percentage report * inject_Z n
      == inject_Z (QuizService.score report) * 100)%Q
  /\ (qs = [] ->
      QuizService.grade report = "F"
      /\ QuizService.avg_time_per_question report = 0)
  /\ (qs <> [] ->
      QuizService.grade report = letter_of (QuizService.score report) n
      /\ QuizService.avg_time_per_question report * n <= seconds
         < (QuizService.avg_time_per_question report + 1) * n)
  /\ (forall r,
        QuizResult.score r = QuizService.score report ->
        QuizResult.total_questions r = n ->
        QuizResult.percentage r = Some (QuizService.percentage report)
        /\ QuizResult.grade r = Some (QuizService.grade report)).
Proof.
  cbv zeta. unfold calculate_score. rewrite score_loop_marks.
  cbn [fst snd app]. rewrite Z.add_0_l.
  pose proof (sum_bool_bounds (marks 0 qs answers)) as B.
  rewrite marks_length in B.
  set (s := sum_bool (marks 0 qs answers)) in *.
  unfold generate_quiz_report. cbv zeta. fold s.
  destruct qs as [|q qs].
  - cbn [length Z.of_nat]. cbn [Z.gtb Z.compare].
    cbn [QuizService.score QuizService.total_questions
         QuizService.correct_results QuizService.percentage
         QuizService.grade QuizService.avg_time_per_question].
    assert (s = 0) by (cbn [length Z.of_nat] in B; lia).
    split; [reflexivity|]. split; [reflexivity|]. split; [reflexivity|].
    split; [cbn [length Z.of_nat] in B; exact B|].
    split; [split; discriminate|].
    split; [rewrite H; reflexivity|].
    split; [intros _; split; reflexivity|].
    split; [intros NE; contradiction|].
    intros r Hs Ht. unfold QuizResult.grade, QuizResult.percentage.
    rewrite Ht. cbn. split; reflexivity.
  - set (n := Z.of_nat (length (q :: qs))) in *.
    assert (Pn : exists p, n = Z.pos p).
    { unfold n. cbn [length]. rewrite Nat2Z.inj_succ.
      destruct (Z.of_nat (length qs)) eqn:E; try lia.
      - exists 1%positive. reflexivity.
      - exists (Pos.succ p). lia. }
    destruct Pn as (p & Pn). rewrite Pn in *.
    cbn [Z.gtb Z.compare].
    rewrite (truediv_part s (Z.pos p)) by (exact B || reflexivity).
    cbn [QuizService.score QuizService.total_questions
         QuizService.correct_results QuizService.percentage
         QuizService.grade QuizService.avg_time_per_question].
    split; [reflexivity|]. split; [reflexivity|]. split; [reflexivity|].
    split; [exact B|].
    split; [apply ratio_bounds, B|].
    split.
    { unfold Qeq, Qdiv, Qmult, Qinv, inject_Z. cbn [Qnum Qden].
      rewrite ?Pos.mul_1_r, ?Z.mul_1_r. lia. }
    split; [discriminate|].
    split.
    { intros _. split; [apply letter_of_ratio|]. split.
      - rewrite Z.mul_comm. apply Z.mul_div_le. lia.
      - rewrite Z.mul_comm. apply Z.mul_succ_div_gt. lia. }
    intros r Hs Ht. unfold QuizResult.grade, QuizResult.percentage.
    rewrite Ht, Hs. cbn [Z.eqb].
    rewrite (truediv_part s (Z.pos p)) by (exact B || reflexivity).
    split; reflexivity.
Qed.

End ReportFacts.


Section LatestScoreFacts.
Import DatabaseManager QuizWindow QuizNavigation NavigationNotions.
Import QuizResultQueries QuizScore Notions TextNotions.

Lemma save_appends
  (score total seconds : Z) (ids : list Z) (now : string) (st : Store)
  (rowid : Z) :
  next_rowid (quiz_results_seq st) (map r_id (quiz_results st)) = Some rowid ->
  quiz_results
    (snd (QuizService.save_quiz_result None score total seconds ids now st))
  = quiz_results st
    ++ [{| r_id := rowid; r_user_id := None; r_score := score;
           r_total_questions := total; r_time_taken := seconds;
           r_completed_at := now;
           r_questions_attempted := QuizResultRepository.attempted_text ids |}].
Proof.
  intros E. unfold QuizService.save_quiz_result, QuizResultRepository.create.
  cbn [QuizResult.user_id QuizResult.score QuizResult.total_questions
       QuizResult.time_taken QuizResult.questions_attempted].
  destruct (insert_result None score total seconds
              (QuizResultRepository.attempted_text ids) now st)
    as [[i st']|] eqn:I.
  - pose proof (insert_result_rows _ _ _ _ _ _ _ _ _ I) as R.
    unfold insert_result in I. cbn [negb] in I. rewrite E in I.
    cbn in I. injection I as <- _. exact R.
  - unfold insert_result in I. cbn [negb] in I. rewrite E in I.
    discriminate.
Qed.

(** X23.  After a quiz played to the end, at a time not before that of a
    stored result and with a result id left, [get_latest_quiz_score]
    shows that quiz: a result is there, the score is the number of
    questions whose choice equals the answer, the total the number of
    questions, the time the seconds the quiz took, the percentage
    100 * score / total, and the grade the letter for that score.  On a
    store without results it reports that there is none. *)
Theorem finished_quiz_is_the_latest_score
  (qs : list Question.Question) (choices : list string)
  (SHOW_TIMER AUTO_SUBMIT : bool) (T : Z) (clk : Clock) (later : string)
  (st : Store) (rowid : Z) :
  qs <> [] ->
  length choices = length qs ->
  (SHOW_TIMER = true -> 0 < T) ->
  none_newer (current_timestamp clk) st ->
  next_rowid (quiz_results_seq st) (map r_id (quiz_results st)) = Some rowid ->
  exists s0 final,
    __init__ qs SHOW_TIMER AUTO_SUBMIT T clk st = Some s0
    /\ play choices clk s0 = Some final
    /\ let shown := get_latest_quiz_score later (snd final) in
       let right := Z.of_nat (count_occ bool_dec (marks 0 qs choices) true) in
       let n := Z.of_nat (length qs) in
       has_result shown = true
       /\ score shown = right
       /\ total shown = n
       /\ time_taken shown = seconds_since_start clk
       /\ (percentage shown * inject_Z n == inject_Z right * 100)%Q
       /\ grade shown = letter_of right n
       /\ (quiz_results st = [] ->
           get_latest_quiz_score later st = no_result).
Proof.
  intros NE Len Pos Old Room.
  destruct (init_playing qs SHOW_TIMER AUTO_SUBMIT T clk st NE Pos)
    as (w0 & E0 & P0 & _).
  assert (NC : choices <> []).
  { intros ->. destruct qs; [contradiction|discriminate]. }
  destruct (play_to_the_end qs clk st choices 0 [] w0 P0 NC Len)
    as (w' & E & _).
  cbn [app] in E. rewrite sum_bool_count in E.
  eexists. eexists. split; [exact E0|]. split; [exact E|].
  cbv zeta. cbn [snd].
  set (right := Z.of_nat (count_occ bool_dec (marks 0 qs choices) true)) in *.
  assert (Pn : exists p, Z.of_nat (length qs) = Z.pos p).
  { destruct qs as [|q qs]; [contradiction|]. cbn [length].
    rewrite Nat2Z.inj_succ.
    destruct (Z.of_nat (length qs)) eqn:En; try lia.
    - exists 1%positive. reflexivity.
    - exists (Pos.succ p). lia. }
  assert (B : 0 <= right <= Z.of_nat (length qs)).
  { pose proof (sum_bool_bounds (marks 0 qs choices)) as B.
    rewrite marks_length, sum_bool_count in B. exact B. }
  destruct Pn as (p & Pn). rewrite Pn in *.
  assert (Shown :
            get_latest_quiz_score later
              (snd (QuizService.save_quiz_result None right (Z.pos p)
                      (seconds_since_start clk) (question_ids w0)
                      (current_timestamp clk) st))
            = {| score := right;
                 total := Z.pos p;
                 percentage := (inject_Z right / inject_Z (Z.pos p) * 100)%Q;
                 grade := QuizResult.letter
                            (inject_Z right / inject_Z (Z.pos p) * 100)%Q;
                 time_taken := seconds_since_start clk;
                 completed_at :=
                   Some (if Py.truthy (current_timestamp clk)
                         then current_timestamp clk else later);
                 has_result := true |}).
  { unfold get_latest_quiz_score, get_latest_result, by_index_backwards.
    rewrite (save_appends _ _ _ _ _ _ rowid Room).
    match goal with
    | |- context [Py.sort_by _ _ (rev (_ ++ [?row]))] =>
        destruct (newest_comes_first r_completed_at _ row Old) as (rest & ->)
    end.
    unfold _row_to_result, QuizResult.grade, QuizResult.percentage.
    cbn [QuizResult.score QuizResult.total_questions QuizResult.time_taken
         QuizResult.completed_at r_score r_total_questions r_time_taken
         r_completed_at].
    cbn [Z.gtb Z.compare Z.eqb].
    rewrite (truediv_part right (Z.pos p)) by (exact B || reflexivity).
    reflexivity. }
  rewrite Shown. cbn [has_result score total time_taken percentage grade].
  split; [reflexivity|]. split; [reflexivity|]. split; [reflexivity|].
  split; [reflexivity|].
  split.
  { unfold Qeq, Qdiv, Qmult, Qinv, inject_Z. cbn [Qnum Qden].
    rewrite ?Pos.mul_1_r, ?Z.mul_1_r. lia. }
  split; [apply letter_of_ratio|].
  intros Empty.
  unfold get_latest_quiz_score, get_latest_result, by_index_backwards.
  rewrite Empty. reflexivity.
Qed.

Lemma finished_quiz_is_the_latest_score_witness :
  let q1 := example_question "B" [] in
  let q2 := example_question "A" [] in
  let clk := {| seconds_since_start := 25;
                current_timestamp := "2024-01-02 10:00:00" |} in
  exists s0 final,
    __init__ [q1; q2] true true 60 clk empty_store = Some s0
    /\ play ["B"; "C"] clk s0 = Some final
    /\ score (get_latest_quiz_score "2024-01-03 00:00:00" (snd final)) = 1
    /\ grade (get_latest_quiz_score "2024-01-03 00:00:00" (snd final)) = "F".
Proof.
  cbv zeta.
  destruct (finished_quiz_is_the_latest_score
              [example_question "B" []; example_question "A" []] ["B"; "C"]
              true true 60
              {| seconds_since_start := 25;
                 current_timestamp := "2024-01-02 10:00:00" |}
              "2024-01-03 00:00:00" empty_store 1)
    as (s0 & final & E0 & E & H).
  - discriminate.
  - reflexivity.
  - intros _. reflexivity.
  - constructor.
  - reflexivity.
  - cbv zeta in H. destruct H as (_ & S & _ & _ & _ & G & _).
    exists s0, final. split; [exact E0|]. split; [exact E|].
    split; [exact S | exact G].
Defined.

End LatestScoreFacts.


(* ================================================================== *)
(** * The pages of the question list *)
(* ================================================================== *)

Section PageFacts.
Import DatabaseManager QuestionRepository QuestionQueries AdminQuestions.
Import Notions.

Lemma get_all_slice (n offset : Z) (now : string) (st : Store) :
  0 < n <= Py.int64_max ->
  0 <= offset <= Py.int64_max ->
  get_all (Some n) offset now st
  = firstn (Z.to_nat n) (skipn (Z.to_nat offset) (get_all None 0 now st)).
Proof.
  intros Hn Ho. unfold get_all. cbv zeta.
  assert (Lo : Py.int64_min <= 0) by (vm_compute; discriminate).
  destruct (n =? 0) eqn:E; [apply Z.eqb_eq in E; lia|].
  unfold bindable.
  replace (Py.int64_min <=? n) with true by (symmetry; apply Z.leb_le; lia).
  replace (n <=? Py.int64_max) with true by (symmetry; apply Z.leb_le; lia).
  replace (Py.int64_min <=? offset) with true
    by (symmetry; apply Z.leb_le; lia).
  replace (offset <=? Py.int64_max) with true
    by (symmetry; apply Z.leb_le; lia).
  cbn [andb negb orb]. unfold limit, offset_rows.
  replace (n <? 0) with false by (symmetry; apply Z.ltb_ge; lia).
  rewrite skipn_map, firstn_map. reflexivity.
Qed.

Lemma firstn_more {A} (a b : nat) (l : list A) :
  firstn (a + b) l = firstn a l ++ firstn b (skipn a l).
Proof.
  revert l. induction a as [|a IH]; intros l; [reflexivity|].
  destruct l as [|x l]; cbn [Nat.add firstn skipn app].
  - rewrite firstn_nil. reflexivity.
  - rewrite IH. reflexivity.
Qed.

Lemma slices_together {A} (n m : nat) (l : list A) :
  concat (map (fun k => firstn n (skipn (k * n) l)) (seq 0 m))
  = firstn (m * n) l.
Proof.
  induction m as [|m IH]; [reflexivity|].
  rewrite seq_S, map_app, concat_app, IH. cbn [Nat.add map concat].
  rewrite app_nil_r.
  replace (S m * n)%nat with (m * n + n)%nat by lia.
  symmetry. apply firstn_more.
Qed.

Lemma count_of_all (now : string) (st : Store) :
  get_count st = Z.of_nat (length (get_all None 0 now st)).
Proof.
  unfold get_count, get_all. rewrite length_map.
  rewrite (Permutation_length (newest_first_perm _)). reflexivity.
Qed.

Lemma count_bound (st : Store) :
  primary_key st -> get_count st <= Py.int64_max.
Proof.
  intros PK.
  pose proof (matching_length None None st PK) as M.
  unfold matching in M. rewrite filter_everything in M by reflexivity.
  exact M.
Qed.

(** X24.  The pages of [get_all_questions], for a positive page size:
    there are as many pages as the questions need and no more, every page
    from the first to the last holds the questions of its place in the
    list of all questions, newest first, a full page size of them on every
    page but the last, and the pages put together are that list.  A page
    size of 0 gives the answer of the failure branch: no questions, no
    pages, a count of 0. *)
Theorem pages_cover_every_question_once
  (page size_ : Z) (now : string) (st : Store) :
  primary_key st ->
  let r := get_all_questions page size_ now st in
  let everything := get_all None 0 now st in
  (size_ = 0 ->
   r = {| questions := []; current_page := 1; total_pages := 0;
          total_count := 0; per_page := 0 |})
  /\ (0 < size_ <= Py.int64_max ->
      total_count r = Z.of_nat (length everything)
      /\ (total_pages r - 1) * size_ < total_count r + size_
      /\ total_count r <= total_pages r * size_
      /\ (total_count r = 0 <-> total_pages r = 0)
      /\ (1 <= page <= total_pages r ->
          questions r
          = firstn (Z.to_nat size_)
              (skipn (Z.to_nat ((page - 1) * size_)) everything)
          /\ questions r <> []
          /\ (page < total_pages r ->
              Z.of_nat (length (questions r)) = size_))
      /\ concat
           (map (fun k =>
                   questions
                     (get_all_questions (Z.of_nat (S k)) size_ now st))
              (seq 0 (Z.to_nat (total_pages r))))
         = everything).
Proof.
  intros PK. cbv zeta. split.
  - intros ->. reflexivity.
  - intros Hs. unfold get_all_questions. cbv zeta.
    replace (size_ =? 0) with false by (symmetry; apply Z.eqb_neq; lia).
    cbn [total_count total_pages questions].
    pose proof (count_bound st PK) as CB.
    rewrite (count_of_all now st) in *.
    set (everything := get_all None 0 now st) in *.
    set (c := Z.of_nat (length everything)) in *.
    assert (C0 : 0 <= c) by (unfold c; lia).
    set (tp := (c + size_ - 1) / size_).
    assert (D1 : size_ * tp <= c + size_ - 1)
      by (apply Z.mul_div_le; lia).
    assert (D2 : c + size_ - 1 < size_ * (tp + 1)).
    { replace (tp + 1) with (Z.succ tp) by lia.
      apply Z.mul_succ_div_gt. lia. }
    assert (T0 : 0 <= tp) by (apply Z.div_pos; lia).
    split; [reflexivity|]. split; [nia|]. split; [nia|].
    split; [split; intros; nia|].
    split.
    + intros Hp.
      assert (Off : 0 <= (page - 1) * size_ <= Py.int64_max) by nia.
      rewrite (get_all_slice _ _ _ _ Hs Off). fold everything.
      split; [reflexivity|].
      assert (Skip : (Z.to_nat ((page - 1) * size_) < length everything)%nat)
        by (apply Nat2Z.inj_lt; rewrite Z2Nat.id by lia; fold c; nia).
      split.
      * intros E. apply (f_equal (@length _)) in E.
        rewrite length_firstn, length_skipn in E. cbn [length] in E. lia.
      * intros Lt. rewrite length_firstn, length_skipn.
        assert (Z.of_nat (length everything)
                - Z.of_nat (Z.to_nat ((page - 1) * size_)) >= size_).
        { rewrite Z2Nat.id by lia. fold c. nia. }
        lia.
    + rewrite (map_ext_in _
                 (fun k => firstn (Z.to_nat size_)
                             (skipn (k * Z.to_nat size_) everything))).
      * rewrite slices_together. apply firstn_all2.
        apply Nat2Z.inj_le. rewrite Nat2Z.inj_mul, !Z2Nat.id by lia.
        fold c. nia.
      * intros k Hk. apply in_seq in Hk.
        replace (size_ =? 0) with false by (symmetry; apply Z.eqb_neq; lia).
        cbn [questions].
        assert (Kz : Z.of_nat k < tp) by lia.
        assert (Off : 0 <= (Z.of_nat (S k) - 1) * size_ <= Py.int64_max)
          by nia.
        rewrite (get_all_slice _ _ _ _ Hs Off). fold everything.
        do 2 f_equal. lia.
Qed.

Lemma pages_cover_every_question_once_witness :
  let st := fresh_store "2024-01-01 00:00:00" in
  let r := get_all_questions 3 3 "2024-01-02 00:00:00" st in
  primary_key st
  /\ total_pages r = 3
  /\ map Question.id (questions r) = [Some 7; Some 8]
  /\ total_count r
     = Z.of_nat (length (get_all None 0 "2024-01-02 00:00:00" st)).
Proof.
  cbv zeta.
  pose proof (fresh_store_primary_key "2024-01-01 00:00:00") as PK.
  split; [exact PK|].
  split; [vm_compute; reflexivity|]. split; [vm_compute; reflexivity|].
  pose proof (pages_cover_every_question_once 3 3 "2024-01-02 00:00:00"
                (fresh_store "2024-01-01 00:00:00") PK) as H.
  cbv zeta in H. destruct H as (_ & H).
  assert (S : 0 < 3 <= Py.int64_max)
    by (split; [reflexivity | vm_compute; discriminate]).
  exact (proj1 (H S)).
Defined.

End PageFacts.


(* ================================================================== *)
(** * Deleting several questions *)
(* ================================================================== *)

Section DeletionFacts.
Import AdminQuestions.
Import DatabaseManager QuestionRepository QuestionQueries.
Import Notions DeletionNotions.

Lemma primary_key_deletable (st : Store) : primary_key st -> deletable st.
Proof.
  intros (D & F). split; [exact D|].
  eapply Forall_impl; [|exact F]. cbv beta. intros row B.
  unfold bindable.
  assert (Py.int64_min <= 0) by (vm_compute; discriminate).
  apply andb_true_iff. split; apply Z.leb_le; lia.
Qed.

Lemma delete_one (question_id : Z) (st : Store) :
  deletable st ->
  let r := delete question_id st in
  questions (snd r)
  = filter (fun row => negb (q_id row =? question_id)) (questions st)
  /\ users (snd r) = users st
  /\ quiz_results (snd r) = quiz_results st
  /\ questions_seq (snd r) = questions_seq st
  /\ (fst r = true <-> In question_id (map q_id (questions st)))
  /\ Z.of_nat (length (questions (snd r)))
     = Z.of_nat (length (questions st)) - (if fst r then 1 else 0)
  /\ deletable (snd r).
Proof.
  intros (D & B). cbv zeta. unfold delete.
  destruct (bindable question_id) eqn:Bi; cbn [negb fst snd].
  - cbn [with_questions questions users quiz_results questions_seq].
    split; [reflexivity|]. split; [reflexivity|]. split; [reflexivity|].
    split; [reflexivity|]. split; [apply existsb_id|].
    split.
    + destruct (existsb _ _) eqn:E.
      * apply length_without_id; [exact D | apply existsb_id, E].
      * rewrite filter_everything; [lia|].
        intros row I. apply negb_true_iff, not_true_is_false. intros Eq.
        assert (existsb (fun row => q_id row =? question_id) (questions st)
                = true) by (apply existsb_exists; exists row; tauto).
        congruence.
    + split; [apply filter_keeps_distinct_keys, D|].
      rewrite Forall_forall in *. intros row I. apply filter_In in I.
      apply B, I.
  - assert (Absent : forall row, In row (questions st) ->
                       (q_id row =? question_id) = false).
    { intros row I. apply Z.eqb_neq. intros E.
      rewrite Forall_forall in B. specialize (B row I). congruence. }
    split.
    { rewrite filter_everything; [reflexivity|].
      intros row I. rewrite (Absent row I). reflexivity. }
    split; [reflexivity|]. split; [reflexivity|]. split; [reflexivity|].
    split.
    { split; [discriminate|]. intros I. apply in_map_iff in I.
      destruct I as (row & E & I).
      exfalso. pose proof (Absent row I) as A. apply Z.eqb_neq in A.
      apply A. exact E. }
    split; [lia|]. split; assumption.
Qed.

Lemma delete_each_spec (question_ids : list Z) :
  forall (st : Store) (deleted_count : Z) (failed_ids : list Z),
    deletable st ->
    exists d failed st',
      delete_each question_ids st deleted_count failed_ids
      = (deleted_count + d, failed_ids ++ failed, st')
      /\ questions st' = filter (unlisted question_ids) (questions st)
      /\ users st' = users st
      /\ quiz_results st' = quiz_results st
      /\ questions_seq st' = questions_seq st
      /\ d = Z.of_nat (length (questions st))
             - Z.of_nat (length (questions st'))
      /\ d + Z.of_nat (length failed) = Z.of_nat (length question_ids)
      /\ (failed = [] <->
          NoDup question_ids
          /\ forall id, In id question_ids -> In id (map q_id (questions st))).
Proof.
  induction question_ids as [|id rest IH]; intros st c f P.
  - exists 0, [], st. cbn [delete_each length]. rewrite Z.add_0_r, app_nil_r.
    split; [reflexivity|].
    split; [symmetry; apply filter_everything; reflexivity|].
    repeat split; try reflexivity; try lia; try constructor.
    intros id [].
  - cbn [delete_each].
    pose proof (delete_one id st P) as One. cbv zeta in One.
    destruct (delete id st) as [b st1]. cbn [fst snd] in One.
    destruct One as (Q1 & U1 & R1 & S1 & B1 & L1 & P1).
    assert (Stored1 : forall x, In x (map q_id (questions st1))
                        <-> In x (map q_id (questions st)) /\ x <> id).
    { intros x. rewrite Q1, !in_map_iff. split.
      - intros (row & E & I). apply filter_In in I. destruct I as (I & N).
        apply negb_true_iff, Z.eqb_neq in N.
        split; [exists row; tauto | congruence].
      - intros ((row & E & I) & N). exists row. split; [exact E|].
        apply filter_In. split; [exact I|].
        apply negb_true_iff, Z.eqb_neq. congruence. }
    assert (Rows : forall st', questions st' = filter (unlisted rest)
                                                 (questions st1) ->
                     questions st' = filter (unlisted (id :: rest))
                                       (questions st)).
    { intros st' E. rewrite E, Q1, filter_filter. apply filter_ext.
      intros row. unfold unlisted. cbn [existsb].
      rewrite negb_orb. reflexivity. }
    destruct b.
    + destruct (IH st1 (c + 1) f P1)
        as (d & failed & st' & E & Q & U & R & S & D & Len & F).
      exists (1 + d), failed, st'. rewrite E.
      split; [f_equal; f_equal; lia|].
      split; [apply Rows, Q|].
      split; [congruence|]. split; [congruence|]. split; [congruence|].
      split; [lia|]. split; [cbn [length]; lia|].
      rewrite F. split.
      * intros (ND & Sub). split.
        -- constructor; [|exact ND]. intros I. apply Sub, Stored1 in I.
           tauto.
        -- intros x [<-|I]; [apply B1; reflexivity|].
           apply Sub, Stored1 in I. tauto.
      * intros (ND & Sub). inversion ND as [|? ? Nin ND']; subst.
        split; [exact ND'|]. intros x I. apply Stored1.
        split; [apply Sub; right; exact I|]. intros ->. contradiction.
    + destruct (IH st1 c (f ++ [id]) P1)
        as (d & failed & st' & E & Q & U & R & S & D & Len & F).
      exists d, (id :: failed), st'. rewrite E.
      split; [rewrite <- app_assoc; reflexivity|].
      split; [apply Rows, Q|].
      split; [congruence|]. split; [congruence|]. split; [congruence|].
      split; [lia|]. split; [cbn [length]; lia|].
      split; [discriminate|].
      intros (_ & Sub). exfalso.
      assert (In id (map q_id (questions st))) as I
        by (apply Sub; left; reflexivity).
      apply B1 in I. discriminate.
Qed.

(** X25.  [delete_multiple_questions] deletes the listed questions and
    nothing else: the questions left are the stored ones that are not
    listed, users, results and the largest id handed out are untouched,
    and the count returned is the number of questions that went.  It
    reports success exactly when every listed id was stored and none is
    listed twice (an empty list is a success).  Afterwards no listed id is
    found, and any other id reads as before. *)
Theorem delete_multiple_questions_removes_the_listed
  (question_ids : list Z) (later : string) (st : Store) :
  primary_key st ->
  let r := delete_multiple_questions question_ids st in
  let success := fst (fst (fst r)) in
  let deleted_count := snd (fst r) in
  questions (snd r) = filter (unlisted question_ids) (questions st)
  /\ users (snd r) = users st
  /\ quiz_results (snd r) = quiz_results st
  /\ questions_seq (snd r) = questions_seq st
  /\ deleted_count
     = Z.of_nat (length (questions st))
       - Z.of_nat (length (questions (snd r)))
  /\ (success = true <->
      NoDup question_ids
      /\ forall id, In id question_ids -> In id (map q_id (questions st)))
  /\ (forall id, In id question_ids -> get_by_id id later (snd r) = None)
  /\ (forall id, ~ In id question_ids ->
        get_by_id id later (snd r) = get_by_id id later st).
Proof.
  intros PK. cbv zeta. unfold delete_multiple_questions.
  destruct (delete_each_spec question_ids st 0 []
              (primary_key_deletable st PK))
    as (d & failed & st' & E & Q & U & R & S & D & Len & F).
  rewrite E. cbn [app]. rewrite Z.add_0_l.
  assert (D0 : 0 <= d).
  { rewrite D, Q. pose proof (filter_length_le (unlisted question_ids)
                                (questions st)). lia. }
  assert (Out : forall x y z : bool * string * Z,
             snd (if d =? Z.of_nat (length question_ids) then (x, st')
                  else if d >? 0 then (y, st') else (z, st')) = st').
  { intros x y z. destruct (_ =? _); [reflexivity|].
    destruct (_ >? _); reflexivity. }
  rewrite !Out.
  split; [exact Q|]. split; [exact U|]. split; [exact R|]. split; [exact S|].
  split.
  { destruct (d =? Z.of_nat (length question_ids)) eqn:Ed; cbn [fst snd];
      [exact D|].
    destruct (d >? 0) eqn:Eg; cbn [fst snd]; [exact D|].
    rewrite Z.gtb_ltb in Eg. apply Z.ltb_ge in Eg. lia. }
  split.
  { rewrite <- F.
    destruct (d =? Z.of_nat (length question_ids)) eqn:Ed; cbn [fst snd].
    - apply Z.eqb_eq in Ed. split; [intros _|reflexivity].
      destruct failed; [reflexivity|cbn [length] in Len; lia].
    - apply Z.eqb_neq in Ed.
      assert (N : failed <> []) by (intros ->; cbn [length] in Len; lia).
      destruct (d >? 0); cbn [fst]; split; try discriminate;
        intros; contradiction. }
  split.
  - intros id I. unfold get_by_id. rewrite Q, filter_filter.
    rewrite filter_nothing; [reflexivity|].
    intros row _. unfold unlisted.
    destruct (q_id row =? id) eqn:Eq; [|apply andb_false_r].
    apply Z.eqb_eq in Eq. rewrite andb_true_r. apply negb_false_iff.
    apply existsb_exists. exists id. split; [exact I|].
    apply Z.eqb_eq, Eq.
  - intros id N. unfold get_by_id. rewrite Q, filter_filter.
    assert (Same : filter (fun row => unlisted question_ids row
                                      && (q_id row =? id)) (questions st)
                   = filter (fun row => q_id row =? id) (questions st)).
    { apply filter_ext. intros row.
      destruct (q_id row =? id) eqn:Eq; [|apply andb_false_r].
      rewrite andb_true_r. apply Z.eqb_eq in Eq. unfold unlisted.
      apply negb_true_iff, not_true_is_false. intros Ex.
      apply existsb_exists in Ex. destruct Ex as (x & I & Ex).
      apply Z.eqb_eq in Ex. apply N. congruence. }
    rewrite Same. reflexivity.
Qed.

Lemma delete_multiple_questions_removes_the_listed_witness :
  let st := fresh_store "2024-01-01 00:00:00" in
  let r := delete_multiple_questions [2; 9; 2; 5] st in
  primary_key st
  /\ fst (fst r)
     = (false, "Đã xóa 2/4 câu hỏi. Không thể xóa: [9, 2]")
  /\ map q_id (questions (snd r)) = [1; 3; 4; 6; 7; 8]
  /\ snd (fst r)
     = Z.of_nat (length (questions st)) - Z.of_nat (length (questions (snd r))).
Proof.
  cbv zeta.
  pose proof (fresh_store_primary_key "2024-01-01 00:00:00") as PK.
  split; [exact PK|].
  split; [vm_compute; reflexivity|]. split; [vm_compute; reflexivity|].
  pose proof (delete_multiple_questions_removes_the_listed [2; 9; 2; 5]
                "2024-01-02 00:00:00" (fresh_store "2024-01-01 00:00:00") PK)
    as H.
  cbv zeta in H. destruct H as (_ & _ & _ & _ & H & _). exact H.
Defined.

End DeletionFacts.


Section DeleteQuestionFacts.
Import AdminQuestions.
Import DatabaseManager QuestionRepository QuestionQueries.
Import Notions DeletionNotions.

(** X26.  [delete_question] succeeds exactly when the id is stored, and
    then that question is gone and nothing else has changed in the way
    [delete] leaves it; otherwise it answers that the question was not
    found and the store is as before.  With ids that are distinct and
    can be bound, the answer that the question could not be deleted is
    never given. *)
Theorem delete_question_finds_then_deletes
  (question_id : Z) (later : string) (st : Store) :
  primary_key st ->
  let r := delete_question question_id later st in
  (fst (fst r) = true <-> In question_id (map q_id (questions st)))
  /\ (fst (fst r) = true ->
      snd (fst r) = "Câu hỏi đã được xóa thành công!"
      /\ snd r = snd (delete question_id st)
      /\ get_count (snd r) = get_count st - 1)
  /\ (fst (fst r) = false ->
      snd (fst r) = "Không tìm thấy câu hỏi!" /\ snd r = st)
  /\ get_by_id question_id later (snd r) = None.
Proof.
  intros PK. cbv zeta. unfold delete_question.
  pose proof (delete_one question_id st (primary_key_deletable st PK)) as One.
  cbv zeta in One. destruct One as (Q & _ & _ & _ & B & L & _).
  assert (Found : get_by_id question_id later st <> None
                  <-> In question_id (map q_id (questions st))).
  { unfold get_by_id. rewrite <- existsb_id, existsb_exists. split.
    - destruct (filter (fun row => q_id row =? question_id) (questions st))
        as [|row rows] eqn:F;
        [intros N; exfalso; apply N; reflexivity|].
      intros _. exists row.
      assert (In row (row :: rows)) as I by (left; reflexivity).
      rewrite <- F in I. apply filter_In in I. exact I.
    - intros (row & I & E).
      assert (In row (filter (fun row => q_id row =? question_id)
                        (questions st))) as Hin
        by (apply filter_In; tauto).
      destruct (filter (fun row => q_id row =? question_id) (questions st));
        [destruct Hin|discriminate]. }
  destruct (get_by_id question_id later st) as [question|] eqn:G.
  - assert (S : In question_id (map q_id (questions st)))
      by (apply Found; discriminate).
    destruct (delete question_id st) as [b st1] eqn:D. cbn [fst snd] in *.
    apply B in S. subst b. cbn [fst snd].
    split; [split; [intros _; apply B; reflexivity|reflexivity]|].
    split.
    { intros _. split; [reflexivity|]. split; [reflexivity|].
      unfold get_count. exact L. }
    split; [discriminate|].
    unfold get_by_id. rewrite Q, filter_filter.
    rewrite filter_nothing; [reflexivity|].
    intros row _. destruct (q_id row =? question_id); reflexivity.
  - assert (N : ~ In question_id (map q_id (questions st))).
    { intros I. apply Found in I. contradiction. }
    cbn [fst snd].
    split; [split; [discriminate|intros I; contradiction]|].
    split; [discriminate|].
    split; [intros _; split; reflexivity|exact G].
Qed.

Lemma delete_question_finds_then_deletes_witness :
  let st := fresh_store "2024-01-01 00:00:00" in
  primary_key st
  /\ fst (delete_question 3 "2024-01-02 00:00:00" st)
     = (true, "Câu hỏi đã được xóa thành công!")
  /\ fst (delete_question 9 "2024-01-02 00:00:00" st)
     = (false, "Không tìm thấy câu hỏi!")
  /\ get_by_id 3 "2024-01-02 00:00:00"
       (snd (delete_question 3 "2024-01-02 00:00:00" st)) = None.
Proof.
  cbv zeta.
  pose proof (fresh_store_primary_key "2024-01-01 00:00:00") as PK.
  split; [exact PK|].
  split; [vm_compute; reflexivity|]. split; [vm_compute; reflexivity|].
  pose proof (delete_question_finds_then_deletes 3 "2024-01-02 00:00:00"
                (fresh_store "2024-01-01 00:00:00") PK) as H.
  cbv zeta in H. destruct H as (_ & _ & _ & H). exact H.
Defined.

End DeleteQuestionFacts.


(* ================================================================== *)
(** * Tags as they are read, and copies of questions *)
(* ================================================================== *)

Section StripFacts.
Import Notions TagNotions.

Lemma append_assoc (a b c : string) :
  ((a ++ b) ++ c)%string = (a ++ (b ++ c))%string.
Proof.
  induction a as [|x a IH]; cbn [append]; [reflexivity|].
  rewrite IH. reflexivity.
Qed.

Lemma drop_prefix_app (p s rest : string) :
  Py.drop_prefix p s = Some rest -> s = (p ++ rest)%string.
Proof.
  revert s. induction p as [|a p IH]; intros s H; cbn [Py.drop_prefix] in H.
  - injection H as <-. reflexivity.
  - destruct s as [|b s]; [discriminate|].
    destruct (Ascii.eqb a b) eqn:E; [|discriminate].
    apply Ascii.eqb_eq in E. subst b. cbn [append]. f_equal. apply IH, H.
Qed.

Lemma drop_prefix_of_app (p rest : string) :
  Py.drop_prefix p (p ++ rest) = Some rest.
Proof.
  induction p as [|a p IH]; cbn [append Py.drop_prefix]; [reflexivity|].
  rewrite Ascii.eqb_refl. exact IH.
Qed.

Lemma drop_any_some (ps : list string) (s rest : string) :
  Py.drop_any ps s = Some rest ->
  exists p, In p ps /\ s = (p ++ rest)%string.
Proof.
  induction ps as [|p ps IH]; cbn [Py.drop_any]; [discriminate|].
  destruct (Py.drop_prefix p s) as [r|] eqn:E.
  - intros H. injection H as <-. exists p. split; [left; reflexivity|].
    apply drop_prefix_app, E.
  - intros H. destruct (IH H) as (q & I & Eq). exists q.
    split; [right; exact I | exact Eq].
Qed.

Lemma drop_any_of_app (ps : list string) (p rest : string) :
  In p ps -> Py.drop_any ps (p ++ rest) <> None.
Proof.
  induction ps as [|q ps IH]; intros I; [destruct I|].
  cbn [Py.drop_any].
  destruct (Py.drop_prefix q (p ++ rest)) eqn:E; [discriminate|].
  destruct I as [->|I]; [rewrite drop_prefix_of_app in E; discriminate|].
  apply IH, I.
Qed.

Lemma drop_any_empty (ps : list string) :
  all_non_empty ps = true -> Py.drop_any ps "" = None.
Proof.
  induction ps as [|p ps IH]; cbn [all_non_empty forallb Py.drop_any];
    [reflexivity|].
  intros H. apply andb_true_iff in H. destruct H as (T & H).
  destruct p; [discriminate|]. cbn [Py.drop_prefix]. apply IH, H.
Qed.

Lemma lstrip_from_spec (ps : list string) :
  all_non_empty ps = true ->
  forall (fuel : nat) (s : string),
    (String.length s <= fuel)%nat ->
    exists pre,
      s = (pre ++ Py.lstrip_from ps fuel s)%string
      /\ Py.drop_any ps (Py.lstrip_from ps fuel s) = None.
Proof.
  intros NE. induction fuel as [|fuel IH]; intros s L;
    cbn [Py.lstrip_from].
  - destruct s; [|cbn in L; lia]. exists "". split; [reflexivity|].
    apply drop_any_empty, NE.
  - destruct (Py.drop_any ps s) as [rest|] eqn:E.
    + destruct (drop_any_some _ _ _ E) as (p & I & ->).
      assert (T : Py.truthy p = true).
      { unfold all_non_empty in NE. rewrite forallb_forall in NE.
        apply NE, I. }
      destruct (IH rest) as (pre & E1 & E2).
      { rewrite string_length_app in L. destruct p; [discriminate|].
        cbn [String.length] in L. lia. }
      exists (p ++ pre)%string. split; [|exact E2].
      rewrite append_assoc. f_equal. exact E1.
    + exists "". split; [reflexivity|exact E].
Qed.

Lemma lstrip_from_fixed (ps : list string) (fuel : nat) (s : string) :
  Py.drop_any ps s = None -> Py.lstrip_from ps fuel s = s.
Proof.
  intros E. destruct fuel; cbn [Py.lstrip_from]; [reflexivity|].
  rewrite E. reflexivity.
Qed.

Lemma list_of_append (a b : string) :
  list_ascii_of_string (a ++ b)
  = list_ascii_of_string a ++ list_ascii_of_string b.
Proof.
  induction a as [|x a IH]; cbn [append list_ascii_of_string app];
    [reflexivity|].
  rewrite IH. reflexivity.
Qed.

Lemma string_of_app (l l' : list ascii) :
  string_of_list_ascii (l ++ l')
  = (string_of_list_ascii l ++ string_of_list_ascii l')%string.
Proof.
  induction l as [|x l IH]; cbn [app string_of_list_ascii append];
    [reflexivity|].
  rewrite IH. reflexivity.
Qed.

Lemma rev_string_app (a b : string) :
  Py.rev_string (a ++ b) = (Py.rev_string b ++ Py.rev_string a)%string.
Proof.
  unfold Py.rev_string. rewrite list_of_append, rev_app_distr.
  apply string_of_app.
Qed.

Lemma rev_string_length (s : string) :
  String.length (Py.rev_string s) = String.length s.
Proof.
  rewrite <- (rev_string_twice s) at 2.
  set (t := Py.rev_string s). clearbody t.
  unfold Py.rev_string.
  assert (L : forall l, String.length (string_of_list_ascii l) = length l).
  { induction l as [|x l IH]; cbn; [reflexivity|]. rewrite IH. reflexivity. }
  assert (L' : forall u, length (list_ascii_of_string u) = String.length u).
  { induction u as [|x u IH]; cbn; [reflexivity|]. rewrite IH. reflexivity. }
  rewrite L, length_rev, L'. reflexivity.
Qed.

Lemma whitespace_non_empty :
  all_non_empty Py.whitespace = true
  /\ all_non_empty whitespace_reversed = true.
Proof.
  split; vm_compute; reflexivity.
Qed.

(** What [strip] leaves: a part of the text that neither begins nor ends
    with whitespace. *)
Lemma strip_spec (s : string) :
  exists pre post,
    s = (pre ++ Py.strip s ++ post)%string
    /\ Py.drop_any Py.whitespace (Py.strip s) = None
    /\ Py.drop_any whitespace_reversed (Py.rev_string (Py.strip s)) = None.
Proof.
  unfold Py.strip.
  destruct (lstrip_from_spec _ (proj1 whitespace_non_empty)
              (String.length s) s (le_n _)) as (pre & E1 & N1).
  fold (Py.lstrip s) in E1, N1. set (u := Py.lstrip s) in *.
  unfold Py.rstrip.
  destruct (lstrip_from_spec _ (proj2 whitespace_non_empty)
              (String.length u) (Py.rev_string u))
    as (pre' & E2 & N2).
  { rewrite rev_string_length. apply le_n. }
  fold whitespace_reversed.
  set (x := Py.lstrip_from whitespace_reversed (String.length u)
              (Py.rev_string u)) in *.
  assert (U : u = (Py.rev_string x ++ Py.rev_string pre')%string).
  { rewrite <- (rev_string_twice u), E2. apply rev_string_app. }
  exists pre, (Py.rev_string pre'). split; [|split].
  - rewrite <- U. exact E1.
  - destruct (Py.drop_any Py.whitespace (Py.rev_string x)) as [rest|] eqn:D;
      [|reflexivity].
    exfalso. destruct (drop_any_some _ _ _ D) as (p & I & Ep).
    apply (drop_any_of_app Py.whitespace p
             (rest ++ Py.rev_string pre') I).
    rewrite <- append_assoc, <- Ep, <- U. exact N1.
  - rewrite rev_string_twice. exact N2.
Qed.

Lemma strip_fixed (s : string) :
  Py.drop_any Py.whitespace s = None ->
  Py.drop_any whitespace_reversed (Py.rev_string s) = None ->
  Py.strip s = s.
Proof.
  intros N1 N2. unfold Py.strip, Py.lstrip.
  rewrite (lstrip_from_fixed _ _ _ N1). unfold Py.rstrip.
  fold whitespace_reversed. rewrite (lstrip_from_fixed _ _ _ N2).
  apply rev_string_twice.
Qed.

Lemma strip_twice (s : string) : Py.strip (Py.strip s) = Py.strip s.
Proof.
  destruct (strip_spec s) as (_ & _ & _ & N1 & N2).
  apply strip_fixed; assumption.
Qed.

Lemma has_char_app (c : ascii) (a b : string) :
  has_char c (a ++ b) = has_char c a || has_char c b.
Proof.
  induction a as [|x a IH]; cbn [append has_char]; [reflexivity|].
  rewrite IH. apply orb_assoc.
Qed.

Lemma strip_without_char (c : ascii) (s : string) :
  has_char c s = false -> has_char c (Py.strip s) = false.
Proof.
  intros H. destruct (strip_spec s) as (pre & post & E & _).
  rewrite E, !has_char_app in H.
  apply orb_false_iff in H. destruct H as (_ & H).
  apply orb_false_iff in H. tauto.
Qed.

Lemma split_without_sep (sep : ascii) (s : string) :
  Forall (fun piece => has_char sep piece = false) (Py.split sep s).
Proof.
  induction s as [|c s IH]; cbn [Py.split].
  - constructor; [reflexivity|constructor].
  - destruct (Ascii.eqb c sep) eqn:E.
    + constructor; [reflexivity|exact IH].
    + destruct (Py.split sep s) as [|w ws].
      * constructor; [|constructor]. cbn [has_char]. rewrite E. reflexivity.
      * inversion IH as [|? ? Hw Hws]; subst.
        constructor; [|exact Hws]. cbn [has_char]. rewrite E, Hw.
        reflexivity.
Qed.

(** The tags [_row_to_question] reads are clean, whatever the text. *)
Lemma parse_tags_clean (text : string) :
  forallb clean_tag (QuestionRepository.parse_tags text) = true.
Proof.
  unfold QuestionRepository.parse_tags. apply forallb_forall.
  intros tag I. apply in_map_iff in I. destruct I as (piece & <- & I).
  apply filter_In in I. destruct I as (I & T).
  pose proof (split_without_sep "," text) as F.
  rewrite Forall_forall in F. specialize (F piece I).
  unfold clean_tag. rewrite strip_twice, String.eqb_refl, T.
  rewrite (strip_without_char _ _ F). reflexivity.
Qed.

End StripFacts.


Section CopyFacts.
Import AdminQuestions.
Import DatabaseManager QuestionRepository QuestionQueries.
Import Notions StoreNotions.

Lemma read_tags_clean (now : string) (row : QuestionRow) :
  forallb clean_tag (Question.tags (_row_to_question now row)) = true.
Proof.
  cbn [_row_to_question Question.tags].
  destruct (Py.truthy (q_tags row)); [apply parse_tags_clean|reflexivity].
Qed.

Lemma get_by_id_stored (question_id : Z) (now : string) (st : Store) :
  In question_id (map q_id (questions st)) ->
  exists row,
    In row (questions st)
    /\ q_id row = question_id
    /\ get_by_id question_id now st = Some (_row_to_question now row).
Proof.
  intros I. apply in_map_iff in I. destruct I as (hit & E & I).
  unfold get_by_id.
  destruct (filter (fun row => q_id row =? question_id) (questions st))
    as [|row rows] eqn:F.
  - exfalso. assert (In hit []) as [].
    rewrite <- F. apply filter_In. split; [exact I|]. apply Z.eqb_eq, E.
  - exists row. assert (In row (row :: rows)) as Hin by (left; reflexivity).
    rewrite <- F in Hin. apply filter_In in Hin.
    destruct Hin as (Hin & Eq). apply Z.eqb_eq in Eq. tauto.
Qed.

(** X27.  [duplicate_question] on a stored id, while question ids are
    left, creates a question under a new, larger id that reads back with
    the prompt of the original after the mark [[Copy] ], and with its
    options, answer, category, difficulty and tags: the tags a question
    is read with are clean, so they come back as they are.  The original
    reads as before and one question more is counted.  On an id that is
    not stored nothing is created. *)
Theorem duplicate_question_copies_what_is_read
  (question_id : Z) (now later raised : string) (st : Store) :
  consistent st ->
  let r := duplicate_question question_id now raised st in
  (In question_id (map q_id (questions st)) ->
   questions_seq st < Py.int64_max ->
   exists original copy new_id,
     get_by_id question_id now st = Some original
     /\ fst r = (true, "Câu hỏi đã được sao chép thành công!", Some new_id)
     /\ question_id < new_id
     /\ get_by_id new_id later (snd r) = Some copy
     /\ Question.prompt copy = ("[Copy] " ++ Question.prompt original)%string
     /\ Question.option_a copy = Question.option_a original
     /\ Question.option_b copy = Question.option_b original
     /\ Question.option_c copy = Question.option_c original
     /\ Question.answer copy = Question.answer original
     /\ Question.category copy = Question.category original
     /\ Question.difficulty copy = Question.difficulty original
     /\ Question.tags copy = Question.tags original
     /\ get_by_id question_id later (snd r) = get_by_id question_id later st
     /\ get_count (snd r) = get_count st + 1)
  /\ (~ In question_id (map q_id (questions st)) ->
      r = ((false, "Không tìm thấy câu hỏi gốc!", None), st)).
Proof.
  intros C. cbv zeta. split.
  - intros I Room.
    destruct (get_by_id_stored question_id now st I) as (row & Hin & Id & G).
    destruct C as (K & _ & _ & _ & CQ & _).
    rewrite Forall_forall in CQ. destruct (CQ row Hin) as (A & D).
    pose proof K as (_ & Range & _).
    rewrite Forall_forall in Range. specialize (Range _ I).
    unfold duplicate_question. rewrite G.
    set (original := _row_to_question now row).
    unfold create.
    cbn [Question.prompt Question.option_a Question.option_b
         Question.option_c Question.answer Question.category
         Question.difficulty Question.tags].
    destruct (insert_question ("[Copy] " ++ Question.prompt original)
                (Question.option_a original) (Question.option_b original)
                (Question.option_c original) (Question.answer original)
                (Question.category original) (Question.difficulty original)
                (tags_text (Question.tags original)) now st)
      as [[new_id st']|] eqn:E.
    + pose proof (get_by_id_after_insert _ _ _ _ _ _ _ _ _ later _ _ _ E)
        as Read.
      pose proof (insert_question_seq _ _ _ _ _ _ _ _ _ _ _ _ E) as (Lt & _).
      assert (Rows : questions st'
                     = questions st
                       ++ [{| q_id := new_id;
                              q_prompt := ("[Copy] "
                                           ++ Question.prompt original)%string;
                              q_option_a := Question.option_a original;
                              q_option_b := Question.option_b original;
                              q_option_c := Question.option_c original;
                              q_answer := Question.answer original;
                              q_category := Question.category original;
                              q_difficulty := Question.difficulty original;
                              q_created_at := now; q_updated_at := now;
                              q_tags := tags_text (Question.tags original) |}]).
      { unfold insert_question in E.
        destruct (negb _); [discriminate|].
        destruct (negb _); [discriminate|].
        destruct (next_rowid _ _); [|discriminate].
        cbn in E. injection E as <- <-. reflexivity. }
      eexists original, _, new_id. cbn [fst snd].
      split; [reflexivity|]. split; [reflexivity|]. split; [lia|].
      split; [exact Read|].
      cbn [_row_to_question Question.prompt Question.option_a
           Question.option_b Question.option_c Question.answer
           Question.category Question.difficulty Question.tags
           q_prompt q_option_a q_option_b q_option_c q_answer q_category
           q_difficulty q_tags].
      repeat (split; [reflexivity|]).
      split; [apply tags_round_trip, read_tags_clean|].
      split.
      * unfold get_by_id. rewrite Rows, filter_app. cbn [filter q_id].
        replace (new_id =? question_id) with false
          by (symmetry; apply Z.eqb_neq; lia).
        rewrite app_nil_r. reflexivity.
      * unfold get_count. rewrite Rows, length_app. cbn [length]. lia.
    + exfalso. unfold insert_question in E.
      assert (A' : Migrations.mem_string (Question.answer original)
                     ["A"; "B"; "C"] = true)
        by (apply mem_string_In; exact A).
      assert (D' : Migrations.mem_string (Question.difficulty original)
                     ["Easy"; "Medium"; "Hard"] = true)
        by (apply mem_string_In; exact D).
      rewrite A', D', (next_rowid_room _ _ K Room) in E. discriminate.
  - intros N. unfold duplicate_question, get_by_id.
    rewrite filter_nothing; [reflexivity|].
    intros row I. apply Z.eqb_neq. intros E. apply N. rewrite <- E.
    apply in_map, I.
Qed.

Lemma duplicate_question_copies_what_is_read_witness :
  let st := fresh_store "2024-01-01 00:00:00" in
  let r := duplicate_question 2 "2024-01-02 00:00:00" "" st in
  consistent st
  /\ In 2 (map q_id (questions st))
  /\ questions_seq st < Py.int64_max
  /\ exists original copy new_id,
       get_by_id 2 "2024-01-02 00:00:00" st = Some original
       /\ fst r = (true, "Câu hỏi đã được sao chép thành công!", Some new_id)
       /\ 2 < new_id
       /\ get_by_id new_id "2024-01-03 00:00:00" (snd r) = Some copy
       /\ Question.tags copy = Question.tags original.
Proof.
  cbv zeta.
  pose proof (fresh_store_consistent "2024-01-01 00:00:00") as C.
  assert (I : In 2 (map q_id (questions (fresh_store "2024-01-01 00:00:00")))).
  { assert (E : map q_id (questions (fresh_store "2024-01-01 00:00:00"))
                = [1; 2; 3; 4; 5; 6; 7; 8]) by (vm_compute; reflexivity).
    rewrite E. right. left. reflexivity. }
  assert (Room : questions_seq (fresh_store "2024-01-01 00:00:00")
                 < Py.int64_max) by (vm_compute; reflexivity).
  split; [exact C|]. split; [exact I|]. split; [exact Room|].
  pose proof (duplicate_question_copies_what_is_read 2
                "2024-01-02 00:00:00" "2024-01-03 00:00:00" ""
                (fresh_store "2024-01-01 00:00:00") C) as H.
  cbv zeta in H. destruct H as (H & _).
  destruct (H I Room)
    as (original & copy & new_id & G & F & Lt & R & _ & _ & _ & _ & _ & _
        & _ & T & _).
  exists original, copy, new_id.
  split; [exact G|]. split; [exact F|]. split; [exact Lt|].
  split; [exact R | exact T].
Defined.

End CopyFacts.


(* ================================================================== *)
(** * A quiz window saves at most one result *)
(* ================================================================== *)

Section SessionFacts.
Import DatabaseManager QuizWindow QuizNavigation SessionNotions.

Lemma at_most_one_refl (n : nat) (st : Store) : at_most_one_result n st st.
Proof.
  repeat split; try reflexivity. left. reflexivity.
Qed.

Lemma save_at_most_once (n : nat) (score seconds : Z) (ids : list Z)
  (now : string) (st : Store) :
  at_most_one_result n st
    (snd (QuizService.save_quiz_result None score (Z.of_nat n) seconds ids
            now st)).
Proof.
  unfold QuizService.save_quiz_result, QuizResultRepository.create.
  cbn [QuizResult.user_id QuizResult.score QuizResult.total_questions
       QuizResult.time_taken QuizResult.questions_attempted].
  destruct (insert_result None score (Z.of_nat n) seconds
              (QuizResultRepository.attempted_text ids) now st)
    as [[i st']|] eqn:E; cbn [snd]; [|apply at_most_one_refl].
  pose proof (insert_result_rows _ _ _ _ _ _ _ _ _ E) as R.
  pose proof (insert_result_questions _ _ _ _ _ _ _ _ _ E) as (Q & _ & U).
  split; [exact Q|]. split; [exact U|]. right.
  eexists. split; [exact R|]. split; reflexivity.
Qed.

Lemma same_flags (qs : list Question.Question) (st0 st : Store)
  (w w' : QuizWindow) :
  questions w' = questions w ->
  window w' = window w ->
  timer w' = timer w ->
  quiz_completed w' = quiz_completed w ->
  in_session qs st0 (w, st) -> in_session qs st0 (w', st).
Proof.
  intros Q W T C (I1 & I2 & I3 & I4 & I5). unfold in_session in *.
  cbn [fst snd] in *. rewrite Q, W, T, C. tauto.
Qed.

Lemma finish_in_session (qs : list Question.Question) (st0 : Store)
  (clk : Clock) (w : QuizWindow) :
  questions w = qs -> in_session qs st0 (_finish_quiz clk (w, st0)).
Proof.
  intros Q. unfold _finish_quiz.
  cbn [questions user_answers set_timer set_quiz_completed set_user_answers].
  destruct (QuizService.calculate_score _ _) as [score marks].
  rewrite Q.
  pose proof (save_at_most_once (length qs) score (seconds_since_start clk)
                (question_ids
                   (set_user_answers
                      (pad_answers (set_timer false (set_quiz_completed true w)))
                      (set_timer false (set_quiz_completed true w))))
                (current_timestamp clk) st0) as S.
  destruct (QuizService.save_quiz_result _ _ _ _ _ _ _) as [saved st'].
  cbn [snd] in S. unfold in_session. cbn.
  split; [exact Q|]. split; [discriminate|].
  split; [reflexivity|]. split; [reflexivity|exact S].
Qed.

Lemma load_in_session (qs : list Question.Question) (st0 : Store)
  (clk : Clock) (w : QuizWindow) :
  window w = true ->
  in_session qs st0 (w, st0) ->
  in_session qs st0 (_load_question clk (w, st0)).
Proof.
  intros W I. unfold _load_question.
  destruct (_ >=? _); [apply finish_in_session, I|].
  destruct (nth_error _ _);
    apply (same_flags qs st0 st0 w); try reflexivity; exact I.
Qed.

Lemma update_timer_in_session (qs : list Question.Question) (st0 st : Store)
  (clk : Clock) (w : QuizWindow) (s' : State) :
  in_session qs st0 (w, st) ->
  timer w = false ->
  (window w = false -> quiz_completed w = true) ->
  _update_timer clk (w, st) = Some s' ->
  in_session qs st0 s'.
Proof.
  intros I T WC H. unfold _update_timer in H.
  destruct (quiz_completed w) eqn:C; cbn [orb] in H.
  { injection H as <-. exact I. }
  assert (W : window w = true).
  { destruct (window w); [reflexivity|]. discriminate (WC eq_refl). }
  pose proof I as (I1 & I2 & _). cbn [fst snd] in I1, I2.
  specialize (I2 W). subst st.
  destruct (negb (show_timer w)); cbn in H.
  { injection H as <-. exact I. }
  destruct (_update_timer_display w); [|discriminate].
  destruct (time_remaining w <=? 0).
  - destruct (auto_submit w); injection H as <-.
    + apply finish_in_session, I1.
    + destruct I as (J1 & J2 & J3 & J4 & J5). unfold in_session in *.
      cbn [fst snd] in *. cbn.
      split; [exact J1|]. split; [intros _; reflexivity|].
      split; [intros _; exact T|]. split; [intros _; exact T|exact J5].
  - injection H as <-.
    destruct I as (J1 & J2 & J3 & J4 & J5). unfold in_session in *.
    cbn [fst snd] in *. cbn.
    split; [exact J1|]. split; [intros _; reflexivity|].
    split; [rewrite W; discriminate|].
    split; [rewrite C; discriminate|exact J5].
Qed.

Lemma save_answer_flags (w w1 : QuizWindow) :
  _save_current_answer w = Some w1 ->
  questions w1 = questions w
  /\ window w1 = window w
  /\ timer w1 = timer w
  /\ quiz_completed w1 = quiz_completed w.
Proof.
  unfold _save_current_answer. cbv zeta.
  destruct (setitem _ _ _); [|discriminate].
  intros H. injection H as <-. cbn. tauto.
Qed.

Lemma handle_in_session (qs : list Question.Question) (st0 : Store)
  (e : Event) (clk : Clock) (s : State) :
  in_session qs st0 s -> in_session qs st0 (handle e clk s).
Proof.
  intros I. destruct s as [w st]. pose proof I as (I1 & I2 & I3 & I4 & I5).
  cbn [fst snd] in I1, I2, I3, I4, I5.
  destruct e; cbn [handle fst snd].
  - unfold tick. destruct (timer w) eqn:T; [|exact I].
    assert (W : window w = true).
    { destruct (window w); [reflexivity|]. discriminate (I3 eq_refl). }
    assert (J : in_session qs st0 (set_timer false w, st)).
    { unfold in_session. cbn. rewrite W.
      split; [exact I1|]. split; [intros _; apply I2, W|].
      split; [reflexivity|]. split; [reflexivity|exact I5]. }
    destruct (_update_timer clk (set_timer false w, st)) as [s'|] eqn:U;
      [|exact J].
    apply (update_timer_in_session qs st0 st clk (set_timer false w) s' J);
      [reflexivity | | exact U].
    cbn. rewrite W. discriminate.
  - destruct (window w) eqn:W; [|exact I].
    unfold select. cbn [fst snd].
    apply (same_flags qs st0 st w); try reflexivity. exact I.
  - destruct (window w) eqn:W; [|exact I].
    specialize (I2 eq_refl). subst st.
    unfold _next_question.
    destruct (_save_current_answer w) as [w1|] eqn:S; [|exact I].
    destruct (save_answer_flags _ _ S) as (Q1 & W1 & T1 & C1).
    assert (J : in_session qs st0 (w1, st0))
      by (apply (same_flags qs st0 st0 w); assumption).
    destruct (_ =? _).
    + apply finish_in_session. congruence.
    + apply load_in_session; [cbn; congruence|].
      apply (same_flags qs st0 st0 w1); try reflexivity. exact J.
  - destruct (window w) eqn:W; [|exact I].
    specialize (I2 eq_refl). subst st.
    unfold _previous_question.
    destruct (_ >? 0); [|exact I].
    destruct (_save_current_answer w) as [w1|] eqn:S; [|exact I].
    destruct (save_answer_flags _ _ S) as (Q1 & W1 & T1 & C1).
    assert (J : in_session qs st0 (w1, st0))
      by (apply (same_flags qs st0 st0 w); assumption).
    apply load_in_session; [cbn; congruence|].
    apply (same_flags qs st0 st0 w1); try reflexivity. exact J.
  - destruct (window w) eqn:W; [|exact I].
    unfold _on_window_close. destruct (quiz_completed w) eqn:C.
    + unfold in_session. cbn.
      split; [exact I1|]. split; [discriminate|].
      split; [intros _; apply I4; reflexivity|].
      split; [intros _; apply I4; reflexivity|exact I5].
    + destruct confirmed; [|exact I].
      unfold in_session. cbn.
      split; [exact I1|]. split; [discriminate|].
      split; [reflexivity|]. split; [reflexivity|exact I5].
Qed.

Lemma session_in_session (qs : list Question.Question) (st0 : Store)
  (events : list (Event * Clock)) :
  forall s, in_session qs st0 s -> in_session qs st0 (session events s).
Proof.
  induction events as [|[e clk] events IH]; intros s I; cbn [session].
  - exact I.
  - apply IH, handle_in_session, I.
Qed.

Lemma init_in_session
  (qs : list Question.Question) (SHOW_TIMER AUTO_SUBMIT : bool) (T : Z)
  (clk : Clock) (st0 : Store) (s0 : State) :
  __init__ qs SHOW_TIMER AUTO_SUBMIT T clk st0 = Some s0 ->
  in_session qs st0 s0.
Proof.
  unfold __init__. cbv zeta.
  set (w := {| questions := qs; show_timer := SHOW_TIMER;
               auto_submit := AUTO_SUBMIT; total_time_limit := T;
               current_question_index := 0; user_answers := [];
               time_remaining := T; quiz_completed := false;
               timer := false; answer_var := ""; window := true |}).
  destruct (_update_timer_display w); [|discriminate].
  assert (I : in_session qs st0 (w, st0)).
  { unfold in_session. cbn. repeat split; try reflexivity.
    left. reflexivity. }
  pose proof (load_in_session qs st0 clk w eq_refl I) as L.
  assert (Flags : timer (fst (_load_question clk (w, st0))) = false
                  /\ (window (fst (_load_question clk (w, st0))) = false ->
                      quiz_completed (fst (_load_question clk (w, st0)))
                      = true)).
  { unfold _load_question. destruct (_ >=? _).
    - unfold _finish_quiz.
      destruct (QuizService.calculate_score _ _) as [score marks].
      destruct (QuizService.save_quiz_result _ _ _ _ _ _ _) as [saved st'].
      cbn. tauto.
    - destruct (nth_error _ _); cbn; split; try reflexivity; discriminate. }
  destruct (_load_question clk (w, st0)) as [w1 st1].
  cbn [fst] in Flags. destruct Flags as (T1 & WC).
  destruct SHOW_TIMER; [|intros H; injection H as <-; exact L].
  unfold _start_timer. destruct (negb (show_timer w1)).
  { intros H. injection H as <-. exact L. }
  intros H.
  apply (update_timer_in_session qs st0 st1 clk (_stop_timer w1) s0);
    [| reflexivity | exact WC | exact H].
  apply (same_flags qs st0 st1 w1); try reflexivity; [|exact L].
  cbn. exact (eq_sym T1).
Qed.

(** X28.  A quiz window saves at most one result, whatever the user
    does and whenever the timer fires: after any run of events (the timer
    firing, clicks on answers, next, previous, requests to close) the
    questions and users are as when the window opened, and the quiz
    results are as they were or have one more row, a result without a user
    for the number of questions of the quiz; as long as the window is
    there nothing has been saved, and once it is gone no timer waits. *)
Theorem quiz_window_saves_at_most_one_result
  (qs : list Question.Question) (SHOW_TIMER AUTO_SUBMIT : bool) (T : Z)
  (clk : Clock) (st0 : Store) (s0 : State) (events : list (Event * Clock)) :
  __init__ qs SHOW_TIMER AUTO_SUBMIT T clk st0 = Some s0 ->
  let final := session events s0 in
  DatabaseManager.questions (snd final) = DatabaseManager.questions st0
  /\ users (snd final) = users st0
  /\ (quiz_results (snd final) = quiz_results st0
      \/ exists row,
           quiz_results (snd final) = quiz_results st0 ++ [row]
           /\ r_user_id row = None
           /\ r_total_questions row = Z.of_nat (length qs))
  /\ (window (fst final) = true -> snd final = st0)
  /\ (window (fst final) = false -> timer (fst final) = false)
  /\ questions (fst final) = qs.
Proof.
  intros H. cbv zeta.
  pose proof (session_in_session qs st0 events s0
                (init_in_session _ _ _ _ _ _ _ H)) as (I1 & I2 & I3 & _ & I5).
  destruct I5 as (Q & U & R). tauto.
Qed.

Lemma quiz_window_saves_at_most_one_result_witness :
  let q := Notions.example_question "B" [] in
  let clk := {| seconds_since_start := 25;
                current_timestamp := "2024-01-02 10:00:00" |} in
  let events :=
    [(Click "B", clk); (Next, clk); (Fire, clk); (Click "A", clk);
     (Next, clk); (Next, clk); (Fire, clk); (Close true, clk)] in
  exists s0,
    __init__ [q; q] true true 60 clk empty_store = Some s0
    /\ length (quiz_results (snd (session events s0))) = 1%nat
    /\ (quiz_results (snd (session events s0)) = quiz_results empty_store
        \/ exists row,
             quiz_results (snd (session events s0))
             = quiz_results empty_store ++ [row]
             /\ r_user_id row = None
             /\ r_total_questions row = 2).
Proof.
  cbv zeta.
  destruct (__init__ [Notions.example_question "B" [];
                      Notions.example_question "B" []] true true 60
              {| seconds_since_start := 25;
                 current_timestamp := "2024-01-02 10:00:00" |} empty_store)
    as [s0|] eqn:E0; [|vm_compute in E0; discriminate].
  exists s0. split; [reflexivity|].
  pose proof (quiz_window_saves_at_most_one_result _ _ _ _ _ _ _
                [(Click "B", {| seconds_since_start := 25;
                                current_timestamp := "2024-01-02 10:00:00" |});
                 (Next, {| seconds_since_start := 25;
                           current_timestamp := "2024-01-02 10:00:00" |});
                 (Fire, {| seconds_since_start := 25;
                           current_timestamp := "2024-01-02 10:00:00" |});
                 (Click "A", {| seconds_since_start := 25;
                                current_timestamp := "2024-01-02 10:00:00" |});
                 (Next, {| seconds_since_start := 25;
                           current_timestamp := "2024-01-02 10:00:00" |});
                 (Next, {| seconds_since_start := 25;
                           current_timestamp := "2024-01-02 10:00:00" |});
                 (Fire, {| seconds_since_start := 25;
                           current_timestamp := "2024-01-02 10:00:00" |});
                 (Close true, {| seconds_since_start := 25;
                                 current_timestamp := "2024-01-02 10:00:00" |})]
                E0) as H.
  cbv zeta in H. destruct H as (_ & _ & H & _).
  split; [|exact H].
  vm_compute in E0. injection E0 as <-. vm_compute. reflexivity.
Defined.

End SessionFacts.


Section TimeoutFacts.
Import DatabaseManager QuizWindow QuizNavigation NavigationNotions Notions.

Lemma ticks_without_timer (n : nat) (clk : Clock) (s : State) :
  timer (fst s) = false -> ticks n clk s = Some s.
Proof.
  intros T. induction n as [|n IH]; cbn [ticks]; [reflexivity|].
  unfold tick. destruct s as [w st]. cbn [fst] in T. rewrite T. exact IH.
Qed.

(** X29.  With automatic submission switched off, the countdown running
    out neither saves anything nor stops the quiz: after as many seconds
    as the limit the quiz is marked completed, the window stays, no timer
    waits and the store is untouched; further seconds change nothing;
    closing the window then asks nothing and saves nothing; and a user who
    answers every question after that still gets the quiz scored and
    saved in full. *)
Theorem countdown_without_auto_submit_only_marks_the_quiz
  (qs : list Question.Question) (choices : list string) (T : Z)
  (clk : Clock) (st : Store) :
  qs <> [] ->
  0 < T ->
  length choices = length qs ->
  exists s0 w,
    __init__ qs true false T clk st = Some s0
    /\ ticks (Z.to_nat T) clk s0 = Some (w, st)
    /\ quiz_completed w = true
    /\ window w = true
    /\ timer w = false
    /\ time_remaining w = 0
    /\ (forall n, ticks n clk (w, st) = Some (w, st))
    /\ (forall confirmed,
          _on_window_close confirmed (w, st) = (set_window false w, st))
    /\ exists w',
         play choices clk (w, st)
         = Some (w',
                 snd (QuizService.save_quiz_result None
                        (Z.of_nat
                           (count_occ bool_dec (marks 0 qs choices) true))
                        (Z.of_nat (length qs)) (seconds_since_start clk)
                        (question_ids w) (current_timestamp clk) st))
         /\ window w' = false
         /\ user_answers w' = choices.
Proof.
  intros NE Pos Len.
  set (w := set_quiz_completed true (set_timer false (counting qs false T 0))).
  exists (counting qs false T (T - 1), st), w.
  split; [apply init_counting; assumption|].
  assert (Last : tick clk (counting qs false T 0, st) = Some (w, st)).
  { unfold tick, _update_timer, _update_timer_display.
    cbn [timer counting quiz_completed show_timer set_timer orb negb
         time_remaining total_time_limit auto_submit].
    rewrite (truediv_part 0 T) by lia.
    reflexivity. }
  split.
  { replace (Z.to_nat T) with (S (Z.to_nat (T - 1))) by lia.
    rewrite ticks_last, (ticks_counting qs false T clk st) by lia.
    rewrite Z2Nat.id by lia.
    replace (T - 1 - (T - 1)) with 0 by lia. exact Last. }
  split; [reflexivity|]. split; [reflexivity|]. split; [reflexivity|].
  split; [reflexivity|].
  split; [intros n; apply ticks_without_timer; reflexivity|].
  split; [intros confirmed; reflexivity|].
  assert (P : playing qs 0 [] w) by (repeat split).
  assert (NC : choices <> []).
  { intros ->. destruct qs; [contradiction|discriminate]. }
  destruct (play_to_the_end qs clk st choices 0 [] w P NC Len)
    as (w' & E & _ & W & _ & A & _).
  cbn [app] in E, A. rewrite sum_bool_count in E.
  exists w'. split; [exact E|]. split; [exact W|exact A].
Qed.

Lemma countdown_without_auto_submit_only_marks_the_quiz_witness :
  let q1 := example_question "B" [] in
  let q2 := example_question "A" [] in
  let clk := {| seconds_since_start := 70;
                current_timestamp := "2024-01-02 10:00:00" |} in
  exists s0 w,
    __init__ [q1; q2] true false 60 clk empty_store = Some s0
    /\ ticks 60 clk s0 = Some (w, empty_store)
    /\ quiz_completed w = true
    /\ window w = true.
Proof.
  cbv zeta.
  destruct (countdown_without_auto_submit_only_marks_the_quiz
              [example_question "B" []; example_question "A" []] ["B"; "C"]
              60
              {| seconds_since_start := 70;
                 current_timestamp := "2024-01-02 10:00:00" |}
              empty_store)
    as (s0 & w & E0 & E & C & W & _).
  - discriminate.
  - reflexivity.
  - reflexivity.
  - exists s0, w. split; [exact E0|]. split; [exact E|].
    split; [exact C | exact W].
Defined.

End TimeoutFacts.


(* ================================================================== *)
(** * The form of a question *)
(* ================================================================== *)

Section ValidatorFacts.
Import InputValidator Notions.

Lemma long_enough_is_non_blank (s : string) (n : Z) :
  0 < n -> n <= AdminService.len (Py.strip s) -> Question.non_blank s = true.
Proof.
  intros Pos L. unfold Question.non_blank.
  assert (E : AdminService.len "" = 0) by reflexivity.
  destruct (Py.strip s) eqn:S; [rewrite E in L; lia|].
  destruct s; [discriminate S|]. reflexivity.
Qed.

Lemma check_option_ok (i : nat) (option : string) (rest : list string) :
  check_options i (option :: rest) = None ->
  1 <= AdminService.len (Py.strip option) <= 200
  /\ check_options (S i) rest = None.
Proof.
  cbn [check_options].
  destruct (negb (Py.truthy option) || _) eqn:A; [discriminate|].
  apply orb_false_iff in A. destruct A as (_ & A). apply Z.ltb_ge in A.
  destruct (_ >? 200) eqn:B; [discriminate|].
  rewrite Z.gtb_ltb in B. apply Z.ltb_ge in B. intros H. split; [lia|exact H].
Qed.

(** X30.  What [validate_question] accepts is a valid question: there
    are exactly three options, the prompt has from 5 to 500 characters
    and each option from 1 to 200 once stripped, the answer is A, B or C,
    a category that is given has at most 50 characters stripped, no
    message comes with the acceptance, and [Question.is_valid] holds of
    every question with that prompt, those options and that answer. *)
Theorem validate_question_accepts_only_valid_questions
  (prompt : string) (options : list string) (answer category : string) :
  fst (validate_question prompt options answer category) = true ->
  snd (validate_question prompt options answer category) = None
  /\ 5 <= AdminService.len (Py.strip prompt) <= 500
  /\ In answer ["A"; "B"; "C"]
  /\ (category = "" \/ AdminService.len (Py.strip category) <= 50)
  /\ exists a b c,
       options = [a; b; c]
       /\ 1 <= AdminService.len (Py.strip a) <= 200
       /\ 1 <= AdminService.len (Py.strip b) <= 200
       /\ 1 <= AdminService.len (Py.strip c) <= 200
       /\ forall q,
            Question.prompt q = prompt ->
            Question.option_a q = a ->
            Question.option_b q = b ->
            Question.option_c q = c ->
            Question.answer q = answer ->
            Question.is_valid q = true.
Proof.
  unfold validate_question.
  destruct (negb (Py.truthy prompt) || _) eqn:P1; [discriminate|].
  apply orb_false_iff in P1. destruct P1 as (_ & P1). apply Z.ltb_ge in P1.
  destruct (_ >? 500) eqn:P2; [discriminate|].
  rewrite Z.gtb_ltb in P2. apply Z.ltb_ge in P2.
  destruct (Nat.eqb (length options) 3) eqn:L; [|discriminate].
  apply Nat.eqb_eq in L. cbn [negb].
  destruct options as [|a [|b [|c [|d rest]]]]; try discriminate L.
  destruct (check_options 0 [a; b; c]) as [message|] eqn:O; [discriminate|].
  apply check_option_ok in O. destruct O as (Ha & O).
  apply check_option_ok in O. destruct O as (Hb & O).
  apply check_option_ok in O. destruct O as (Hc & _).
  destruct (Migrations.mem_string answer ["A"; "B"; "C"]) eqn:A;
    [|discriminate].
  cbn [negb].
  destruct (Py.truthy category && _) eqn:C; [discriminate|].
  intros _. split; [reflexivity|]. split; [lia|].
  split; [exact (proj1 (mem_string_In _ _) A)|].
  split.
  { apply andb_false_iff in C. destruct C as [C|C].
    - left. destruct category; [reflexivity|discriminate].
    - right. rewrite Z.gtb_ltb in C. apply Z.ltb_ge in C. exact C. }
  exists a, b, c. split; [reflexivity|].
  split; [exact Ha|]. split; [exact Hb|]. split; [exact Hc|].
  intros q Ep Ea Eb Ec En. unfold Question.is_valid.
  rewrite Ep, Ea, Eb, Ec, En, A.
  rewrite (long_enough_is_non_blank prompt 5),
    (long_enough_is_non_blank a 1), (long_enough_is_non_blank b 1),
    (long_enough_is_non_blank c 1) by lia.
  reflexivity.
Qed.

Lemma validate_question_accepts_only_valid_questions_witness :
  fst (validate_question "Which keyword defines a function?"
         ["function"; "def"; "func"] "B" "Python") = true
  /\ snd (validate_question "Which keyword defines a function?"
            ["function"; "def"; "func"] "B" "Python") = None
  /\ validate_question "Which?" ["function"; " "; "func"] "B" "Python"
     = (false, Some "Lựa chọn B không được để trống").
Proof.
  assert (V : fst (validate_question "Which keyword defines a function?"
                     ["function"; "def"; "func"] "B" "Python") = true)
    by (vm_compute; reflexivity).
  split; [exact V|]. split; [|vm_compute; reflexivity].
  exact (proj1 (validate_question_accepts_only_valid_questions _ _ _ _ V)).
Defined.

End ValidatorFacts.
